(** * BASTION risk engine: a shallow embedding and its verified properties

    The development follows the Python sources module by module:

    - [Py]            the few Python / numpy primitives the engine relies on
    - [Engine]        core/engine.py        (RiskShield engine: stops, targets, sizing)
    - [GuardingLine]  core/guarding_line.py (regression-fit trailing stop)
    - [RiskEngine]    core/risk_engine.py   (guarding-line manager, momentum
                                             trailing take-profit, per-bar update)
    - [SessionRoutes] api/session_routes.py (exit route)

    Modelling conventions.

    - A Python [float] is an exact rational ([Q]).  Comparisons, [max], [min],
      [abs] and the four operations are the exact ones; rounding, infinities
      and NaN are outside the model.  Numeric results are compared with [==]
      ([Qeq]); records that are left untouched are compared with [=].
    - A Python exception is the value [None] of an [option] result.
    - A string built by an f-string is kept as its template together with the
      values that are formatted into it ([Text]); the pictographs that
      prefix the alert messages are left out.
    - Objects that are mutated in place ([RiskLevels], the momentum-state
      dictionary of the engine) are threaded explicitly: a function returns
      the new store next to its result. *)

From Stdlib Require Import QArith Qminmax Qabs Lqa Lia List String Bool ZArith.
From stdpp Require Import gmap strings.

Local Open Scope Q_scope.

(* ===================================================================== *)
(** * Python and numpy primitives *)
(* ===================================================================== *)

Module Py.

(** [a < b] and [a <= b] as the booleans Python computes. *)
Definition Qltb (a b : Q) : bool := if Qlt_le_dec a b then true else false.
Definition Qleb (a b : Q) : bool := Qle_bool a b.

(** Truth value of a float: [0.0] is falsy. *)
Definition truthy (x : Q) : bool := negb (Qeq_bool x 0).

(** Float division: [ZeroDivisionError] on a zero divisor. *)
Definition div (a b : Q) : option Q :=
  if Qeq_bool b 0 then None else Some (a / b).

(** A formatted message: the f-string template and the values it shows, in
    order (a number, a plain string, or another message). *)
Inductive Text := Txt (template : string) (args : list Arg)
with Arg := Num (x : Q) | Str (s : string) | Sub (t : Text).

(** The dictionary of guarding-line parameters.  ["slope"] and
    ["intercept"] are read by subscript; ["activation_bar"] is read with
    [.get] and may be absent; the last two keys are only written. *)
Record LineParams := mkLineParams {
  slope : Q;
  intercept : Q;
  activation_bar : option Z;
  buffer_pct : Q;
  slope_source : option string;
  base_level : option Q
}.

(** [l[-k:]] for a non-negative [k]: the last [k] elements, and the whole
    list for [k = 0] (since [-0 = 0]) or [k >= len(l)]. *)
Definition last_slice {A} (k : nat) (l : list A) : list A :=
  match k with
  | O => l
  | _ => skipn (length l - k) l
  end.

(** [l[i] if i < len(l) else l[-1]]; [IndexError] on the empty list. *)
Definition index_or_last {A} (l : list A) (i : nat) : option A :=
  match nth_error l i with
  | Some x => Some x
  | None => List.last (map Some l) None
  end.

(** [min(l)] and [max(l)] of a sequence; [ValueError] when it is empty. *)
Definition list_min (l : list Q) : option Q :=
  match l with
  | [] => None
  | x :: t => Some (fold_left Qmin t x)
  end.

Definition list_max (l : list Q) : option Q :=
  match l with
  | [] => None
  | x :: t => Some (fold_left Qmax t x)
  end.

Definition Qsum (l : list Q) : Q := fold_right Qplus 0 l.

(** [np.mean]: the arithmetic mean. *)
Definition mean (l : list Q) : Q := Qsum l / inject_Z (Z.of_nat (length l)).

(** [np.arange(n)] as floats. *)
Definition arange (n : nat) : list Q := map (fun i => inject_Z (Z.of_nat i)) (seq 0 n).

(** The least-squares line through the points [(x_i, y_i)], for abscissas
    that are not all the same: slope and intercept. *)
Definition polyfit1 (x y : list Q) : Q * Q :=
  let n := inject_Z (Z.of_nat (length x)) in
  let sx := Qsum x in
  let sy := Qsum y in
  let sxy := Qsum (map (fun p => fst p * snd p) (combine x y)) in
  let sxx := Qsum (map (fun a => a * a) x) in
  let slope := (n * sxy - sx * sy) / (n * sxx - sx * sx) in
  (slope, (sy - slope * sx) / n).

(** [np.polyfit(x, y, 1)] on two sequences of the same length.  numpy
    divides each column of the design matrix [[x_i, 1]] by its norm and
    solves the system with [lstsq]:
    - empty data is refused with a [TypeError];
    - when every [x_i] is zero, the first column has norm zero, the division
      fills it with NaN and [lstsq] raises [LinAlgError]; this is the fit of
      the single point of [np.arange(1)];
    - when every [x_i] is the same non-zero [c], the matrix has rank one and
      [lstsq] returns the solution of minimum norm (with a [RankWarning]):
      slope [mean(y) / (2 c)] and intercept [mean(y) / 2];
    - otherwise the least-squares line, here its exact value. *)
Definition polyfit (x y : list Q) : option (Q * Q) :=
  match x with
  | [] => None
  | c :: rest =>
      if forallb (Qeq_bool c) rest then
        if Qeq_bool c 0 then None
        else Some (mean y / (2 * c), mean y / 2)
      else Some (polyfit1 x y)
  end.

(** A stable sort by a numeric key, ascending ([list.sort(key=...)]). *)
Fixpoint insert_by {A} (key : A -> Q) (x : A) (l : list A) : list A :=
  match l with
  | [] => [x]
  | y :: t => if Qle_bool (key x) (key y) then x :: y :: t
              else y :: insert_by key x t
  end.

Definition sort_by {A} (key : A -> Q) (l : list A) : list A :=
  fold_right (insert_by key) [] l.

End Py.

(* ===================================================================== *)
(** * core/engine.py: the RiskShield engine *)
(* ===================================================================== *)

Module Engine.

Inductive StopType := PRIMARY | SECONDARY | SAFETY_NET | GUARDING.
Inductive TargetType := STRUCTURAL | EXTENSION | VOLUME_GAP | TRAILING.

Record StopLevel := mkStopLevel {
  sl_price : Q;
  sl_type : StopType;
  sl_confidence : Q;
  sl_reason : Py.Text;
  sl_distance_pct : Q
}.

Record TargetLevel := mkTargetLevel {
  tl_price : Q;
  tl_type : TargetType;
  tl_exit_percentage : Q;
  tl_confidence : Q;
  tl_reason : Py.Text;
  tl_distance_pct : Q
}.

Record TradeSetup := mkTradeSetup {
  entry_price : Q;
  direction : string;
  timeframe : string;
  symbol : string;
  account_balance : Q;
  risk_per_trade_pct : Q
}.

Record RiskEngineConfig := mkRiskEngineConfig {
  atr_stop_multiplier : Q;
  max_stop_pct : Q;
  enable_multi_tier_stops : bool;
  min_rr_ratio : Q;
  partial_exit_ratios : list Q;
  volatility_adjusted_sizing : bool
}.

(** The defaults of the [RiskEngineConfig] dataclass. *)
Definition default_config : RiskEngineConfig :=
  {| atr_stop_multiplier := 2.0;
     max_stop_pct := 5.0;
     enable_multi_tier_stops := true;
     min_rr_ratio := 2.0;
     partial_exit_ratios := [0.33; 0.33; 0.34];
     volatility_adjusted_sizing := true |}.

Section WithConfig.

Variable config : RiskEngineConfig.

(** The primary stop taken from the nearest structural level, the first
    block of each branch of [_calculate_stops]: [levels] is [supports]
    when [long] and [resistances] otherwise.  The result is the list
    [stops] after the block. *)
Definition structural_stop (entry atr : Q) (long : bool)
    (levels : list (Q * Q)) : option (list StopLevel) :=
  match levels with
  | [] => Some []
  | (level_price, confidence) :: _ =>
      if (if long then Py.Qltb level_price entry else Py.Qltb entry level_price) then
        let stop_price :=
          if long then level_price - atr * 0.2 else level_price + atr * 0.2 in
        d ← Py.div (if long then entry - stop_price else stop_price - entry) entry;
        let distance_pct := d * 100 in
        if Py.Qleb distance_pct (max_stop_pct config) then
          Some [ {| sl_price := stop_price;
                    sl_type := PRIMARY;
                    sl_confidence := confidence;
                    sl_reason :=
                      Py.Txt (if long then "Below support at {:.2f}"
                              else "Above resistance at {:.2f}") [Py.Num level_price];
                    sl_distance_pct := distance_pct |} ]
        else Some []
      else Some []
  end.

(** [RiskEngine._calculate_stops] (the [market] argument is not read). *)
Definition _calculate_stops (setup : TradeSetup)
    (supports resistances : list (Q * Q)) (atr : Q) : option (list StopLevel) :=
  let entry := entry_price setup in
  let mult := atr_stop_multiplier config in
  if String.eqb (direction setup) "long" then
    stops ← structural_stop entry atr true supports;
    stops ← match stops with
            | [] =>
                let stop_price := entry - atr * mult in
                d ← Py.div (entry - stop_price) entry;
                Some [ {| sl_price := stop_price; sl_type := PRIMARY;
                          sl_confidence := 0.6;
                          sl_reason := Py.Txt "{}x ATR stop" [Py.Num mult];
                          sl_distance_pct := d * 100 |} ]
            | _ => Some stops
            end;
    if enable_multi_tier_stops config then
      let secondary_price := entry - atr * mult * 1.5 in
      d ← Py.div (entry - secondary_price) entry;
      let safety_price := entry * (1 - max_stop_pct config / 100) in
      Some (stops ++
        [ {| sl_price := secondary_price; sl_type := SECONDARY;
             sl_confidence := 0.5;
             sl_reason := Py.Txt "Secondary ATR stop (1.5x)" [];
             sl_distance_pct := d * 100 |};
          {| sl_price := safety_price; sl_type := SAFETY_NET;
             sl_confidence := 1.0;
             sl_reason := Py.Txt "Maximum {}% loss protection" [Py.Num (max_stop_pct config)];
             sl_distance_pct := max_stop_pct config |} ])
    else Some stops
  else
    stops ← structural_stop entry atr false resistances;
    stops ← match stops with
            | [] =>
                let stop_price := entry + atr * mult in
                d ← Py.div (stop_price - entry) entry;
                Some [ {| sl_price := stop_price; sl_type := PRIMARY;
                          sl_confidence := 0.6;
                          sl_reason := Py.Txt "{}x ATR stop" [Py.Num mult];
                          sl_distance_pct := d * 100 |} ]
            | _ => Some stops
            end;
    if enable_multi_tier_stops config then
      let secondary_price := entry + atr * mult * 1.5 in
      d ← Py.div (secondary_price - entry) entry;
      let safety_price := entry * (1 + max_stop_pct config / 100) in
      Some (stops ++
        [ {| sl_price := secondary_price; sl_type := SECONDARY;
             sl_confidence := 0.5;
             sl_reason := Py.Txt "Secondary ATR stop (1.5x)" [];
             sl_distance_pct := d * 100 |};
          {| sl_price := safety_price; sl_type := SAFETY_NET;
             sl_confidence := 1.0;
             sl_reason := Py.Txt "Maximum {}% loss protection" [Py.Num (max_stop_pct config)];
             sl_distance_pct := max_stop_pct config |} ])
    else Some stops.

(** The loop over [enumerate(valid_levels[:3])]: [i] is the index of the
    head of [levels] in the slice. *)
Fixpoint structural_targets (entry primary_stop_dist : Q) (long : bool)
    (i : nat) (levels : list (Q * Q)) : option (list TargetLevel) :=
  match levels with
  | [] => Some []
  | (level_price, confidence) :: rest =>
      let profit := if long then level_price - entry else entry - level_price in
      rr ← Py.div profit primary_stop_dist;
      this ← (if Py.Qleb (min_rr_ratio config) rr then
                exit_pct ← Py.index_or_last (partial_exit_ratios config) i;
                d ← Py.div profit entry;
                Some [ {| tl_price := level_price; tl_type := STRUCTURAL;
                          tl_exit_percentage := exit_pct * 100;
                          tl_confidence := confidence;
                          tl_reason :=
                            Py.Txt (if long then "Resistance level (R:R {:.1f})"
                                    else "Support level (R:R {:.1f})") [Py.Num rr];
                          tl_distance_pct := d * 100 |} ]
              else Some []);
      more ← structural_targets entry primary_stop_dist long (S i) rest;
      Some (this ++ more)
  end.

(** The fallback loop over [enumerate([2.0, 3.0, 5.0])]. *)
Fixpoint extension_targets (entry primary_stop_dist : Q) (long : bool)
    (i : nat) (multiples : list Q) : option (list TargetLevel) :=
  match multiples with
  | [] => Some []
  | multiple :: rest =>
      let target_price :=
        if long then entry + primary_stop_dist * multiple
        else entry - primary_stop_dist * multiple in
      exit_pct ← Py.index_or_last (partial_exit_ratios config) i;
      d ← Py.div (if long then target_price - entry else entry - target_price) entry;
      more ← extension_targets entry primary_stop_dist long (S i) rest;
      Some ({| tl_price := target_price; tl_type := EXTENSION;
               tl_exit_percentage := exit_pct * 100;
               tl_confidence := 0.5;
               tl_reason := Py.Txt "{}R target" [Py.Num multiple];
               tl_distance_pct := d * 100 |} :: more)
  end.

(** [RiskEngine._calculate_targets].  The descending sort of the short
    branch ([reverse=True], stable) is the ascending sort of the negated
    price. *)
Definition _calculate_targets (setup : TradeSetup)
    (supports resistances : list (Q * Q)) (atr : Q) : option (list TargetLevel) :=
  let entry := entry_price setup in
  let primary_stop_dist := atr * atr_stop_multiplier config in
  if String.eqb (direction setup) "long" then
    let valid_resistances :=
      Py.sort_by fst (List.filter (fun rc => Py.Qltb entry (fst rc)) resistances) in
    targets ← structural_targets entry primary_stop_dist true 0
                (firstn 3 valid_resistances);
    match targets with
    | [] => extension_targets entry primary_stop_dist true 0 [2.0; 3.0; 5.0]
    | _ => Some targets
    end
  else
    let valid_supports :=
      Py.sort_by (fun sc => - fst sc)
        (List.filter (fun sc => Py.Qltb (fst sc) entry) supports) in
    targets ← structural_targets entry primary_stop_dist false 0
                (firstn 3 valid_supports);
    match targets with
    | [] => extension_targets entry primary_stop_dist false 0 [2.0; 3.0; 5.0]
    | _ => Some targets
    end.

(** The value of the local [risk_pct] of [_calculate_position_size] once the
    volatility adjustment has been applied: the effective risk percentage. *)
Definition effective_risk_pct (risk_pct atr_pct : Q) : Q :=
  if volatility_adjusted_sizing config then
    let vol_factor := 2.0 / Qmax atr_pct 0.5 in
    let vol_factor := Qmax 0.5 (Qmin 2.0 vol_factor) in
    risk_pct * vol_factor
  else risk_pct.

(** [RiskEngine._calculate_position_size]:
    [(position_size, position_pct, risk_amount)]. *)
Definition _calculate_position_size (setup : TradeSetup)
    (risk_distance atr_pct : Q) : option (Q * Q * Q) :=
  let risk_pct := effective_risk_pct (risk_per_trade_pct setup) atr_pct in
  let risk_amount := account_balance setup * (risk_pct / 100) in
  let position_size :=
    if Py.Qltb 0 risk_distance then risk_amount / risk_distance else 0 in
  let position_value := position_size * entry_price setup in
  d ← Py.div position_value (account_balance setup);
  Some (position_size, d * 100, risk_amount).

End WithConfig.

End Engine.

(* ===================================================================== *)
(** * core/guarding_line.py: the guarding line of the RiskShield engine *)
(* ===================================================================== *)

Module GuardingLine.

(** The attributes of a [GuardingLine] object. *)
Record GuardingLine := mkGuardingLine {
  activation_bars : Z;
  buffer_pct : Q;
  min_slope_pct : Q;
  tightening_factor : Q
}.

(** [GuardingLine(activation_bars, buffer_pct)] with the remaining
    constructor defaults. *)
Definition init (activation_bars : Z) (buffer_pct : Q) : GuardingLine :=
  {| activation_bars := activation_bars;
     buffer_pct := buffer_pct;
     min_slope_pct := 0.01;
     tightening_factor := 1.2 |}.

(** The test of the loop body of [_find_swing_points] at index [i]. *)
Definition is_swing_point (prices : list Q) (direction : string) (i : nat) : bool :=
  let p k := nth k prices 0 in
  if String.eqb direction "long" then
    Py.Qltb (p i) (p (i - 1)%nat) && Py.Qltb (p i) (p (i - 2)%nat) &&
    Py.Qltb (p i) (p (i + 1)%nat) && Py.Qltb (p i) (p (i + 2)%nat)
  else
    Py.Qltb (p (i - 1)%nat) (p i) && Py.Qltb (p (i - 2)%nat) (p i) &&
    Py.Qltb (p (i + 1)%nat) (p i) && Py.Qltb (p (i + 2)%nat) (p i).

(** [GuardingLine._find_swing_points]: [i] ranges over
    [range(2, len(prices) - 2)]. *)
Definition _find_swing_points (prices : list Q) (direction : string)
  : list (nat * Q) :=
  map (fun i => (i, nth i prices 0))
      (List.filter (is_swing_point prices direction) (seq 2 (length prices - 4))).

(** [GuardingLine.calculate_initial_line]. *)
Definition calculate_initial_line (self : GuardingLine) (entry_price : Q)
    (direction : string) (price_data : list Q) (lookback : nat)
  : option Py.LineParams :=
  if (length price_data <? 5)%nat then
    Some {| Py.slope := 0;
            Py.intercept :=
              entry_price * (if String.eqb direction "long" then 0.97 else 1.03);
            Py.activation_bar := Some (activation_bars self);
            Py.buffer_pct := buffer_pct self;
            Py.slope_source := None;
            Py.base_level := None |}
  else
    let recent := firstn (Nat.min lookback (length price_data)) price_data in
    let swing_points := _find_swing_points recent direction in
    fit ← (if (length swing_points <? 2)%nat then
             Py.polyfit (Py.arange (length recent)) recent
           else
             Py.polyfit (map (fun p => inject_Z (Z.of_nat (fst p))) swing_points)
                        (map snd swing_points));
    let '(slope, intercept) := fit in
    let '(slope, intercept) :=
      if String.eqb direction "long" then
        (Qmax 0 slope, intercept * (1 - buffer_pct self / 100))
      else
        (Qmin 0 slope, intercept * (1 + buffer_pct self / 100)) in
    Some {| Py.slope := slope;
            Py.intercept := intercept;
            Py.activation_bar := Some (activation_bars self);
            Py.buffer_pct := buffer_pct self;
            Py.slope_source := None;
            Py.base_level := None |}.

(** [GuardingLine.get_current_level]. *)
Definition get_current_level (self : GuardingLine) (line_params : Py.LineParams)
    (bars_since_entry : Z) : Q :=
  let slope := Py.slope line_params in
  let intercept := Py.intercept line_params in
  let activation :=
    match Py.activation_bar line_params with
    | Some a => a
    | None => activation_bars self
    end in
  if (bars_since_entry <? activation)%Z then
    if Py.Qleb 0 slope then intercept * 0.9 else intercept * 1.1
  else
    let bars_active := (bars_since_entry - activation)%Z in
    intercept + slope * inject_Z bars_active.

(** [GuardingLine.check_break] ([require_close] is not read). *)
Definition check_break (current_price guarding_level : Q) (direction : string)
  : bool * Py.Text :=
  if String.eqb direction "long" then
    if Py.Qltb current_price guarding_level then
      (true, Py.Txt "Price {:.2f} broke below guarding at {:.2f}"
                    [Py.Num current_price; Py.Num guarding_level])
    else (false, Py.Txt "" [])
  else
    if Py.Qltb guarding_level current_price then
      (true, Py.Txt "Price {:.2f} broke above guarding at {:.2f}"
                    [Py.Num current_price; Py.Num guarding_level])
    else (false, Py.Txt "" []).

End GuardingLine.

(* ===================================================================== *)
(** * core/risk_engine.py: the BASTION risk engine *)
(* ===================================================================== *)

Module RiskEngine.

Inductive StructureHealth := STRONG | WEAKENING | BROKEN.
Inductive VolatilityRegime := LOW | NORMAL | HIGH | EXTREME.

(** A stop dictionary.  ["price"] is read by subscript; the other keys are
    read with [.get] or only written, and may be absent. *)
Record Stop := mkStop {
  stop_price : Q;
  stop_type : option string;
  stop_reason : option Py.Text;
  stop_confidence : option Q;
  stop_distance_pct : option Q
}.

(** A target dictionary.  ["price"] and ["reason"] are read by subscript,
    ["exit_percentage"] with [.get]. *)
Record Target := mkTarget {
  target_price : Q;
  target_type : option string;
  target_reason : Py.Text;
  target_exit_percentage : option Q;
  target_distance_pct : option Q;
  target_confidence : option Q
}.

(** [RiskLevels], without the analysis objects of the external detectors,
    the market-context scores and the timestamp.  [volatility_regime] holds
    the value of a member of [VolatilityRegime]; it is kept as the member. *)
Record RiskLevels := mkRiskLevels {
  stops : list Stop;
  targets : list Target;
  position_size : Q;
  position_size_pct : Q;
  risk_amount : Q;
  risk_reward_ratio : Q;
  max_risk_reward_ratio : Q;
  entry_price : Q;
  direction : string;
  timeframe : string;
  symbol : string;
  current_price : Q;
  guarding_line : option Py.LineParams;
  entry_blocked : bool;
  block_reason : option Py.Text;
  volatility_regime : VolatilityRegime;
  atr_current : Q;
  atr_pct : Q;
  breakeven_price : Q;
  one_r_price : Q
}.

Record PositionUpdate := mkPositionUpdate {
  pu_current_price : Q;
  bars_since_entry : Z;
  highest_since_entry : Q;
  lowest_since_entry : Q;
  unrealized_pnl_pct : Q;
  recent_lows : option (list Q);
  recent_highs : option (list Q)
}.

(** A row of the OHLCV data frame (the volume is never read). *)
Record Bar := mkBar {
  bar_open : Q;
  bar_high : Q;
  bar_low : Q;
  bar_close : Q
}.

Record RiskUpdate := mkRiskUpdate {
  updated_stops : list Stop;
  updated_targets : list Target;
  exit_signal : bool;
  exit_reason : option Py.Text;
  exit_percentage : Q;
  stop_moved : bool;
  new_stop_price : option Q;
  stop_move_reason : option Py.Text;
  guarding_active : bool;
  guarding_broken : bool;
  guarding_level : option Q;
  structure_health : StructureHealth;
  breakeven_hit : bool;
  moved_to_breakeven : bool;
  current_r_multiple : Q;
  new_target_added : bool;
  new_target_price : option Q;
  divergence_detected : bool;
  divergence_type : option string;
  momentum_trailing_active : bool;
  momentum_trailing_level : Q;
  momentum_slope_strength : Q;
  momentum_buffer_pct : Q;
  alerts : list Py.Text
}.

(** The fields of [RiskEngineConfig] that the modelled methods read. *)
Record RiskEngineConfig := mkRiskEngineConfig {
  atr_stop_multiplier : Q;
  max_stop_pct : Q;
  enable_multi_tier_stops : bool;
  partial_exit_ratios : list Q;
  volatility_adjusted_sizing : bool;
  guarding_activation_bars : Z;
  guarding_buffer_pct : Q;
  enable_dynamic_targets : bool;
  enable_breakeven_stop : bool;
  breakeven_trigger_r : Q;
  breakeven_buffer_pct : Q;
  enable_volatility_regime : bool;
  volatility_lookback : nat;
  low_vol_threshold : Q;
  high_vol_threshold : Q;
  extreme_vol_threshold : Q;
  extreme_vol_size_reduction : Q;
  enable_divergence_detection : bool;
  divergence_lookback : nat;
  rsi_period : nat
}.

(** The defaults of the [RiskEngineConfig] dataclass. *)
Definition default_config : RiskEngineConfig :=
  {| atr_stop_multiplier := 2.0;
     max_stop_pct := 5.0;
     enable_multi_tier_stops := true;
     partial_exit_ratios := [0.33; 0.33; 0.34];
     volatility_adjusted_sizing := true;
     guarding_activation_bars := 10;
     guarding_buffer_pct := 0.3;
     enable_dynamic_targets := true;
     enable_breakeven_stop := true;
     breakeven_trigger_r := 1.0;
     breakeven_buffer_pct := 0.1;
     enable_volatility_regime := true;
     volatility_lookback := 100;
     low_vol_threshold := 0.5;
     high_vol_threshold := 1.5;
     extreme_vol_threshold := 2.5;
     extreme_vol_size_reduction := 0.5;
     enable_divergence_detection := true;
     divergence_lookback := 20;
     rsi_period := 14 |}.

(* --------------------------------------------------------------------- *)
(** ** GuardingLineManager *)
(* --------------------------------------------------------------------- *)

Record GuardingLineManager := mkGuardingLineManager {
  activation_bars : Z;
  buffer_pct : Q;
  min_slope_pct : Q;
  max_slope_pct : Q
}.

(** [GuardingLineManager.__init__]. *)
Definition GuardingLineManager_init (activation_bars : Z) (buffer_pct : Q)
  : GuardingLineManager :=
  {| activation_bars := activation_bars;
     buffer_pct := buffer_pct;
     min_slope_pct := 0.05;
     max_slope_pct := 0.5 |}.

(** The test of the loop body of [_find_swing_points] at index [i]. *)
Definition is_swing_point (prices : list Q) (direction : string) (i : nat) : bool :=
  let p k := nth k prices 0 in
  if String.eqb direction "long" then
    Py.Qltb (p i) (p (i - 1)%nat) && Py.Qltb (p i) (p (i - 2)%nat) &&
    Py.Qltb (p i) (p (i + 1)%nat) && Py.Qltb (p i) (p (i + 2)%nat)
  else
    Py.Qltb (p (i - 1)%nat) (p i) && Py.Qltb (p (i - 2)%nat) (p i) &&
    Py.Qltb (p (i + 1)%nat) (p i) && Py.Qltb (p (i + 2)%nat) (p i).

(** [GuardingLineManager._find_swing_points]. *)
Definition _find_swing_points (prices : list Q) (direction : string)
  : list (nat * Q) :=
  if (length prices <? 5)%nat then []
  else
    map (fun i => (i, nth i prices 0))
        (List.filter (is_swing_point prices direction) (seq 2 (length prices - 4))).

(** [GuardingLineManager._calculate_dynamic_slope]. *)
Definition _calculate_dynamic_slope (self : GuardingLineManager)
    (swing_points : list (nat * Q)) (direction : string) (entry_price : Q)
  : option Q :=
  if (length swing_points <? 2)%nat then
    Some (entry_price * (min_slope_pct self / 100))
  else
    fit ← Py.polyfit (map (fun p => inject_Z (Z.of_nat (fst p))) swing_points)
                     (map snd swing_points);
    Some (fst fit).

(** The clamping of the fitted slope in [calculate_initial_line]: direction,
    minimum magnitude, then the cap. *)
Definition clamp_slope (self : GuardingLineManager) (entry_price : Q)
    (direction : string) (slope : Q) : Q :=
  let slope :=
    if String.eqb direction "long" then
      let slope := Qmax 0 slope in
      let min_slope := entry_price * (min_slope_pct self / 100) in
      Qmax slope min_slope
    else
      let slope := Qmin 0 slope in
      let min_slope := - entry_price * (min_slope_pct self / 100) in
      Qmin slope min_slope in
  let max_slope := entry_price * (max_slope_pct self / 100) in
  Qmax (- max_slope) (Qmin max_slope slope).

(** [GuardingLineManager.calculate_initial_line]. *)
Definition calculate_initial_line (self : GuardingLineManager) (entry_price : Q)
    (direction : string) (price_data : list Q) (lookback : nat)
  : option Py.LineParams :=
  if (length price_data <? 5)%nat then
    let default_slope := entry_price * (min_slope_pct self / 100) in
    Some {| Py.slope :=
              if String.eqb direction "long" then default_slope else - default_slope;
            Py.intercept :=
              entry_price * (if String.eqb direction "long" then 0.97 else 1.03);
            Py.activation_bar := Some (activation_bars self);
            Py.buffer_pct := buffer_pct self;
            Py.slope_source := Some "default"%string;
            Py.base_level := None |}
  else
    let recent := firstn (Nat.min lookback (length price_data)) price_data in
    let swing_points := _find_swing_points recent direction in
    fit ← (if (2 <=? length swing_points)%nat then
             slope ← _calculate_dynamic_slope self swing_points direction entry_price;
             Some (slope, "swing_regression"%string)
           else
             fit ← Py.polyfit (Py.arange (length recent)) recent;
             Some (fst fit, "linear_regression"%string));
    let '(slope, slope_source) := fit in
    let slope := clamp_slope self entry_price direction slope in
    let base_intercept :=
      if String.eqb direction "long" then
        match Py.list_min recent with
        | Some m => m
        | None => entry_price * 0.97
        end
      else
        match Py.list_max recent with
        | Some m => m
        | None => entry_price * 1.03
        end in
    let intercept :=
      if String.eqb direction "long" then
        base_intercept * (1 - buffer_pct self / 100)
      else
        base_intercept * (1 + buffer_pct self / 100) in
    Some {| Py.slope := slope;
            Py.intercept := intercept;
            Py.activation_bar := Some (activation_bars self);
            Py.buffer_pct := buffer_pct self;
            Py.slope_source := Some slope_source;
            Py.base_level := Some base_intercept |}.

(** [GuardingLineManager.get_current_level]. *)
Definition get_current_level (self : GuardingLineManager)
    (line_params : Py.LineParams) (bars_since_entry : Z) : Q :=
  let slope := Py.slope line_params in
  let intercept := Py.intercept line_params in
  let activation :=
    match Py.activation_bar line_params with
    | Some a => a
    | None => activation_bars self
    end in
  if (bars_since_entry <? activation)%Z then
    if Py.Qleb 0 slope then intercept * 0.9 else intercept * 1.1
  else
    let bars_active := (bars_since_entry - activation)%Z in
    intercept + slope * inject_Z bars_active.

(** [GuardingLineManager.check_break]. *)
Definition check_break (current_price guarding_level : Q) (direction : string)
  : bool * Py.Text :=
  if String.eqb direction "long" && Py.Qltb current_price guarding_level then
    (true, Py.Txt "Price {:.2f} broke below guarding at {:.2f}"
                  [Py.Num current_price; Py.Num guarding_level])
  else if String.eqb direction "short" && Py.Qltb guarding_level current_price then
    (true, Py.Txt "Price {:.2f} broke above guarding at {:.2f}"
                  [Py.Num current_price; Py.Num guarding_level])
  else (false, Py.Txt "" []).

(* --------------------------------------------------------------------- *)
(** ** MomentumTrailingTP *)
(* --------------------------------------------------------------------- *)

Record MomentumState := mkMomentumState {
  active : bool;
  trailing_level : Q;
  ms_slope : Q;
  slope_strength : Q;
  bars_in_momentum : Z;
  peak_price : Q;
  trail_buffer_pct : Q;
  last_candle_body_high : Q;
  last_candle_body_low : Q;
  activation_r : Q
}.

(** [MomentumState()]: the dataclass defaults. *)
Definition MomentumState_init : MomentumState :=
  {| active := false; trailing_level := 0.0; ms_slope := 0.0;
     slope_strength := 0.0; bars_in_momentum := 0; peak_price := 0.0;
     trail_buffer_pct := 0.0; last_candle_body_high := 0.0;
     last_candle_body_low := 0.0; activation_r := 0.0 |}.

Record MomentumTrailingTP := mkMomentumTrailingTP {
  min_r_to_activate : Q;
  min_slope_to_activate : Q;
  base_buffer_pct : Q;
  min_buffer_pct : Q;
  max_buffer_pct : Q;
  slope_lookback : nat;
  trail_wicks : bool;
  body_buffer_pct : Q
}.

(** [MomentumTrailingTP.calculate_slope]: [(slope_pct, strength)].
    [np.polyfit] is applied to at least two points here. *)
Definition calculate_slope (self : MomentumTrailingTP) (closes : list Q)
    (direction : string) : Q * Q :=
  if (length closes <? 3)%nat then (0.0, 0.0)
  else
    let recent :=
      if (slope_lookback self <=? length closes)%nat
      then Py.last_slice (slope_lookback self) closes else closes in
    let x := Py.arange (length recent) in
    let y := recent in
    if (length x <? 2)%nat then (0.0, 0.0)
    else
      let '(slope, intercept) := Py.polyfit1 x y in
      let avg_price := Py.mean recent in
      let slope_pct := if Py.Qltb 0 avg_price then (slope / avg_price) * 100 else 0 in
      let y_pred := map (fun xi => slope * xi + intercept) x in
      let ss_res :=
        Py.Qsum (map (fun p => (fst p - snd p) * (fst p - snd p)) (combine y y_pred)) in
      let ss_tot :=
        Py.Qsum (map (fun yi => (yi - Py.mean y) * (yi - Py.mean y)) y) in
      let r_squared := if Py.Qltb 0 ss_tot then 1 - ss_res / ss_tot else 0 in
      let r_squared := Qmax 0 (Qmin 1 r_squared) in
      let slope_magnitude := Qabs slope_pct / 1.0 in
      let strength := Qmin 1.0 (slope_magnitude * r_squared) in
      let strength :=
        if String.eqb direction "long" && Py.Qltb slope 0 then strength * 0.3
        else if String.eqb direction "short" && Py.Qltb 0 slope then strength * 0.3
        else strength in
      (slope_pct, strength).

(** [MomentumTrailingTP.calculate_trail_buffer]. *)
Definition calculate_trail_buffer (self : MomentumTrailingTP) (slope_strength : Q) : Q :=
  let buffer_range := max_buffer_pct self - min_buffer_pct self in
  let buffer := max_buffer_pct self - slope_strength * buffer_range in
  Qmax (min_buffer_pct self) (Qmin (max_buffer_pct self) buffer).

(** [min(...)] / [max(...)] over the candles of a non-empty slice. *)
Definition min_over (f : Bar -> Q) (l : list Bar) : Q :=
  match Py.list_min (map f l) with Some m => m | None => 0 end.
Definition max_over (f : Bar -> Q) (l : list Bar) : Q :=
  match Py.list_max (map f l) with Some m => m | None => 0 end.

(** [MomentumTrailingTP.calculate_trail_level]. *)
Definition calculate_trail_level (self : MomentumTrailingTP) (current_price : Q)
    (direction : string) (recent_candles : list Bar) (buffer_pct : Q) : Q :=
  match recent_candles with
  | [] =>
      if String.eqb direction "long" then current_price * (1 - buffer_pct / 100)
      else current_price * (1 + buffer_pct / 100)
  | _ =>
      let lookback := Nat.min 3 (length recent_candles) in
      let recent := Py.last_slice lookback recent_candles in
      if String.eqb direction "long" then
        let reference_price :=
          if trail_wicks self then min_over bar_low recent
          else min_over (fun c => Qmin (bar_open c) (bar_close c)) recent in
        let trail_level := reference_price * (1 - body_buffer_pct self / 100) in
        let max_trail := current_price * (1 - min_buffer_pct self / 100) in
        Qmin trail_level max_trail
      else
        let reference_price :=
          if trail_wicks self then max_over bar_high recent
          else max_over (fun c => Qmax (bar_open c) (bar_close c)) recent in
        let trail_level := reference_price * (1 + body_buffer_pct self / 100) in
        let min_trail := current_price * (1 + min_buffer_pct self / 100) in
        Qmax trail_level min_trail
  end.

(** The message of a momentum exit. *)
Definition momentum_exit_reason (state : MomentumState) (current_r : Q) : Py.Text :=
  let profit_captured :=
    if Py.truthy (activation_r state) then current_r - activation_r state
    else current_r in
  Py.Txt "Momentum trail broken at ${:,.2f} (captured +{:.1f}R of momentum move)"
         [Py.Num (trailing_level state); Py.Num profit_captured].

(** [MomentumTrailingTP.update]: [(updated_state, should_exit, exit_reason)].
    The state object is mutated in place and returned; the first component
    is its content after the call. *)
Definition update (self : MomentumTrailingTP) (state : MomentumState)
    (current_price current_r : Q) (direction : string)
    (recent_closes : list Q) (recent_candles : list Bar)
  : MomentumState * bool * option Py.Text :=
  if negb (active state) then
    if Py.Qleb (min_r_to_activate self) current_r then
      let '(slope_pct, strength) := calculate_slope self recent_closes direction in
      if Py.Qleb (min_slope_to_activate self) (Qabs slope_pct) && Py.Qleb 0.3 strength then
        let trail_buffer_pct := calculate_trail_buffer self strength in
        ({| active := true;
            trailing_level :=
              calculate_trail_level self current_price direction recent_candles
                                    trail_buffer_pct;
            ms_slope := slope_pct;
            slope_strength := strength;
            bars_in_momentum := 0;
            peak_price := current_price;
            trail_buffer_pct := trail_buffer_pct;
            last_candle_body_high := last_candle_body_high state;
            last_candle_body_low := last_candle_body_low state;
            activation_r := current_r |}, false, None)
      else (state, false, None)
    else (state, false, None)
  else
    let '(slope_pct, strength) := calculate_slope self recent_closes direction in
    let trail_buffer_pct := calculate_trail_buffer self strength in
    let peak :=
      if String.eqb direction "long" then Qmax (peak_price state) current_price
      else Qmin (peak_price state) current_price in
    let new_trail :=
      calculate_trail_level self current_price direction recent_candles
                            trail_buffer_pct in
    let level :=
      if String.eqb direction "long" then
        if Py.Qltb (trailing_level state) new_trail then new_trail
        else trailing_level state
      else
        if Py.Qltb new_trail (trailing_level state) then new_trail
        else trailing_level state in
    let '(body_high, body_low) :=
      match List.last (map Some recent_candles) None with
      | Some last => (Qmax (bar_open last) (bar_close last),
                      Qmin (bar_open last) (bar_close last))
      | None => (last_candle_body_high state, last_candle_body_low state)
      end in
    let state :=
      {| active := active state;
         trailing_level := level;
         ms_slope := slope_pct;
         slope_strength := strength;
         bars_in_momentum := (bars_in_momentum state + 1)%Z;
         peak_price := peak;
         trail_buffer_pct := trail_buffer_pct;
         last_candle_body_high := body_high;
         last_candle_body_low := body_low;
         activation_r := activation_r state |} in
    if String.eqb direction "long" && Py.Qltb current_price level then
      (state, true, Some (momentum_exit_reason state current_r))
    else if String.eqb direction "short" && Py.Qltb level current_price then
      (state, true, Some (momentum_exit_reason state current_r))
    else (state, false, None).

(* --------------------------------------------------------------------- *)
(** ** Assignments to the fields of the result object *)
(* --------------------------------------------------------------------- *)

(** [result.current_r_multiple = r] *)
Definition set_current_r_multiple (result : RiskUpdate) (r : Q) : RiskUpdate :=
  {| updated_stops := updated_stops result;
     updated_targets := updated_targets result;
     exit_signal := exit_signal result;
     exit_reason := exit_reason result;
     exit_percentage := exit_percentage result;
     stop_moved := stop_moved result;
     new_stop_price := new_stop_price result;
     stop_move_reason := stop_move_reason result;
     guarding_active := guarding_active result;
     guarding_broken := guarding_broken result;
     guarding_level := guarding_level result;
     structure_health := structure_health result;
     breakeven_hit := breakeven_hit result;
     moved_to_breakeven := moved_to_breakeven result;
     current_r_multiple := r;
     new_target_added := new_target_added result;
     new_target_price := new_target_price result;
     divergence_detected := divergence_detected result;
     divergence_type := divergence_type result;
     momentum_trailing_active := momentum_trailing_active result;
     momentum_trailing_level := momentum_trailing_level result;
     momentum_slope_strength := momentum_slope_strength result;
     momentum_buffer_pct := momentum_buffer_pct result;
     alerts := alerts result |}.

(** [result.breakeven_hit = True] *)
Definition set_breakeven_hit (result : RiskUpdate) : RiskUpdate :=
  {| updated_stops := updated_stops result;
     updated_targets := updated_targets result;
     exit_signal := exit_signal result;
     exit_reason := exit_reason result;
     exit_percentage := exit_percentage result;
     stop_moved := stop_moved result;
     new_stop_price := new_stop_price result;
     stop_move_reason := stop_move_reason result;
     guarding_active := guarding_active result;
     guarding_broken := guarding_broken result;
     guarding_level := guarding_level result;
     structure_health := structure_health result;
     breakeven_hit := true;
     moved_to_breakeven := moved_to_breakeven result;
     current_r_multiple := current_r_multiple result;
     new_target_added := new_target_added result;
     new_target_price := new_target_price result;
     divergence_detected := divergence_detected result;
     divergence_type := divergence_type result;
     momentum_trailing_active := momentum_trailing_active result;
     momentum_trailing_level := momentum_trailing_level result;
     momentum_slope_strength := momentum_slope_strength result;
     momentum_buffer_pct := momentum_buffer_pct result;
     alerts := alerts result |}.

(** [result.stop_moved = True], the new stop price and the reason of the move;
    [result.moved_to_breakeven = True] when [to_breakeven] *)
Definition set_stop_move (result : RiskUpdate) (to_breakeven : bool) (price : Q) (reason : Py.Text) : RiskUpdate :=
  {| updated_stops := updated_stops result;
     updated_targets := updated_targets result;
     exit_signal := exit_signal result;
     exit_reason := exit_reason result;
     exit_percentage := exit_percentage result;
     stop_moved := true;
     new_stop_price := Some price;
     stop_move_reason := Some reason;
     guarding_active := guarding_active result;
     guarding_broken := guarding_broken result;
     guarding_level := guarding_level result;
     structure_health := structure_health result;
     breakeven_hit := breakeven_hit result;
     moved_to_breakeven := if to_breakeven then true else moved_to_breakeven result;
     current_r_multiple := current_r_multiple result;
     new_target_added := new_target_added result;
     new_target_price := new_target_price result;
     divergence_detected := divergence_detected result;
     divergence_type := divergence_type result;
     momentum_trailing_active := momentum_trailing_active result;
     momentum_trailing_level := momentum_trailing_level result;
     momentum_slope_strength := momentum_slope_strength result;
     momentum_buffer_pct := momentum_buffer_pct result;
     alerts := alerts result |}.

(** The content of [result.updated_stops] after a stop dictionary it shares
    with [levels.stops] has been written to *)
Definition set_updated_stops (result : RiskUpdate) (stops : list Stop) : RiskUpdate :=
  {| updated_stops := stops;
     updated_targets := updated_targets result;
     exit_signal := exit_signal result;
     exit_reason := exit_reason result;
     exit_percentage := exit_percentage result;
     stop_moved := stop_moved result;
     new_stop_price := new_stop_price result;
     stop_move_reason := stop_move_reason result;
     guarding_active := guarding_active result;
     guarding_broken := guarding_broken result;
     guarding_level := guarding_level result;
     structure_health := structure_health result;
     breakeven_hit := breakeven_hit result;
     moved_to_breakeven := moved_to_breakeven result;
     current_r_multiple := current_r_multiple result;
     new_target_added := new_target_added result;
     new_target_price := new_target_price result;
     divergence_detected := divergence_detected result;
     divergence_type := divergence_type result;
     momentum_trailing_active := momentum_trailing_active result;
     momentum_trailing_level := momentum_trailing_level result;
     momentum_slope_strength := momentum_slope_strength result;
     momentum_buffer_pct := momentum_buffer_pct result;
     alerts := alerts result |}.

(** The report of an active momentum state *)
Definition set_momentum_report (result : RiskUpdate) (state : MomentumState) : RiskUpdate :=
  {| updated_stops := updated_stops result;
     updated_targets := updated_targets result;
     exit_signal := exit_signal result;
     exit_reason := exit_reason result;
     exit_percentage := exit_percentage result;
     stop_moved := stop_moved result;
     new_stop_price := new_stop_price result;
     stop_move_reason := stop_move_reason result;
     guarding_active := guarding_active result;
     guarding_broken := guarding_broken result;
     guarding_level := guarding_level result;
     structure_health := structure_health result;
     breakeven_hit := breakeven_hit result;
     moved_to_breakeven := moved_to_breakeven result;
     current_r_multiple := current_r_multiple result;
     new_target_added := true;
     new_target_price := Some (trailing_level state);
     divergence_detected := divergence_detected result;
     divergence_type := divergence_type result;
     momentum_trailing_active := true;
     momentum_trailing_level := trailing_level state;
     momentum_slope_strength := slope_strength state;
     momentum_buffer_pct := trail_buffer_pct state;
     alerts := alerts result |}.

(** [result.exit_signal = True] with its reason and percentage *)
Definition set_exit (result : RiskUpdate) (reason : Py.Text) (percentage : Q) : RiskUpdate :=
  {| updated_stops := updated_stops result;
     updated_targets := updated_targets result;
     exit_signal := true;
     exit_reason := Some reason;
     exit_percentage := percentage;
     stop_moved := stop_moved result;
     new_stop_price := new_stop_price result;
     stop_move_reason := stop_move_reason result;
     guarding_active := guarding_active result;
     guarding_broken := guarding_broken result;
     guarding_level := guarding_level result;
     structure_health := structure_health result;
     breakeven_hit := breakeven_hit result;
     moved_to_breakeven := moved_to_breakeven result;
     current_r_multiple := current_r_multiple result;
     new_target_added := new_target_added result;
     new_target_price := new_target_price result;
     divergence_detected := divergence_detected result;
     divergence_type := divergence_type result;
     momentum_trailing_active := momentum_trailing_active result;
     momentum_trailing_level := momentum_trailing_level result;
     momentum_slope_strength := momentum_slope_strength result;
     momentum_buffer_pct := momentum_buffer_pct result;
     alerts := alerts result |}.

(** [result.alerts.append(alert)] *)
Definition add_alert (result : RiskUpdate) (alert : Py.Text) : RiskUpdate :=
  {| updated_stops := updated_stops result;
     updated_targets := updated_targets result;
     exit_signal := exit_signal result;
     exit_reason := exit_reason result;
     exit_percentage := exit_percentage result;
     stop_moved := stop_moved result;
     new_stop_price := new_stop_price result;
     stop_move_reason := stop_move_reason result;
     guarding_active := guarding_active result;
     guarding_broken := guarding_broken result;
     guarding_level := guarding_level result;
     structure_health := structure_health result;
     breakeven_hit := breakeven_hit result;
     moved_to_breakeven := moved_to_breakeven result;
     current_r_multiple := current_r_multiple result;
     new_target_added := new_target_added result;
     new_target_price := new_target_price result;
     divergence_detected := divergence_detected result;
     divergence_type := divergence_type result;
     momentum_trailing_active := momentum_trailing_active result;
     momentum_trailing_level := momentum_trailing_level result;
     momentum_slope_strength := momentum_slope_strength result;
     momentum_buffer_pct := momentum_buffer_pct result;
     alerts := alerts result ++ [alert] |}.

(** [result.divergence_detected = True] and its type *)
Definition set_divergence (result : RiskUpdate) (div_type : option string) : RiskUpdate :=
  {| updated_stops := updated_stops result;
     updated_targets := updated_targets result;
     exit_signal := exit_signal result;
     exit_reason := exit_reason result;
     exit_percentage := exit_percentage result;
     stop_moved := stop_moved result;
     new_stop_price := new_stop_price result;
     stop_move_reason := stop_move_reason result;
     guarding_active := guarding_active result;
     guarding_broken := guarding_broken result;
     guarding_level := guarding_level result;
     structure_health := structure_health result;
     breakeven_hit := breakeven_hit result;
     moved_to_breakeven := moved_to_breakeven result;
     current_r_multiple := current_r_multiple result;
     new_target_added := new_target_added result;
     new_target_price := new_target_price result;
     divergence_detected := true;
     divergence_type := div_type;
     momentum_trailing_active := momentum_trailing_active result;
     momentum_trailing_level := momentum_trailing_level result;
     momentum_slope_strength := momentum_slope_strength result;
     momentum_buffer_pct := momentum_buffer_pct result;
     alerts := alerts result |}.

(** [result.guarding_active = True] and the current level *)
Definition set_guarding (result : RiskUpdate) (level : Q) : RiskUpdate :=
  {| updated_stops := updated_stops result;
     updated_targets := updated_targets result;
     exit_signal := exit_signal result;
     exit_reason := exit_reason result;
     exit_percentage := exit_percentage result;
     stop_moved := stop_moved result;
     new_stop_price := new_stop_price result;
     stop_move_reason := stop_move_reason result;
     guarding_active := true;
     guarding_broken := guarding_broken result;
     guarding_level := Some level;
     structure_health := structure_health result;
     breakeven_hit := breakeven_hit result;
     moved_to_breakeven := moved_to_breakeven result;
     current_r_multiple := current_r_multiple result;
     new_target_added := new_target_added result;
     new_target_price := new_target_price result;
     divergence_detected := divergence_detected result;
     divergence_type := divergence_type result;
     momentum_trailing_active := momentum_trailing_active result;
     momentum_trailing_level := momentum_trailing_level result;
     momentum_slope_strength := momentum_slope_strength result;
     momentum_buffer_pct := momentum_buffer_pct result;
     alerts := alerts result |}.

(** [result.guarding_broken = True] *)
Definition set_guarding_broken (result : RiskUpdate) : RiskUpdate :=
  {| updated_stops := updated_stops result;
     updated_targets := updated_targets result;
     exit_signal := exit_signal result;
     exit_reason := exit_reason result;
     exit_percentage := exit_percentage result;
     stop_moved := stop_moved result;
     new_stop_price := new_stop_price result;
     stop_move_reason := stop_move_reason result;
     guarding_active := guarding_active result;
     guarding_broken := true;
     guarding_level := guarding_level result;
     structure_health := structure_health result;
     breakeven_hit := breakeven_hit result;
     moved_to_breakeven := moved_to_breakeven result;
     current_r_multiple := current_r_multiple result;
     new_target_added := new_target_added result;
     new_target_price := new_target_price result;
     divergence_detected := divergence_detected result;
     divergence_type := divergence_type result;
     momentum_trailing_active := momentum_trailing_active result;
     momentum_trailing_level := momentum_trailing_level result;
     momentum_slope_strength := momentum_slope_strength result;
     momentum_buffer_pct := momentum_buffer_pct result;
     alerts := alerts result |}.

(** [result.structure_health = health] *)
Definition set_structure_health (result : RiskUpdate) (health : StructureHealth) : RiskUpdate :=
  {| updated_stops := updated_stops result;
     updated_targets := updated_targets result;
     exit_signal := exit_signal result;
     exit_reason := exit_reason result;
     exit_percentage := exit_percentage result;
     stop_moved := stop_moved result;
     new_stop_price := new_stop_price result;
     stop_move_reason := stop_move_reason result;
     guarding_active := guarding_active result;
     guarding_broken := guarding_broken result;
     guarding_level := guarding_level result;
     structure_health := health;
     breakeven_hit := breakeven_hit result;
     moved_to_breakeven := moved_to_breakeven result;
     current_r_multiple := current_r_multiple result;
     new_target_added := new_target_added result;
     new_target_price := new_target_price result;
     divergence_detected := divergence_detected result;
     divergence_type := divergence_type result;
     momentum_trailing_active := momentum_trailing_active result;
     momentum_trailing_level := momentum_trailing_level result;
     momentum_slope_strength := momentum_slope_strength result;
     momentum_buffer_pct := momentum_buffer_pct result;
     alerts := alerts result |}.

(** [levels.stops] after a write to one of its dictionaries. *)
Definition set_stops (levels : RiskLevels) (new_stops : list Stop) : RiskLevels :=
  {| stops := new_stops;
     targets := targets levels;
     position_size := position_size levels;
     position_size_pct := position_size_pct levels;
     risk_amount := risk_amount levels;
     risk_reward_ratio := risk_reward_ratio levels;
     max_risk_reward_ratio := max_risk_reward_ratio levels;
     entry_price := entry_price levels;
     direction := direction levels;
     timeframe := timeframe levels;
     symbol := symbol levels;
     current_price := current_price levels;
     guarding_line := guarding_line levels;
     entry_blocked := entry_blocked levels;
     block_reason := block_reason levels;
     volatility_regime := volatility_regime levels;
     atr_current := atr_current levels;
     atr_pct := atr_pct levels;
     breakeven_price := breakeven_price levels;
     one_r_price := one_r_price levels |}.

(* --------------------------------------------------------------------- *)
(** ** RiskEngine *)
(* --------------------------------------------------------------------- *)

(** The momentum-state dictionary of the engine, [self._momentum_states]. *)
Abbreviation MomentumStates := (gmap string MomentumState).

(** [self.guarding_manager], as built by [RiskEngine.__init__]. *)
Definition guarding_manager (config : RiskEngineConfig) : GuardingLineManager :=
  GuardingLineManager_init (guarding_activation_bars config)
                           (guarding_buffer_pct config).

(** [self.momentum_tp], as built by [RiskEngine.__init__]. *)
Definition momentum_tp : MomentumTrailingTP :=
  {| min_r_to_activate := 1.0;
     min_slope_to_activate := 0.002;
     base_buffer_pct := 0.5;
     min_buffer_pct := 0.15;
     max_buffer_pct := 1.5;
     slope_lookback := 5;
     trail_wicks := false;
     body_buffer_pct := 0.1 |}.

Section WithConfig.

Variable config : RiskEngineConfig.

(** [RiskEngine._detect_volatility_regime], from the length of the data
    frame, the current ATR and the baseline ATR computed over
    [volatility_lookback] bars. *)
Definition _detect_volatility_regime (ohlcv_len : nat)
    (current_atr baseline_atr : Q) : VolatilityRegime :=
  if (ohlcv_len <? volatility_lookback config)%nat then NORMAL
  else if Qeq_bool baseline_atr 0 then NORMAL
  else
    let ratio := current_atr / baseline_atr in
    if Py.Qltb ratio (low_vol_threshold config) then LOW
    else if Py.Qltb (extreme_vol_threshold config) ratio then EXTREME
    else if Py.Qltb (high_vol_threshold config) ratio then HIGH
    else NORMAL.

(** [RiskEngine._calculate_breakeven_price]. *)
Definition _calculate_breakeven_price (entry_price : Q) (direction : string) : Q :=
  let buffer := entry_price * (breakeven_buffer_pct config / 100) in
  if String.eqb direction "long" then entry_price + buffer
  else entry_price - buffer.

(** [RiskEngine._is_better_stop]. *)
Definition _is_better_stop (new_stop current_stop : Q) (direction : string) : bool :=
  if String.eqb direction "long" then Py.Qltb current_stop new_stop
  else Py.Qltb new_stop current_stop.

(** The value of the local [risk_pct] of [_calculate_position_size] once the
    volatility adjustment has been applied. *)
Definition adjust_risk_pct (risk_pct atr_pct : Q) : Q :=
  if volatility_adjusted_sizing config then
    let vol_factor := 2.0 / Qmax atr_pct 0.5 in
    let vol_factor := Qmax 0.5 (Qmin 2.0 vol_factor) in
    risk_pct * vol_factor
  else risk_pct.

(** [RiskEngine._calculate_position_size]:
    [(position_size, position_pct, risk_amount)]. *)
Definition _calculate_position_size (account_balance risk_pct entry_price
    risk_distance atr_pct : Q) : option (Q * Q * Q) :=
  let risk_pct := adjust_risk_pct risk_pct atr_pct in
  let risk_amount := account_balance * (risk_pct / 100) in
  let position_size :=
    if Py.Qltb 0 risk_distance then risk_amount / risk_distance else 0 in
  let position_value := position_size * entry_price in
  d ← Py.div position_value account_balance;
  Some (position_size, d * 100, risk_amount).

(** The regime adjustment of step 8 of [calculate_risk_levels]: the value of
    [adjusted_risk_pct] that is passed to [_calculate_position_size]. *)
Definition adjusted_risk_pct (volatility_regime : VolatilityRegime)
    (risk_per_trade_pct : Q) : Q :=
  match volatility_regime with
  | EXTREME => risk_per_trade_pct * extreme_vol_size_reduction config
  | _ => risk_per_trade_pct
  end.

(** The effective risk percentage of a setup: the percentage of the account
    balance that step 8 of [calculate_risk_levels] puts at risk. *)
Definition effective_risk_pct (volatility_regime : VolatilityRegime)
    (risk_per_trade_pct atr_pct : Q) : Q :=
  adjust_risk_pct (adjusted_risk_pct volatility_regime risk_per_trade_pct) atr_pct.

(** Step 8 of [RiskEngine.calculate_risk_levels] (position sizing with the
    volatility adjustment), from the levels computed so far:
    [(position_size, position_size_pct, risk_amount)]. *)
Definition position_sizing (levels : RiskLevels) (account_balance
    risk_per_trade_pct atr : Q) : option (Q * Q * Q) :=
  let entry_price := entry_price levels in
  let primary_stop_price :=
    match stops levels with
    | s :: _ => stop_price s
    | [] => entry_price - atr * 2
    end in
  let risk_distance := Qabs (entry_price - primary_stop_price) in
  _calculate_position_size account_balance
    (adjusted_risk_pct (volatility_regime levels) risk_per_trade_pct)
    entry_price risk_distance (atr_pct levels).

(** The best support and resistance of the external structure analysis. *)
Record StructureLevel := mkStructureLevel {
  level_price : Q;
  confluence_score : Q
}.

Record StructureAnalysis := mkStructureAnalysis {
  best_support : option StructureLevel;
  best_resistance : option StructureLevel
}.

(** The structural stop of [_calculate_stops]: the list [stops] after the
    first block of a branch; [level] is the best support when [long] and the
    best resistance otherwise. *)
Definition structural_stop (entry atr : Q) (long : bool)
    (level : option StructureLevel) : option (list Stop) :=
  match level with
  | None => Some []
  | Some level =>
      let p := level_price level in
      if (if long then Py.Qltb p entry else Py.Qltb entry p) then
        let stop_price := if long then p - atr * 0.2 else p + atr * 0.2 in
        d ← Py.div (if long then entry - stop_price else stop_price - entry) entry;
        let distance_pct := d * 100 in
        if Py.Qleb distance_pct (max_stop_pct config) then
          Some [ {| stop_price := stop_price;
                    stop_type := Some "structural"%string;
                    stop_reason :=
                      Some (Py.Txt (if long then "Below structural support at {:.2f}"
                                    else "Above structural resistance at {:.2f}")
                                   [Py.Num p]);
                    stop_confidence := Some (confluence_score level / 10);
                    stop_distance_pct := Some distance_pct |} ]
        else Some []
      else Some []
  end.

(** [RiskEngine._calculate_stops], from the entry price and direction of
    [levels] and its structure analysis. *)
Definition _calculate_stops (entry : Q) (direction : string)
    (structure_analysis : option StructureAnalysis) (atr : Q)
  : option (list Stop) :=
  let mult := atr_stop_multiplier config in
  let long := String.eqb direction "long" in
  stops ← structural_stop entry atr long
            (a ← structure_analysis;
             if long then best_support a else best_resistance a);
  stops ← match stops with
          | [] =>
              let stop_price :=
                if long then entry - atr * mult else entry + atr * mult in
              d ← Py.div (if long then entry - stop_price else stop_price - entry) entry;
              Some [ {| stop_price := stop_price;
                        stop_type := Some "atr"%string;
                        stop_reason := Some (Py.Txt "{}x ATR stop" [Py.Num mult]);
                        stop_confidence := Some 0.6;
                        stop_distance_pct := Some (d * 100) |} ]
          | _ => Some stops
          end;
  if enable_multi_tier_stops config then
    d ← Py.div (atr * mult * 1.5) entry;
    Some (stops ++
      [ {| stop_price :=
             if long then entry - atr * mult * 1.5 else entry + atr * mult * 1.5;
           stop_type := Some "secondary"%string;
           stop_reason := Some (Py.Txt "Secondary stop (wider protection)" []);
           stop_confidence := Some 0.5;
           stop_distance_pct := Some (d * 100) |};
        {| stop_price :=
             if long then entry * (1 - max_stop_pct config / 100)
             else entry * (1 + max_stop_pct config / 100);
           stop_type := Some "safety_net"%string;
           stop_reason :=
             Some (Py.Txt "Maximum {}% loss protection" [Py.Num (max_stop_pct config)]);
           stop_confidence := Some 1.0;
           stop_distance_pct := Some (max_stop_pct config) |} ])
  else Some stops.

(** The loop over [enumerate(all_targets[:3])] of [_calculate_targets]. *)
Fixpoint candidate_targets (entry : Q) (i : nat)
    (candidates : list (Q * Py.Text * string)) : option (list Target) :=
  match candidates with
  | [] => Some []
  | (target_price, reason, ttype) :: rest =>
      exit_pct ← Py.index_or_last (partial_exit_ratios config) i;
      d ← Py.div (target_price - entry) entry;
      more ← candidate_targets entry (S i) rest;
      Some ({| target_price := target_price;
               target_type := Some ttype;
               target_reason := reason;
               target_exit_percentage := Some (exit_pct * 100);
               target_distance_pct := Some (Qabs d * 100);
               target_confidence := Some 0.75 |} :: more)
  end.

(** The fallback loop over [enumerate([2.0, 3.0, 5.0])]. *)
Fixpoint r_multiple_targets (entry stop_distance : Q) (direction : string)
    (i : nat) (multiples : list Q) : option (list Target) :=
  match multiples with
  | [] => Some []
  | multiple :: rest =>
      let target_price :=
        if String.eqb direction "long" then entry + stop_distance * multiple
        else entry - stop_distance * multiple in
      exit_pct ← Py.index_or_last (partial_exit_ratios config) i;
      d ← Py.div (target_price - entry) entry;
      more ← r_multiple_targets entry stop_distance direction (S i) rest;
      Some ({| target_price := target_price;
               target_type := Some "extension"%string;
               target_reason := Py.Txt "{}R target" [Py.Num multiple];
               target_exit_percentage := Some (exit_pct * 100);
               target_distance_pct := Some (Qabs d * 100);
               target_confidence := Some 0.5 |} :: more)
  end.

(** [RiskEngine._calculate_targets].  [vpvr_targets] is the value of the
    local of that name: the list that the external volume-profile analyzer
    returns for the direction and the entry, or the empty list. *)
Definition _calculate_targets (entry : Q) (direction : string)
    (structure_analysis : option StructureAnalysis)
    (vpvr_targets : list (Q * Py.Text)) (atr : Q) : option (list Target) :=
  let structural_targets :=
    match structure_analysis with
    | None => []
    | Some a =>
        match String.eqb direction "long", best_resistance a with
        | true, Some resistance =>
            if Py.Qltb entry (level_price resistance) then
              [(level_price resistance, Py.Txt "Structural resistance" [],
                "structural"%string)]
            else []
        | _, _ =>
            match String.eqb direction "short", best_support a with
            | true, Some support =>
                if Py.Qltb (level_price support) entry then
                  [(level_price support, Py.Txt "Structural support" [],
                    "structural"%string)]
                else []
            | _, _ => []
            end
        end
    end in
  let all_targets :=
    map (fun pr => (fst pr, snd pr, "vpvr"%string)) vpvr_targets
    ++ structural_targets in
  let all_targets := Py.sort_by (fun t => Qabs (fst (fst t) - entry)) all_targets in
  targets ← candidate_targets entry 0 (firstn 3 all_targets);
  match targets with
  | [] =>
      let stop_distance := atr * atr_stop_multiplier config in
      r_multiple_targets entry stop_distance direction 0 [2.0; 3.0; 5.0]
  | _ => Some targets
  end.

(** [RiskEngine._detect_divergence]: [(detected, type)].  [np.max] and
    [np.min] raise a [ValueError] on an empty half, which happens exactly
    when fewer than two closes are kept. *)
Definition _detect_divergence (ohlcv : list Bar) (direction : string)
  : option (bool * option string) :=
  if negb (enable_divergence_detection config) then Some (false, None)
  else if (length ohlcv <? divergence_lookback config)%nat then Some (false, None)
  else
    let close := Py.last_slice (divergence_lookback config) (map bar_close ohlcv) in
    let delta := map (fun p => snd p - fst p) (combine close (tl close)) in
    let gains := map (fun d => if Py.Qltb 0 d then d else 0) delta in
    let losses := map (fun d => if Py.Qltb d 0 then - d else 0) delta in
    let avg_gain := Py.mean (Py.last_slice (rsi_period config) gains) in
    let avg_loss := Py.mean (Py.last_slice (rsi_period config) losses) in
    let rsi :=
      if Qeq_bool avg_loss 0 then 100
      else
        let rs := avg_gain / avg_loss in
        100 - 100 / (1 + rs) in
    let mid := (length close / 2)%nat in
    first_half_high ← Py.list_max (firstn mid close);
    second_half_high ← Py.list_max (skipn mid close);
    first_half_low ← Py.list_min (firstn mid close);
    second_half_low ← Py.list_min (skipn mid close);
    if String.eqb direction "long" then
      let price_making_highs := Py.Qltb first_half_high second_half_high in
      let rsi_weakening := Py.Qltb rsi 50 in
      if price_making_highs && rsi_weakening then Some (true, Some "bearish"%string)
      else Some (false, None)
    else
      let price_making_lows := Py.Qltb second_half_low first_half_low in
      let rsi_strengthening := Py.Qltb 50 rsi in
      if price_making_lows && rsi_strengthening then Some (true, Some "bullish"%string)
      else Some (false, None).

(** [RiskEngine._trail_stop]: the trailed stop price, if any. *)
Definition _trail_stop (direction : string) (entry current : Q)
    (stops : list Stop) : option (option Q) :=
  match stops with
  | [] => Some None
  | primary :: _ =>
      let primary_distance :=
        match stop_distance_pct primary with Some d => d | None => 2.0 end in
      if String.eqb direction "long" then
        d ← Py.div (current - entry) entry;
        let profit_pct := d * 100 in
        if Py.Qleb primary_distance profit_pct then
          let new_stop := entry * 1.001 in
          if Py.Qltb (stop_price primary) new_stop then Some (Some new_stop)
          else Some None
        else Some None
      else
        d ← Py.div (entry - current) entry;
        let profit_pct := d * 100 in
        if Py.Qleb primary_distance profit_pct then
          let new_stop := entry * 0.999 in
          if Py.Qltb new_stop (stop_price primary) then Some (Some new_stop)
          else Some None
        else Some None
  end.

(** [RiskEngine._check_structure_health]. *)
Definition _check_structure_health (direction : string) (current : Q)
    (recent_lows recent_highs : list Q) : option StructureHealth :=
  if (length recent_lows <? 3)%nat || (length recent_highs <? 3)%nat then Some STRONG
  else
    if String.eqb direction "long" then
      if Py.Qltb (nth 0 recent_lows 0) (nth 1 recent_lows 0) &&
         Py.Qltb (nth 1 recent_lows 0) (nth 2 recent_lows 0) then Some WEAKENING
      else
        high ← Py.list_max (Py.last_slice 10 recent_highs);
        d ← Py.div (high - current) current;
        if Py.Qltb 0.03 d then Some BROKEN else Some STRONG
    else
      if Py.Qltb (nth 1 recent_highs 0) (nth 0 recent_highs 0) &&
         Py.Qltb (nth 2 recent_highs 0) (nth 1 recent_highs 0) then Some WEAKENING
      else
        low ← Py.list_min (Py.last_slice 10 recent_lows);
        d ← Py.div (current - low) current;
        if Py.Qltb 0.03 d then Some BROKEN else Some STRONG.

(** [momentum_key = session_id or levels.symbol]. *)
Definition momentum_key (levels : RiskLevels) (session_id : option string) : string :=
  match session_id with
  | Some s => if String.eqb s "" then symbol levels else s
  | None => symbol levels
  end.

(** [RiskEngine.reset_momentum_state]. *)
Definition reset_momentum_state (states : MomentumStates) (session_id : string)
  : MomentumStates :=
  delete session_id states.

(* --------------------------------------------------------------------- *)
(** ** RiskEngine.update_position, block by block *)
(* --------------------------------------------------------------------- *)

(** [RiskUpdate(updated_stops=list(levels.stops),
                updated_targets=list(levels.targets))]. *)
Definition init_result (levels : RiskLevels) : RiskUpdate :=
  {| updated_stops := stops levels;
     updated_targets := targets levels;
     exit_signal := false;
     exit_reason := None;
     exit_percentage := 0.0;
     stop_moved := false;
     new_stop_price := None;
     stop_move_reason := None;
     guarding_active := false;
     guarding_broken := false;
     guarding_level := None;
     structure_health := STRONG;
     breakeven_hit := false;
     moved_to_breakeven := false;
     current_r_multiple := 0.0;
     new_target_added := false;
     new_target_price := None;
     divergence_detected := false;
     divergence_type := None;
     momentum_trailing_active := false;
     momentum_trailing_level := 0.0;
     momentum_slope_strength := 0.0;
     momentum_buffer_pct := 0.0;
     alerts := [] |}.

(** "Calculate current R-multiple". *)
Definition r_multiple_step (levels : RiskLevels) (update : PositionUpdate)
    (result : RiskUpdate) : RiskUpdate :=
  let entry := entry_price levels in
  let current := pu_current_price update in
  match stops levels with
  | [] => result
  | s :: _ =>
      let risk_distance := Qabs (entry - stop_price s) in
      if Py.Qltb 0 risk_distance then
        let profit_distance :=
          if String.eqb (direction levels) "long" then current - entry
          else entry - current in
        set_current_r_multiple result (profit_distance / risk_distance)
      else result
  end.

(** The first stop dictionary after the breakeven move has written its
    ["price"], ["reason"] and ["type"] keys. *)
Definition moved_to_breakeven_stop (s : Stop) (breakeven_price : Q) : Stop :=
  {| stop_price := breakeven_price;
     stop_type := Some "breakeven"%string;
     stop_reason := Some (Py.Txt "Breakeven stop (profit protection)" []);
     stop_confidence := stop_confidence s;
     stop_distance_pct := stop_distance_pct s |}.

(** "Breakeven Stop at +1R".  The stop dictionary is shared by
    [levels.stops] and [result.updated_stops], so both lists show the
    write. *)
Definition breakeven_step (levels : RiskLevels) (result : RiskUpdate)
  : RiskUpdate * RiskLevels :=
  let entry := entry_price levels in
  let direction := direction levels in
  if enable_breakeven_stop config &&
     Py.Qleb (breakeven_trigger_r config) (current_r_multiple result) then
    let result := set_breakeven_hit result in
    let breakeven_price :=
      if Py.truthy (breakeven_price levels) then breakeven_price levels
      else _calculate_breakeven_price entry direction in
    match stops levels with
    | [] => (result, levels)
    | s :: rest =>
        let current_stop := stop_price s in
        if Py.truthy current_stop &&
           _is_better_stop breakeven_price current_stop direction then
          let result :=
            set_stop_move result true breakeven_price
              (Py.Txt "Moved to breakeven at +{:.1f}R"
                      [Py.Num (current_r_multiple result)]) in
          let result :=
            add_alert result
              (Py.Txt "Stop moved to BREAKEVEN at ${:,.2f} (+{:.1f}R)"
                      [Py.Num breakeven_price; Py.Num (current_r_multiple result)]) in
          let new_stops := moved_to_breakeven_stop s breakeven_price :: rest in
          (set_updated_stops result new_stops, set_stops levels new_stops)
        else (result, levels)
    end
  else (result, levels).

(** "MOMENTUM TRAILING TP".  [momentum_state] and [updated_state] are the
    same object after the call of [update], so the "just activated" alerts,
    guarded by [not momentum_state.active] inside
    [if updated_state.active], are never appended. *)
Definition momentum_step (states : MomentumStates) (levels : RiskLevels)
    (update : PositionUpdate) (ohlcv : option (list Bar))
    (session_id : option string) (result : RiskUpdate)
  : RiskUpdate * MomentumStates :=
  match ohlcv with
  | None => (result, states)
  | Some ohlcv =>
      if enable_dynamic_targets config && (5 <=? length ohlcv)%nat then
        let momentum_key := momentum_key levels session_id in
        let momentum_state :=
          match states !! momentum_key with
          | Some state => state
          | None => MomentumState_init
          end in
        let recent_closes := Py.last_slice 10 (map bar_close ohlcv) in
        let recent_candles := Py.last_slice 5 ohlcv in
        let '(updated_state, should_exit, exit_reason) :=
          RiskEngine.update momentum_tp momentum_state (pu_current_price update)
            (current_r_multiple result) (direction levels)
            recent_closes recent_candles in
        let states := <[momentum_key := updated_state]> states in
        let result :=
          if active updated_state then set_momentum_report result updated_state
          else result in
        let result :=
          match should_exit, exit_reason with
          | true, Some exit_reason =>
              add_alert (set_exit result exit_reason 100.0)
                        (Py.Txt "MOMENTUM EXIT: {}" [Py.Sub exit_reason])
          | _, _ => result
          end in
        (result, states)
      else (result, states)
  end.

(** [momentum_state and momentum_state.active] for the state stored under
    the key. *)
Definition momentum_active (states : MomentumStates) (key : string) : bool :=
  match states !! key with
  | Some state => active state
  | None => false
  end.

(** "Divergence Detection". *)
Definition divergence_step (states : MomentumStates) (levels : RiskLevels)
    (ohlcv : option (list Bar)) (session_id : option string)
    (result : RiskUpdate) : option RiskUpdate :=
  let direction := direction levels in
  match ohlcv with
  | None => Some result
  | Some ohlcv =>
      if enable_divergence_detection config then
        '(div_detected, div_type) ← _detect_divergence ohlcv direction;
        if div_detected : bool then
          let result := set_divergence result div_type in
          match div_type with
          | Some div_type =>
              if (String.eqb direction "long" && String.eqb div_type "bearish") ||
                 (String.eqb direction "short" && String.eqb div_type "bullish") then
                let result :=
                  add_alert result
                    (Py.Txt "{.upper()} divergence detected - consider partial exit"
                            [Py.Str div_type]) in
                if Py.Qltb 0.5 (current_r_multiple result) &&
                   negb (momentum_active states (momentum_key levels session_id)) then
                  Some (set_exit result
                          (Py.Txt "{} divergence - momentum weakening" [Py.Str div_type])
                          33.0)
                else Some result
              else Some result
          | None => Some result
          end
        else Some result
      else Some result
  end.

(** The loop over [levels.targets]: the first target that the price has
    reached. *)
Fixpoint first_target_hit (direction : string) (current : Q)
    (targets : list Target) : option Target :=
  match targets with
  | [] => None
  | target :: rest =>
      if String.eqb direction "long" && Py.Qleb (target_price target) current then
        Some target
      else if String.eqb direction "short" && Py.Qleb current (target_price target) then
        Some target
      else first_target_hit direction current rest
  end.

(** "Check fixed targets hit (only if momentum trailing not active)". *)
Definition fixed_targets_step (states : MomentumStates) (levels : RiskLevels)
    (update : PositionUpdate) (session_id : option string)
    (result : RiskUpdate) : RiskUpdate :=
  if negb (momentum_active states (momentum_key levels session_id)) then
    match first_target_hit (direction levels) (pu_current_price update)
                           (targets levels) with
    | Some target =>
        let result :=
          set_exit result
            (Py.Txt "Target hit: {}" [Py.Sub (target_reason target)])
            (match target_exit_percentage target with
             | Some p => p
             | None => 100
             end) in
        add_alert result (Py.Txt "TARGET HIT at ${:,.2f}" [Py.Num (target_price target)])
    | None => result
    end
  else result.

(** "Check guarding line". *)
Definition guarding_step (levels : RiskLevels) (update : PositionUpdate)
    (result : RiskUpdate) : RiskUpdate :=
  match guarding_line levels with
  | None => result
  | Some line =>
      if (guarding_activation_bars config <=? bars_since_entry update)%Z then
        let level :=
          get_current_level (guarding_manager config) line (bars_since_entry update) in
        let result := set_guarding result level in
        let '(is_broken, reason) :=
          check_break (pu_current_price update) level (direction levels) in
        if is_broken then
          add_alert (set_exit (set_guarding_broken result) reason 100.0)
                    (Py.Txt "GUARDING LINE BROKEN - {}" [Py.Sub reason])
        else result
      else result
  end.

(** "Trail stop if in profit (after breakeven)". *)
Definition trail_step (levels : RiskLevels) (update : PositionUpdate)
    (result : RiskUpdate) : option RiskUpdate :=
  if Py.Qltb 0 (unrealized_pnl_pct update) && negb (moved_to_breakeven result) then
    new_stop ← _trail_stop (direction levels) (entry_price levels)
                           (pu_current_price update) (stops levels);
    match new_stop with
    | Some new_stop =>
        if Py.truthy new_stop then
          Some (set_stop_move result false new_stop
                              (Py.Txt "Trailing stop adjustment" []))
        else Some result
    | None => Some result
    end
  else Some result.

(** "Check structure health". *)
Definition structure_health_step (levels : RiskLevels) (update : PositionUpdate)
    (result : RiskUpdate) : option RiskUpdate :=
  match recent_lows update, recent_highs update with
  | Some (l :: lows), Some (h :: highs) =>
      health ← _check_structure_health (direction levels) (pu_current_price update)
                                       (l :: lows) (h :: highs);
      let result := set_structure_health result health in
      match health with
      | BROKEN =>
          if negb (exit_signal result) then
            Some (add_alert (set_exit result (Py.Txt "Supporting structure broken" []) 100.0)
                            (Py.Txt "STRUCTURE BROKEN - Exit position" []))
          else Some result
      | _ => Some result
      end
  | _, _ => Some result
  end.

(** The result object after each block of [update_position], with the
    stores the call leaves behind.  A stage is [None] once an exception has
    been raised; the writes to [levels] and to the momentum states happen
    before any block that can raise. *)
Record Stages := mkStages {
  after_r_multiple : RiskUpdate;
  after_breakeven : RiskUpdate;
  after_momentum : RiskUpdate;
  after_divergence : option RiskUpdate;
  after_fixed_targets : option RiskUpdate;
  after_guarding : option RiskUpdate;
  after_trail : option RiskUpdate;
  after_structure_health : option RiskUpdate;
  final_levels : RiskLevels;
  final_states : MomentumStates
}.

Definition update_position_stages (states : MomentumStates) (levels : RiskLevels)
    (update : PositionUpdate) (ohlcv : option (list Bar))
    (session_id : option string) : Stages :=
  let result := init_result levels in
  let result1 := r_multiple_step levels update result in
  let '(result2, levels) := breakeven_step levels result1 in
  let '(result3, states) := momentum_step states levels update ohlcv session_id result2 in
  let result4 := divergence_step states levels ohlcv session_id result3 in
  let result5 := fixed_targets_step states levels update session_id <$> result4 in
  let result6 := guarding_step levels update <$> result5 in
  let result7 := result6 ≫= trail_step levels update in
  let result8 := result7 ≫= structure_health_step levels update in
  {| after_r_multiple := result1;
     after_breakeven := result2;
     after_momentum := result3;
     after_divergence := result4;
     after_fixed_targets := result5;
     after_guarding := result6;
     after_trail := result7;
     after_structure_health := result8;
     final_levels := levels;
     final_states := states |}.

(** [RiskEngine.update_position]: the returned [RiskUpdate] ([None] when the
    call raises), the content of [levels] and the momentum states of the
    engine after the call. *)
Definition update_position (states : MomentumStates) (levels : RiskLevels)
    (update : PositionUpdate) (ohlcv : option (list Bar))
    (session_id : option string)
  : option RiskUpdate * RiskLevels * MomentumStates :=
  let stages := update_position_stages states levels update ohlcv session_id in
  (after_structure_health stages, final_levels stages, final_states stages).

(** A sequence of calls of [update_position] on the same [levels] object and
    the same engine: the results in call order and the final stores. *)
Fixpoint update_position_seq (states : MomentumStates) (levels : RiskLevels)
    (calls : list (PositionUpdate * option (list Bar) * option string))
  : list (option RiskUpdate) * RiskLevels * MomentumStates :=
  match calls with
  | [] => ([], levels, states)
  | (update, ohlcv, session_id) :: rest =>
      let '(result, levels, states) :=
        update_position states levels update ohlcv session_id in
      let '(results, levels, states) := update_position_seq states levels rest in
      (result :: results, levels, states)
  end.

End WithConfig.

End RiskEngine.

(* ===================================================================== *)
(** * api/session_routes.py: the exit route *)
(* ===================================================================== *)

Module SessionRoutes.

(** Modelled from the spec: the [ExitReason] enumeration of core/session.py,
    which is imported by the route but is not part of the sources at hand.
    Its members are the closed set of exit reasons of the interface
    description, [MANUAL] being the member whose value is ["manual_exit"]. *)
Inductive ExitReason :=
  | TARGET_HIT
  | GUARDING_LINE_BROKEN
  | STRUCTURAL_SUPPORT_BROKEN
  | OPPOSITE_MCF_SIGNAL
  | MOMENTUM_EXHAUSTION
  | VOLUME_CLIMAX
  | SAFETY_NET_5PCT
  | MANUAL.

(** Modelled from the spec: the value of each member of [ExitReason]. *)
Definition ExitReason_value (r : ExitReason) : string :=
  match r with
  | TARGET_HIT => "target_hit"
  | GUARDING_LINE_BROKEN => "guarding_line_broken"
  | STRUCTURAL_SUPPORT_BROKEN => "structural_support_broken"
  | OPPOSITE_MCF_SIGNAL => "opposite_mcf_signal"
  | MOMENTUM_EXHAUSTION => "momentum_exhaustion"
  | VOLUME_CLIMAX => "volume_climax"
  | SAFETY_NET_5PCT => "safety_net_5pct"
  | MANUAL => "manual_exit"
  end.

Definition ExitReason_members : list ExitReason :=
  [TARGET_HIT; GUARDING_LINE_BROKEN; STRUCTURAL_SUPPORT_BROKEN;
   OPPOSITE_MCF_SIGNAL; MOMENTUM_EXHAUSTION; VOLUME_CLIMAX; SAFETY_NET_5PCT;
   MANUAL].

(** [ExitReason(value)]: the member with that value; [None] stands for the
    [ValueError] of the enumeration's lookup. *)
Definition ExitReason_of_value (value : string) : option ExitReason :=
  List.find (fun r => String.eqb (ExitReason_value r) value) ExitReason_members.

(** [ExecuteExitRequest]. *)
Record ExecuteExitRequest := mkExecuteExitRequest {
  req_exit_price : option Q;
  req_exit_reason : option string;
  req_reason : option string;
  req_exit_percentage : Q
}.

(** The attributes of a session that the route reads. *)
Record Session := mkSession {
  session_current_price : Q;
  session_average_entry : Q;
  session_status : string;
  session_remaining_size : Q;
  session_realized_pnl : Q
}.

(** The result object of [SessionManager.execute_exit]. *)
Record ExitResult := mkExitResult {
  result_price : Q;
  result_size : Q;
  result_percentage : Q;
  result_reason : string;
  result_pnl : Q
}.

Record ExitResponse := mkExitResponse {
  resp_price : Q;
  resp_size : Q;
  resp_percentage : Q;
  resp_reason : string;
  resp_pnl : Q;
  resp_session_status : string;
  resp_remaining_size : Q;
  resp_realized_pnl : Q
}.

(** The outcome of a route: a response, an [HTTPException] with its status
    code, or another exception. *)
Inductive Outcome :=
  | Response (r : ExitResponse)
  | HTTPException (status_code : nat) (detail : string)
  | Raised.

(** [a or b] on an optional string: [None] and the empty string are falsy. *)
Definition str_or (a : option string) (b : option string) : option string :=
  match a with
  | Some s => if String.eqb s "" then b else Some s
  | None => b
  end.

(** [request.exit_reason or request.reason or "manual_exit"]. *)
Definition reason_str (request : ExecuteExitRequest) : string :=
  match str_or (str_or (req_exit_reason request) (req_reason request))
               (Some "manual_exit"%string) with
  | Some s => s
  | None => "manual_exit"
  end.

(** The [try] / [except ValueError] block of the route. *)
Definition coerce_reason (reason_str : string) : ExitReason :=
  match ExitReason_of_value reason_str with
  | Some reason => reason
  | None => MANUAL
  end.

Section WithManager.

(** The session manager of core/session.py is outside the sources at hand:
    its state and the two methods that the route calls are parameters. *)
Variable Manager : Type.
Variable manager_get_session : Manager -> string -> option Session.
Variable manager_execute_exit :
  Manager -> string -> Q -> ExitReason -> Q -> option ExitResult * Manager.

(** The route [execute_exit]: its outcome and the manager afterwards. *)
Definition execute_exit (manager : Manager) (session_id : string)
    (request : ExecuteExitRequest) : Outcome * Manager :=
  match manager_get_session manager session_id with
  | None => (HTTPException 404 "Session not found", manager)
  | Some session =>
      let reason := coerce_reason (reason_str request) in
      let exit_price :=
        match req_exit_price request with
        | Some p => if Py.truthy p then p else session_current_price session
        | None => session_current_price session
        end in
      let exit_price :=
        if negb (Py.truthy exit_price) || Py.Qleb exit_price 0
        then session_average_entry session else exit_price in
      match manager_execute_exit manager session_id exit_price reason
                                 (req_exit_percentage request) with
      | (None, manager) => (HTTPException 400 "Could not execute exit", manager)
      | (Some result, manager) =>
          match manager_get_session manager session_id with
          | None => (Raised, manager)
          | Some session =>
              (Response
                 {| resp_price := result_price result;
                    resp_size := result_size result;
                    resp_percentage := result_percentage result;
                    resp_reason := result_reason result;
                    resp_pnl := result_pnl result;
                    resp_session_status := session_status session;
                    resp_remaining_size := session_remaining_size session;
                    resp_realized_pnl := session_realized_pnl session |},
               manager)
          end
      end
  end.

End WithManager.

End SessionRoutes.

(* ===================================================================== *)
(** * Notions used in the statements *)
(* ===================================================================== *)

Module Notions.

(** The side of the entry a price lies on: below it when [long], above it
    otherwise. *)
Definition beyond (entry : Q) (long : bool) (p : Q) : Prop :=
  if long then p < entry else entry < p.

(** The volatility factor of [_calculate_position_size], the same expression
    in both engines. *)
Definition vol_factor (atr_pct : Q) : Q :=
  Qmax 0.5 (Qmin 2.0 (2.0 / Qmax atr_pct 0.5)).

(** The three components of the result of [MomentumTrailingTP.update]. *)
Definition updated_state (r : RiskEngine.MomentumState * bool * option Py.Text) :=
  fst (fst r).
Definition should_exit (r : RiskEngine.MomentumState * bool * option Py.Text) :=
  snd (fst r).
Definition exit_reason_of (r : RiskEngine.MomentumState * bool * option Py.Text) :=
  snd r.

Import RiskEngine.

(** [b] reports the exit signal, reason and percentage of [a]. *)
Definition same_exit (a b : RiskUpdate) : Prop :=
  exit_signal b = exit_signal a /\
  exit_reason b = exit_reason a /\
  exit_percentage b = exit_percentage a.

(** An exit signal that is set in [a] is reported unchanged by [b]. *)
Definition keeps_exit (a b : RiskUpdate) : Prop :=
  exit_signal a = true -> same_exit a b.

(** A result without an exit signal carries no reason and no percentage. *)
Definition no_exit_no_reason (r : RiskUpdate) : Prop :=
  exit_signal r = false -> exit_reason r = None /\ exit_percentage r = 0.0.

(** [b] reports the breakeven move and the R-multiple of [a]. *)
Definition same_breakeven (a b : RiskUpdate) : Prop :=
  moved_to_breakeven b = moved_to_breakeven a /\
  current_r_multiple b = current_r_multiple a.

(** The same between two stages of a call, when both are reached. *)
Definition stage_keeps_exit (a b : option RiskUpdate) : Prop :=
  forall ra rb, a = Some ra -> b = Some rb -> keeps_exit ra rb.

(** No later block of [update_position] overwrites an exit signal that an
    earlier block has set, except a guarding-line breach. *)
Definition exit_never_overwritten (s : Stages) : Prop :=
  keeps_exit (after_breakeven s) (after_momentum s) /\
  stage_keeps_exit (Some (after_momentum s)) (after_divergence s) /\
  stage_keeps_exit (after_divergence s) (after_fixed_targets s) /\
  (forall ra rb, after_fixed_targets s = Some ra -> after_guarding s = Some rb ->
     keeps_exit ra rb \/ guarding_broken rb = true) /\
  stage_keeps_exit (after_guarding s) (after_trail s) /\
  stage_keeps_exit (after_trail s) (after_structure_health s).

(** The exit signal of the divergence block: a partial exit of 33%. *)
Definition divergence_exit (r : RiskUpdate) : Prop :=
  exists div_type,
    exit_reason r = Some (Py.Txt "{} divergence - momentum weakening" [Py.Str div_type]) /\
    exit_percentage r = 33.0.

(** The exit signal of the fixed-target block for a target of [levels]. *)
Definition target_exit (levels : RiskLevels) (r : RiskUpdate) : Prop :=
  exists target,
    In target (targets levels) /\
    exit_reason r = Some (Py.Txt "Target hit: {}" [Py.Sub (target_reason target)]) /\
    exit_percentage r = match target_exit_percentage target with
                        | Some p => p
                        | None => 100
                        end.

(** As [exit_never_overwritten], but a hit fixed target may replace the
    partial exit of a divergence. *)
Definition exit_overwritten_only_by_target_or_guarding (levels : RiskLevels)
    (s : Stages) : Prop :=
  keeps_exit (after_breakeven s) (after_momentum s) /\
  stage_keeps_exit (Some (after_momentum s)) (after_divergence s) /\
  (forall ra rb, after_divergence s = Some ra -> after_fixed_targets s = Some rb ->
     keeps_exit ra rb \/
     (exit_signal (after_momentum s) = false /\
      divergence_exit ra /\ target_exit levels rb)) /\
  (forall ra rb, after_fixed_targets s = Some ra -> after_guarding s = Some rb ->
     keeps_exit ra rb \/ guarding_broken rb = true) /\
  stage_keeps_exit (after_guarding s) (after_trail s) /\
  stage_keeps_exit (after_trail s) (after_structure_health s).

(** The breakeven price that [update_position] uses for [levels]. *)
Definition breakeven_price_of (config : RiskEngineConfig) (levels : RiskLevels) : Q :=
  if Py.truthy (breakeven_price levels) then breakeven_price levels
  else _calculate_breakeven_price config (entry_price levels) (direction levels).

(** The first stop of [levels] has been moved to breakeven. *)
Definition at_breakeven (config : RiskEngineConfig) (levels : RiskLevels) : Prop :=
  exists s rest,
    stops levels = s :: rest /\
    stop_price s = breakeven_price_of config levels /\
    stop_type s = Some "breakeven"%string.

(** A result that reports a move of the stop to breakeven. *)
Definition reports_move (r : option RiskUpdate) : bool :=
  match r with
  | Some r => moved_to_breakeven r
  | None => false
  end.

(** The number of calls of a sequence that report such a move. *)
Definition reported_moves (results : list (option RiskUpdate)) : nat :=
  length (List.filter reports_move results).

(** A sequence of calls of [update_position] on one engine, each with its
    own [levels] argument: the momentum states after the sequence and the
    stages of every call. *)
Fixpoint engine_calls (config : RiskEngineConfig) (states : MomentumStates)
    (calls : list (RiskLevels * PositionUpdate * option (list Bar) * option string))
  : list Stages * MomentumStates :=
  match calls with
  | [] => ([], states)
  | (levels, update, ohlcv, session_id) :: rest =>
      let stages := update_position_stages config states levels update ohlcv session_id in
      let '(more, states) := engine_calls config (final_states stages) rest in
      (stages :: more, states)
  end.

(** The fixed-target block of a call did nothing. *)
Definition targets_suppressed (s : Stages) : Prop :=
  after_fixed_targets s = after_divergence s.

(** *** A position used in the examples

    A long BTCUSDT position entered at 92 with its stop at 86 and one fixed
    target at 95 that closes half of the position; twenty bars in which the
    price makes a higher high (101 after 100) while the last fourteen
    changes are mostly losses (RSI 16.7); the price is now 96, that is
    +0.67R. *)

Definition example_levels : RiskLevels :=
  {| stops := [ {| stop_price := 86; stop_type := Some "atr"%string;
                   stop_reason := Some (Py.Txt "{}x ATR stop" [Py.Num 2.0]);
                   stop_confidence := Some 0.6;
                   stop_distance_pct := Some 6.5 |} ];
     targets := [ {| target_price := 95; target_type := Some "structural"%string;
                     target_reason := Py.Txt "Structural resistance" [];
                     target_exit_percentage := Some 50;
                     target_distance_pct := Some 3.26;
                     target_confidence := Some 0.75 |} ];
     position_size := 100; position_size_pct := 9.2; risk_amount := 600;
     risk_reward_ratio := 0.5; max_risk_reward_ratio := 0.5;
     entry_price := 92; direction := "long"; timeframe := "1h";
     symbol := "BTCUSDT"; current_price := 92; guarding_line := None;
     entry_blocked := true; block_reason := None;
     volatility_regime := NORMAL; atr_current := 3; atr_pct := 3.26;
     breakeven_price := 92.092; one_r_price := 98 |}.

Definition flat_bar (close : Q) : Bar :=
  {| bar_open := close; bar_high := close; bar_low := close; bar_close := close |}.

Definition example_ohlcv : list Bar :=
  map flat_bar [90; 92; 94; 96; 98; 100; 100; 100; 100; 100;
                101; 99; 98; 97; 96; 96; 96; 96; 96; 96].

Definition example_update (price : Q) : PositionUpdate :=
  {| pu_current_price := price; bars_since_entry := 3;
     highest_since_entry := 101; lowest_since_entry := 90;
     unrealized_pnl_pct := 1;
     recent_lows := None; recent_highs := None |}.

End Notions.

From Stdlib Require Import Sorted.

(* ===================================================================== *)
(** * core/models.py: the market context and the results of the
      RiskShield engine *)
(* ===================================================================== *)

Module Models.

(** [MarketContext], most recent bar first.  The timestamps, opens, volumes
    and the volume profile are not read by the engine. *)
Record MarketContext := mkMarketContext {
  highs : list Q;
  lows : list Q;
  closes : list Q;
  mc_current_price : Q;
  support_levels : option (list Q);
  resistance_levels : option (list Q);
  regime : option string
}.

(** [MarketContext.latest_close]. *)
Definition latest_close (market : MarketContext) : Q :=
  match closes market with
  | c :: _ => c
  | [] => mc_current_price market
  end.

(** The body of the loop of [MarketContext.atr] at index [i]; an
    [IndexError] when [lows] or [closes] is too short. *)
Definition true_range (market : MarketContext) (i : nat) : option Q :=
  high ← nth_error (highs market) i;
  low ← nth_error (lows market) i;
  prev_close ← nth_error (closes market) (S i);
  Some (Qmax (Qmax (high - low) (Qabs (high - prev_close)))
             (Qabs (low - prev_close))).

(** The loop of [MarketContext.atr] over the indices [idxs]. *)
Fixpoint tr_values (market : MarketContext) (idxs : list nat) : option (list Q) :=
  match idxs with
  | [] => Some []
  | i :: rest =>
      tr ← true_range market i;
      more ← tr_values market rest;
      Some (tr :: more)
  end.

(** [MarketContext.atr]. *)
Definition atr (market : MarketContext) : option Q :=
  if (length (highs market) <? 14)%nat then Some 0.0
  else
    trs ← tr_values market (seq 0 (Nat.min 14 (length (highs market) - 1)));
    match trs with
    | [] => Some 0.0
    | _ => Some (Py.Qsum trs / inject_Z (Z.of_nat (length trs)))
    end.

(** [RiskLevels] (without the timestamp). *)
Record RiskLevels := mkRiskLevels {
  stops : list Engine.StopLevel;
  targets : list Engine.TargetLevel;
  position_size : Q;
  position_size_pct : Q;
  risk_amount : Q;
  risk_reward_ratio : Q;
  max_risk_reward_ratio : Q;
  win_probability : Q;
  expected_value : Q;
  entry_price : Q;
  direction : string;
  timeframe : string;
  guarding_line : option Py.LineParams
}.

Definition is_primary (s : Engine.StopLevel) : bool :=
  match Engine.sl_type s with
  | Engine.PRIMARY => true
  | _ => false
  end.

(** [RiskLevels.get_primary_stop]. *)
Definition get_primary_stop (levels : RiskLevels) : option Engine.StopLevel :=
  match List.filter is_primary (stops levels) with
  | s :: _ => Some s
  | [] => None
  end.

(** [RiskLevels.get_first_target]. *)
Definition get_first_target (levels : RiskLevels) : option Engine.TargetLevel :=
  match targets levels with
  | t :: _ => Some t
  | [] => None
  end.

(** [PositionUpdate] (the recent candles are not read by the engine). *)
Record PositionUpdate := mkPositionUpdate {
  pu_current_price : Q;
  bars_since_entry : Z;
  highest_since_entry : Q;
  lowest_since_entry : Q;
  unrealized_pnl : Q;
  unrealized_pnl_pct : Q
}.

Record RiskUpdate := mkRiskUpdate {
  updated_stops : list Engine.StopLevel;
  updated_targets : list Engine.TargetLevel;
  exit_signal : bool;
  exit_reason : option Py.Text;
  exit_percentage : Q;
  stop_moved : bool;
  new_stop_price : option Q;
  guarding_active : bool;
  guarding_broken : bool
}.

End Models.

(* ===================================================================== *)
(** * core/engine.py: the entry points of the RiskShield engine and the
      helpers they call *)
(* ===================================================================== *)

Module EngineMain.

Import Models.

(** The guarding-line fields of [RiskEngineConfig], next to the fields of
    [Engine.RiskEngineConfig]. *)
Record GuardingConfig := mkGuardingConfig {
  enable_guarding_line : bool;
  guarding_activation_bars : Z;
  guarding_buffer_pct : Q
}.

(** Their defaults in the dataclass. *)
Definition default_guarding_config : GuardingConfig :=
  {| enable_guarding_line := true;
     guarding_activation_bars := 10;
     guarding_buffer_pct := 0.3 |}.

(** [self.guarding_line], as built by [RiskEngine.__init__]. *)
Definition guarding_line_of (gconfig : GuardingConfig) : GuardingLine.GuardingLine :=
  GuardingLine.init (guarding_activation_bars gconfig) (guarding_buffer_pct gconfig).

(** [str.lower] on the ASCII letters. *)
Definition ascii_lower (c : Ascii.ascii) : Ascii.ascii :=
  let n := Ascii.nat_of_ascii c in
  if (65 <=? n)%nat && (n <=? 90)%nat then Ascii.ascii_of_nat (n + 32) else c.

Fixpoint lower (s : string) : string :=
  match s with
  | EmptyString => EmptyString
  | String c rest => String (ascii_lower c) (lower rest)
  end.

(** [RiskEngine._is_swing_timeframe]: the lowered members of
    [swing_timeframes] are these five strings. *)
Definition _is_swing_timeframe (timeframe : string) : bool :=
  existsb (String.eqb (lower timeframe))
    ["4h"; "1d"; "1w"; "daily"; "weekly"]%string.

(** The swing tests of [_find_support_levels] and [_find_resistance_levels]
    at index [i]. *)
Definition swing_low (lows : list Q) (i : nat) : bool :=
  let p k := nth k lows 0 in
  Py.Qltb (p i) (p (i - 1)%nat) && Py.Qltb (p i) (p (i - 2)%nat) &&
  Py.Qltb (p i) (p (i + 1)%nat) && Py.Qltb (p i) (p (i + 2)%nat).

Definition swing_high (highs : list Q) (i : nat) : bool :=
  let p k := nth k highs 0 in
  Py.Qltb (p (i - 1)%nat) (p i) && Py.Qltb (p (i - 2)%nat) (p i) &&
  Py.Qltb (p (i + 1)%nat) (p i) && Py.Qltb (p (i + 2)%nat) (p i).

(** [sum(1 for p in prices if abs(p - level) / level < 0.005)], evaluated on
    a non-empty list: a [ZeroDivisionError] when the level is zero. *)
Definition touches (prices : list Q) (level : Q) : option nat :=
  if Qeq_bool level 0 then None
  else Some (length (List.filter
                       (fun p => Py.Qltb (Qabs (p - level) / level) 0.005) prices)).

(** The loop over [range(2, len(prices) - 2)] that collects the swing
    points with their confidence. *)
Fixpoint swing_levels (is_swing : list Q -> nat -> bool) (prices : list Q)
    (idxs : list nat) : option (list (Q * Q)) :=
  match idxs with
  | [] => Some []
  | i :: rest =>
      if is_swing prices i then
        let level := nth i prices 0 in
        n ← touches prices level;
        let confidence := Qmin 1.0 (inject_Z (Z.of_nat n) / 5) in
        more ← swing_levels is_swing prices rest;
        Some ((level, confidence) :: more)
      else swing_levels is_swing prices rest
  end.

(** The common body of the two level finders: [given] is the list of
    pre-calculated levels of the market, [prices] its lows or highs. *)
Definition find_levels (is_swing : list Q -> nat -> bool) (entry : Q)
    (given : option (list Q)) (prices : list Q) : option (list (Q * Q)) :=
  match given with
  | Some (l :: ls) => Some (map (fun level => (level, 0.8)) (l :: ls))
  | _ =>
      let prices := firstn 100 prices in
      found ← swing_levels is_swing prices (seq 2 (length prices - 4));
      Some (firstn 5 (Py.sort_by (fun x => Qabs (fst x - entry)) found))
  end.

(** [RiskEngine._find_support_levels]. *)
Definition _find_support_levels (setup : Engine.TradeSetup) (market : MarketContext)
  : option (list (Q * Q)) :=
  find_levels swing_low (Engine.entry_price setup) (support_levels market)
              (lows market).

(** [RiskEngine._find_resistance_levels]. *)
Definition _find_resistance_levels (setup : Engine.TradeSetup) (market : MarketContext)
  : option (list (Q * Q)) :=
  find_levels swing_high (Engine.entry_price setup) (resistance_levels market)
              (highs market).

(** [RiskEngine._calculate_rr_ratio]. *)
Definition _calculate_rr_ratio (entry : Q) (stop : option Engine.StopLevel)
    (target : option Engine.TargetLevel) : Q :=
  match stop, target with
  | Some stop, Some target =>
      let risk := Qabs (entry - Engine.sl_price stop) in
      let reward := Qabs (Engine.tl_price target - entry) in
      if Py.Qltb 0 risk then reward / risk else 0.0
  | _, _ => 0.0
  end.

(** [RiskEngine._estimate_win_probability]. *)
Definition _estimate_win_probability (setup : Engine.TradeSetup)
    (market : MarketContext) (rr_ratio : Q) : Q :=
  let base_prob := 0.45 in
  let rr_adjustment := - 0.05 * (rr_ratio - 2.0) in
  let regime_adjustment :=
    match regime market with
    | Some regime =>
        if String.eqb regime "" then 0.0
        else if String.eqb (Engine.direction setup) "long" then
          if String.eqb regime "trending_up" then 0.1
          else if String.eqb regime "trending_down" then - 0.1
          else 0.0
        else
          if String.eqb regime "trending_down" then 0.1
          else if String.eqb regime "trending_up" then - 0.1
          else 0.0
    | None => 0.0
    end in
  Qmax 0.2 (Qmin 0.8 (base_prob + rr_adjustment + regime_adjustment)).

(** [RiskEngine._trail_stop] ([highest] and [lowest] are not read). *)
Definition _trail_stop (direction : string) (entry current : Q)
    (stops : list Engine.StopLevel) : option (option Q) :=
  match stops with
  | [] => Some None
  | primary :: _ =>
      if String.eqb direction "long" then
        d ← Py.div (current - entry) entry;
        let profit_pct := d * 100 in
        if Py.Qleb (Engine.sl_distance_pct primary) profit_pct then
          let new_stop := entry * 1.001 in
          if Py.Qltb (Engine.sl_price primary) new_stop then Some (Some new_stop)
          else Some None
        else Some None
      else
        d ← Py.div (entry - current) entry;
        let profit_pct := d * 100 in
        if Py.Qleb (Engine.sl_distance_pct primary) profit_pct then
          let new_stop := entry * 0.999 in
          if Py.Qltb new_stop (Engine.sl_price primary) then Some (Some new_stop)
          else Some None
        else Some None
  end.

Section WithConfig.

Variable config : Engine.RiskEngineConfig.
Variable gconfig : GuardingConfig.

(** [RiskEngine.calculate_risk_levels]. *)
Definition calculate_risk_levels (setup : Engine.TradeSetup)
    (market : MarketContext) : option RiskLevels :=
  let entry := Engine.entry_price setup in
  atr ← atr market;
  let atr_pct := if Py.Qltb 0 entry then (atr / entry) * 100 else 1.0 in
  support_levels ← _find_support_levels setup market;
  resistance_levels ← _find_resistance_levels setup market;
  stops ← Engine._calculate_stops config setup support_levels resistance_levels atr;
  targets ← Engine._calculate_targets config setup support_levels resistance_levels atr;
  let primary_stop := head stops in
  let risk_distance :=
    match primary_stop with
    | Some primary_stop => Qabs (entry - Engine.sl_price primary_stop)
    | None => atr * 2
    end in
  '(position_size, position_pct, risk_amount) ←
    Engine._calculate_position_size config setup risk_distance atr_pct;
  let first_target := head targets in
  let rr_ratio := _calculate_rr_ratio entry primary_stop first_target in
  let max_rr := _calculate_rr_ratio entry primary_stop (List.last (map Some targets) None) in
  let win_prob := _estimate_win_probability setup market rr_ratio in
  let expected_value := (win_prob * rr_ratio) - ((1 - win_prob) * 1.0) in
  guarding ←
    (if enable_guarding_line gconfig && _is_swing_timeframe (Engine.timeframe setup) then
       line ← GuardingLine.calculate_initial_line (guarding_line_of gconfig) entry
                (Engine.direction setup)
                (if String.eqb (Engine.direction setup) "long"
                 then lows market else highs market) 20;
       Some (Some line)
     else Some None);
  Some {| stops := stops;
          targets := targets;
          position_size := position_size;
          position_size_pct := position_pct;
          risk_amount := risk_amount;
          risk_reward_ratio := rr_ratio;
          max_risk_reward_ratio := max_rr;
          win_probability := win_prob;
          expected_value := expected_value;
          entry_price := entry;
          direction := Engine.direction setup;
          timeframe := Engine.timeframe setup;
          guarding_line := guarding |}.

(** The loop over [original_levels.targets] of [update_position]: the first
    target that the price has reached. *)
Fixpoint first_target_hit (direction : string) (current : Q)
    (targets : list Engine.TargetLevel) : option Engine.TargetLevel :=
  match targets with
  | [] => None
  | target :: rest =>
      if String.eqb direction "long" && Py.Qleb (Engine.tl_price target) current then
        Some target
      else if String.eqb direction "short" && Py.Qleb current (Engine.tl_price target) then
        Some target
      else first_target_hit direction current rest
  end.

(** The exit signal, reason and percentage after the loop over the
    targets. *)
Definition targets_block (direction : string) (current : Q)
    (targets : list Engine.TargetLevel) : bool * option Py.Text * Q :=
  match first_target_hit direction current targets with
  | Some target =>
      (true, Some (Py.Txt "Target hit: {}" [Py.Sub (Engine.tl_reason target)]),
       Engine.tl_exit_percentage target)
  | None => (false, None, 0.0)
  end.

(** The guarding-line block: [(guarding_active, guarding_broken)] and the
    exit signal, reason and percentage after it. *)
Definition guarding_block (original_levels : RiskLevels) (update : PositionUpdate)
    (exit : bool * option Py.Text * Q) : bool * bool * (bool * option Py.Text * Q) :=
  let direction := direction original_levels in
  let current := pu_current_price update in
  match guarding_line original_levels with
  | Some line =>
      if (guarding_activation_bars gconfig <=? bars_since_entry update)%Z then
        let guarding_price :=
          GuardingLine.get_current_level (guarding_line_of gconfig) line
            (bars_since_entry update) in
        if String.eqb direction "long" && Py.Qltb current guarding_price then
          (true, true, (true, Some (Py.Txt "Guarding line broken" []), 100.0))
        else if String.eqb direction "short" && Py.Qltb guarding_price current then
          (true, true, (true, Some (Py.Txt "Guarding line broken" []), 100.0))
        else (true, false, exit)
      else (false, false, exit)
  | None => (false, false, exit)
  end.

(** The stop-hit block: the exit signal, reason and percentage after it. *)
Definition stop_hit_block (original_levels : RiskLevels) (update : PositionUpdate)
    (exit : bool * option Py.Text * Q) : bool * option Py.Text * Q :=
  let direction := direction original_levels in
  let current := pu_current_price update in
  match get_primary_stop original_levels with
  | Some primary_stop =>
      if String.eqb direction "long" && Py.Qleb current (Engine.sl_price primary_stop) then
        (true, Some (Py.Txt "Stop hit: {}" [Py.Sub (Engine.sl_reason primary_stop)]), 100.0)
      else if String.eqb direction "short" &&
              Py.Qleb (Engine.sl_price primary_stop) current then
        (true, Some (Py.Txt "Stop hit: {}" [Py.Sub (Engine.sl_reason primary_stop)]), 100.0)
      else exit
  | None => exit
  end.

(** [RiskEngine.update_position] ([position_id] is not read). *)
Definition update_position (update : PositionUpdate) (original_levels : RiskLevels)
  : option RiskUpdate :=
  let direction := direction original_levels in
  let entry := entry_price original_levels in
  let current := pu_current_price update in
  let exit := targets_block direction current (targets original_levels) in
  let '(guarding_active, guarding_broken, exit) :=
    guarding_block original_levels update exit in
  new_stop ←
    (if Py.Qltb 0 (unrealized_pnl_pct update) then
       _trail_stop direction entry current (stops original_levels)
     else Some None);
  let stop_moved :=
    match new_stop with
    | Some new_stop => Py.truthy new_stop
    | None => false
    end in
  let '(exit_signal, exit_reason, exit_pct) :=
    stop_hit_block original_levels update exit in
  Some {| updated_stops := stops original_levels;
          updated_targets := targets original_levels;
          exit_signal := exit_signal;
          exit_reason := exit_reason;
          exit_percentage := exit_pct;
          stop_moved := stop_moved;
          new_stop_price := new_stop;
          guarding_active := guarding_active;
          guarding_broken := guarding_broken |}.

End WithConfig.

End EngineMain.

(* ===================================================================== *)
(** * core/guarding_line.py: maintenance and status of the guarding line *)
(* ===================================================================== *)

Module GuardingLineStatus.

Import GuardingLine.

(** [line_params.get("activation_bar", self.activation_bars)]. *)
Definition activation_of (self : GuardingLine) (line_params : Py.LineParams) : Z :=
  match Py.activation_bar line_params with
  | Some a => a
  | None => activation_bars self
  end.

(** [{**line_params, "intercept": intercept, "slope": slope}]. *)
Definition with_line (line_params : Py.LineParams) (intercept slope : Q)
  : Py.LineParams :=
  {| Py.slope := slope;
     Py.intercept := intercept;
     Py.activation_bar := Py.activation_bar line_params;
     Py.buffer_pct := Py.buffer_pct line_params;
     Py.slope_source := Py.slope_source line_params;
     Py.base_level := Py.base_level line_params |}.

(** [GuardingLine.update_line] ([current_price] is not read).  [min] and
    [max] raise a [ValueError] on an empty sequence. *)
Definition update_line (self : GuardingLine) (line_params : Py.LineParams)
    (direction : string) (current_price : Q) (recent_prices : list Q)
    (bars_since_entry : Z) : option Py.LineParams :=
  let current_level := get_current_level self line_params bars_since_entry in
  if (bars_since_entry <? activation_of self line_params)%Z then Some line_params
  else if (length recent_prices <? 5)%nat then Some line_params
  else
    let recent := firstn 10 recent_prices in
    if String.eqb direction "long" then
      recent_low ← Py.list_min recent;
      if Py.Qltb (current_level * 1.01) recent_low then
        let new_intercept := recent_low * (1 - buffer_pct self / 100) in
        Some (with_line line_params new_intercept (Qmax 0 (Py.slope line_params)))
      else Some line_params
    else
      recent_high ← Py.list_max recent;
      if Py.Qltb recent_high (current_level * 0.99) then
        let new_intercept := recent_high * (1 + buffer_pct self / 100) in
        Some (with_line line_params new_intercept (Qmin 0 (Py.slope line_params)))
      else Some line_params.

(** The dictionary that [get_status] returns. *)
Record Status := mkStatus {
  is_active : bool;
  current_level : Q;
  distance : Q;
  distance_pct : Q;
  bars_until_activation : Z;
  is_broken : bool;
  break_reason : Py.Text;
  status_slope : Q;
  status_intercept : Q
}.

(** [GuardingLine.get_status]. *)
Definition get_status (self : GuardingLine) (line_params : Py.LineParams)
    (current_price : Q) (direction : string) (bars_since_entry : Z)
  : option Status :=
  let activation_bar := activation_of self line_params in
  let is_active := (activation_bar <=? bars_since_entry)%Z in
  let current_level := get_current_level self line_params bars_since_entry in
  let distance :=
    if String.eqb direction "long" then current_price - current_level
    else current_level - current_price in
  d ← Py.div distance current_price;
  let distance_pct := d * 100 in
  let '(is_broken, break_reason) := check_break current_price current_level direction in
  Some {| is_active := is_active;
          current_level := current_level;
          distance := distance;
          distance_pct := distance_pct;
          bars_until_activation := Z.max 0 (activation_bar - bars_since_entry);
          is_broken := is_broken;
          break_reason := break_reason;
          status_slope := Py.slope line_params;
          status_intercept := Py.intercept line_params |}.

(** [GuardingLine.visualize_line]. *)
Definition visualize_line (self : GuardingLine) (line_params : Py.LineParams)
    (num_bars : nat) : list Q :=
  map (fun bar => get_current_level self line_params (Z.of_nat bar)) (seq 0 num_bars).

End GuardingLineStatus.

(* ===================================================================== *)
(** * core/risk_engine.py: further methods of the BASTION risk engine *)
(* ===================================================================== *)

Module RiskEngineAux.

Import RiskEngine.

(** [line_params] after [line_params["slope"] = new_slope] and
    [line_params["slope_source"] = "dynamic_update"]. *)
Definition with_dynamic_slope (line_params : Py.LineParams) (new_slope : Q)
  : Py.LineParams :=
  {| Py.slope := new_slope;
     Py.intercept := Py.intercept line_params;
     Py.activation_bar := Py.activation_bar line_params;
     Py.buffer_pct := Py.buffer_pct line_params;
     Py.slope_source := Some "dynamic_update"%string;
     Py.base_level := Py.base_level line_params |}.

(** [GuardingLineManager.update_slope]: the dictionary is updated in place
    and returned; the result is its content after the call. *)
Definition update_slope (self : GuardingLineManager) (line_params : Py.LineParams)
    (new_swing_points : list (nat * Q)) (direction : string) (entry_price : Q)
  : option Py.LineParams :=
  if (length new_swing_points <? 2)%nat then Some line_params
  else
    new_slope ← _calculate_dynamic_slope self new_swing_points direction entry_price;
    let current_slope := Py.slope line_params in
    if String.eqb direction "long" && Py.Qltb current_slope new_slope then
      Some (with_dynamic_slope line_params new_slope)
    else if String.eqb direction "short" && Py.Qltb new_slope current_slope then
      Some (with_dynamic_slope line_params new_slope)
    else Some line_params.

(** [stop.get('type') == 'primary' or stop.get('type') == 'structural']. *)
Definition is_primary (stop : Stop) : bool :=
  match stop_type stop with
  | Some t => String.eqb t "primary" || String.eqb t "structural"
  | None => false
  end.

(** [RiskLevels.get_primary_stop]. *)
Definition get_primary_stop (levels : RiskLevels) : option Stop :=
  match List.find is_primary (stops levels) with
  | Some stop => Some stop
  | None => head (stops levels)
  end.

(** [RiskEngine._calculate_one_r_price]. *)
Definition _calculate_one_r_price (entry_price stop_price : Q) (direction : string) : Q :=
  let risk_distance := Qabs (entry_price - stop_price) in
  if String.eqb direction "long" then entry_price + risk_distance
  else entry_price - risk_distance.

(** [RiskEngine._calculate_rr_ratio]. *)
Definition _calculate_rr_ratio (entry stop target : Q) : Q :=
  let risk := Qabs (entry - stop) in
  let reward := Qabs (target - entry) in
  if Py.Qltb 0 risk then reward / risk else 0.0.

(** The staleness fields of [RiskEngineConfig]. *)
Record StalenessConfig := mkStalenessConfig {
  staleness_threshold_bars : Z;
  staleness_max_penalty : Q;
  freshness_bonus_bars : Z;
  freshness_bonus : Q
}.

Definition default_staleness_config : StalenessConfig :=
  {| staleness_threshold_bars := 50;
     staleness_max_penalty := 2.0;
     freshness_bonus_bars := 10;
     freshness_bonus := 1.5 |}.

(** [RiskEngine._apply_staleness_penalty]; [touches] lists
    [bars_since_last_touch] of the trendlines of the structure analysis. *)
Definition _apply_staleness_penalty (sconfig : StalenessConfig) (base_score : Q)
    (touches : list Z) : Q :=
  let adjusted_score :=
    match touches with
    | [] => base_score
    | _ =>
        let avg_staleness := Py.mean (map inject_Z touches) in
        if Py.Qltb (inject_Z (staleness_threshold_bars sconfig)) avg_staleness then
          let penalty :=
            Qmin (staleness_max_penalty sconfig)
                 ((avg_staleness - inject_Z (staleness_threshold_bars sconfig)) / 50) in
          base_score - penalty
        else if Py.Qltb avg_staleness (inject_Z (freshness_bonus_bars sconfig)) then
          base_score + freshness_bonus sconfig
        else base_score
    end in
  Qmax 0.0 (Qmin 10.0 adjusted_score).

(** Step 9 of [calculate_risk_levels]: the values of
    [levels.risk_reward_ratio] and [levels.max_risk_reward_ratio] after the
    step. *)
Definition rr_metrics (levels : RiskLevels) : Q * Q :=
  match head (stops levels), head (targets levels),
        List.last (map Some (targets levels)) None with
  | Some s, Some first, Some last =>
      (_calculate_rr_ratio (entry_price levels) (stop_price s) (target_price first),
       _calculate_rr_ratio (entry_price levels) (stop_price s) (target_price last))
  | _, _, _ => (risk_reward_ratio levels, max_risk_reward_ratio levels)
  end.

(** Step 10: the values of [levels.breakeven_price] and
    [levels.one_r_price] after the step. *)
Definition breakeven_metrics (config : RiskEngineConfig) (levels : RiskLevels) : Q * Q :=
  match head (stops levels) with
  | Some s =>
      (_calculate_breakeven_price config (entry_price levels) (direction levels),
       _calculate_one_r_price (entry_price levels) (stop_price s) (direction levels))
  | None => (breakeven_price levels, one_r_price levels)
  end.

(** Steps 9 and 10 of [calculate_risk_levels]: [levels] after the risk
    metrics and the breakeven and 1R prices have been written to it. *)
Definition risk_metrics (config : RiskEngineConfig) (levels : RiskLevels) : RiskLevels :=
  {| stops := stops levels;
     targets := targets levels;
     position_size := position_size levels;
     position_size_pct := position_size_pct levels;
     risk_amount := risk_amount levels;
     risk_reward_ratio := fst (rr_metrics levels);
     max_risk_reward_ratio := snd (rr_metrics levels);
     entry_price := entry_price levels;
     direction := direction levels;
     timeframe := timeframe levels;
     symbol := symbol levels;
     current_price := current_price levels;
     guarding_line := guarding_line levels;
     entry_blocked := entry_blocked levels;
     block_reason := block_reason levels;
     volatility_regime := volatility_regime levels;
     atr_current := atr_current levels;
     atr_pct := atr_pct levels;
     breakeven_price := fst (breakeven_metrics config levels);
     one_r_price := snd (breakeven_metrics config levels) |}.

End RiskEngineAux.

(* ===================================================================== *)
(** * api/session_routes.py: the creation route *)
(* ===================================================================== *)

Module SessionCreate.

(** A target dictionary of the request, with the keys of the documented
    shape. *)
Record TargetSpec := mkTargetSpec {
  ts_price : Q;
  ts_exit_percentage : Q;
  ts_reason : string
}.

(** The fields of [CreateSessionRequest] that the route inspects. *)
Record CreateSessionRequest := mkCreateSessionRequest {
  csr_direction : string;
  csr_structural_support : option Q;
  csr_structural_level : option Q;
  csr_entry_price : option Q;
  csr_targets : list TargetSpec
}.

(** [a or b] on optional floats: [None] and [0.0] are falsy. *)
Definition float_or (a b : option Q) : option Q :=
  match a with
  | Some x => if Py.truthy x then Some x else b
  | None => b
  end.

(** The truth value of an optional float. *)
Definition float_truthy (a : option Q) : bool :=
  match a with
  | Some x => Py.truthy x
  | None => false
  end.

(** The default targets of the route for an entry price. *)
Definition default_targets (direction : string) (entry : Q) : list TargetSpec :=
  if String.eqb direction "long" then
    [ {| ts_price := entry * 1.03; ts_exit_percentage := 33; ts_reason := "Target 1 (3%)" |};
      {| ts_price := entry * 1.06; ts_exit_percentage := 33; ts_reason := "Target 2 (6%)" |};
      {| ts_price := entry * 1.10; ts_exit_percentage := 34; ts_reason := "Target 3 (10%)" |} ]
  else
    [ {| ts_price := entry * 0.97; ts_exit_percentage := 33; ts_reason := "Target 1 (3%)" |};
      {| ts_price := entry * 0.94; ts_exit_percentage := 33; ts_reason := "Target 2 (6%)" |};
      {| ts_price := entry * 0.90; ts_exit_percentage := 34; ts_reason := "Target 3 (10%)" |} ].

(** The first part of the route [create_session], up to the call of the
    session manager: the [HTTPException] with status 400 ([None]), or the
    structural level and the targets that are handed to
    [manager.create_session]. *)
Definition create_session_arguments (request : CreateSessionRequest)
  : option (Q * list TargetSpec) :=
  match float_or (csr_structural_support request) (csr_structural_level request) with
  | Some structural =>
      if Py.truthy structural then
        let targets :=
          match csr_targets request, csr_entry_price request with
          | [], Some entry =>
              if Py.truthy entry then default_targets (csr_direction request) entry
              else []
          | targets, _ => targets
          end in
        Some (structural, targets)
      else None
  | None => None
  end.

End SessionCreate.

(* ===================================================================== *)
(** * Further notions used in the statements *)
(* ===================================================================== *)

Module EngineNotions.

Import Models.

(** The price has reached the primary stop of the levels: at or below it
    for a long, at or above it for a short. *)
Definition stop_hit (levels : RiskLevels) (update : PositionUpdate) : bool :=
  match get_primary_stop levels with
  | Some s =>
      (String.eqb (direction levels) "long" &&
       Py.Qleb (pu_current_price update) (Engine.sl_price s)) ||
      (String.eqb (direction levels) "short" &&
       Py.Qleb (Engine.sl_price s) (pu_current_price update))
  | None => false
  end.

(** The price has reached one of the targets of the levels. *)
Definition target_reached (levels : RiskLevels) (update : PositionUpdate) : bool :=
  match EngineMain.first_target_hit (direction levels) (pu_current_price update)
                                    (targets levels) with
  | Some _ => true
  | None => false
  end.

(** A level is a swing point of the prices: strictly beyond its two
    neighbours on either side. *)
Definition swing_point_of (is_swing : list Q -> nat -> bool) (prices : list Q)
    (level : Q) : Prop :=
  exists i, (2 <= i < length prices - 2)%nat /\
            is_swing prices i = true /\ level = nth i prices 0.

(** What a level finder returns when it computes the levels from the
    prices: at most five swing points of the first hundred prices, each with
    a confidence between 0.2 and 1, the nearest to the entry first. *)
Definition computed_levels (is_swing : list Q -> nat -> bool) (entry : Q)
    (prices : list Q) (levels : list (Q * Q)) : Prop :=
  (length levels <= 5)%nat /\
  Forall (fun lc => swing_point_of is_swing (firstn 100 prices) (fst lc) /\
                    0.2 <= snd lc <= 1) levels /\
  StronglySorted (fun a b => Qabs (fst a - entry) <= Qabs (fst b - entry)) levels.

(** The price has reached a target price: at or above it for a long, at or
    below it for a short. *)
Definition reached (direction : string) (current price : Q) : bool :=
  (String.eqb direction "long" && Py.Qleb price current) ||
  (String.eqb direction "short" && Py.Qleb current price).

(** [found] is the first element of [l] that satisfies [test], if any. *)
Definition first_such {A} (test : A -> bool) (l : list A) (found : option A) : Prop :=
  match found with
  | Some x => exists pre post, l = pre ++ x :: post /\ test x = true /\
                               Forall (fun y => test y = false) pre
  | None => Forall (fun y => test y = false) l
  end.

(** A market of fifteen identical bars (high 102, low 98, close 100), and
    the same with bars that make a swing low at 95 and a swing high at
    106. *)
Definition flat_market : MarketContext :=
  {| highs := repeat 102 15; lows := repeat 98 15; closes := repeat 100 15;
     mc_current_price := 100;
     support_levels := None; resistance_levels := None; regime := None |}.

Definition swing_market : MarketContext :=
  {| highs := [102; 102; 106; 102; 102] ++ repeat 102 10;
     lows := [98; 98; 95; 98; 98] ++ repeat 98 10;
     closes := repeat 100 15;
     mc_current_price := 100;
     support_levels := None; resistance_levels := None; regime := None |}.

(** A long setup at 100 on the four-hour chart. *)
Definition example_setup : Engine.TradeSetup :=
  Engine.mkTradeSetup 100 "long" "4h" "BTCUSDT" 10000 1.0.

(** A market of five bars that carries a pre-calculated resistance at
    105. *)
Definition short_market : MarketContext :=
  {| highs := repeat 102 5; lows := repeat 98 5; closes := repeat 100 5;
     mc_current_price := 100;
     support_levels := None; resistance_levels := Some [105]; regime := None |}.

(** Levels of a long at 100 with its primary stop at 96 and one target at
    104, and an update at a given price. *)
Definition example_levels : RiskLevels :=
  {| stops := [ Engine.mkStopLevel 96 Engine.PRIMARY 0.6
                  (Py.Txt "{}x ATR stop" [Py.Num 2.0]) 4 ];
     targets := [ Engine.mkTargetLevel 104 Engine.EXTENSION 33 0.5
                    (Py.Txt "{}R target" [Py.Num 2.0]) 4 ];
     position_size := 25; position_size_pct := 25; risk_amount := 100;
     risk_reward_ratio := 1; max_risk_reward_ratio := 1;
     win_probability := 0.5; expected_value := 0;
     entry_price := 100; direction := "long"; timeframe := "4h";
     guarding_line := None |}.

Definition example_update (price : Q) : PositionUpdate :=
  {| pu_current_price := price; bars_since_entry := 3;
     highest_since_entry := 101; lowest_since_entry := 95;
     unrealized_pnl := 0; unrealized_pnl_pct := 0 |}.

(** A long guarding line that starts at 100 and rises by 1 per bar from
    bar 10 on. *)
Definition example_line : Py.LineParams :=
  {| Py.slope := 1; Py.intercept := 100; Py.activation_bar := Some 10%Z;
     Py.buffer_pct := 0.3; Py.slope_source := None; Py.base_level := None |}.

End EngineNotions.

(* ===================================================================== *)
(** * Notions about the result of [RiskEngine.update_position] *)
(* ===================================================================== *)

Module UpdateNotions.

Import RiskEngine.

(** [b] reports the guarding line as [a] does. *)
Definition same_guarding (a b : RiskUpdate) : Prop :=
  guarding_active b = guarding_active a /\
  guarding_broken b = guarding_broken a /\
  guarding_level b = guarding_level a.

(** [b] reports the move of the stop as [a] does. *)
Definition same_stop_report (a b : RiskUpdate) : Prop :=
  stop_moved b = stop_moved a /\
  new_stop_price b = new_stop_price a.

(** The breach that the guarding block finds at the update, if any: the
    level of the line at the bar and the reason of the break. *)
Definition guarding_breach (config : RiskEngineConfig) (levels : RiskLevels)
    (update : PositionUpdate) : option (Q * Py.Text) :=
  match guarding_line levels with
  | Some line =>
      if (guarding_activation_bars config <=? bars_since_entry update)%Z then
        let level :=
          get_current_level (guarding_manager config) line (bars_since_entry update) in
        let '(is_broken, reason) :=
          check_break (pu_current_price update) level (direction levels) in
        if is_broken then Some (level, reason) else None
      else None
  | None => None
  end.

(** The momentum block of a call runs: candles are given, there are at least
    five of them, and dynamic targets are enabled. *)
Definition momentum_runs (config : RiskEngineConfig) (ohlcv : option (list Bar)) : bool :=
  match ohlcv with
  | Some bars => enable_dynamic_targets config && (5 <=? length bars)%nat
  | None => false
  end.

(** The closes that [_detect_divergence] keeps, and the average gain and
    loss over their last [rsi_period] changes. *)
Definition kept_closes (config : RiskEngineConfig) (ohlcv : list Bar) : list Q :=
  Py.last_slice (divergence_lookback config) (map bar_close ohlcv).

Definition changes (close : list Q) : list Q :=
  map (fun p => snd p - fst p) (combine close (tl close)).

Definition avg_gain (config : RiskEngineConfig) (ohlcv : list Bar) : Q :=
  Py.mean (Py.last_slice (rsi_period config)
             (map (fun d => if Py.Qltb 0 d then d else 0)
                  (changes (kept_closes config ohlcv)))).

Definition avg_loss (config : RiskEngineConfig) (ohlcv : list Bar) : Q :=
  Py.mean (Py.last_slice (rsi_period config)
             (map (fun d => if Py.Qltb d 0 then - d else 0)
                  (changes (kept_closes config ohlcv)))).

(** The example position of [Notions] with a guarding line that starts at
    90 and rises by 1 per bar from bar 10 on, and an update at bar 12. *)
Definition guarded_levels : RiskLevels :=
  {| stops := stops Notions.example_levels;
     targets := targets Notions.example_levels;
     position_size := 100; position_size_pct := 9.2; risk_amount := 600;
     risk_reward_ratio := 0.5; max_risk_reward_ratio := 0.5;
     entry_price := 92; direction := "long"; timeframe := "4h";
     symbol := "BTCUSDT"; current_price := 92;
     guarding_line :=
       Some {| Py.slope := 1; Py.intercept := 90; Py.activation_bar := Some 10%Z;
               Py.buffer_pct := 0.3; Py.slope_source := None;
               Py.base_level := None |};
     entry_blocked := false; block_reason := None;
     volatility_regime := NORMAL; atr_current := 3; atr_pct := 3.26;
     breakeven_price := 92.092; one_r_price := 98 |}.

Definition late_update (price : Q) : PositionUpdate :=
  {| pu_current_price := price; bars_since_entry := 12;
     highest_since_entry := 101; lowest_since_entry := 90;
     unrealized_pnl_pct := 0;
     recent_lows := None; recent_highs := None |}.

(** A long at 100 whose stops and targets are computed from an ATR of 2
    alone. *)
Definition atr_only_levels : RiskLevels :=
  {| stops :=
       match _calculate_stops default_config 100 "long" None 2 with
       | Some stops => stops
       | None => []
       end;
     targets :=
       match _calculate_targets default_config 100 "long" None [] 2 with
       | Some targets => targets
       | None => []
       end;
     position_size := 25; position_size_pct := 25; risk_amount := 100;
     risk_reward_ratio := 0; max_risk_reward_ratio := 0;
     entry_price := 100; direction := "long"; timeframe := "1h";
     symbol := "BTCUSDT"; current_price := 100; guarding_line := None;
     entry_blocked := false; block_reason := None;
     volatility_regime := NORMAL; atr_current := 2; atr_pct := 2;
     breakeven_price := 0; one_r_price := 0 |}.

(** Every call of the sequence that uses the key is for a long position
    ([long = true]), or none of them is ([long = false]). *)
Definition calls_of_key (long : bool) (key : string)
    (calls : list (RiskLevels * PositionUpdate * option (list Bar) * option string))
  : Prop :=
  Forall (fun call =>
            let '(levels, _, _, session_id) := call in
            momentum_key levels session_id = key ->
            String.eqb (direction levels) "long" = long)
         calls.

(** A momentum state that trails a long at 95. *)
Definition trailing_state : MomentumState :=
  {| active := true; trailing_level := 95; ms_slope := 0.5; slope_strength := 0.8;
     bars_in_momentum := 2%Z; peak_price := 101; trail_buffer_pct := 0.5;
     last_candle_body_high := 100; last_candle_body_low := 99;
     activation_r := 1.2 |}.

(** The older and the newer half of the kept closes. *)
Definition first_half (config : RiskEngineConfig) (ohlcv : list Bar) : list Q :=
  firstn (length (kept_closes config ohlcv) / 2) (kept_closes config ohlcv).

Definition second_half (config : RiskEngineConfig) (ohlcv : list Bar) : list Q :=
  skipn (length (kept_closes config ohlcv) / 2) (kept_closes config ohlcv).

End UpdateNotions.

(* ===================================================================== *)
(** * Facts about the primitives *)
(* ===================================================================== *)

(** Case analysis on every [Qmax] / [Qmin] of the goal: each is replaced by
    a fresh number together with the two cases of its specification. *)
Ltac minmax_cases :=
  repeat match goal with
  | |- context [Qmax ?a ?b] =>
      generalize (Q.max_spec a b); generalize (Qmax a b); intro
  | |- context [Qmin ?a ?b] =>
      generalize (Q.min_spec a b); generalize (Qmin a b); intro
  end;
  intros;
  repeat match goal with
  | H : _ /\ _ \/ _ /\ _ |- _ => destruct H as [[? ?]|[? ?]]
  end.

Module PyFacts.
Import Py.

Lemma Qltb_true a b : Qltb a b = true <-> a < b.
Proof.
  unfold Qltb. destruct (Qlt_le_dec a b) as [H|H]; split; intros H'; auto.
  - discriminate.
  - lra.
Qed.

Lemma Qltb_false a b : Qltb a b = false <-> b <= a.
Proof.
  unfold Qltb. destruct (Qlt_le_dec a b) as [H|H]; split; intros H'; auto.
  - discriminate.
  - lra.
Qed.

Lemma Qleb_true a b : Qleb a b = true <-> a <= b.
Proof. apply Qle_bool_iff. Qed.

Lemma Qleb_false a b : Qleb a b = false <-> b < a.
Proof.
  unfold Qleb. split; intros H.
  - destruct (Qlt_le_dec b a) as [H'|H']; auto.
    apply Qle_bool_iff in H'. congruence.
  - destruct (Qle_bool a b) eqn:E; auto. apply Qle_bool_iff in E. lra.
Qed.

(** [np.polyfit] returns the least-squares line as soon as two of the
    abscissas differ. *)
Lemma polyfit_distinct x y a b :
  In a x -> In b x -> ~ a == b -> polyfit x y = Some (polyfit1 x y).
Proof.
  intros Ha Hb Hab. unfold polyfit.
  destruct x as [|c rest]; [destruct Ha|].
  destruct (forallb (Qeq_bool c) rest) eqn:E; [|reflexivity].
  exfalso. apply Hab.
  assert (Hall : forall z, In z (c :: rest) -> c == z).
  { intros z [<-|Hz]; [reflexivity|].
    apply Qeq_bool_iff. revert z Hz. apply List.forallb_forall. exact E. }
  rewrite <- (Hall a Ha), <- (Hall b Hb). reflexivity.
Qed.

(** The fit over [np.arange(n)] for at least two points. *)
Lemma polyfit_arange n y :
  (2 <= n)%nat -> polyfit (arange n) y = Some (polyfit1 (arange n) y).
Proof.
  intros Hn.
  apply (polyfit_distinct _ _ (inject_Z (Z.of_nat 0)) (inject_Z (Z.of_nat 1))).
  - unfold arange. apply in_map_iff. exists 0%nat.
    split; [reflexivity|]. apply in_seq. lia.
  - unfold arange. apply in_map_iff. exists 1%nat.
    split; [reflexivity|]. apply in_seq. lia.
  - intros H. discriminate H.
Qed.

(** The fit of a single point at [x = 0], and of no point, raises. *)
Lemma polyfit_short n y : (n < 2)%nat -> polyfit (arange n) y = None.
Proof.
  intros Hn. destruct n as [|[|n]]; [reflexivity|reflexivity|lia].
Qed.

(** The fit through at least two swing points, whose indices differ. *)
Lemma polyfit_swings (f : nat -> bool) (g : nat -> Q) a k y :
  let sp := map (fun i => (i, g i)) (List.filter f (seq a k)) in
  (2 <= length sp)%nat ->
  polyfit (map (fun p => inject_Z (Z.of_nat (fst p))) sp) y
  = Some (polyfit1 (map (fun p => inject_Z (Z.of_nat (fst p))) sp) y).
Proof.
  intros sp Hlen. subst sp.
  assert (Hnd : List.NoDup (List.filter f (seq a k)))
    by (apply List.NoDup_filter, List.seq_NoDup).
  destruct (List.filter f (seq a k)) as [|i [|j t]];
    [simpl in Hlen; lia|simpl in Hlen; lia|].
  apply (polyfit_distinct _ _ (inject_Z (Z.of_nat i)) (inject_Z (Z.of_nat j))).
  - left. reflexivity.
  - right. left. reflexivity.
  - intros H. unfold Qeq in H. cbn [Qnum Qden inject_Z] in H.
    assert (i = j) by lia. subst j.
    apply List.NoDup_cons_iff in Hnd. apply (proj1 Hnd). left. reflexivity.
Qed.

Lemma in_insert_by {A} (key : A -> Q) x y (l : list A) :
  In y (insert_by key x l) -> y = x \/ In y l.
Proof.
  induction l as [|z t IH]; simpl.
  - intros [<-|[]]. now left.
  - destruct (Qle_bool (key x) (key z)); simpl.
    + intros [<-|[<-|H]]; auto.
    + intros [<-|H]; auto. destruct (IH H); auto.
Qed.

Lemma in_sort_by {A} (key : A -> Q) y (l : list A) :
  In y (sort_by key l) -> In y l.
Proof.
  induction l as [|x t IH]; simpl; auto.
  intros H. apply in_insert_by in H as [->|H]; auto.
Qed.

Lemma in_firstn {A} n (y : A) (l : list A) : In y (firstn n l) -> In y l.
Proof.
  revert l. induction n as [|n IH]; intros [|x t]; simpl; try tauto.
  intros [->|H]; auto.
Qed.

End PyFacts.

(* ===================================================================== *)
(** * core/engine.py and core/risk_engine.py: stops, targets, sizing *)
(* ===================================================================== *)

Module EngineFacts.
Import Py PyFacts Engine Notions.

Lemma div_ok a b : ~ b == 0 -> div a b = Some (a / b).
Proof.
  intros H. unfold div. destruct (Qeq_bool b 0) eqn:E; auto.
  apply Qeq_bool_iff in E. contradiction.
Qed.

Lemma index_or_last_ok {A} (l : list A) i :
  l <> [] -> exists x, index_or_last l i = Some x.
Proof.
  intros Hl. unfold index_or_last. destruct (nth_error l i); eauto.
  destruct l as [|a l]; [congruence|]. clear Hl.
  revert a. induction l as [|b l IH]; intros a; simpl; eauto.
  exact (IH b).
Qed.

Section WithConfig.

Variable config : RiskEngineConfig.
Variables entry atr : Q.
Hypothesis entry_pos : 0 < entry.
Hypothesis atr_pos : 0 < atr.
Hypothesis mult_pos : 0 < atr_stop_multiplier config.
Hypothesis max_stop_pos : 0 < max_stop_pct config.

Lemma stop_dist_pos : 0 < atr * atr_stop_multiplier config.
Proof. apply Qmult_lt_0_compat; assumption. Qed.

Lemma structural_stop_side long levels :
  exists stops,
    structural_stop config entry atr long levels = Some stops /\
    Forall (fun s => beyond entry long (sl_price s)) stops.
Proof.
  unfold structural_stop. destruct levels as [|[p c] t]; [eauto|].
  destruct (if long then Qltb p entry else Qltb entry p) eqn:E; [|eauto].
  rewrite div_ok by lra. simpl.
  destruct (Qleb _ _); eexists; split; eauto.
  constructor; [|constructor]. simpl.
  destruct long; simpl; apply Qltb_true in E; lra.
Qed.

Lemma structural_targets_side long i levels :
  partial_exit_ratios config <> [] ->
  Forall (fun lc => beyond entry (negb long) (fst lc)) levels ->
  exists targets,
    structural_targets config entry (atr * atr_stop_multiplier config) long i levels
      = Some targets /\
    Forall (fun t => beyond entry (negb long) (tl_price t)) targets.
Proof.
  intros Hr. revert i. induction levels as [|[p c] t IH]; intros i Hall; simpl.
  - eauto.
  - inversion Hall as [|? ? Hp Ht]; subst.
    pose proof stop_dist_pos as Hd.
    rewrite (div_ok _ (atr * atr_stop_multiplier config)) by lra.
    rewrite (div_ok _ entry) by lra.
    destruct (IH (S i) Ht) as [more [Hmore Hside]].
    destruct (index_or_last_ok (partial_exit_ratios config) i Hr) as [x Hx].
    rewrite Hmore, Hx. simpl.
    destruct (Qleb (min_rr_ratio config) _); simpl; eauto.
Qed.

Lemma extension_targets_side long i multiples :
  partial_exit_ratios config <> [] ->
  Forall (fun m => 0 < m) multiples ->
  exists targets,
    extension_targets config entry (atr * atr_stop_multiplier config) long i multiples
      = Some targets /\
    Forall (fun t => beyond entry (negb long) (tl_price t)) targets.
Proof.
  intros Hr. revert i. induction multiples as [|m t IH]; intros i Hall; simpl.
  - eauto.
  - inversion Hall as [|? ? Hm Ht]; subst.
    pose proof stop_dist_pos as Hd.
    destruct (IH (S i) Ht) as [more [Hmore Hside]].
    destruct (index_or_last_ok (partial_exit_ratios config) i Hr) as [x Hx].
    rewrite Hx, (div_ok _ entry), Hmore by lra. simpl.
    eexists; split; eauto. constructor; auto. simpl.
    assert (0 < atr * atr_stop_multiplier config * m)
      by (apply Qmult_lt_0_compat; assumption).
    destruct long; simpl; lra.
Qed.

Lemma sorted_slice_side {A} (key : A -> Q) (price : A -> Q) f n (l : list A) long :
  (forall x, f x = true -> beyond entry long (price x)) ->
  Forall (fun x => beyond entry long (price x)) (firstn n (sort_by key (List.filter f l))).
Proof.
  intros Hf. apply List.Forall_forall. intros x Hx.
  apply in_firstn, in_sort_by, filter_In in Hx. apply Hf, Hx.
Qed.

Lemma calculate_stops_side (setup : TradeSetup) supports resistances :
  entry_price setup = entry ->
  exists stops,
    _calculate_stops config setup supports resistances atr = Some stops /\
    Forall (fun s => beyond entry (String.eqb (direction setup) "long") (sl_price s)) stops.
Proof.
  intros He. unfold _calculate_stops. rewrite He.
  pose proof stop_dist_pos as Hd.
  assert (Hm : 0 < entry * (max_stop_pct config / 100)).
  { apply Qmult_lt_0_compat; [lra|]. apply Qlt_shift_div_l; lra. }
  destruct (String.eqb (direction setup) "long").
  - destruct (structural_stop_side true supports) as [st [-> Hst]]. simpl.
    rewrite !(div_ok _ entry) by lra.
    destruct st as [|s0 st]; simpl;
      destruct (enable_multi_tier_stops config); eexists; (split; [reflexivity|]);
      repeat first [ apply Forall_app; split | apply List.Forall_cons
                   | apply List.Forall_nil | exact Hst
                   | inversion Hst; subst; assumption ];
      unfold beyond; cbn [sl_price]; lra.
  - destruct (structural_stop_side false resistances) as [st [-> Hst]]. simpl.
    rewrite !(div_ok _ entry) by lra.
    destruct st as [|s0 st]; simpl;
      destruct (enable_multi_tier_stops config); eexists; (split; [reflexivity|]);
      repeat first [ apply Forall_app; split | apply List.Forall_cons
                   | apply List.Forall_nil | exact Hst
                   | inversion Hst; subst; assumption ];
      unfold beyond; cbn [sl_price]; lra.
Qed.

Lemma calculate_targets_side (setup : TradeSetup) supports resistances :
  entry_price setup = entry ->
  partial_exit_ratios config <> [] ->
  exists targets,
    _calculate_targets config setup supports resistances atr = Some targets /\
    Forall (fun t => beyond entry (negb (String.eqb (direction setup) "long")) (tl_price t))
           targets.
Proof.
  intros He Hr. unfold _calculate_targets. rewrite He.
  assert (Hmul : Forall (fun m => 0 < m) [2.0; 3.0; 5.0]) by (repeat constructor).
  destruct (String.eqb (direction setup) "long").
  - edestruct (structural_targets_side true 0) as [tg [-> Htg]]; eauto.
    { apply (sorted_slice_side fst fst _ 3 resistances false).
      intros x Hx. apply Qltb_true in Hx. exact Hx. }
    cbn [mbind option_bind]. destruct tg; eauto.
    apply (extension_targets_side true); auto.
  - edestruct (structural_targets_side false 0) as [tg [-> Htg]]; eauto.
    { apply (sorted_slice_side (fun sc => - fst sc) fst _ 3 supports true).
      intros x Hx. apply Qltb_true in Hx. exact Hx. }
    cbn [mbind option_bind]. destruct tg; eauto.
    apply (extension_targets_side false); auto.
Qed.

End WithConfig.

End EngineFacts.

Module RiskEngineStopFacts.
Import Py PyFacts EngineFacts RiskEngine Notions.

Section WithConfig.

Variable config : RiskEngineConfig.
Variables entry atr : Q.
Hypothesis entry_pos : 0 < entry.
Hypothesis atr_pos : 0 < atr.
Hypothesis mult_pos : 0 < atr_stop_multiplier config.
Hypothesis max_stop_pos : 0 < max_stop_pct config.

Lemma bastion_structural_stop_side long level :
  exists stops,
    structural_stop config entry atr long level = Some stops /\
    Forall (fun s => beyond entry long (stop_price s)) stops.
Proof.
  unfold structural_stop. destruct level as [level|]; [|eauto].
  destruct (if long then Qltb (level_price level) entry
            else Qltb entry (level_price level)) eqn:E; [|eauto].
  rewrite div_ok by lra. cbn [mbind option_bind].
  destruct (Qleb _ (max_stop_pct config)); eexists; (split; [reflexivity|]); auto.
  apply List.Forall_cons; auto. unfold beyond. cbn [stop_price].
  destruct long; apply Qltb_true in E; lra.
Qed.

Lemma bastion_calculate_stops_side direction structure_analysis :
  exists stops,
    _calculate_stops config entry direction structure_analysis atr = Some stops /\
    Forall (fun s => beyond entry (String.eqb direction "long") (stop_price s)) stops.
Proof.
  unfold _calculate_stops.
  assert (Hd : 0 < atr * atr_stop_multiplier config)
    by (apply Qmult_lt_0_compat; assumption).
  assert (Hm : 0 < entry * (max_stop_pct config / 100)).
  { apply Qmult_lt_0_compat; [lra|]. apply Qlt_shift_div_l; lra. }
  set (long := String.eqb direction "long").
  destruct (bastion_structural_stop_side long
              (a ← structure_analysis;
               if long then best_support a else best_resistance a))
    as [st [-> Hst]].
  cbn [mbind option_bind]. rewrite !(div_ok _ entry) by lra.
  destruct st as [|s0 st]; cbn [mbind option_bind];
    destruct (enable_multi_tier_stops config); eexists; (split; [reflexivity|]);
    repeat first [ apply Forall_app; split | apply List.Forall_cons
                 | apply List.Forall_nil | exact Hst
                 | inversion Hst; subst; assumption ];
    unfold beyond; cbn [stop_price]; destruct long; lra.
Qed.

Lemma candidate_targets_side long i candidates :
  partial_exit_ratios config <> [] ->
  Forall (fun c => beyond entry (negb long) (fst (fst c))) candidates ->
  exists targets,
    candidate_targets config entry i candidates = Some targets /\
    Forall (fun t => beyond entry (negb long) (target_price t)) targets.
Proof.
  intros Hr. revert i.
  induction candidates as [|[[p reason] ttype] rest IH]; intros i Hall;
    cbn [candidate_targets].
  - eauto.
  - inversion Hall as [|? ? Hp Hrest]; subst.
    destruct (IH (S i) Hrest) as [more [Hmore Hside]].
    destruct (index_or_last_ok (partial_exit_ratios config) i Hr) as [x Hx].
    rewrite Hx, (div_ok _ entry), Hmore by lra. cbn [mbind option_bind].
    eexists; split; [reflexivity|]. apply List.Forall_cons; assumption.
Qed.

Lemma r_multiple_targets_side direction i multiples :
  partial_exit_ratios config <> [] ->
  Forall (fun m => 0 < m) multiples ->
  exists targets,
    r_multiple_targets config entry (atr * atr_stop_multiplier config) direction
      i multiples = Some targets /\
    Forall (fun t => beyond entry (negb (String.eqb direction "long")) (target_price t))
           targets.
Proof.
  intros Hr. revert i.
  induction multiples as [|m rest IH]; intros i Hall; cbn [r_multiple_targets].
  - eauto.
  - inversion Hall as [|? ? Hm Hrest]; subst.
    destruct (IH (S i) Hrest) as [more [Hmore Hside]].
    destruct (index_or_last_ok (partial_exit_ratios config) i Hr) as [x Hx].
    rewrite Hx, (div_ok _ entry), Hmore by lra. cbn [mbind option_bind].
    eexists; split; [reflexivity|]. apply List.Forall_cons; [|assumption].
    cbn [target_price].
    assert (0 < atr * atr_stop_multiplier config * m).
    { apply Qmult_lt_0_compat; [apply Qmult_lt_0_compat|]; assumption. }
    destruct (String.eqb direction "long"); unfold beyond; cbn [negb]; lra.
Qed.

(** The targets of core/risk_engine.py are on the profit side of the entry
    as soon as those that the volume-profile analyzer supplies are. *)
Lemma bastion_calculate_targets_side direction structure_analysis vpvr_targets :
  direction = "long"%string \/ direction = "short"%string ->
  partial_exit_ratios config <> [] ->
  Forall (fun pr => beyond entry (negb (String.eqb direction "long")) (fst pr))
         vpvr_targets ->
  exists targets,
    _calculate_targets config entry direction structure_analysis vpvr_targets atr
      = Some targets /\
    Forall (fun t => beyond entry (negb (String.eqb direction "long")) (target_price t))
           targets.
Proof.
  intros Hdir Hr Hv. unfold _calculate_targets.
  set (structural := match structure_analysis with None => [] | Some a => _ end).
  assert (Hs : Forall (fun c => beyond entry (negb (String.eqb direction "long"))
                                       (fst (fst c))) structural).
  { subst structural. destruct structure_analysis as [a|]; [|constructor].
    destruct Hdir as [-> | ->]; cbn [String.eqb Ascii.eqb Bool.eqb negb].
    - destruct (best_resistance a) as [res|]; [|constructor].
      destruct (Qltb entry (level_price res)) eqn:E; [|constructor].
      apply Qltb_true in E. repeat constructor. exact E.
    - destruct (best_support a) as [sup|].
      + destruct (Qltb (level_price sup) entry) eqn:E; [|constructor].
        apply Qltb_true in E. repeat constructor. exact E.
      + constructor. }
  set (all := map _ vpvr_targets ++ structural).
  assert (Hall : Forall (fun c => beyond entry (negb (String.eqb direction "long"))
                                         (fst (fst c))) all).
  { subst all. apply Forall_app. split; [|exact Hs].
    apply List.Forall_map. exact Hv. }
  assert (Hcand : Forall (fun c => beyond entry (negb (String.eqb direction "long"))
                                          (fst (fst c)))
                         (firstn 3 (sort_by (fun t => Qabs (fst (fst t) - entry)) all))).
  { apply List.Forall_forall. intros c Hc.
    apply in_firstn, in_sort_by in Hc. revert c Hc. apply List.Forall_forall.
    exact Hall. }
  destruct (candidate_targets_side (String.eqb direction "long") 0 _ Hr Hcand)
    as [targets [-> Hside]].
  cbn [mbind option_bind].
  destruct targets as [|t ts]; [|eauto].
  apply r_multiple_targets_side; [exact Hr|repeat constructor].
Qed.

End WithConfig.

End RiskEngineStopFacts.

(* ===================================================================== *)
(** * Stops below, targets above the entry *)
(* ===================================================================== *)

(** Scenario A of the specification: entry 95000, long, ATR 600, multiplier
    2.0, maximum stop 5%: the fallback primary stop is 93800, the secondary
    stop 93200 and the safety net 90250. *)
Example scenario_A_stop_ladder :
  option_map (map (fun s => Qred (Engine.sl_price s)))
    (Engine._calculate_stops Engine.default_config
       (Engine.mkTradeSetup 95000 "long" "4h" "BTCUSDT" 100000 1.0) [] [] 600)
  = Some [93800; 93200; 90250].
Proof. vm_compute. reflexivity. Qed.

(** Scenario D of the specification: a guarding line with slope 50 per bar
    and intercept 94000, active from bar 10, stands at 94250 at bar 15; a
    price below that level breaks it and the call asks for a full exit. *)
Example scenario_D_guarding_line :
  let line := Py.mkLineParams 50 94000 (Some 10%Z) 0.3 None None in
  let levels :=
    {| RiskEngine.stops := []; RiskEngine.targets := [];
       RiskEngine.position_size := 0; RiskEngine.position_size_pct := 0;
       RiskEngine.risk_amount := 0; RiskEngine.risk_reward_ratio := 0;
       RiskEngine.max_risk_reward_ratio := 0;
       RiskEngine.entry_price := 95000; RiskEngine.direction := "long";
       RiskEngine.timeframe := "4h"; RiskEngine.symbol := "BTCUSDT";
       RiskEngine.current_price := 95000; RiskEngine.guarding_line := Some line;
       RiskEngine.entry_blocked := false; RiskEngine.block_reason := None;
       RiskEngine.volatility_regime := RiskEngine.NORMAL;
       RiskEngine.atr_current := 600; RiskEngine.atr_pct := 0.63;
       RiskEngine.breakeven_price := 0; RiskEngine.one_r_price := 0 |} in
  let update :=
    {| RiskEngine.pu_current_price := 94200; RiskEngine.bars_since_entry := 15;
       RiskEngine.highest_since_entry := 96000;
       RiskEngine.lowest_since_entry := 94200;
       RiskEngine.unrealized_pnl_pct := -0.84;
       RiskEngine.recent_lows := None; RiskEngine.recent_highs := None |} in
  RiskEngine.get_current_level
    (RiskEngine.guarding_manager RiskEngine.default_config) line 15 == 94250 /\
  exists r,
    fst (fst (RiskEngine.update_position RiskEngine.default_config ∅ levels update
                None None)) = Some r /\
    RiskEngine.guarding_broken r = true /\
    RiskEngine.exit_signal r = true /\
    RiskEngine.exit_percentage r == 100.
Proof.
  cbv zeta. split; [reflexivity|].
  eexists. split; [vm_compute; reflexivity|]. repeat split.
Qed.

(** Scenario C of the specification: a long position whose price reaches
    entry + (entry - stop), that is exactly 1R: the breakeven is hit and the
    new stop is above the old one. *)
Example scenario_C_breakeven :
  exists r,
    fst (fst (RiskEngine.update_position RiskEngine.default_config ∅
                Notions.example_levels (Notions.example_update 98) None None))
      = Some r /\
    RiskEngine.current_r_multiple r == 1 /\
    RiskEngine.breakeven_hit r = true /\
    RiskEngine.moved_to_breakeven r = true /\
    RiskEngine.new_stop_price r = Some 92.092 /\
    86 < 92.092.
Proof.
  eexists. split; [vm_compute; reflexivity|]. repeat split.
Qed.

(** C3.  For a long setup with a positive entry price and a strictly
    positive ATR, under a configuration whose ATR multiplier and maximum
    stop percentage are positive (and, for the targets, a non-empty schedule
    of exit ratios), the stop ladders of core/engine.py and of
    core/risk_engine.py are computed and every stop price is strictly below
    the entry, and the targets of core/engine.py are computed and every
    target price is strictly above the entry.  For a short setup the
    inequalities are inverted. *)
Theorem C3_stops_and_targets_sides :
  forall (ecfg : Engine.RiskEngineConfig) (rcfg : RiskEngine.RiskEngineConfig)
         (setup : Engine.TradeSetup) (supports resistances : list (Q * Q))
         (structure_analysis : option RiskEngine.StructureAnalysis) (atr : Q),
    0 < Engine.entry_price setup ->
    0 < atr ->
    0 < Engine.atr_stop_multiplier ecfg ->
    0 < Engine.max_stop_pct ecfg ->
    Engine.partial_exit_ratios ecfg <> [] ->
    0 < RiskEngine.atr_stop_multiplier rcfg ->
    0 < RiskEngine.max_stop_pct rcfg ->
    let entry := Engine.entry_price setup in
    (Engine.direction setup = "long"%string ->
       (exists stops,
          Engine._calculate_stops ecfg setup supports resistances atr = Some stops /\
          Forall (fun s => Engine.sl_price s < entry) stops) /\
       (exists targets,
          Engine._calculate_targets ecfg setup supports resistances atr = Some targets /\
          Forall (fun t => entry < Engine.tl_price t) targets) /\
       (exists stops,
          RiskEngine._calculate_stops rcfg entry "long" structure_analysis atr
            = Some stops /\
          Forall (fun s => RiskEngine.stop_price s < entry) stops)) /\
    (Engine.direction setup = "short"%string ->
       (exists stops,
          Engine._calculate_stops ecfg setup supports resistances atr = Some stops /\
          Forall (fun s => entry < Engine.sl_price s) stops) /\
       (exists targets,
          Engine._calculate_targets ecfg setup supports resistances atr = Some targets /\
          Forall (fun t => Engine.tl_price t < entry) targets) /\
       (exists stops,
          RiskEngine._calculate_stops rcfg entry "short" structure_analysis atr
            = Some stops /\
          Forall (fun s => entry < RiskEngine.stop_price s) stops)).
Proof.
  intros ecfg rcfg setup supports resistances sa atr He Ha Hm Hs Hr Hm' Hs' entry.
  pose proof (EngineFacts.calculate_stops_side ecfg entry atr He Ha Hm Hs
                setup supports resistances eq_refl) as H1.
  pose proof (EngineFacts.calculate_targets_side ecfg entry atr He Ha Hm
                setup supports resistances eq_refl Hr) as H2.
  split; intros Hdir; rewrite Hdir in H1, H2; (split; [exact H1|split; [exact H2|]]).
  - exact (RiskEngineStopFacts.bastion_calculate_stops_side rcfg entry atr He Ha Hm' Hs'
             "long" sa).
  - exact (RiskEngineStopFacts.bastion_calculate_stops_side rcfg entry atr He Ha Hm' Hs'
             "short" sa).
Qed.

(** The theorem at scenario A, with one resistance above and one support
    below the entry. *)
Lemma C3_stops_and_targets_sides_witness :
  let setup := Engine.mkTradeSetup 95000 "long" "4h" "BTCUSDT" 100000 1.0 in
  exists stops targets,
    Engine._calculate_stops Engine.default_config setup
      [(94000, 0.8)] [(99000, 0.8)] 600 = Some stops /\
    Engine._calculate_targets Engine.default_config setup
      [(94000, 0.8)] [(99000, 0.8)] 600 = Some targets /\
    Forall (fun s => Engine.sl_price s < 95000) stops /\
    Forall (fun t => 95000 < Engine.tl_price t) targets.
Proof.
  intros setup.
  destruct (C3_stops_and_targets_sides Engine.default_config
              RiskEngine.default_config setup [(94000, 0.8)] [(99000, 0.8)]
              None 600) as [Hlong _];
    try reflexivity; try discriminate.
  destruct (Hlong eq_refl) as [[stops [E1 H1]] [[targets [E2 H2]] _]].
  exists stops, targets. repeat split; assumption.
Defined.

(* ===================================================================== *)
(** * Position sizing *)
(* ===================================================================== *)

Module SizingFacts.
Import Notions.

Lemma vol_factor_bounds atr_pct : 0.5 <= vol_factor atr_pct <= 2.0.
Proof.
  unfold vol_factor. generalize (2.0 / Qmax atr_pct 0.5). intros v.
  minmax_cases; lra.
Qed.

Lemma ratio_bounds (risk f lo hi : Q) :
  0 < risk -> lo <= f <= hi -> lo <= risk * f / risk <= hi.
Proof.
  intros Hr [Hlo Hhi].
  assert (E : risk * f / risk == f) by (field; lra).
  rewrite E. split; assumption.
Qed.

Lemma engine_effective (config : Engine.RiskEngineConfig) risk atr_pct :
  Engine.effective_risk_pct config risk atr_pct =
  if Engine.volatility_adjusted_sizing config then risk * vol_factor atr_pct
  else risk.
Proof. reflexivity. Qed.

Lemma risk_engine_effective (config : RiskEngine.RiskEngineConfig) regime risk atr_pct :
  RiskEngine.effective_risk_pct config regime risk atr_pct =
  let base := RiskEngine.adjusted_risk_pct config regime risk in
  if RiskEngine.volatility_adjusted_sizing config then base * vol_factor atr_pct
  else base.
Proof. reflexivity. Qed.

Lemma position_size_risk_amount (config : RiskEngine.RiskEngineConfig)
    balance risk entry risk_distance atr_pct ps pp ra :
  RiskEngine._calculate_position_size config balance risk entry risk_distance atr_pct
    = Some (ps, pp, ra) ->
  ra = balance * (RiskEngine.adjust_risk_pct config risk atr_pct / 100).
Proof.
  unfold RiskEngine._calculate_position_size.
  destruct (Py.div _ balance); cbn [mbind option_bind]; [|discriminate].
  intros [= _ _ <-]. reflexivity.
Qed.

End SizingFacts.

(** C1, as stated, fails in the extreme regime.  With the default
    configuration, a 100000 account, a base risk of 1% and an ATR of 5% of
    the entry price, position sizing risks 250, that is 0.25% of the
    account: the ratio to the base risk is 0.25, below 0.5. *)
Lemma C1_extreme_regime_counterexample :
  let levels :=
    {| RiskEngine.stops := [RiskEngine.mkStop 93800 (Some "atr"%string) None None None];
       RiskEngine.targets := [];
       RiskEngine.position_size := 0; RiskEngine.position_size_pct := 0;
       RiskEngine.risk_amount := 0; RiskEngine.risk_reward_ratio := 0;
       RiskEngine.max_risk_reward_ratio := 0;
       RiskEngine.entry_price := 95000; RiskEngine.direction := "long";
       RiskEngine.timeframe := "4h"; RiskEngine.symbol := "BTCUSDT";
       RiskEngine.current_price := 95000; RiskEngine.guarding_line := None;
       RiskEngine.entry_blocked := false; RiskEngine.block_reason := None;
       RiskEngine.volatility_regime := RiskEngine.EXTREME;
       RiskEngine.atr_current := 4750; RiskEngine.atr_pct := 5;
       RiskEngine.breakeven_price := 0; RiskEngine.one_r_price := 0 |} in
  let effective :=
    RiskEngine.effective_risk_pct RiskEngine.default_config RiskEngine.EXTREME 1.0 5 in
  (exists position_size position_size_pct risk_amount,
     RiskEngine.position_sizing RiskEngine.default_config levels 100000 1.0 4750
       = Some (position_size, position_size_pct, risk_amount) /\
     risk_amount == 250 /\
     risk_amount == 100000 * (effective / 100)) /\
  effective / 1.0 == 0.25 /\
  ~ (0.5 <= effective / 1.0 <= 2.0).
Proof.
  cbv zeta. split; [|split].
  - eexists _, _, _. split; [vm_compute; reflexivity|]. split; reflexivity.
  - reflexivity.
  - intros [H _]. vm_compute in H. apply H. reflexivity.
Qed.

(** C1, amended.  Whenever position sizing returns, the risk amount is the
    account balance times the effective risk percentage over 100.  For a
    positive base risk the ratio of the effective to the base risk
    percentage lies in [0.5, 2.0] in core/engine.py, and in
    core/risk_engine.py in the low, normal and high regimes; in the extreme
    regime it lies in [0.5 r, 2.0 r], where r is the configured
    [extreme_vol_size_reduction] (0.5 by default, hence [0.25, 1.0]). *)
Theorem C1_risk_amount_and_ratio :
  forall (ecfg : Engine.RiskEngineConfig) (setup : Engine.TradeSetup)
         (rcfg : RiskEngine.RiskEngineConfig) (levels : RiskEngine.RiskLevels)
         (account_balance risk_per_trade_pct risk_distance atr atr_pct : Q),
    0 < Engine.risk_per_trade_pct setup ->
    0 < risk_per_trade_pct ->
    0 <= RiskEngine.extreme_vol_size_reduction rcfg ->
    let e_eff := Engine.effective_risk_pct ecfg (Engine.risk_per_trade_pct setup) atr_pct in
    let r_eff :=
      RiskEngine.effective_risk_pct rcfg (RiskEngine.volatility_regime levels)
        risk_per_trade_pct (RiskEngine.atr_pct levels) in
    let r := RiskEngine.extreme_vol_size_reduction rcfg in
    (forall position_size position_pct risk_amount,
       Engine._calculate_position_size ecfg setup risk_distance atr_pct
         = Some (position_size, position_pct, risk_amount) ->
       risk_amount == Engine.account_balance setup * (e_eff / 100)) /\
    0.5 <= e_eff / Engine.risk_per_trade_pct setup <= 2.0 /\
    (forall position_size position_pct risk_amount,
       RiskEngine.position_sizing rcfg levels account_balance risk_per_trade_pct atr
         = Some (position_size, position_pct, risk_amount) ->
       risk_amount == account_balance * (r_eff / 100)) /\
    (RiskEngine.volatility_regime levels <> RiskEngine.EXTREME ->
       0.5 <= r_eff / risk_per_trade_pct <= 2.0) /\
    (RiskEngine.volatility_regime levels = RiskEngine.EXTREME ->
       0.5 * r <= r_eff / risk_per_trade_pct <= 2.0 * r).
Proof.
  intros ecfg setup rcfg levels balance risk rd atr atr_pct He Hr Hred e_eff r_eff r.
  pose proof (SizingFacts.vol_factor_bounds atr_pct) as Hv.
  pose proof (SizingFacts.vol_factor_bounds (RiskEngine.atr_pct levels)) as Hv'.
  assert (Hone : forall x, 0 < x -> x / x == 1) by (intros; field; lra).
  split; [|split; [|split; [|split]]].
  - intros ps pp ra. unfold Engine._calculate_position_size.
    destruct (Py.div _ (Engine.account_balance setup)); cbn [mbind option_bind];
      [|discriminate].
    intros [= _ _ <-]. reflexivity.
  - subst e_eff. rewrite SizingFacts.engine_effective.
    destruct (Engine.volatility_adjusted_sizing ecfg).
    + apply SizingFacts.ratio_bounds; [assumption | lra].
    + rewrite Hone by assumption. lra.
  - intros ps pp ra H. unfold RiskEngine.position_sizing in H.
    apply SizingFacts.position_size_risk_amount in H. rewrite H. reflexivity.
  - intros Hreg. subst r_eff. rewrite SizingFacts.risk_engine_effective. cbv zeta.
    destruct (RiskEngine.volatility_regime levels); try contradiction;
      cbn [RiskEngine.adjusted_risk_pct];
      (destruct (RiskEngine.volatility_adjusted_sizing rcfg);
       [apply SizingFacts.ratio_bounds; [assumption | lra]
       |rewrite Hone by assumption; lra]).
  - intros Hreg. subst r_eff r.
    rewrite SizingFacts.risk_engine_effective, Hreg. cbv zeta.
    cbn [RiskEngine.adjusted_risk_pct].
    set (red := RiskEngine.extreme_vol_size_reduction rcfg) in *.
    set (vf := Notions.vol_factor (RiskEngine.atr_pct levels)) in *.
    destruct (RiskEngine.volatility_adjusted_sizing rcfg).
    + assert (E : risk * red * vf / risk == red * vf) by (field; lra).
      rewrite E. nra.
    + assert (E : risk * red / risk == red) by (field; lra).
      rewrite E. lra.
Qed.

(* ===================================================================== *)
(** * The guarding line *)
(* ===================================================================== *)

Module GuardingFacts.
Import Py PyFacts.

Lemma fold_min_pos (l : list Q) (x : Q) :
  0 < x -> Forall (fun p => 0 < p) l -> 0 < fold_left Qmin l x.
Proof.
  revert x. induction l as [|y l IH]; intros x Hx Hl; simpl; auto.
  inversion Hl; subst. apply IH; auto.
  destruct (Q.min_spec x y) as [[_ E]|[_ E]]; rewrite E; assumption.
Qed.

Lemma fold_max_pos (l : list Q) (x : Q) :
  0 < x -> Forall (fun p => 0 < p) l -> 0 < fold_left Qmax l x.
Proof.
  revert x. induction l as [|y l IH]; intros x Hx Hl; simpl; auto.
  inversion Hl; subst. apply IH; auto.
  destruct (Q.max_spec x y) as [[_ E]|[_ E]]; rewrite E; assumption.
Qed.

Lemma list_min_pos l m :
  Forall (fun p => 0 < p) l -> list_min l = Some m -> 0 < m.
Proof.
  destruct l as [|x l]; [discriminate|]. intros Hl [= <-].
  inversion Hl; subst. apply fold_min_pos; assumption.
Qed.

Lemma list_max_pos l m :
  Forall (fun p => 0 < p) l -> list_max l = Some m -> 0 < m.
Proof.
  destruct l as [|x l]; [discriminate|]. intros Hl [= <-].
  inversion Hl; subst. apply fold_max_pos; assumption.
Qed.

Lemma Forall_firstn {A} (P : A -> Prop) n (l : list A) :
  Forall P l -> Forall P (firstn n l).
Proof.
  intros H. apply List.Forall_forall. intros x Hx.
  apply in_firstn in Hx. revert x Hx. apply List.Forall_forall. exact H.
Qed.

Lemma pct_pos (entry pct : Q) : 0 < entry -> 0 < pct -> 0 < entry * (pct / 100).
Proof.
  intros He Hp. apply Qmult_lt_0_compat; [assumption|].
  apply Qlt_shift_div_l; lra.
Qed.

Lemma pct_le (entry a b : Q) :
  0 < entry -> a <= b -> entry * (a / 100) <= entry * (b / 100).
Proof.
  intros He Hab.
  assert (E : entry * (b / 100) - entry * (a / 100) == entry * ((b - a) / 100))
    by (field).
  assert (0 <= entry * ((b - a) / 100)).
  { apply Qmult_le_0_compat; [lra|]. apply Qle_shift_div_l; lra. }
  lra.
Qed.

Section Manager.

Import RiskEngine.

Variable self : GuardingLineManager.
Variable entry : Q.
Hypothesis entry_pos : 0 < entry.
Hypothesis min_pos : 0 < min_slope_pct self.
Hypothesis min_le_max : min_slope_pct self <= max_slope_pct self.

(** The clamped slope of a long line lies between the minimum and the
    maximum slope; that of any other line between their opposites. *)
Lemma clamp_slope_long s :
  entry * (min_slope_pct self / 100) <= clamp_slope self entry "long" s
    <= entry * (max_slope_pct self / 100).
Proof.
  unfold clamp_slope. cbn [String.eqb Ascii.eqb Bool.eqb].
  pose proof (pct_pos entry _ entry_pos min_pos) as Hmin.
  pose proof (pct_le entry _ _ entry_pos min_le_max) as Hle.
  revert Hmin Hle.
  generalize (entry * (min_slope_pct self / 100)) (entry * (max_slope_pct self / 100)).
  intros mn mx Hmin Hle. minmax_cases; lra.
Qed.

Lemma clamp_slope_short direction s :
  String.eqb direction "long" = false ->
  - (entry * (max_slope_pct self / 100)) <= clamp_slope self entry direction s
    <= - (entry * (min_slope_pct self / 100)).
Proof.
  intros Hd. unfold clamp_slope. rewrite Hd.
  pose proof (pct_pos entry _ entry_pos min_pos) as Hmin.
  pose proof (pct_le entry _ _ entry_pos min_le_max) as Hle.
  assert (E : - entry * (min_slope_pct self / 100)
              == - (entry * (min_slope_pct self / 100))) by ring.
  revert Hmin Hle E.
  generalize (- entry * (min_slope_pct self / 100)).
  generalize (entry * (min_slope_pct self / 100)) (entry * (max_slope_pct self / 100)).
  intros mn mx nmn Hmin Hle E. minmax_cases; lra.
Qed.

(** The regression through the swing points that [_find_swing_points]
    returns, when there are at least two of them. *)
Lemma swing_points_fit prices direction :
  let sp := _find_swing_points prices direction in
  (2 <= length sp)%nat ->
  polyfit (map (fun p => inject_Z (Z.of_nat (fst p))) sp) (map snd sp)
  = Some (polyfit1 (map (fun p => inject_Z (Z.of_nat (fst p))) sp) (map snd sp)).
Proof.
  cbv zeta. unfold _find_swing_points.
  destruct (length prices <? 5)%nat; [simpl; lia|].
  intros Hlen. apply polyfit_swings. exact Hlen.
Qed.

(** With at least five prices and a look-back of at least two bars the line
    is computed. *)
Lemma calculate_initial_line_returns direction price_data lookback :
  (5 <= length price_data)%nat -> (2 <= lookback)%nat ->
  exists params,
    calculate_initial_line self entry direction price_data lookback = Some params.
Proof.
  intros Hlen Hlb. unfold calculate_initial_line.
  destruct (Nat.ltb_spec (length price_data) 5) as [H|_]; [lia|].
  set (recent := firstn _ price_data).
  assert (Hrec : (2 <= length recent)%nat).
  { subst recent. rewrite List.length_firstn. lia. }
  destruct (2 <=? length (_find_swing_points recent direction))%nat eqn:E.
  - unfold _calculate_dynamic_slope.
    apply Nat.leb_le in E.
    destruct (Nat.ltb_spec (length (_find_swing_points recent direction)) 2); [lia|].
    rewrite (swing_points_fit recent direction E).
    cbn [mbind option_bind]. eauto.
  - rewrite (polyfit_arange _ recent Hrec).
    cbn [mbind option_bind]. eauto.
Qed.

(** With a look-back below two bars the fit has at most one point, at
    [x = 0], and the call raises. *)
Lemma calculate_initial_line_short_lookback direction price_data lookback :
  (5 <= length price_data)%nat -> (lookback < 2)%nat ->
  calculate_initial_line self entry direction price_data lookback = None.
Proof.
  intros Hlen Hlb. unfold calculate_initial_line.
  destruct (Nat.ltb_spec (length price_data) 5) as [H|_]; [lia|].
  set (recent := firstn _ price_data).
  assert (Hrec : (length recent < 2)%nat).
  { subst recent. rewrite List.length_firstn. lia. }
  unfold _find_swing_points.
  destruct (Nat.ltb_spec (length recent) 5) as [_|H]; [|lia].
  cbn [length Nat.leb]. rewrite (polyfit_short _ recent Hrec). reflexivity.
Qed.

(** The slope of any line that [calculate_initial_line] returns. *)
Lemma calculate_initial_line_slope direction price_data lookback params :
  calculate_initial_line self entry direction price_data lookback = Some params ->
  if String.eqb direction "long" then
    entry * (min_slope_pct self / 100) <= Py.slope params
      <= entry * (max_slope_pct self / 100)
  else
    - (entry * (max_slope_pct self / 100)) <= Py.slope params
      <= - (entry * (min_slope_pct self / 100)).
Proof.
  unfold calculate_initial_line.
  pose proof (pct_pos entry _ entry_pos min_pos) as Hmin.
  pose proof (pct_le entry _ _ entry_pos min_le_max) as Hle.
  destruct (length price_data <? 5)%nat.
  - intros [= <-]. cbn [Py.slope].
    destruct (String.eqb direction "long"); lra.
  - match goal with
    | |- context [mbind _ ?m] => destruct m as [[s src]|]
    end; cbn [mbind option_bind]; [|discriminate].
    intros [= <-]. cbn [Py.slope].
    destruct (String.eqb direction "long") eqn:Hd.
    + apply String.eqb_eq in Hd. subst direction. apply clamp_slope_long.
    + apply clamp_slope_short. exact Hd.
Qed.

(** The intercept of a line computed from positive prices is positive. *)
Lemma calculate_initial_line_intercept direction price_data lookback params :
  Forall (fun p => 0 < p) price_data ->
  -100 < buffer_pct self < 100 ->
  calculate_initial_line self entry direction price_data lookback = Some params ->
  0 < Py.intercept params.
Proof.
  intros Hpos Hbuf. unfold calculate_initial_line.
  assert (Hb1 : 0 < 1 - buffer_pct self / 100).
  { assert (buffer_pct self / 100 < 1) by (apply Qlt_shift_div_r; lra). lra. }
  assert (Hb2 : 0 < 1 + buffer_pct self / 100).
  { assert (-1 < buffer_pct self / 100) by (apply Qlt_shift_div_l; lra). lra. }
  destruct (length price_data <? 5)%nat.
  - intros [= <-]. cbn [Py.intercept].
    destruct (String.eqb direction "long"); apply Qmult_lt_0_compat; lra.
  - match goal with
    | |- context [mbind _ ?m] => destruct m as [[s src]|]
    end; cbn [mbind option_bind]; [|discriminate].
    intros [= <-]. cbn [Py.intercept].
    set (recent := firstn _ price_data).
    assert (Hrec : Forall (fun p => 0 < p) recent) by (apply Forall_firstn; exact Hpos).
    destruct (String.eqb direction "long").
    + apply Qmult_lt_0_compat; [|exact Hb1].
      destruct (list_min recent) eqn:E; [eapply list_min_pos; eauto|].
      apply Qmult_lt_0_compat; lra.
    + apply Qmult_lt_0_compat; [|exact Hb2].
      destruct (list_max recent) eqn:E; [eapply list_max_pos; eauto|].
      apply Qmult_lt_0_compat; lra.
Qed.

End Manager.

(** [core/guarding_line.py] only clamps the sign of the slope. *)
Lemma legacy_slope_sign (self : GuardingLine.GuardingLine) entry direction
    price_data lookback params :
  GuardingLine.calculate_initial_line self entry direction price_data lookback
    = Some params ->
  if String.eqb direction "long" then 0 <= Py.slope params
  else Py.slope params <= 0.
Proof.
  unfold GuardingLine.calculate_initial_line.
  destruct (length price_data <? 5)%nat.
  - intros [= <-]. cbn [Py.slope]. destruct (String.eqb direction "long"); lra.
  - match goal with
    | |- context [mbind _ ?m] => destruct m as [[s i]|]
    end; cbn [mbind option_bind]; [|discriminate].
    destruct (String.eqb direction "long"); intros [= <-]; cbn [Py.slope].
    + apply Q.le_max_l.
    + apply Q.le_min_l.
Qed.

End GuardingFacts.

(** C6, as stated, fails for the guarding line of core/guarding_line.py:
    on five falling lows the fitted slope is -1, the long line is clamped
    to a slope of exactly zero, and no minimum or maximum is applied. *)
Lemma C6_flat_line_counterexample :
  exists params,
    GuardingLine.calculate_initial_line (GuardingLine.init 10 0.3) 100 "long"
      [105; 104; 103; 102; 101] 20 = Some params /\
    Py.slope params == 0.
Proof. eexists. split; [vm_compute; reflexivity|]. reflexivity. Qed.

(** C6, amended.  For a positive entry price, at least five price points and
    a look-back of at least two bars,
    [GuardingLineManager.calculate_initial_line] of core/risk_engine.py
    returns a line whose slope lies between
    [min_slope_pct] and [max_slope_pct] percent of the entry price for a
    long (so it is positive, never zero), and between the opposites of these
    bounds for a short (so it is negative, never zero).
    [GuardingLine.calculate_initial_line] of core/guarding_line.py only
    guarantees the sign: non-negative for a long, non-positive for a
    short. *)
Theorem C6_initial_line_slope :
  forall (activation_bars : Z) (buffer_pct entry_price : Q) (direction : string)
         (price_data : list Q) (lookback : nat),
    0 < entry_price ->
    (5 <= length price_data)%nat ->
    (2 <= lookback)%nat ->
    direction = "long"%string \/ direction = "short"%string ->
    let manager := RiskEngine.GuardingLineManager_init activation_bars buffer_pct in
    let min_slope := entry_price * (RiskEngine.min_slope_pct manager / 100) in
    let max_slope := entry_price * (RiskEngine.max_slope_pct manager / 100) in
    (exists params,
       RiskEngine.calculate_initial_line manager entry_price direction
         price_data lookback = Some params /\
       ~ Py.slope params == 0 /\
       (direction = "long"%string ->
          0 <= Py.slope params /\ min_slope <= Py.slope params <= max_slope) /\
       (direction = "short"%string ->
          Py.slope params <= 0 /\ - max_slope <= Py.slope params <= - min_slope)) /\
    (forall (legacy : GuardingLine.GuardingLine) params,
       GuardingLine.calculate_initial_line legacy entry_price direction
         price_data lookback = Some params ->
       (direction = "long"%string -> 0 <= Py.slope params) /\
       (direction = "short"%string -> Py.slope params <= 0)).
Proof.
  intros ab bp entry direction price_data lookback He Hlen Hlb Hdir manager mn mx.
  assert (Hmin : 0 < RiskEngine.min_slope_pct manager) by reflexivity.
  assert (Hle : RiskEngine.min_slope_pct manager <= RiskEngine.max_slope_pct manager)
    by discriminate.
  pose proof (GuardingFacts.pct_pos entry _ He Hmin) as Hmn. fold mn in Hmn.
  split.
  - destruct (GuardingFacts.calculate_initial_line_returns manager entry direction
                price_data lookback Hlen Hlb) as [params Hp].
    exists params. split; [exact Hp|].
    pose proof (GuardingFacts.calculate_initial_line_slope manager entry He Hmin Hle
                  direction price_data lookback params Hp) as Hs.
    fold mn mx in Hs.
    destruct Hdir as [-> | ->]; cbn [String.eqb Ascii.eqb Bool.eqb] in Hs;
      (split; [lra|]); split; intros Hd; try discriminate; lra.
  - intros legacy params Hp.
    pose proof (GuardingFacts.legacy_slope_sign legacy entry direction price_data
                  lookback params Hp) as Hs.
    destruct Hdir as [-> | ->]; cbn [String.eqb Ascii.eqb Bool.eqb] in Hs;
      split; intros Hd; try discriminate; exact Hs.
Qed.

(** The theorem on six rising lows around 100. *)
Lemma C6_initial_line_slope_witness :
  exists params,
    RiskEngine.calculate_initial_line (RiskEngine.GuardingLineManager_init 10 0.3)
      100 "long" [96; 97; 95; 98; 99; 100] 20 = Some params /\
    ~ Py.slope params == 0.
Proof.
  destruct (C6_initial_line_slope 10 0.3 100 "long" [96; 97; 95; 98; 99; 100] 20)
    as [[params [Hp [Hnz _]]] _].
  - reflexivity.
  - simpl. lia.
  - lia.
  - left. reflexivity.
  - exists params. split; assumption.
Defined.

(** C7, as stated, fails: before activation the level is 10% beyond the
    intercept, and a price that has moved further than that is reported as a
    break.  For a long line computed from the lows 100..104 the intercept is
    99.7 and the level before activation 89.73; a price of 80 breaks it at
    bar 0, ten bars before activation. *)
Lemma C7_break_before_activation_counterexample :
  let manager := RiskEngine.GuardingLineManager_init 10 0.3 in
  exists params,
    RiskEngine.calculate_initial_line manager 105 "long"
      [100; 101; 102; 103; 104] 20 = Some params /\
    Py.activation_bar params = Some 10%Z /\
    RiskEngine.get_current_level manager params 0 == 89.73 /\
    fst (RiskEngine.check_break 80 (RiskEngine.get_current_level manager params 0)
           "long") = true.
Proof.
  eexists. split; [vm_compute; reflexivity|].
  split; [reflexivity|]. split; reflexivity.
Qed.

(** In core/guarding_line.py a short line can be flat, and a flat line is
    given the inactive level of a long: with fewer than five highs the
    short line of an entry at 100 has slope 0 and intercept 103, its level
    before activation is 92.7, below the entry, and a price at the entry is
    reported as a break. *)
Example legacy_flat_short_line_breaks_at_entry :
  let legacy := GuardingLine.init 10 0.3 in
  exists params,
    GuardingLine.calculate_initial_line legacy 100 "short" [101; 102] 20
      = Some params /\
    Py.slope params == 0 /\
    GuardingLine.get_current_level legacy params 0 == 92.7 /\
    fst (GuardingLine.check_break 100
           (GuardingLine.get_current_level legacy params 0) "short") = true.
Proof.
  eexists. split; [vm_compute; reflexivity|]. repeat split.
Qed.

(** Inside [update_position] the guarding line is not consulted before the
    configured activation bar. *)
Lemma guarding_step_before_activation (config : RiskEngine.RiskEngineConfig)
    levels update result :
  (RiskEngine.bars_since_entry update < RiskEngine.guarding_activation_bars config)%Z ->
  RiskEngine.guarding_step config levels update result = result.
Proof.
  intros H. unfold RiskEngine.guarding_step.
  destruct (RiskEngine.guarding_line levels); [|reflexivity].
  destruct (Z.leb_spec (RiskEngine.guarding_activation_bars config)
                       (RiskEngine.bars_since_entry update)); [lia|reflexivity].
Qed.

(** C7, amended.  For a line computed by
    [GuardingLineManager.calculate_initial_line] from positive prices and a
    positive entry price, and a bar strictly below the activation bar,
    [get_current_level] returns the intercept times 0.9 for a long and times
    1.1 for a short: a level 10% away from the intercept on the side the
    price has to cross to break the line, so that [check_break] reports a
    break exactly when the price is beyond that level (below it for a long,
    above it for a short).  At or after the activation bar, for any line
    parameters and in both engines, the level is
    [intercept + slope * (bars_since_entry - activation_bar)]. *)
Theorem C7_guarding_level :
  forall (activation_bars : Z) (buffer_pct entry_price : Q) (direction : string)
         (price_data : list Q) (lookback : nat) (params : Py.LineParams)
         (bars_since_entry : Z) (price : Q),
    0 < entry_price ->
    Forall (fun p => 0 < p) price_data ->
    -100 < buffer_pct < 100 ->
    direction = "long"%string \/ direction = "short"%string ->
    let manager := RiskEngine.GuardingLineManager_init activation_bars buffer_pct in
    RiskEngine.calculate_initial_line manager entry_price direction price_data
      lookback = Some params ->
    let level := RiskEngine.get_current_level manager params bars_since_entry in
    let broken := fst (RiskEngine.check_break price level direction) in
    ((bars_since_entry < activation_bars)%Z ->
       (direction = "long"%string ->
          level == Py.intercept params * 0.9 /\ level < Py.intercept params /\
          (broken = true <-> price < Py.intercept params * 0.9)) /\
       (direction = "short"%string ->
          level == Py.intercept params * 1.1 /\ Py.intercept params < level /\
          (broken = true <-> Py.intercept params * 1.1 < price))) /\
    ((activation_bars <= bars_since_entry)%Z ->
       level == Py.intercept params
                + Py.slope params * inject_Z (bars_since_entry - activation_bars)) /\
    (forall (any : Py.LineParams) (legacy : GuardingLine.GuardingLine)
            (activation : Z),
       Py.activation_bar any = Some activation ->
       (activation <= bars_since_entry)%Z ->
       RiskEngine.get_current_level manager any bars_since_entry
         == Py.intercept any + Py.slope any * inject_Z (bars_since_entry - activation) /\
       GuardingLine.get_current_level legacy any bars_since_entry
         == Py.intercept any + Py.slope any * inject_Z (bars_since_entry - activation)).
Proof.
  intros ab bp entry direction price_data lookback params bars price
         He Hpos Hbuf Hdir manager Hp level broken.
  assert (Hmin : 0 < RiskEngine.min_slope_pct manager) by reflexivity.
  assert (Hle : RiskEngine.min_slope_pct manager <= RiskEngine.max_slope_pct manager)
    by discriminate.
  pose proof (GuardingFacts.calculate_initial_line_slope manager entry He Hmin Hle
                direction price_data lookback params Hp) as Hs.
  pose proof (GuardingFacts.calculate_initial_line_intercept manager entry He
                direction price_data lookback params Hpos Hbuf Hp) as Hi.
  pose proof (GuardingFacts.pct_pos entry _ He Hmin) as Hmn.
  assert (Hact : Py.activation_bar params = Some ab).
  { revert Hp. unfold RiskEngine.calculate_initial_line.
    destruct (length price_data <? 5)%nat; [intros [= <-]; reflexivity|].
    match goal with
    | |- context [mbind _ ?m] => destruct m as [[s src]|]
    end; cbn [mbind option_bind]; [|discriminate].
    intros [= <-]. reflexivity. }
  subst broken level. unfold RiskEngine.get_current_level. rewrite Hact.
  split; [|split].
  - intros Hlt. destruct (Z.ltb_spec bars ab) as [_|?]; [|lia].
    split; intros ->; cbn [String.eqb Ascii.eqb Bool.eqb] in Hs.
    + destruct (Py.Qleb 0 (Py.slope params)) eqn:E;
        [|apply PyFacts.Qleb_false in E; lra].
      split; [reflexivity|]. split; [lra|].
      unfold RiskEngine.check_break. cbn [String.eqb Ascii.eqb Bool.eqb andb].
      destruct (Py.Qltb price (Py.intercept params * 0.9)) eqn:B; cbn [fst].
      * apply PyFacts.Qltb_true in B. tauto.
      * apply PyFacts.Qltb_false in B. split; [discriminate|lra].
    + destruct (Py.Qleb 0 (Py.slope params)) eqn:E;
        [apply PyFacts.Qleb_true in E; lra|].
      split; [reflexivity|]. split; [lra|].
      unfold RiskEngine.check_break. cbn [String.eqb Ascii.eqb Bool.eqb andb].
      destruct (Py.Qltb (Py.intercept params * 1.1) price) eqn:B; cbn [fst].
      * apply PyFacts.Qltb_true in B. tauto.
      * apply PyFacts.Qltb_false in B. split; [discriminate|lra].
  - intros Hge. destruct (Z.ltb_spec bars ab); [lia|reflexivity].
  - intros any legacy activation Ha Hge.
    unfold GuardingLine.get_current_level. rewrite Ha.
    destruct (Z.ltb_spec bars activation); [lia|]. split; reflexivity.
Qed.

(** The theorem on the line of the counterexample, one bar before its
    activation, with the price at the entry. *)
Lemma C7_guarding_level_witness :
  exists params,
    RiskEngine.calculate_initial_line (RiskEngine.GuardingLineManager_init 10 0.3)
      105 "long" [100; 101; 102; 103; 104] 20 = Some params /\
    fst (RiskEngine.check_break 105
           (RiskEngine.get_current_level (RiskEngine.GuardingLineManager_init 10 0.3)
              params 9) "long") = false.
Proof.
  eexists. split; [vm_compute; reflexivity|].
  match goal with
  | |- fst (RiskEngine.check_break _ (RiskEngine.get_current_level _ ?p _) _) = _ =>
      destruct (C7_guarding_level 10 0.3 105 "long" [100; 101; 102; 103; 104] 20 p 9 105)
        as [Hbefore _]
  end.
  - reflexivity.
  - repeat constructor.
  - split; reflexivity.
  - left. reflexivity.
  - vm_compute. reflexivity.
  - destruct (Hbefore eq_refl) as [Hlong _].
    destruct (Hlong eq_refl) as [_ [_ Hiff]].
    apply not_true_is_false. intros E.
    apply Hiff in E. vm_compute in E. discriminate.
Defined.

(* ===================================================================== *)
(** * The momentum trailing take-profit *)
(* ===================================================================== *)

Module MomentumFacts.
Import Py PyFacts RiskEngine Notions.

(** [update] never clears the [active] flag. *)
Lemma update_keeps_active self state price r direction closes candles :
  active state = true ->
  active (updated_state (update self state price r direction closes candles)) = true.
Proof.
  intros Ha. unfold update. rewrite Ha. cbn [negb].
  destruct (calculate_slope self closes direction) as [slope_pct strength].
  destruct (List.last (map Some candles) None) as [last|];
    repeat match goal with
    | |- context [if ?c then _ else _] => destruct c
    end; reflexivity.
Qed.

(** On an active state [update] ratchets the level and signals an exit
    exactly when the price is beyond the new level. *)
Lemma update_active_long self state price r closes candles :
  active state = true ->
  let res := update self state price r "long" closes candles in
  trailing_level state <= trailing_level (updated_state res) /\
  (should_exit res = true <-> price < trailing_level (updated_state res)) /\
  (should_exit res = true -> exit_reason_of res <> None).
Proof.
  intros Ha. unfold update. rewrite Ha.
  cbn [negb String.eqb Ascii.eqb Bool.eqb andb].
  destruct (calculate_slope self closes "long") as [slope_pct strength].
  set (new_trail := calculate_trail_level _ _ _ _ _).
  destruct (List.last (map Some candles) None) as [last|];
    (destruct (Qltb (trailing_level state) new_trail) eqn:E1;
     [apply Qltb_true in E1 | apply Qltb_false in E1]);
    match goal with
    | |- context [if Qltb price ?l then _ else _] =>
        destruct (Qltb price l) eqn:E2;
        [apply Qltb_true in E2 | apply Qltb_false in E2]
    end;
    cbv zeta; unfold updated_state, should_exit, exit_reason_of;
    cbn [fst snd trailing_level];
    (split; [lra|]); (split; [|intros; discriminate]);
    split; intros H; try discriminate; try reflexivity; try assumption; lra.
Qed.

Lemma update_active_short self state price r closes candles :
  active state = true ->
  let res := update self state price r "short" closes candles in
  trailing_level (updated_state res) <= trailing_level state /\
  (should_exit res = true <-> trailing_level (updated_state res) < price) /\
  (should_exit res = true -> exit_reason_of res <> None).
Proof.
  intros Ha. unfold update. rewrite Ha.
  cbn [negb String.eqb Ascii.eqb Bool.eqb andb].
  destruct (calculate_slope self closes "short") as [slope_pct strength].
  set (new_trail := calculate_trail_level _ _ _ _ _).
  destruct (List.last (map Some candles) None) as [last|];
    (destruct (Qltb new_trail (trailing_level state)) eqn:E1;
     [apply Qltb_true in E1 | apply Qltb_false in E1]);
    match goal with
    | |- context [if Qltb ?l price then _ else _] =>
        destruct (Qltb l price) eqn:E2;
        [apply Qltb_true in E2 | apply Qltb_false in E2]
    end;
    cbv zeta; unfold updated_state, should_exit, exit_reason_of;
    cbn [fst snd trailing_level];
    (split; [lra|]); (split; [|intros; discriminate]);
    split; intros H; try discriminate; try reflexivity; try assumption; lra.
Qed.

End MomentumFacts.

(** C4.  On an active momentum state, an update never lowers the trailing
    level of a long and never raises that of a short, and it signals an
    exit (with a reason) exactly when the current price is strictly below
    the updated level for a long, strictly above it for a short. *)
Theorem C4_momentum_trailing_ratchet :
  forall (self : RiskEngine.MomentumTrailingTP) (state : RiskEngine.MomentumState)
         (current_price current_r : Q) (recent_closes : list Q)
         (recent_candles : list RiskEngine.Bar),
    RiskEngine.active state = true ->
    let long := RiskEngine.update self state current_price current_r "long"
                  recent_closes recent_candles in
    let short := RiskEngine.update self state current_price current_r "short"
                   recent_closes recent_candles in
    (RiskEngine.trailing_level state
       <= RiskEngine.trailing_level (Notions.updated_state long) /\
     (Notions.should_exit long = true <->
        current_price < RiskEngine.trailing_level (Notions.updated_state long)) /\
     (Notions.should_exit long = true ->
        Notions.exit_reason_of long <> None)) /\
    (RiskEngine.trailing_level (Notions.updated_state short)
       <= RiskEngine.trailing_level state /\
     (Notions.should_exit short = true <->
        RiskEngine.trailing_level (Notions.updated_state short) < current_price) /\
     (Notions.should_exit short = true ->
        Notions.exit_reason_of short <> None)).
Proof.
  intros self state price r closes candles Ha. split.
  - apply MomentumFacts.update_active_long. exact Ha.
  - apply MomentumFacts.update_active_short. exact Ha.
Qed.

(* ===================================================================== *)
(** * The per-bar update *)
(* ===================================================================== *)

Module UpdateFacts.
Import Py PyFacts RiskEngine Notions.

(** Case analysis on the conditions of a block. *)
Ltac block_cases :=
  repeat match goal with
  | |- context [match ?c with _ => _ end] =>
      lazymatch c with
      | context [match _ with _ => _ end] => fail
      | _ => destruct c eqn:?
      end
  end.

Lemma same_exit_refl r : same_exit r r.
Proof. repeat split. Qed.

Lemma keeps_exit_refl r : keeps_exit r r.
Proof. intros _. apply same_exit_refl. Qed.

(** [update] either signals nothing, or signals an exit with a reason on a
    state that stays active. *)
Lemma update_result_cases self state price r direction closes candles :
  let res := update self state price r direction closes candles in
  (should_exit res = false /\ exit_reason_of res = None) \/
  (should_exit res = true /\ (exists reason, exit_reason_of res = Some reason) /\
   active (updated_state res) = true).
Proof.
  unfold update, should_exit, exit_reason_of, updated_state.
  destruct (active state) eqn:Ha; cbn [negb].
  - destruct (calculate_slope self closes direction) as [slope_pct strength].
    destruct (List.last (map Some candles) None) as [last|];
      repeat match goal with
      | |- context [if ?c then _ else _] => destruct c
      end; cbn [fst snd active]; eauto.
  - destruct (Qleb _ _); [|left; split; reflexivity].
    destruct (calculate_slope self closes direction) as [slope_pct strength].
    destruct (_ && _); left; split; reflexivity.
Qed.

Section WithConfig.

Variable config : RiskEngineConfig.

(** *** The blocks that never touch the exit signal *)

Lemma r_multiple_step_exit levels update r :
  same_exit r (r_multiple_step levels update r).
Proof.
  unfold r_multiple_step. block_cases; repeat split.
Qed.

Lemma breakeven_step_exit levels r :
  same_exit r (fst (breakeven_step config levels r)).
Proof.
  unfold breakeven_step. block_cases; cbn [fst]; repeat split.
Qed.

Lemma trail_step_exit levels update r r' :
  trail_step levels update r = Some r' ->
  same_exit r r' /\ moved_to_breakeven r' = moved_to_breakeven r /\
  current_r_multiple r' = current_r_multiple r.
Proof.
  unfold trail_step.
  destruct (Qltb 0 (unrealized_pnl_pct update) && negb (moved_to_breakeven r));
    [|intros [= <-]; repeat split].
  destruct (_trail_stop _ _ _ _) as [[new_stop|]|]; cbn [mbind option_bind];
    [|intros [= <-]; repeat split|discriminate].
  destruct (truthy new_stop); intros [= <-]; repeat split.
Qed.

(** *** The breakeven block *)

(** What the breakeven block does to [levels]. *)
Lemma breakeven_step_levels levels r :
  let out := breakeven_step config levels r in
  (moved_to_breakeven (fst out) = moved_to_breakeven r /\ snd out = levels) \/
  (moved_to_breakeven (fst out) = true /\
   enable_breakeven_stop config = true /\
   breakeven_trigger_r config <= current_r_multiple r /\
   exists s rest,
     stops levels = s :: rest /\
     _is_better_stop (breakeven_price_of config levels) (stop_price s)
                     (direction levels) = true /\
     snd out = set_stops levels
                 (moved_to_breakeven_stop s (breakeven_price_of config levels) :: rest)).
Proof.
  unfold breakeven_step. fold (breakeven_price_of config levels).
  destruct (enable_breakeven_stop config) eqn:Hen; cbn [andb]; [|left; split; reflexivity].
  destruct (Qleb (breakeven_trigger_r config) (current_r_multiple r)) eqn:Htr;
    [|left; split; reflexivity].
  destruct (stops levels) as [|s rest] eqn:Hst; [left; split; reflexivity|].
  destruct (truthy (stop_price s)); cbn [andb]; [|left; split; reflexivity].
  destruct (_is_better_stop _ _ _) eqn:Hbetter; [|left; split; reflexivity].
  right. cbn [fst snd]. split; [reflexivity|]. split; [reflexivity|].
  split; [apply Qleb_true; exact Htr|].
  exists s, rest. repeat split; assumption.
Qed.

Lemma breakeven_step_current_r levels r :
  current_r_multiple (fst (breakeven_step config levels r)) = current_r_multiple r.
Proof.
  unfold breakeven_step. block_cases; reflexivity.
Qed.

Lemma is_better_stop_irrefl p direction :
  _is_better_stop p p direction = false.
Proof.
  unfold _is_better_stop.
  destruct (String.eqb direction "long"); apply Qltb_false; lra.
Qed.

(** Once the first stop is at breakeven, the block leaves everything as it
    is but the breakeven-hit flag. *)
Lemma breakeven_step_at_breakeven levels r :
  at_breakeven config levels ->
  moved_to_breakeven (fst (breakeven_step config levels r)) = moved_to_breakeven r /\
  snd (breakeven_step config levels r) = levels.
Proof.
  intros [s [rest [Hst [Hprice _]]]].
  destruct (breakeven_step_levels levels r) as [H|H]; [exact H|].
  destruct H as [_ [_ [_ [s' [rest' [Hst' [Hbetter _]]]]]]].
  rewrite Hst in Hst'. injection Hst' as <- <-.
  rewrite Hprice, is_better_stop_irrefl in Hbetter. discriminate.
Qed.

(** *** The momentum block *)

Lemma momentum_step_frame states levels upd ohlcv session_id r :
  let out := momentum_step config states levels upd ohlcv session_id r in
  same_breakeven r (fst out) /\
  (no_exit_no_reason r -> no_exit_no_reason (fst out)) /\
  (exit_signal (fst out) = true ->
     same_exit r (fst out) \/
     momentum_active (snd out) (momentum_key levels session_id) = true).
Proof.
  assert (Hsame : same_breakeven r r /\
                  (no_exit_no_reason r -> no_exit_no_reason r) /\
                  (exit_signal r = true ->
                   same_exit r r \/
                   momentum_active states (momentum_key levels session_id) = true)).
  { split; [split; reflexivity|]. split; [auto|]. intros _. left. apply same_exit_refl. }
  unfold momentum_step.
  destruct ohlcv as [ohlcv|]; [|exact Hsame].
  destruct (enable_dynamic_targets config && (5 <=? length ohlcv)%nat);
    [|exact Hsame].
  clear Hsame.
  set (key := momentum_key levels session_id).
  set (state := match states !! key with Some st => st | None => MomentumState_init end).
  set (closes := last_slice 10 (map bar_close ohlcv)).
  set (candles := last_slice 5 ohlcv).
  pose proof (update_result_cases momentum_tp state (pu_current_price upd)
                (current_r_multiple r) (direction levels) closes candles) as Hc.
  cbv zeta in Hc. unfold should_exit, exit_reason_of, updated_state in Hc.
  destruct (update momentum_tp state _ _ _ closes candles) as [[st' ex] reason].
  cbn [fst snd] in Hc |- *.
  unfold momentum_active. rewrite lookup_insert_eq.
  destruct Hc as [[-> ->] | [-> [[reason' ->] Ha]]].
  - destruct (active st'); cbn [fst snd];
      (split; [split; reflexivity|]);
      (split; [intros Hn Hf; apply Hn; exact Hf|]);
      intros _; left; (split; [|split]); reflexivity.
  - rewrite Ha. cbn [fst snd].
    split; [split; reflexivity|].
    split; [intros Hn Hf; discriminate|].
    intros _. right. reflexivity.
Qed.

Lemma momentum_step_keeps_active states levels upd ohlcv session_id r key :
  momentum_active states key = true ->
  momentum_active (snd (momentum_step config states levels upd ohlcv session_id r))
                  key = true.
Proof.
  intros Ha. unfold momentum_step.
  destruct ohlcv as [ohlcv|]; [|exact Ha].
  destruct (enable_dynamic_targets config && (5 <=? length ohlcv)%nat); [|exact Ha].
  destruct (update momentum_tp _ _ _ _ _ _) as [[st' ex] reason] eqn:Hu.
  cbn [snd]. unfold momentum_active in *.
  destruct (decide (momentum_key levels session_id = key)) as [<-|Hne].
  - rewrite lookup_insert_eq.
    destruct (states !! momentum_key levels session_id) as [st|]; [|discriminate].
    pose proof (MomentumFacts.update_keeps_active momentum_tp st
                  (pu_current_price upd) (current_r_multiple r) (direction levels)
                  (last_slice 10 (map bar_close ohlcv)) (last_slice 5 ohlcv) Ha) as H.
    rewrite Hu in H. exact H.
  - rewrite lookup_insert_ne by exact Hne. exact Ha.
Qed.

(** *** The divergence block *)

Lemma divergence_step_frame states levels ohlcv session_id r r' :
  divergence_step config states levels ohlcv session_id r = Some r' ->
  same_breakeven r r' /\
  (no_exit_no_reason r -> no_exit_no_reason r') /\
  (same_exit r r' \/
   (momentum_active states (momentum_key levels session_id) = false /\
    exit_signal r' = true /\ divergence_exit r')).
Proof.
  assert (Hsame : same_breakeven r r /\
                  (no_exit_no_reason r -> no_exit_no_reason r) /\
                  (same_exit r r \/
                   (momentum_active states (momentum_key levels session_id) = false /\
                    exit_signal r = true /\ divergence_exit r))).
  { split; [split; reflexivity|]. split; [auto|]. left. apply same_exit_refl. }
  unfold divergence_step.
  destruct ohlcv as [ohlcv|]; [|intros [= <-]; exact Hsame].
  destruct (enable_divergence_detection config); [|intros [= <-]; exact Hsame].
  destruct (_detect_divergence config ohlcv (direction levels)) as [[detected div_type]|];
    cbn [mbind option_bind]; [|discriminate].
  destruct detected; [|intros [= <-]; exact Hsame].
  clear Hsame.
  destruct div_type as [div_type|];
    [|intros [= <-]; split; [split; reflexivity|]; split;
      [intros Hn Hf; apply Hn; exact Hf | left; split; [|split]; reflexivity]].
  destruct (_ || _);
    [|intros [= <-]; split; [split; reflexivity|]; split;
      [intros Hn Hf; apply Hn; exact Hf | left; split; [|split]; reflexivity]].
  cbn [current_r_multiple add_alert set_divergence].
  destruct (Qltb 0.5 (current_r_multiple r)); cbn [andb];
    [|intros [= <-]; split; [split; reflexivity|]; split;
      [intros Hn Hf; apply Hn; exact Hf | left; split; [|split]; reflexivity]].
  destruct (momentum_active states (momentum_key levels session_id)); cbn [negb];
    intros [= <-].
  - split; [split; reflexivity|]. split;
      [intros Hn Hf; apply Hn; exact Hf | left; split; [|split]; reflexivity].
  - split; [split; reflexivity|]. split; [intros Hn Hf; discriminate|].
    right. split; [reflexivity|]. split; [reflexivity|].
    exists div_type. split; reflexivity.
Qed.

(** *** The fixed-target block *)

Lemma first_target_hit_in direction current targets target :
  first_target_hit direction current targets = Some target -> In target targets.
Proof.
  induction targets as [|t rest IH]; cbn [first_target_hit]; [discriminate|].
  destruct (_ && _); [intros [= <-]; left; reflexivity|].
  destruct (_ && _); [intros [= <-]; left; reflexivity|].
  intros H. right. apply IH. exact H.
Qed.

Lemma fixed_targets_step_suppressed states levels upd session_id r :
  momentum_active states (momentum_key levels session_id) = true ->
  fixed_targets_step states levels upd session_id r = r.
Proof. intros H. unfold fixed_targets_step. rewrite H. reflexivity. Qed.

Lemma fixed_targets_step_frame states levels upd session_id r :
  let r' := fixed_targets_step states levels upd session_id r in
  same_breakeven r r' /\
  (no_exit_no_reason r -> no_exit_no_reason r') /\
  (r' = r \/
   (momentum_active states (momentum_key levels session_id) = false /\
    exit_signal r' = true /\ target_exit levels r')).
Proof.
  unfold fixed_targets_step.
  destruct (momentum_active states (momentum_key levels session_id)); cbn [negb];
    [split; [split; reflexivity|]; split; [auto|left; reflexivity]|].
  destruct (first_target_hit _ _ _) as [target|] eqn:Hhit;
    [|split; [split; reflexivity|]; split; [auto|left; reflexivity]].
  split; [split; reflexivity|]. split; [intros Hn Hf; discriminate|].
  right. split; [reflexivity|]. split; [reflexivity|].
  exists target. split; [eapply first_target_hit_in; exact Hhit|].
  split; reflexivity.
Qed.

(** *** The guarding-line block *)

Lemma guarding_step_frame levels upd r :
  let r' := guarding_step config levels upd r in
  same_breakeven r r' /\
  (no_exit_no_reason r -> no_exit_no_reason r') /\
  (same_exit r r' \/ (guarding_broken r' = true /\ exit_signal r' = true /\
                      exit_percentage r' = 100.0)).
Proof.
  unfold guarding_step.
  destruct (guarding_line levels) as [line|];
    [|split; [split; reflexivity|]; split; [auto|left; apply same_exit_refl]].
  destruct (_ <=? _)%Z;
    [|split; [split; reflexivity|]; split; [auto|left; apply same_exit_refl]].
  destruct (check_break _ _ _) as [[|] reason].
  - split; [split; reflexivity|]. split; [intros Hn Hf; discriminate|].
    right. split; [|split]; reflexivity.
  - split; [split; reflexivity|]. split; [intros Hn Hf; apply Hn; exact Hf|].
    left. split; [|split]; reflexivity.
Qed.

(** *** The structure-health block *)

Lemma structure_health_step_frame levels upd r r' :
  structure_health_step levels upd r = Some r' ->
  same_breakeven r r' /\
  (no_exit_no_reason r -> no_exit_no_reason r') /\
  keeps_exit r r'.
Proof.
  assert (Hsame : same_breakeven r r /\
                  (no_exit_no_reason r -> no_exit_no_reason r) /\ keeps_exit r r).
  { split; [split; reflexivity|]. split; [auto|apply keeps_exit_refl]. }
  unfold structure_health_step.
  destruct (recent_lows upd) as [[|l lows]|]; try (intros [= <-]; exact Hsame);
    destruct (recent_highs upd) as [[|h highs]|]; try (intros [= <-]; exact Hsame).
  clear Hsame.
  destruct (_check_structure_health _ _ _ _) as [health|]; cbn [mbind option_bind];
    [|discriminate].
  destruct health;
    try (intros [= <-]; split; [split; reflexivity|]; split;
         [intros Hn Hf; apply Hn; exact Hf | intros _; split; [|split]; reflexivity]).
  cbn [exit_signal set_structure_health].
  destruct (exit_signal r) eqn:Hex; cbn [negb]; intros [= <-].
  - split; [split; reflexivity|]. split; [intros Hn Hf; cbn in Hf; congruence|].
    intros _. split; [|split]; reflexivity.
  - split; [split; reflexivity|]. split; [intros Hn Hf; discriminate|].
    intros Hf. congruence.
Qed.

(** *** The stages of a call *)

Lemma r_multiple_step_moved levels upd r :
  moved_to_breakeven (r_multiple_step levels upd r) = moved_to_breakeven r.
Proof. unfold r_multiple_step. block_cases; reflexivity. Qed.

Lemma stages_unfold states levels upd ohlcv session_id :
  let s := update_position_stages config states levels upd ohlcv session_id in
  after_r_multiple s = r_multiple_step levels upd (init_result levels) /\
  after_breakeven s = fst (breakeven_step config levels (after_r_multiple s)) /\
  final_levels s = snd (breakeven_step config levels (after_r_multiple s)) /\
  after_momentum s =
    fst (momentum_step config states (final_levels s) upd ohlcv session_id
           (after_breakeven s)) /\
  final_states s =
    snd (momentum_step config states (final_levels s) upd ohlcv session_id
           (after_breakeven s)) /\
  after_divergence s =
    divergence_step config (final_states s) (final_levels s) ohlcv session_id
      (after_momentum s) /\
  after_fixed_targets s =
    (fixed_targets_step (final_states s) (final_levels s) upd session_id
       <$> after_divergence s) /\
  after_guarding s =
    (guarding_step config (final_levels s) upd <$> after_fixed_targets s) /\
  after_trail s = (after_guarding s ≫= trail_step (final_levels s) upd) /\
  after_structure_health s =
    (after_trail s ≫= structure_health_step (final_levels s) upd).
Proof.
  unfold update_position_stages.
  set (r1 := r_multiple_step levels upd (init_result levels)).
  destruct (breakeven_step config levels r1) as [r2 levels'] eqn:E2.
  destruct (momentum_step config states levels' upd ohlcv session_id r2)
    as [r3 states'] eqn:E3.
  cbn [after_r_multiple after_breakeven after_momentum after_divergence
       after_fixed_targets after_guarding after_trail after_structure_health
       final_levels final_states].
  rewrite E2. cbn [fst snd]. rewrite E3. cbn [fst snd].
  repeat split.
Qed.

(** The breakeven block of a call: whether the move fires, and what it does
    to [levels]. *)
Lemma stages_breakeven states levels upd ohlcv session_id :
  let s := update_position_stages config states levels upd ohlcv session_id in
  (moved_to_breakeven (after_breakeven s) = false /\ final_levels s = levels) \/
  (moved_to_breakeven (after_breakeven s) = true /\
   enable_breakeven_stop config = true /\
   breakeven_trigger_r config <= current_r_multiple (after_breakeven s) /\
   exists s0 rest,
     stops levels = s0 :: rest /\
     _is_better_stop (breakeven_price_of config levels) (stop_price s0)
                     (direction levels) = true /\
     final_levels s =
       set_stops levels
         (moved_to_breakeven_stop s0 (breakeven_price_of config levels) :: rest)).
Proof.
  intros s.
  destruct (stages_unfold states levels upd ohlcv session_id)
    as [H1 [H2 [H3 _]]].
  fold s in H1, H2, H3. rewrite H2, H3.
  pose proof (breakeven_step_current_r levels (after_r_multiple s)) as Hr.
  destruct (breakeven_step_levels levels (after_r_multiple s)) as [[Hm Hl]|Hm].
  - left. split; [|exact Hl].
    rewrite Hm, H1, r_multiple_step_moved. reflexivity.
  - right. rewrite Hr. exact Hm.
Qed.

Lemma stages_momentum_key states levels upd ohlcv session_id :
  let s := update_position_stages config states levels upd ohlcv session_id in
  momentum_key (final_levels s) session_id = momentum_key levels session_id /\
  targets (final_levels s) = targets levels.
Proof.
  intros s.
  destruct (stages_breakeven states levels upd ohlcv session_id)
    as [[_ Hl]|[_ [_ [_ [s0 [rest [_ [_ Hl]]]]]]]]; fold s in Hl; rewrite Hl;
    split; reflexivity.
Qed.

(** The later stages of a call, as far as they are reached. *)
Lemma stages_chain states levels upd ohlcv session_id :
  let s := update_position_stages config states levels upd ohlcv session_id in
  let levels' := final_levels s in
  let states' := final_states s in
  (forall r4, after_divergence s = Some r4 ->
     divergence_step config states' levels' ohlcv session_id (after_momentum s)
       = Some r4 /\
     after_fixed_targets s = Some (fixed_targets_step states' levels' upd session_id r4) /\
     after_guarding s =
       Some (guarding_step config levels' upd
               (fixed_targets_step states' levels' upd session_id r4)) /\
     after_trail s =
       trail_step levels' upd
         (guarding_step config levels' upd
            (fixed_targets_step states' levels' upd session_id r4))) /\
  (forall r7, after_trail s = Some r7 ->
     after_structure_health s = structure_health_step levels' upd r7) /\
  (forall r5, after_fixed_targets s = Some r5 -> exists r4, after_divergence s = Some r4) /\
  (forall r6, after_guarding s = Some r6 -> exists r4, after_divergence s = Some r4) /\
  (forall r7, after_trail s = Some r7 -> exists r4, after_divergence s = Some r4) /\
  (forall r, after_structure_health s = Some r -> exists r7, after_trail s = Some r7).
Proof.
  intros s levels' states'.
  destruct (stages_unfold states levels upd ohlcv session_id)
    as [_ [_ [_ [_ [_ [H6 [H7 [H8 [H9 H10]]]]]]]]].
  fold s in H6, H7, H8, H9, H10. fold levels' states' in H6, H7, H8, H9, H10.
  rewrite H10, H9, H8, H7.
  destruct (after_divergence s) as [r4|]; cbn.
  - split; [intros ? [= <-]; auto|].
    split; [intros r7 ->; reflexivity|].
    repeat split; intros; eauto.
    destruct (trail_step _ _ _); [eauto|discriminate].
  - repeat split; intros; discriminate.
Qed.

(** The breakeven move and the R-multiple that a call returns are those of
    the breakeven block. *)
Lemma stages_breakeven_reported states levels upd ohlcv session_id r :
  let s := update_position_stages config states levels upd ohlcv session_id in
  after_structure_health s = Some r -> same_breakeven (after_breakeven s) r.
Proof.
  intros s Hr.
  destruct (stages_unfold states levels upd ohlcv session_id)
    as [_ [_ [_ [H4 _]]]].
  destruct (stages_chain states levels upd ohlcv session_id)
    as [Hc [Hs [_ [_ [Ht Hf]]]]].
  fold s in H4, Hc, Hs, Ht, Hf.
  destruct (Hf r Hr) as [r7 H7]. destruct (Ht r7 H7) as [r4 H4'].
  destruct (Hc r4 H4') as [E4 [_ [_ E7]]].
  rewrite H7 in E7. symmetry in E7.
  rewrite (Hs r7 H7) in Hr.
  destruct (momentum_step_frame states (final_levels s) upd ohlcv session_id
              (after_breakeven s)) as [[A1 A2] _].
  rewrite <- H4 in A1, A2.
  destruct (divergence_step_frame _ _ _ _ _ _ E4) as [[B1 B2] _].
  destruct (fixed_targets_step_frame (final_states s) (final_levels s) upd
              session_id r4) as [[C1 C2] _].
  destruct (guarding_step_frame (final_levels s) upd
              (fixed_targets_step (final_states s) (final_levels s) upd session_id r4))
    as [[D1 D2] _].
  destruct (trail_step_exit _ _ _ _ E7) as [_ [F1 F2]].
  destruct (structure_health_step_frame _ _ _ _ Hr) as [[G1 G2] _].
  split; congruence.
Qed.

End WithConfig.

End UpdateFacts.

(* ===================================================================== *)
(** * The breakeven move *)
(* ===================================================================== *)

(** C10.  A call of [update_position] writes to its [levels] argument only
    when the breakeven move fires, which is what the returned
    [moved_to_breakeven] flag reports; when it does not fire, [levels] is
    left as it was; when it fires, the first stop gets the breakeven price,
    the breakeven reason and the type "breakeven", its other keys and the
    other stops are kept, and no other field of [levels] changes: not the
    targets, the entry price or the guarding-line parameters. *)
Theorem C10_update_position_frame :
  forall (config : RiskEngine.RiskEngineConfig)
         (states : gmap string RiskEngine.MomentumState)
         (levels : RiskEngine.RiskLevels) (update : RiskEngine.PositionUpdate)
         (ohlcv : option (list RiskEngine.Bar)) (session_id : option string),
    let out := RiskEngine.update_position config states levels update ohlcv session_id in
    let result := fst (fst out) in
    let levels' := snd (fst out) in
    let fired :=
      RiskEngine.moved_to_breakeven
        (RiskEngine.after_breakeven
           (RiskEngine.update_position_stages config states levels update ohlcv
              session_id)) in
    (forall r, result = Some r -> RiskEngine.moved_to_breakeven r = fired) /\
    (fired = false -> levels' = levels) /\
    (fired = true ->
       exists s s' rest,
         RiskEngine.stops levels = s :: rest /\
         RiskEngine.stops levels' = s' :: rest /\
         RiskEngine.stop_price s' = Notions.breakeven_price_of config levels /\
         RiskEngine.stop_type s' = Some "breakeven"%string /\
         RiskEngine.stop_reason s'
           = Some (Py.Txt "Breakeven stop (profit protection)" []) /\
         RiskEngine.stop_confidence s' = RiskEngine.stop_confidence s /\
         RiskEngine.stop_distance_pct s' = RiskEngine.stop_distance_pct s) /\
    levels' = RiskEngine.set_stops levels (RiskEngine.stops levels') /\
    RiskEngine.targets levels' = RiskEngine.targets levels /\
    RiskEngine.entry_price levels' = RiskEngine.entry_price levels /\
    RiskEngine.guarding_line levels' = RiskEngine.guarding_line levels.
Proof.
  intros config states levels update ohlcv session_id out result levels' fired.
  subst out result levels'. unfold RiskEngine.update_position. cbn [fst snd].
  set (s := RiskEngine.update_position_stages config states levels update ohlcv
              session_id) in *.
  split.
  { intros r Hr.
    destruct (UpdateFacts.stages_breakeven_reported config states levels update
                ohlcv session_id r Hr) as [H _].
    exact H. }
  destruct (UpdateFacts.stages_breakeven config states levels update ohlcv session_id)
    as [[Hm Hl]|[Hm [_ [_ [s0 [rest [Hst [_ Hl]]]]]]]];
    fold s in Hm, Hl; fold fired in Hm; rewrite Hl.
  - split; [reflexivity|]. split; [congruence|].
    destruct levels; repeat split.
  - split; [congruence|]. split.
    + intros _.
      exists s0, (RiskEngine.moved_to_breakeven_stop s0
                    (Notions.breakeven_price_of config levels)), rest.
      split; [exact Hst|]. repeat split.
    + repeat split.
Qed.

Module BreakevenFacts.
Import Py PyFacts RiskEngine Notions UpdateFacts.

Section WithConfig.

Variable config : RiskEngineConfig.

(** One call, seen from the breakeven move. *)
Lemma update_position_breakeven states levels upd ohlcv session_id :
  let out := update_position config states levels upd ohlcv session_id in
  let result := fst (fst out) in
  let levels' := snd (fst out) in
  (reports_move result = true ->
     at_breakeven config levels' /\ ~ at_breakeven config levels /\
     exists r, result = Some r /\ enable_breakeven_stop config = true /\
               breakeven_trigger_r config <= current_r_multiple r) /\
  (at_breakeven config levels -> levels' = levels /\ reports_move result = false) /\
  (levels' = levels \/ at_breakeven config levels').
Proof.
  intros out result levels'. subst out result levels'.
  unfold update_position. cbn [fst snd].
  set (s := update_position_stages config states levels upd ohlcv session_id).
  assert (Hrep : forall r, after_structure_health s = Some r ->
                           same_breakeven (after_breakeven s) r)
    by (intros r; apply stages_breakeven_reported).
  destruct (stages_breakeven config states levels upd ohlcv session_id)
    as [[Hm Hl]|[Hm [Hen [Htr [s0 [rest [Hst [Hbetter Hl]]]]]]]];
    fold s in Hm, Hl.
  - assert (Hno : reports_move (after_structure_health s) = false).
    { destruct (after_structure_health s) as [r|] eqn:Hr; [|reflexivity].
      destruct (Hrep r eq_refl) as [H _]. cbn. congruence. }
    rewrite Hno, Hl. split; [discriminate|]. split; [auto|]. left. reflexivity.
  - fold s in Htr.
    assert (Hat : at_breakeven config (final_levels s)).
    { rewrite Hl. exists (moved_to_breakeven_stop s0 (breakeven_price_of config levels)), rest.
      repeat split. }
    assert (Hnot : ~ at_breakeven config levels).
    { intros [s1 [rest1 [Hst1 [Hp1 _]]]]. rewrite Hst in Hst1.
      injection Hst1 as <- <-.
      rewrite Hp1, is_better_stop_irrefl in Hbetter. discriminate. }
    split; [|split; [contradiction|right; exact Hat]].
    intros Hmove. split; [exact Hat|]. split; [exact Hnot|].
    destruct (after_structure_health s) as [r|] eqn:Hr; [|discriminate].
    exists r. split; [reflexivity|]. split; [exact Hen|].
    destruct (Hrep r eq_refl) as [_ H]. rewrite H. exact Htr.
Qed.

(** A sequence of calls on the same [levels] object. *)
Lemma update_position_seq_breakeven calls : forall states levels,
  let out := update_position_seq config states levels calls in
  let results := fst (fst out) in
  let levels' := snd (fst out) in
  (reported_moves results <= 1)%nat /\
  Forall (fun result =>
            reports_move result = true ->
            exists r, result = Some r /\ enable_breakeven_stop config = true /\
                      breakeven_trigger_r config <= current_r_multiple r) results /\
  (reported_moves results = 1%nat -> at_breakeven config levels') /\
  (at_breakeven config levels ->
     reported_moves results = 0%nat /\ levels' = levels).
Proof.
  induction calls as [|[[upd ohlcv] session_id] calls IH]; intros states levels.
  - cbn. repeat split; auto. discriminate.
  - cbn [update_position_seq].
    pose proof (update_position_breakeven states levels upd ohlcv session_id) as H1.
    destruct (update_position config states levels upd ohlcv session_id)
      as [[result levels1] states1].
    cbn [fst snd] in H1. destruct H1 as [Hmove [Hat Hcases]].
    specialize (IH states1 levels1).
    destruct (update_position_seq config states1 levels1 calls)
      as [[results levels2] states2].
    cbn [fst snd] in IH |- *. destruct IH as [IH1 [IH2 [IH3 IH4]]].
    unfold reported_moves in *. cbn [List.filter].
    destruct (reports_move result) eqn:Hrep.
    + destruct (Hmove eq_refl) as [Hat1 [Hnot Hr]].
      destruct (IH4 Hat1) as [Hz Heq]. cbn [length]. rewrite Hz.
      split; [lia|]. split; [constructor; [intros _; exact Hr|exact IH2]|].
      split; [intros _; rewrite Heq; exact Hat1|].
      intros Hlev. contradiction.
    + split; [exact IH1|].
      split; [constructor; [intros H; congruence|exact IH2]|].
      split; [exact IH3|].
      intros Hlev. destruct (Hat Hlev) as [-> _]. apply IH4. exact Hlev.
Qed.

End WithConfig.

End BreakevenFacts.

(** C5.  In any sequence of calls of [update_position] on the same [levels]
    object, at most one call reports [moved_to_breakeven]; a call that
    reports it has the breakeven stop enabled and a current R-multiple of at
    least [breakeven_trigger_r]; after it the first stop is at the
    breakeven price; and from a [levels] whose first stop is at breakeven no
    further call reports a move or changes [levels]: the stop is never moved
    back. *)
Theorem C5_breakeven_at_most_once :
  forall (config : RiskEngine.RiskEngineConfig)
         (states : gmap string RiskEngine.MomentumState)
         (levels : RiskEngine.RiskLevels)
         (calls : list (RiskEngine.PositionUpdate * option (list RiskEngine.Bar)
                        * option string)),
    let out := RiskEngine.update_position_seq config states levels calls in
    let results := fst (fst out) in
    let levels' := snd (fst out) in
    (Notions.reported_moves results <= 1)%nat /\
    Forall (fun result =>
              Notions.reports_move result = true ->
              exists r, result = Some r /\
                        RiskEngine.enable_breakeven_stop config = true /\
                        RiskEngine.breakeven_trigger_r config
                          <= RiskEngine.current_r_multiple r) results /\
    (Notions.reported_moves results = 1%nat -> Notions.at_breakeven config levels') /\
    (Notions.at_breakeven config levels ->
       Notions.reported_moves results = 0%nat /\ levels' = levels).
Proof.
  intros config states levels calls.
  apply BreakevenFacts.update_position_seq_breakeven.
Qed.

(* ===================================================================== *)
(** * Momentum trailing supersedes the fixed targets *)
(* ===================================================================== *)

Module SuppressionFacts.
Import Py PyFacts RiskEngine Notions UpdateFacts.

Section WithConfig.

Variable config : RiskEngineConfig.

(** One call keeps an active state active, and skips the fixed targets when
    the state of its own key was active before the call. *)
Lemma update_position_keeps_active states levels upd ohlcv session_id key :
  momentum_active states key = true ->
  let s := update_position_stages config states levels upd ohlcv session_id in
  momentum_active (final_states s) key = true /\
  (momentum_key levels session_id = key -> targets_suppressed s).
Proof.
  intros Ha s.
  destruct (stages_unfold config states levels upd ohlcv session_id)
    as [_ [_ [_ [_ [H5 [_ [H7 _]]]]]]].
  destruct (stages_momentum_key config states levels upd ohlcv session_id) as [Hk _].
  fold s in H5, H7, Hk.
  assert (Hact : momentum_active (final_states s) key = true).
  { rewrite H5. apply momentum_step_keeps_active. exact Ha. }
  split; [exact Hact|].
  intros Hkey. unfold targets_suppressed. rewrite H7.
  destruct (after_divergence s) as [r4|]; [|reflexivity].
  cbn. rewrite fixed_targets_step_suppressed; [reflexivity|].
  rewrite Hk, Hkey. exact Hact.
Qed.

Lemma engine_calls_keep_active calls : forall states key,
  momentum_active states key = true ->
  let out := engine_calls config states calls in
  momentum_active (snd out) key = true /\
  Forall2 (fun call s =>
             let '(levels, _, _, session_id) := call in
             momentum_key levels session_id = key ->
             targets_suppressed s /\ momentum_active (final_states s) key = true)
          calls (fst out).
Proof.
  induction calls as [|[[[levels upd] ohlcv] session_id] calls IH]; intros states key Ha.
  - cbn. split; [exact Ha|constructor].
  - cbn [engine_calls].
    destruct (update_position_keeps_active states levels upd ohlcv session_id key Ha)
      as [Ha1 Hsup].
    specialize (IH _ key Ha1).
    destruct (engine_calls config _ calls) as [more states2].
    cbn [fst snd] in IH |- *. destruct IH as [IH1 IH2].
    split; [exact IH1|]. constructor; [|exact IH2].
    intros Hkey. split; [apply Hsup; exact Hkey|exact Ha1].
Qed.

Lemma reset_momentum_state_inactive states key :
  momentum_active (reset_momentum_state states key) key = false.
Proof.
  unfold momentum_active, reset_momentum_state. rewrite lookup_delete_eq. reflexivity.
Qed.

End WithConfig.

End SuppressionFacts.

(** C9.  [MomentumTrailingTP.update] never clears the [active] flag of a
    state, also when it signals an exit.  Hence, once the state stored under
    a key is active, it is still active after any sequence of calls of
    [update_position] on the engine, and every call of the sequence that
    uses this key skips the fixed-target block.  [reset_momentum_state]
    removes the state, after which the key is no longer active. *)
Theorem C9_active_momentum_suppresses_targets :
  forall (config : RiskEngine.RiskEngineConfig)
         (self : RiskEngine.MomentumTrailingTP) (state : RiskEngine.MomentumState)
         (current_price current_r : Q) (direction : string)
         (recent_closes : list Q) (recent_candles : list RiskEngine.Bar)
         (states : gmap string RiskEngine.MomentumState) (key : string)
         (calls : list (RiskEngine.RiskLevels * RiskEngine.PositionUpdate
                        * option (list RiskEngine.Bar) * option string)),
    (RiskEngine.active state = true ->
     RiskEngine.active
       (Notions.updated_state
          (RiskEngine.update self state current_price current_r direction
             recent_closes recent_candles)) = true) /\
    (RiskEngine.momentum_active states key = true ->
     let out := Notions.engine_calls config states calls in
     RiskEngine.momentum_active (snd out) key = true /\
     Forall2 (fun call s =>
                let '(levels, _, _, session_id) := call in
                RiskEngine.momentum_key levels session_id = key ->
                Notions.targets_suppressed s /\
                RiskEngine.momentum_active (RiskEngine.final_states s) key = true)
             calls (fst out)) /\
    RiskEngine.momentum_active (RiskEngine.reset_momentum_state states key) key = false.
Proof.
  intros config self state price r direction closes candles states key calls.
  split; [apply MomentumFacts.update_keeps_active|].
  split; [apply SuppressionFacts.engine_calls_keep_active|].
  apply SuppressionFacts.reset_momentum_state_inactive.
Qed.

(* ===================================================================== *)
(** * Precedence of the exit signals *)
(* ===================================================================== *)

Module PrecedenceFacts.
Import Py PyFacts RiskEngine Notions UpdateFacts.

Section WithConfig.

Variable config : RiskEngineConfig.

Lemma after_breakeven_clean states levels upd ohlcv session_id :
  let s := update_position_stages config states levels upd ohlcv session_id in
  exit_signal (after_breakeven s) = false /\ no_exit_no_reason (after_breakeven s).
Proof.
  intros s.
  destruct (stages_unfold config states levels upd ohlcv session_id)
    as [H1 [H2 _]]. fold s in H1, H2.
  destruct (r_multiple_step_exit levels upd (init_result levels)) as [A1 [A2 A3]].
  destruct (breakeven_step_exit config levels (after_r_multiple s)) as [B1 [B2 B3]].
  rewrite <- H2 in B1, B2, B3. rewrite H1 in B1, B2, B3.
  split.
  - rewrite B1, A1. reflexivity.
  - intros _. rewrite B2, B3, A2, A3. split; reflexivity.
Qed.

Lemma stages_precedence states levels upd ohlcv session_id :
  let s := update_position_stages config states levels upd ohlcv session_id in
  exit_overwritten_only_by_target_or_guarding levels s /\
  (forall r, after_structure_health s = Some r -> no_exit_no_reason r).
Proof.
  intros s.
  destruct (stages_unfold config states levels upd ohlcv session_id)
    as [_ [_ [_ [H4 [H5 _]]]]].
  destruct (stages_chain config states levels upd ohlcv session_id)
    as [Hc [Hs [Hft [Hg [Ht Hf]]]]].
  destruct (stages_momentum_key config states levels upd ohlcv session_id)
    as [_ Htargets].
  destruct (after_breakeven_clean states levels upd ohlcv session_id) as [Hclean Hcons].
  fold s in H4, H5, Hc, Hs, Hft, Hg, Ht, Hf, Htargets, Hclean, Hcons.
  set (levels' := final_levels s) in *. set (states' := final_states s) in *.
  set (key := momentum_key levels' session_id) in *.
  (* the momentum block *)
  destruct (momentum_step_frame config states levels' upd ohlcv session_id
              (after_breakeven s)) as [_ [M2 M3]].
  rewrite <- H4 in M2, M3. rewrite <- H5 in M3. fold key in M3.
  assert (Hactive : exit_signal (after_momentum s) = true ->
                    momentum_active states' key = true).
  { intros Hex. destruct (M3 Hex) as [[E _]|E]; [congruence|exact E]. }
  (* from the divergence block on *)
  assert (Hlater : forall r4, after_divergence s = Some r4 ->
            let r5 := fixed_targets_step states' levels' upd session_id r4 in
            let r6 := guarding_step config levels' upd r5 in
            (keeps_exit (after_momentum s) r4 /\ no_exit_no_reason r4) /\
            ((keeps_exit r4 r5 \/
              (exit_signal (after_momentum s) = false /\
               divergence_exit r4 /\ target_exit levels r5)) /\
             no_exit_no_reason r5) /\
            ((keeps_exit r5 r6 \/ guarding_broken r6 = true) /\ no_exit_no_reason r6)).
  { intros r4 E4 r5 r6. destruct (Hc r4 E4) as [D4 _].
    destruct (divergence_step_frame _ _ _ _ _ _ _ D4) as [_ [D2 D3]].
    fold key in D3.
    destruct (fixed_targets_step_frame states' levels' upd session_id r4)
      as [_ [T2 T3]]. fold r5 key in T2, T3.
    destruct (guarding_step_frame config levels' upd r5) as [_ [G2 G3]].
    fold r6 in G2, G3.
    assert (N4 : no_exit_no_reason r4) by auto.
    split; [split; [|exact N4]|split; [split; [|auto]|split; [|auto]]].
    - intros Hex. destruct D3 as [D3|[D3 _]]; [exact D3|].
      rewrite (Hactive Hex) in D3. discriminate.
    - destruct T3 as [->|[Tk [_ Tt]]]; [left; apply keeps_exit_refl|].
      destruct (exit_signal r4) eqn:Hex4; [|left; intros H; congruence].
      right. destruct D3 as [[D3 _]|[_ [_ D3]]].
      + rewrite Hex4 in D3. symmetry in D3.
        rewrite (Hactive D3) in Tk. discriminate.
      + split; [|split; [exact D3|]].
        * destruct (exit_signal (after_momentum s)) eqn:Hex3; [|reflexivity].
          rewrite (Hactive eq_refl) in Tk. discriminate.
        * destruct Tt as [target [Hin Ht']]. exists target.
          rewrite <- Htargets. fold levels'. split; assumption.
    - destruct G3 as [G3|[G3 _]]; [left; intros _; exact G3|right; exact G3]. }
  split.
  - split; [intros H; congruence|].
    split; [intros ra rb [= <-] Hb; apply (Hlater rb Hb)|].
    split.
    { intros ra rb Ha Hb. destruct (Hc ra Ha) as [_ [E5 _]].
      rewrite E5 in Hb. injection Hb as <-. apply (Hlater ra Ha). }
    split.
    { intros ra rb Ha Hb. destruct (Hft ra Ha) as [r4 E4].
      destruct (Hc r4 E4) as [_ [E5 [E6 _]]].
      rewrite E5 in Ha. injection Ha as <-. rewrite E6 in Hb. injection Hb as <-.
      apply (Hlater r4 E4). }
    split.
    { intros ra rb Ha Hb. destruct (Hg ra Ha) as [r4 E4].
      destruct (Hc r4 E4) as [_ [_ [E6 E7]]].
      rewrite E6 in Ha. injection Ha as <-. rewrite Hb in E7. symmetry in E7.
      destruct (trail_step_exit _ _ _ _ E7) as [Hsame _]. intros _. exact Hsame. }
    intros ra rb Ha Hb. rewrite (Hs ra Ha) in Hb.
    apply (structure_health_step_frame _ _ _ _ Hb).
  - intros r Hr. destruct (Hf r Hr) as [r7 E7]. destruct (Ht r7 E7) as [r4 E4].
    destruct (Hc r4 E4) as [_ [_ [_ E7']]]. rewrite E7 in E7'. symmetry in E7'.
    rewrite (Hs r7 E7) in Hr.
    destruct (Hlater r4 E4) as [_ [_ [_ N6]]].
    destruct (trail_step_exit _ _ _ _ E7') as [[S1 [S2 S3]] _].
    assert (N7 : no_exit_no_reason r7).
    { intros Hex. rewrite S2, S3. apply N6. congruence. }
    apply (structure_health_step_frame _ _ _ _ Hr). exact N7.
Qed.

End WithConfig.

End PrecedenceFacts.

(** C2, amended.  Each call of [update_position] reports one exit reason and
    percentage, and none without an exit signal.  Once a block of the
    sequence has set the exit signal, no later block of the call overwrites
    it, with two exceptions: a fixed target that is hit replaces the partial
    exit that the divergence block has set, and a guarding-line breach
    replaces any earlier signal.  An exit set by the momentum trailing block
    is never replaced by the divergence or the fixed-target block. *)
Theorem C2_exit_signal_precedence :
  forall (config : RiskEngine.RiskEngineConfig)
         (states : gmap string RiskEngine.MomentumState)
         (levels : RiskEngine.RiskLevels) (update : RiskEngine.PositionUpdate)
         (ohlcv : option (list RiskEngine.Bar)) (session_id : option string),
    let s := RiskEngine.update_position_stages config states levels update ohlcv
               session_id in
    Notions.exit_overwritten_only_by_target_or_guarding levels s /\
    (forall r,
       fst (fst (RiskEngine.update_position config states levels update ohlcv
                   session_id)) = Some r ->
       Notions.no_exit_no_reason r).
Proof.
  intros config states levels update ohlcv session_id.
  apply PrecedenceFacts.stages_precedence.
Qed.

(** C2, as stated, fails: the fixed-target block overwrites the exit signal
    of the divergence block.  On the example position at a price of 96 the
    divergence block signals a partial exit of 33% ("bearish divergence"),
    momentum trailing is not active, and the target at 95 is hit: the call
    returns "Target hit" with the 50% of that target. *)
Lemma C2_target_overwrites_divergence_counterexample :
  let s := RiskEngine.update_position_stages RiskEngine.default_config ∅
             Notions.example_levels (Notions.example_update 96)
             (Some Notions.example_ohlcv) (Some "session-1"%string) in
  (exists r4 r5 r,
     RiskEngine.after_divergence s = Some r4 /\
     RiskEngine.after_fixed_targets s = Some r5 /\
     RiskEngine.after_structure_health s = Some r /\
     RiskEngine.exit_signal r4 = true /\
     RiskEngine.exit_reason r4
       = Some (Py.Txt "{} divergence - momentum weakening" [Py.Str "bearish"]) /\
     RiskEngine.exit_percentage r4 = 33.0 /\
     RiskEngine.exit_reason r5
       = Some (Py.Txt "Target hit: {}" [Py.Sub (Py.Txt "Structural resistance" [])]) /\
     RiskEngine.exit_percentage r5 = 50 /\
     RiskEngine.exit_reason r = RiskEngine.exit_reason r5 /\
     RiskEngine.exit_percentage r = 50 /\
     RiskEngine.guarding_broken r = false) /\
  ~ Notions.exit_never_overwritten s.
Proof.
  intros s.
  assert (H : exists r4 r5 r,
     RiskEngine.after_divergence s = Some r4 /\
     RiskEngine.after_fixed_targets s = Some r5 /\
     RiskEngine.after_structure_health s = Some r /\
     RiskEngine.exit_signal r4 = true /\
     RiskEngine.exit_reason r4
       = Some (Py.Txt "{} divergence - momentum weakening" [Py.Str "bearish"]) /\
     RiskEngine.exit_percentage r4 = 33.0 /\
     RiskEngine.exit_reason r5
       = Some (Py.Txt "Target hit: {}" [Py.Sub (Py.Txt "Structural resistance" [])]) /\
     RiskEngine.exit_percentage r5 = 50 /\
     RiskEngine.exit_reason r = RiskEngine.exit_reason r5 /\
     RiskEngine.exit_percentage r = 50 /\
     RiskEngine.guarding_broken r = false).
  { eexists _, _, _.
    split; [vm_compute; reflexivity|].
    split; [vm_compute; reflexivity|].
    split; [vm_compute; reflexivity|].
    repeat split. }
  split; [exact H|].
  destruct H as [r4 [r5 [r [E4 [E5 [_ [Hsig [_ [P4 [_ [P5 _]]]]]]]]]]].
  intros [_ [_ [Hkeep _]]].
  destruct (Hkeep r4 r5 E4 E5 Hsig) as [_ [_ Hpct]].
  rewrite P4, P5 in Hpct. discriminate.
Qed.

(* ===================================================================== *)
(** * The exit route *)
(* ===================================================================== *)

Module RouteFacts.
Import SessionRoutes.

(** The lookup of the enumeration finds exactly the member with the value. *)
Lemma ExitReason_of_value_spec value r :
  ExitReason_of_value value = Some r <-> ExitReason_value r = value.
Proof.
  split.
  - intros H. apply find_some in H as [_ H]. apply String.eqb_eq in H. exact H.
  - intros <-. destruct r; reflexivity.
Qed.

Lemma ExitReason_of_value_None value :
  (forall r, ExitReason_value r <> value) -> ExitReason_of_value value = None.
Proof.
  intros H. destruct (ExitReason_of_value value) as [r|] eqn:E; [|reflexivity].
  apply ExitReason_of_value_spec in E. destruct (H r E).
Qed.

End RouteFacts.

(** C8.  When the reason string of an exit request (the exit reason, or its
    alias) is not the value of any member of the exit-reason enumeration,
    the route passes [MANUAL] to the session manager, and its outcome and
    the state it leaves are those of the same request made with the reason
    "manual_exit": the unrecognised string causes no failure of its own. *)
Theorem C8_unknown_exit_reason_is_manual :
  forall (Manager : Type)
         (manager_get_session : Manager -> string -> option SessionRoutes.Session)
         (manager_execute_exit :
            Manager -> string -> Q -> SessionRoutes.ExitReason -> Q ->
            option SessionRoutes.ExitResult * Manager)
         (manager : Manager) (session_id : string)
         (request : SessionRoutes.ExecuteExitRequest),
    (forall r, SessionRoutes.ExitReason_value r <> SessionRoutes.reason_str request) ->
    SessionRoutes.coerce_reason (SessionRoutes.reason_str request)
      = SessionRoutes.MANUAL /\
    SessionRoutes.execute_exit Manager manager_get_session manager_execute_exit
      manager session_id request
    = SessionRoutes.execute_exit Manager manager_get_session manager_execute_exit
        manager session_id
        {| SessionRoutes.req_exit_price := SessionRoutes.req_exit_price request;
           SessionRoutes.req_exit_reason := Some "manual_exit"%string;
           SessionRoutes.req_reason := SessionRoutes.req_reason request;
           SessionRoutes.req_exit_percentage :=
             SessionRoutes.req_exit_percentage request |}.
Proof.
  intros Manager get_session execute manager session_id request Hunknown.
  assert (Hc : SessionRoutes.coerce_reason (SessionRoutes.reason_str request)
               = SessionRoutes.MANUAL).
  { unfold SessionRoutes.coerce_reason.
    rewrite RouteFacts.ExitReason_of_value_None by exact Hunknown. reflexivity. }
  split; [exact Hc|].
  unfold SessionRoutes.execute_exit. rewrite Hc. reflexivity.
Qed.

(** The theorem on a request with the reason "stop_hunt", for a manager
    that holds one open session and closes it on any exit. *)
Lemma C8_unknown_exit_reason_is_manual_witness :
  let session := SessionRoutes.mkSession 96 92 "active" 100 0 in
  let get_session (m : bool) (id : string) :=
    if String.eqb id "session-1" then Some session else None in
  let execute (m : bool) (id : string) (price : Q)
              (reason : SessionRoutes.ExitReason) (pct : Q) :=
    (Some (SessionRoutes.mkExitResult price 100 pct
             (SessionRoutes.ExitReason_value reason) 400), true) in
  exists response,
    SessionRoutes.execute_exit bool get_session execute false "session-1"
      (SessionRoutes.mkExecuteExitRequest (Some 96) (Some "stop_hunt"%string) None 100)
    = (SessionRoutes.Response response, true) /\
    SessionRoutes.resp_reason response = "manual_exit"%string.
Proof.
  intros session get_session execute.
  destruct (C8_unknown_exit_reason_is_manual bool get_session execute false
              "session-1"
              (SessionRoutes.mkExecuteExitRequest (Some 96) (Some "stop_hunt"%string)
                 None 100)) as [_ ->].
  - intros r. destruct r; discriminate.
  - eexists. split; reflexivity.
Defined.

(* ===================================================================== *)
(** * The theorems on the example position *)
(* ===================================================================== *)

(** C1 at the example position in the normal regime, with an ATR of 3.26% of
    the entry price: the ratio is within [0.5, 2.0]. *)
Lemma C1_risk_amount_and_ratio_witness :
  0.5 <= RiskEngine.effective_risk_pct RiskEngine.default_config RiskEngine.NORMAL
           1.0 3.26 / 1.0 <= 2.0.
Proof.
  destruct (C1_risk_amount_and_ratio Engine.default_config
              (Engine.mkTradeSetup 92 "long" "1h" "BTCUSDT" 100000 1.0)
              RiskEngine.default_config Notions.example_levels
              100000 1.0 6 3 3.26) as [_ [_ [_ [H _]]]].
  - reflexivity.
  - reflexivity.
  - discriminate.
  - apply H. discriminate.
Defined.

(** C4 on an active long state trailing at 95, with the price back at 94. *)
Lemma C4_momentum_trailing_ratchet_witness :
  let state :=
    {| RiskEngine.active := true; RiskEngine.trailing_level := 95;
       RiskEngine.ms_slope := 1; RiskEngine.slope_strength := 0.8;
       RiskEngine.bars_in_momentum := 2; RiskEngine.peak_price := 101;
       RiskEngine.trail_buffer_pct := 0.42;
       RiskEngine.last_candle_body_high := 101;
       RiskEngine.last_candle_body_low := 99;
       RiskEngine.activation_r := 1.2 |} in
  let res := RiskEngine.update RiskEngine.momentum_tp state 94 0.33 "long"
               [98; 97; 96; 96; 96] (map Notions.flat_bar [97; 96; 96]) in
  95 <= RiskEngine.trailing_level (Notions.updated_state res) /\
  Notions.should_exit res = true.
Proof.
  intros state res.
  destruct (C4_momentum_trailing_ratchet RiskEngine.momentum_tp state 94 0.33
              [98; 97; 96; 96; 96] (map Notions.flat_bar [97; 96; 96]) eq_refl)
    as [[Hratchet [Hexit _]] _].
  split; [exact Hratchet|].
  apply Hexit. vm_compute. reflexivity.
Defined.

(** C2 on the example position at a price of 93: no block signals an exit
    and the call reports neither a reason nor a percentage. *)
Lemma C2_exit_signal_precedence_witness :
  exists r,
    fst (fst (RiskEngine.update_position RiskEngine.default_config ∅
                Notions.example_levels (Notions.example_update 93)
                (Some Notions.example_ohlcv) (Some "session-1"%string))) = Some r /\
    RiskEngine.exit_reason r = None /\ RiskEngine.exit_percentage r = 0.0.
Proof.
  eexists. split; [vm_compute; reflexivity|].
  apply (proj2 (C2_exit_signal_precedence RiskEngine.default_config ∅
                  Notions.example_levels (Notions.example_update 93)
                  (Some Notions.example_ohlcv) (Some "session-1"%string))).
  - vm_compute. reflexivity.
  - reflexivity.
Defined.

(** C5 on the example position: the price reaches 98.5 (+1.08R), then 99.
    The first call reports the move to breakeven, the second does not, and
    the stop is at breakeven afterwards. *)
Lemma C5_breakeven_at_most_once_witness :
  let out :=
    RiskEngine.update_position_seq RiskEngine.default_config ∅ Notions.example_levels
      [(Notions.example_update 98.5, None, None);
       (Notions.example_update 99, None, None)] in
  map Notions.reports_move (fst (fst out)) = [true; false] /\
  Notions.at_breakeven RiskEngine.default_config (snd (fst out)).
Proof.
  intros out. split; [vm_compute; reflexivity|].
  apply (C5_breakeven_at_most_once RiskEngine.default_config ∅ Notions.example_levels
           [(Notions.example_update 98.5, None, None);
            (Notions.example_update 99, None, None)]).
  vm_compute. reflexivity.
Defined.

(** C9 on the example position, whose session already has an active
    momentum state: the price of 96 is above the target at 95, but the call
    does not reach the fixed targets, and the state stays active. *)
Lemma C9_active_momentum_suppresses_targets_witness :
  let state :=
    {| RiskEngine.active := true; RiskEngine.trailing_level := 95;
       RiskEngine.ms_slope := 1; RiskEngine.slope_strength := 0.8;
       RiskEngine.bars_in_momentum := 2; RiskEngine.peak_price := 101;
       RiskEngine.trail_buffer_pct := 0.42;
       RiskEngine.last_candle_body_high := 101;
       RiskEngine.last_candle_body_low := 99;
       RiskEngine.activation_r := 1.2 |} in
  let out :=
    Notions.engine_calls RiskEngine.default_config {[ "session-1"%string := state ]}
      [(Notions.example_levels, Notions.example_update 96,
        Some Notions.example_ohlcv, Some "session-1"%string)] in
  RiskEngine.momentum_active (snd out) "session-1" = true /\
  Forall Notions.targets_suppressed (fst out).
Proof.
  intros state out.
  destruct (C9_active_momentum_suppresses_targets RiskEngine.default_config
              RiskEngine.momentum_tp state 96 0.67 "long" [] []
              {[ "session-1"%string := state ]} "session-1"
              [(Notions.example_levels, Notions.example_update 96,
                Some Notions.example_ohlcv, Some "session-1"%string)])
    as [_ [H _]].
  destruct (H eq_refl) as [Hactive Hcalls].
  split; [exact Hactive|].
  fold out in Hcalls. inversion Hcalls as [|call s calls ss Hs Hrest Hc Hss]; subst.
  inversion Hrest; subst.
  constructor; [|constructor]. apply Hs. reflexivity.
Defined.

(** C10 on the example position at a price of 96 (+0.67R): the breakeven
    move does not fire and [levels] is left as it was. *)
Lemma C10_update_position_frame_witness :
  snd (fst (RiskEngine.update_position RiskEngine.default_config ∅
              Notions.example_levels (Notions.example_update 96)
              (Some Notions.example_ohlcv) (Some "session-1"%string)))
  = Notions.example_levels.
Proof.
  apply (C10_update_position_frame RiskEngine.default_config ∅
           Notions.example_levels (Notions.example_update 96)
           (Some Notions.example_ohlcv) (Some "session-1"%string)).
  vm_compute. reflexivity.
Defined.

(* ===================================================================== *)
(** * Further properties of the code *)
(* ===================================================================== *)

(* ===================================================================== *)
(** * core/engine.py: the entry points *)
(* ===================================================================== *)

Module EngineMainFacts.
Import Py PyFacts EngineFacts Engine Notions.

Lemma Forall_pos_nth (prices : list Q) i :
  Forall (fun p => 0 < p) prices -> (i < length prices)%nat -> 0 < nth i prices 0.
Proof.
  intros Hall Hi. rewrite List.Forall_forall in Hall. apply Hall, nth_In, Hi.
Qed.

Lemma touches_returns prices level :
  0 < level -> exists n, EngineMain.touches prices level = Some n.
Proof.
  intros Hl. unfold EngineMain.touches.
  destruct (Qeq_bool level 0) eqn:E; [|eauto].
  apply Qeq_bool_iff in E. lra.
Qed.

Lemma swing_levels_returns is_swing prices idxs :
  Forall (fun p => 0 < p) prices ->
  Forall (fun i => (i < length prices)%nat) idxs ->
  exists found, EngineMain.swing_levels is_swing prices idxs = Some found.
Proof.
  intros Hp. induction idxs as [|i rest IH]; intros Hi; cbn [EngineMain.swing_levels].
  - eauto.
  - inversion Hi as [|? ? Hlt Hrest]; subst.
    destruct (IH Hrest) as [more Hmore].
    destruct (is_swing prices i); [|eauto].
    destruct (touches_returns prices (nth i prices 0)) as [n Hn].
    { apply Forall_pos_nth; assumption. }
    rewrite Hn, Hmore. cbn [mbind option_bind]. eauto.
Qed.

Lemma seq_swing_range (prices : list Q) :
  Forall (fun i => (i < length prices)%nat) (seq 2 (length prices - 4)).
Proof.
  apply List.Forall_forall. intros i Hi. apply in_seq in Hi. lia.
Qed.

Lemma find_levels_returns is_swing entry given prices :
  Forall (fun p => 0 < p) prices ->
  exists levels, EngineMain.find_levels is_swing entry given prices = Some levels.
Proof.
  intros Hp. unfold EngineMain.find_levels.
  assert (Hf : Forall (fun p => 0 < p) (firstn 100 prices)).
  { apply List.Forall_forall. intros x Hx. apply in_firstn in Hx.
    rewrite List.Forall_forall in Hp. apply Hp, Hx. }
  destruct (swing_levels_returns is_swing (firstn 100 prices)
              (seq 2 (length (firstn 100 prices) - 4)) Hf (seq_swing_range _))
    as [found Hfound].
  destruct given as [[|l ls]|]; try (rewrite Hfound; cbn [mbind option_bind]); eauto.
Qed.

(** The legacy guarding line is fitted for every look-back of at least two
    bars. *)
Lemma legacy_initial_line_returns self entry direction price_data lookback :
  (2 <= lookback)%nat ->
  exists line,
    GuardingLine.calculate_initial_line self entry direction price_data lookback
      = Some line.
Proof.
  intros Hl. unfold GuardingLine.calculate_initial_line.
  destruct (length price_data <? 5)%nat eqn:E; [eauto|].
  apply Nat.ltb_ge in E.
  set (recent := firstn (Nat.min lookback (length price_data)) price_data).
  assert (Hrec : (2 <= length recent)%nat).
  { subst recent. rewrite length_firstn. lia. }
  set (sp := GuardingLine._find_swing_points recent direction).
  assert (Hfit : exists fit,
            (if (length sp <? 2)%nat then polyfit (arange (length recent)) recent
             else polyfit (map (fun p => inject_Z (Z.of_nat (fst p))) sp) (map snd sp))
            = Some fit).
  { destruct (length sp <? 2)%nat eqn:E2.
    - rewrite (polyfit_arange _ recent Hrec). eauto.
    - apply Nat.ltb_ge in E2. subst sp. unfold GuardingLine._find_swing_points in *.
      rewrite (polyfit_swings _ _ _ _ _ E2). eauto. }
  destruct Hfit as [[s i] Hfit]. rewrite Hfit. cbn [mbind option_bind].
  destruct (String.eqb direction "long"); eauto.
Qed.

Section WithConfig.

Variable config : RiskEngineConfig.
Variables entry atr : Q.
Hypothesis entry_pos : 0 < entry.
Hypothesis atr_pos : 0 < atr.
Hypothesis mult_pos : 0 < atr_stop_multiplier config.
Hypothesis max_stop_pos : 0 < max_stop_pct config.

(** The ladder of stops starts with a primary stop. *)
Lemma calculate_stops_primary (setup : TradeSetup) supports resistances stops :
  entry_price setup = entry ->
  _calculate_stops config setup supports resistances atr = Some stops ->
  exists s rest, stops = s :: rest /\ sl_type s = PRIMARY.
Proof.
  intros He. unfold _calculate_stops. rewrite He.
  pose proof (stop_dist_pos config atr atr_pos mult_pos) as Hd.
  destruct (String.eqb (direction setup) "long").
  - destruct (structural_stop config entry atr true supports) as [st|] eqn:Hst;
      cbn [mbind option_bind]; [|discriminate].
    assert (Hp : forall s0 st', st = s0 :: st' -> sl_type s0 = PRIMARY).
    { unfold structural_stop in Hst. destruct supports as [|[p c] t]; [congruence|].
      destruct (Qltb p entry); [|congruence].
      destruct (div _ entry); cbn [mbind option_bind] in Hst; [|discriminate].
      destruct (Qleb _ _); intros s0 st' ->; [|discriminate].
      injection Hst as <- <-. reflexivity. }
    rewrite !(div_ok _ entry) by lra. cbn [mbind option_bind].
    destruct st as [|s0 st']; destruct (enable_multi_tier_stops config);
      intros [= <-]; cbn [app]; eauto.
  - destruct (structural_stop config entry atr false resistances) as [st|] eqn:Hst;
      cbn [mbind option_bind]; [|discriminate].
    assert (Hp : forall s0 st', st = s0 :: st' -> sl_type s0 = PRIMARY).
    { unfold structural_stop in Hst. destruct resistances as [|[p c] t]; [congruence|].
      destruct (Qltb entry p); [|congruence].
      destruct (div _ entry); cbn [mbind option_bind] in Hst; [|discriminate].
      destruct (Qleb _ _); intros s0 st' ->; [|discriminate].
      injection Hst as <- <-. reflexivity. }
    rewrite !(div_ok _ entry) by lra. cbn [mbind option_bind].
    destruct st as [|s0 st']; destruct (enable_multi_tier_stops config);
      intros [= <-]; cbn [app]; eauto.
Qed.

Lemma extension_targets_nonempty e d long i m ms targets :
  extension_targets config e d long i (m :: ms) = Some targets ->
  targets <> [].
Proof.
  cbn [extension_targets].
  destruct (index_or_last _ _); cbn [mbind option_bind]; [|discriminate].
  destruct (div _ e); cbn [mbind option_bind]; [|discriminate].
  destruct (extension_targets _ _ _ _ _ _); cbn [mbind option_bind]; [|discriminate].
  intros [= <-]. discriminate.
Qed.

(** The ladder of targets is never empty. *)
Lemma calculate_targets_nonempty (setup : TradeSetup) supports resistances a targets :
  _calculate_targets config setup supports resistances a = Some targets ->
  targets <> [].
Proof.
  unfold _calculate_targets.
  destruct (String.eqb (direction setup) "long");
    (destruct (structural_targets _ _ _ _ _ _) as [[|t tg]|];
     cbn [mbind option_bind];
     [apply extension_targets_nonempty|intros [= <-]; discriminate|discriminate]).
Qed.

End WithConfig.

Lemma Qabs_pos_lt (x : Q) : x < 0 \/ 0 < x -> 0 < Qabs x.
Proof.
  intros H. apply Qabs_case; intros; lra.
Qed.

Lemma risk_amount_pos (config : RiskEngineConfig) balance risk atr_pct :
  0 < balance -> 0 < risk ->
  0 < balance * (effective_risk_pct config risk atr_pct / 100).
Proof.
  intros Hb Hr. apply Qmult_lt_0_compat; [exact Hb|].
  apply Qlt_shift_div_l; [lra|]. rewrite Qmult_0_l.
  rewrite SizingFacts.engine_effective.
  destruct (volatility_adjusted_sizing config); [|exact Hr].
  pose proof (SizingFacts.vol_factor_bounds atr_pct) as Hv.
  apply Qmult_lt_0_compat; lra.
Qed.

Lemma get_primary_stop_head levels s rest :
  Models.stops levels = s :: rest -> sl_type s = PRIMARY ->
  Models.get_primary_stop levels = Some s.
Proof.
  intros Hs Ht. unfold Models.get_primary_stop. rewrite Hs.
  cbn [List.filter]. unfold Models.is_primary at 1. rewrite Ht. reflexivity.
Qed.

End EngineMainFacts.

(** X1.  [RiskEngine.calculate_risk_levels] of core/engine.py on a usable
    market: for a positive entry price, account balance and risk percentage,
    a configuration with positive stop multiplier and maximum stop distance
    and at least one exit ratio, and a market whose ATR is positive and
    whose lows and highs are positive, the call returns levels whose ladder
    of stops starts with the primary stop, whose stops all lie on the loss
    side of the entry and whose targets (at least one) all lie on the profit
    side; the risk amount and the position size are positive, the position
    size times the distance to the primary stop is the risk amount, and the
    reward-to-risk ratio is positive. *)
Theorem X1_calculate_risk_levels_sound :
  forall (config : Engine.RiskEngineConfig) (gconfig : EngineMain.GuardingConfig)
         (setup : Engine.TradeSetup) (market : Models.MarketContext) (a : Q),
    0 < Engine.entry_price setup ->
    0 < Engine.account_balance setup ->
    0 < Engine.risk_per_trade_pct setup ->
    0 < Engine.atr_stop_multiplier config ->
    0 < Engine.max_stop_pct config ->
    Engine.partial_exit_ratios config <> [] ->
    Models.atr market = Some a ->
    0 < a ->
    Forall (fun p => 0 < p) (Models.lows market) ->
    Forall (fun p => 0 < p) (Models.highs market) ->
    let entry := Engine.entry_price setup in
    let long := String.eqb (Engine.direction setup) "long" in
    exists levels primary rest,
      EngineMain.calculate_risk_levels config gconfig setup market = Some levels /\
      Models.stops levels = primary :: rest /\
      Models.get_primary_stop levels = Some primary /\
      Models.targets levels <> [] /\
      Forall (fun s => Notions.beyond entry long (Engine.sl_price s))
             (Models.stops levels) /\
      Forall (fun t => Notions.beyond entry (negb long) (Engine.tl_price t))
             (Models.targets levels) /\
      0 < Models.risk_amount levels /\
      0 < Models.position_size levels /\
      Models.position_size levels * Qabs (entry - Engine.sl_price primary)
        == Models.risk_amount levels /\
      0 < Models.risk_reward_ratio levels.
Proof.
  intros config gconfig setup market a He Hb Hr Hm Hmax Hratios Hatr Ha Hlows Hhighs
         entry long.
  unfold EngineMain.calculate_risk_levels. rewrite Hatr. cbn [mbind option_bind].
  fold entry.
  destruct (EngineMainFacts.find_levels_returns EngineMain.swing_low entry
              (Models.support_levels market) (Models.lows market) Hlows) as [sup Hsup].
  destruct (EngineMainFacts.find_levels_returns EngineMain.swing_high entry
              (Models.resistance_levels market) (Models.highs market) Hhighs)
    as [res Hres].
  unfold EngineMain._find_support_levels, EngineMain._find_resistance_levels.
  fold entry. rewrite Hsup, Hres. cbn [mbind option_bind].
  destruct (EngineFacts.calculate_stops_side config entry a He Ha Hm Hmax setup sup res
              eq_refl) as [stops [Hstops Hside]].
  destruct (EngineMainFacts.calculate_stops_primary config entry a He Ha Hm setup sup res
              stops eq_refl Hstops) as [primary [rest [-> Hprim]]].
  destruct (EngineFacts.calculate_targets_side config entry a He Ha Hm setup sup res
              eq_refl Hratios) as [targets [Htargets Htside]].
  pose proof (EngineMainFacts.calculate_targets_nonempty config setup sup res a targets
                Htargets) as Hne.
  rewrite Hstops, Htargets. cbn [mbind option_bind head].
  set (atr_pct := if Py.Qltb 0 entry then a / entry * 100 else 1.0).
  set (rd := Qabs (entry - Engine.sl_price primary)).
  assert (Hrd : 0 < rd).
  { subst rd. apply EngineMainFacts.Qabs_pos_lt.
    inversion Hside as [|? ? Hp _]; subst. unfold Notions.beyond in Hp.
    fold long in Hp. destruct long; lra. }
  unfold Engine._calculate_position_size.
  rewrite (EngineFacts.div_ok _ (Engine.account_balance setup)) by lra.
  cbn [mbind option_bind].
  assert (Hlt : Py.Qltb 0 rd = true) by (apply PyFacts.Qltb_true; exact Hrd).
  rewrite Hlt.
  pose proof (EngineMainFacts.risk_amount_pos config (Engine.account_balance setup)
                (Engine.risk_per_trade_pct setup) atr_pct Hb Hr) as Hra.
  set (ra := Engine.account_balance setup *
             (Engine.effective_risk_pct config (Engine.risk_per_trade_pct setup) atr_pct
              / 100)) in *.
  assert (Hguard : exists g,
            (if EngineMain.enable_guarding_line gconfig &&
                EngineMain._is_swing_timeframe (Engine.timeframe setup)
             then
               line ← GuardingLine.calculate_initial_line
                        (EngineMain.guarding_line_of gconfig) entry
                        (Engine.direction setup)
                        (if String.eqb (Engine.direction setup) "long"
                         then Models.lows market else Models.highs market) 20;
               Some (Some line)
             else Some None) = Some g).
  { destruct (_ && _); [|eauto].
    destruct (EngineMainFacts.legacy_initial_line_returns
                (EngineMain.guarding_line_of gconfig) entry (Engine.direction setup)
                (if String.eqb (Engine.direction setup) "long"
                 then Models.lows market else Models.highs market) 20) as [line ->];
      [lia|]. cbn [mbind option_bind]. eauto. }
  destruct Hguard as [g ->]. cbn [mbind option_bind].
  eexists _, primary, rest. split; [reflexivity|].
  cbn [Models.stops Models.targets Models.risk_amount Models.position_size
       Models.risk_reward_ratio].
  split; [reflexivity|].
  split; [apply EngineMainFacts.get_primary_stop_head with (rest := rest);
          [reflexivity|exact Hprim]|].
  split; [exact Hne|]. split; [exact Hside|]. split; [exact Htside|].
  split; [exact Hra|].
  split; [apply Qlt_shift_div_l; [exact Hrd|lra]|].
  split; [fold rd; clearbody rd ra; field; lra|].
  destruct targets as [|t ts]; [congruence|]. cbn [head].
  unfold EngineMain._calculate_rr_ratio. fold rd. rewrite Hlt.
  apply Qlt_shift_div_l; [exact Hrd|]. rewrite Qmult_0_l.
  apply EngineMainFacts.Qabs_pos_lt.
  inversion Htside as [|? ? Hp _]; subst. unfold Notions.beyond in Hp.
  fold long in Hp. destruct long; cbn [negb] in Hp; lra.
Qed.

(* --------------------------------------------------------------------- *)
(** ** The market context and the level finders *)
(* --------------------------------------------------------------------- *)

Module MarketFacts.
Import Py PyFacts EngineFacts Engine Notions.

Lemma Qsum_nonneg (l : list Q) : Forall (fun x => 0 <= x) l -> 0 <= Qsum l.
Proof.
  induction 1 as [|x l Hx _ IH]; cbn [Qsum fold_right]; [lra|].
  unfold Qsum in IH. lra.
Qed.

Lemma true_range_nonneg market i tr :
  Models.true_range market i = Some tr -> 0 <= tr.
Proof.
  unfold Models.true_range.
  destruct (nth_error (Models.highs market) i) as [h|]; cbn [mbind option_bind];
    [|discriminate].
  destruct (nth_error (Models.lows market) i) as [l|]; cbn [mbind option_bind];
    [|discriminate].
  destruct (nth_error (Models.closes market) (S i)) as [c|]; cbn [mbind option_bind];
    [|discriminate].
  intros [= <-]. pose proof (Qabs_nonneg (l - c)) as H.
  pose proof (Q.le_max_r (Qmax (h - l) (Qabs (h - c))) (Qabs (l - c))) as H'.
  eapply Qle_trans; [exact H|exact H'].
Qed.

Lemma tr_values_nonneg market idxs trs :
  Models.tr_values market idxs = Some trs -> Forall (fun x => 0 <= x) trs.
Proof.
  revert trs. induction idxs as [|i rest IH]; intros trs; cbn [Models.tr_values].
  - intros [= <-]. constructor.
  - destruct (Models.true_range market i) as [tr|] eqn:Htr; cbn [mbind option_bind];
      [|discriminate].
    destruct (Models.tr_values market rest) as [more|]; cbn [mbind option_bind];
      [|discriminate].
    intros [= <-]. constructor; [eapply true_range_nonneg; exact Htr|].
    apply IH. reflexivity.
Qed.

Lemma tr_values_returns market idxs :
  Forall (fun i => (i < length (Models.highs market))%nat /\
                   (i < length (Models.lows market))%nat /\
                   (S i < length (Models.closes market))%nat) idxs ->
  exists trs, Models.tr_values market idxs = Some trs.
Proof.
  induction 1 as [|i rest [Hh [Hl Hc]] _ [more IH]]; cbn [Models.tr_values]; [eauto|].
  unfold Models.true_range.
  destruct (nth_error (Models.highs market) i) eqn:E1;
    [|apply nth_error_None in E1; lia].
  destruct (nth_error (Models.lows market) i) eqn:E2;
    [|apply nth_error_None in E2; lia].
  destruct (nth_error (Models.closes market) (S i)) eqn:E3;
    [|apply nth_error_None in E3; lia].
  cbn [mbind option_bind]. rewrite IH. cbn [mbind option_bind]. eauto.
Qed.

Lemma mean_nonneg (l : list Q) :
  Forall (fun x => 0 <= x) l -> 0 <= Qsum l / inject_Z (Z.of_nat (length l)).
Proof.
  intros H. destruct l as [|x l].
  - apply Qle_bool_iff. reflexivity.
  - apply Qle_shift_div_l.
    + change 0 with (inject_Z 0). rewrite <- Zlt_Qlt. cbn [length]. lia.
    + rewrite Qmult_0_l. apply Qsum_nonneg, H.
Qed.

(** Insertion by key keeps a sorted list sorted. *)
Lemma insert_by_sorted {A} (key : A -> Q) x (l : list A) :
  StronglySorted (fun a b => key a <= key b) l ->
  StronglySorted (fun a b => key a <= key b) (insert_by key x l).
Proof.
  induction 1 as [|y t Ht IH Hy]; cbn [insert_by].
  - constructor; constructor.
  - destruct (Qle_bool (key x) (key y)) eqn:E.
    + apply Qle_bool_iff in E. constructor; [constructor; assumption|].
      constructor; [exact E|].
      rewrite List.Forall_forall in Hy |- *. intros z Hz.
      specialize (Hy z Hz). cbv beta in Hy. lra.
    + assert (Hlt : key y < key x).
      { destruct (Qlt_le_dec (key y) (key x)) as [H|H]; [exact H|].
        apply Qle_bool_iff in H. congruence. }
      constructor; [exact IH|].
      apply List.Forall_forall. intros z Hz.
      apply in_insert_by in Hz as [->|Hz]; [lra|].
      rewrite List.Forall_forall in Hy. apply Hy, Hz.
Qed.

Lemma sort_by_sorted {A} (key : A -> Q) (l : list A) :
  StronglySorted (fun a b => key a <= key b) (sort_by key l).
Proof.
  induction l as [|x t IH]; cbn [sort_by fold_right]; [constructor|].
  apply insert_by_sorted, IH.
Qed.

Lemma firstn_sorted {A} (R : A -> A -> Prop) n (l : list A) :
  StronglySorted R l -> StronglySorted R (firstn n l).
Proof.
  intros H. revert n. induction H as [|x t Ht IH Hx]; intros [|n]; cbn [firstn];
    try constructor; auto.
  apply List.Forall_forall. intros z Hz. apply in_firstn in Hz.
  rewrite List.Forall_forall in Hx. apply Hx, Hz.
Qed.

(** A level of the list touches itself. *)
Lemma touches_pos prices level n :
  EngineMain.touches prices level = Some n -> In level prices -> (1 <= n)%nat.
Proof.
  unfold EngineMain.touches.
  destruct (Qeq_bool level 0) eqn:Hz; [discriminate|].
  set (close_to := fun p => Qltb (Qabs (p - level) / level) 0.005).
  intros [= <-] Hin.
  assert (Hf : In level (List.filter close_to prices)).
  { apply filter_In. split; [exact Hin|].
    subst close_to. cbv beta. apply Qltb_true.
    assert (Hne : ~ level == 0).
    { intros Heq. apply Qeq_bool_iff in Heq. congruence. }
    assert (E : Qabs (level - level) == 0).
    { assert (E0 : level - level == 0) by ring. rewrite E0. reflexivity. }
    rewrite E.
    assert (E1 : 0 / level == 0) by (field; exact Hne).
    rewrite E1. reflexivity. }
  destruct (List.filter close_to prices); [destruct Hf|cbn [length]; lia].
Qed.

Lemma confidence_bounds (n : nat) :
  (1 <= n)%nat ->
  0.2 <= Qmin 1.0 (inject_Z (Z.of_nat n) / 5) /\ Qmin 1.0 (inject_Z (Z.of_nat n) / 5) <= 1.
Proof.
  intros Hn.
  assert (H1 : inject_Z 1 <= inject_Z (Z.of_nat n)) by (rewrite <- Zle_Qle; lia).
  change (inject_Z 1) with 1 in H1.
  set (m := inject_Z (Z.of_nat n)) in *. clearbody m.
  assert (H2 : 0.2 <= m / 5) by (apply Qle_shift_div_l; lra).
  revert H2. generalize (m / 5). intros x Hx.
  minmax_cases; lra.
Qed.

(** What the loop over the swing points collects. *)
Lemma swing_levels_spec is_swing prices idxs found :
  Forall (fun i => (2 <= i < length prices - 2)%nat) idxs ->
  EngineMain.swing_levels is_swing prices idxs = Some found ->
  Forall (fun lc => EngineNotions.swing_point_of is_swing prices (fst lc) /\
                    0.2 <= snd lc <= 1) found.
Proof.
  intros Hidx. revert found.
  induction Hidx as [|i rest Hi _ IH]; intros found; cbn [EngineMain.swing_levels].
  - intros [= <-]. constructor.
  - destruct (is_swing prices i) eqn:Hsw; [|apply IH].
    destruct (EngineMain.touches prices (nth i prices 0)) as [n|] eqn:Ht;
      cbn [mbind option_bind]; [|discriminate].
    destruct (EngineMain.swing_levels is_swing prices rest) as [more|];
      cbn [mbind option_bind]; [|discriminate].
    intros [= <-]. constructor; [|apply IH; reflexivity].
    cbn [fst snd]. split; [exists i; auto|].
    apply confidence_bounds. eapply touches_pos; [exact Ht|apply nth_In; lia].
Qed.

Lemma seq_swing_bounds (prices : list Q) :
  Forall (fun i => (2 <= i < length prices - 2)%nat) (seq 2 (length prices - 4)).
Proof.
  apply List.Forall_forall. intros i Hi. apply in_seq in Hi. lia.
Qed.

(** The levels that a finder computes from the prices. *)
Lemma find_levels_computed is_swing entry given prices levels :
  given = None \/ given = Some [] ->
  EngineMain.find_levels is_swing entry given prices = Some levels ->
  EngineNotions.computed_levels is_swing entry prices levels.
Proof.
  intros Hg. unfold EngineMain.find_levels.
  assert (Hcomp :
    (found ← EngineMain.swing_levels is_swing (firstn 100 prices)
               (seq 2 (length (firstn 100 prices) - 4));
     Some (firstn 5 (sort_by (fun x => Qabs (fst x - entry)) found))) = Some levels ->
    EngineNotions.computed_levels is_swing entry prices levels).
  { destruct (EngineMain.swing_levels _ _ _) as [found|] eqn:Hf;
      cbn [mbind option_bind]; [|discriminate].
    intros [= <-].
    apply swing_levels_spec in Hf; [|apply seq_swing_bounds].
    split; [rewrite length_firstn; lia|]. split.
    - apply List.Forall_forall. intros lc Hlc.
      apply in_firstn, in_sort_by in Hlc.
      rewrite List.Forall_forall in Hf. apply Hf, Hlc.
    - apply firstn_sorted, (sort_by_sorted (fun x => Qabs (fst x - entry))). }
  destruct Hg as [->| ->]; exact Hcomp.
Qed.

(** Pre-calculated levels are taken as they are. *)
Lemma find_levels_given is_swing entry l ls prices :
  EngineMain.find_levels is_swing entry (Some (l :: ls)) prices
  = Some (map (fun level => (level, 0.8)) (l :: ls)).
Proof. reflexivity. Qed.

End MarketFacts.

(** X2.  [MarketContext.atr]: with fewer than fourteen highs the ATR is 0;
    whenever it is computed it is not negative; and it is computed (no
    [IndexError]) as soon as the market has at least fourteen highs and as
    many lows and closes as highs. *)
Theorem X2_market_atr :
  forall (market : Models.MarketContext),
    ((length (Models.highs market) < 14)%nat -> Models.atr market = Some 0.0) /\
    (forall a, Models.atr market = Some a -> 0 <= a) /\
    ((14 <= length (Models.highs market))%nat ->
     (length (Models.highs market) <= length (Models.lows market))%nat ->
     (length (Models.highs market) <= length (Models.closes market))%nat ->
     exists a, Models.atr market = Some a).
Proof.
  intros market. unfold Models.atr. split; [|split].
  - intros H. apply Nat.ltb_lt in H. rewrite H. reflexivity.
  - intros a. destruct (_ <? _)%nat; [intros [= <-]; lra|].
    destruct (Models.tr_values market _) as [trs|] eqn:Htr; cbn [mbind option_bind];
      [|discriminate].
    apply MarketFacts.tr_values_nonneg in Htr.
    destruct trs as [|t trs]; [intros [= <-]; lra|].
    intros [= <-]. exact (MarketFacts.mean_nonneg (t :: trs) Htr).
  - intros Hh Hl Hc. apply Nat.ltb_ge in Hh. rewrite Hh.
    apply Nat.ltb_ge in Hh.
    destruct (MarketFacts.tr_values_returns market
                (seq 0 (Nat.min 14 (length (Models.highs market) - 1)))) as [trs ->].
    { apply List.Forall_forall. intros i Hi. apply in_seq in Hi. lia. }
    cbn [mbind option_bind]. destruct trs; eauto.
Qed.

(** X3.  [_find_support_levels] and [_find_resistance_levels] of
    core/engine.py, when the market carries no pre-calculated levels: a
    returned list has at most five entries, each the price of a swing low
    (swing high) among the first hundred lows (highs) with a confidence
    between 0.2 and 1, ordered by increasing distance from the entry
    price. *)
Theorem X3_find_levels_computed :
  forall (setup : Engine.TradeSetup) (market : Models.MarketContext)
         (levels : list (Q * Q)),
    (Models.support_levels market = None \/ Models.support_levels market = Some [] ->
     EngineMain._find_support_levels setup market = Some levels ->
     EngineNotions.computed_levels EngineMain.swing_low (Engine.entry_price setup)
       (Models.lows market) levels) /\
    (Models.resistance_levels market = None \/
     Models.resistance_levels market = Some [] ->
     EngineMain._find_resistance_levels setup market = Some levels ->
     EngineNotions.computed_levels EngineMain.swing_high (Engine.entry_price setup)
       (Models.highs market) levels).
Proof.
  intros setup market levels. split; intros Hg H.
  - exact (MarketFacts.find_levels_computed _ _ _ _ _ Hg H).
  - exact (MarketFacts.find_levels_computed _ _ _ _ _ Hg H).
Qed.

(** X4.  [_estimate_win_probability] of core/engine.py: the estimate always
    lies between 0.2 and 0.8, and a higher reward-to-risk ratio never raises
    it. *)
Theorem X4_win_probability_bounds :
  forall (setup : Engine.TradeSetup) (market : Models.MarketContext) (rr rr' : Q),
    0.2 <= EngineMain._estimate_win_probability setup market rr <= 0.8 /\
    (rr <= rr' ->
     EngineMain._estimate_win_probability setup market rr'
       <= EngineMain._estimate_win_probability setup market rr).
Proof.
  intros setup market rr rr'. unfold EngineMain._estimate_win_probability. cbv zeta.
  match goal with
  | |- context [Qmin 0.8 (0.45 + _ + ?adj)] => generalize adj
  end.
  intros adj. split.
  - minmax_cases; lra.
  - intros Hle. minmax_cases; lra.
Qed.

(* --------------------------------------------------------------------- *)
(** ** The per-bar update of core/engine.py *)
(* --------------------------------------------------------------------- *)

Module EngineUpdateFacts.
Import Py PyFacts EngineFacts Engine Notions.

Lemma trail_stop_returns direction entry current stops :
  ~ entry == 0 ->
  exists new_stop, EngineMain._trail_stop direction entry current stops = Some new_stop.
Proof.
  intros He. unfold EngineMain._trail_stop.
  destruct stops as [|primary rest]; [eauto|].
  destruct (String.eqb direction "long"); rewrite (div_ok _ entry) by exact He;
    cbn [mbind option_bind];
    repeat match goal with
    | |- context [if ?c then _ else _] => destruct c
    end; eauto.
Qed.

(** The three blocks of the update that write the exit signal. *)
Lemma targets_block_spec direction current targets :
  let exit := EngineMain.targets_block direction current targets in
  (fst (fst exit) = true <->
     EngineMain.first_target_hit direction current targets <> None) /\
  (fst (fst exit) = false -> snd (fst exit) = None /\ snd exit = 0.0).
Proof.
  unfold EngineMain.targets_block.
  destruct (EngineMain.first_target_hit direction current targets); cbn [fst snd].
  - split; [split; [discriminate|reflexivity]|discriminate].
  - split; [split; [discriminate|congruence]|auto].
Qed.

Lemma guarding_block_spec gconfig levels update exit :
  let out := EngineMain.guarding_block gconfig levels update exit in
  let broken := snd (fst out) in
  (broken = true ->
     fst (fst out) = true /\ fst (fst (snd out)) = true /\ snd (snd out) = 100.0) /\
  (broken = false -> snd out = exit).
Proof.
  unfold EngineMain.guarding_block.
  destruct (Models.guarding_line levels) as [line|];
    [|cbn [fst snd]; split; [discriminate|reflexivity]].
  destruct (_ <=? _)%Z; [|cbn [fst snd]; split; [discriminate|reflexivity]].
  destruct (_ && _); [cbn [fst snd]; split; [auto|discriminate]|].
  destruct (_ && _); cbn [fst snd]; split; auto; discriminate.
Qed.

Lemma stop_hit_block_spec levels update exit :
  let out := EngineMain.stop_hit_block levels update exit in
  (EngineNotions.stop_hit levels update = true ->
     exists s, Models.get_primary_stop levels = Some s /\
       out = (true, Some (Txt "Stop hit: {}" [Sub (sl_reason s)]), 100.0)) /\
  (EngineNotions.stop_hit levels update = false -> out = exit).
Proof.
  unfold EngineMain.stop_hit_block, EngineNotions.stop_hit.
  destruct (Models.get_primary_stop levels) as [s|];
    [|split; [discriminate|reflexivity]].
  destruct (String.eqb (Models.direction levels) "long" &&
            Qleb (Models.pu_current_price update) (sl_price s)); cbn [orb].
  - split; [eauto|discriminate].
  - destruct (String.eqb (Models.direction levels) "short" &&
              Qleb (sl_price s) (Models.pu_current_price update)).
    + split; [eauto|discriminate].
    + split; [discriminate|reflexivity].
Qed.

End EngineUpdateFacts.

(** X5.  [RiskEngine.update_position] of core/engine.py.  The call returns
    unless the entry price is zero, and it hands back the stops and targets
    of the levels unchanged.  A price at or through the primary stop always
    yields a full exit with the stop's reason, whatever the targets and the
    guarding line say; a broken guarding line is only reported on an active
    line and always with a full exit; an exit is signalled only when the
    stop, the guarding line or a target triggers it; and without an exit
    signal there is no reason and a percentage of 0. *)
Theorem X5_engine_update_position :
  forall (gconfig : EngineMain.GuardingConfig) (update : Models.PositionUpdate)
         (levels : Models.RiskLevels),
    (~ Models.entry_price levels == 0 ->
     exists r, EngineMain.update_position gconfig update levels = Some r) /\
    (forall r, EngineMain.update_position gconfig update levels = Some r ->
       Models.updated_stops r = Models.stops levels /\
       Models.updated_targets r = Models.targets levels /\
       (EngineNotions.stop_hit levels update = true ->
          Models.exit_signal r = true /\ Models.exit_percentage r = 100.0 /\
          exists s, Models.get_primary_stop levels = Some s /\
            Models.exit_reason r
              = Some (Py.Txt "Stop hit: {}" [Py.Sub (Engine.sl_reason s)])) /\
       (Models.guarding_broken r = true ->
          Models.guarding_active r = true /\ Models.exit_signal r = true /\
          Models.exit_percentage r = 100.0) /\
       (Models.exit_signal r = true ->
          EngineNotions.stop_hit levels update = true \/
          Models.guarding_broken r = true \/
          EngineNotions.target_reached levels update = true) /\
       (Models.exit_signal r = false ->
          Models.exit_reason r = None /\ Models.exit_percentage r = 0.0)).
Proof.
  intros gconfig update levels.
  unfold EngineMain.update_position.
  set (direction := Models.direction levels).
  set (current := Models.pu_current_price update).
  pose proof (EngineUpdateFacts.targets_block_spec direction current
                (Models.targets levels)) as Ht.
  set (exit0 := EngineMain.targets_block direction current (Models.targets levels)) in *.
  pose proof (EngineUpdateFacts.guarding_block_spec gconfig levels update exit0) as Hg.
  destruct (EngineMain.guarding_block gconfig levels update exit0)
    as [[active broken] exit1].
  pose proof (EngineUpdateFacts.stop_hit_block_spec levels update exit1) as Hs.
  destruct (EngineMain.stop_hit_block levels update exit1) as [[sig reason] pct].
  cbv zeta in Ht, Hg, Hs. cbn [fst snd] in Hg, Hs.
  destruct Ht as [Ht1 Ht2]. destruct Hg as [Hg1 Hg2]. destruct Hs as [Hs1 Hs2].
  split.
  - intros He.
    destruct (Py.Qltb 0 (Models.unrealized_pnl_pct update)); cbn [mbind option_bind];
      [|eauto].
    destruct (EngineUpdateFacts.trail_stop_returns direction
                (Models.entry_price levels) current (Models.stops levels) He)
      as [new_stop ->].
    cbn [mbind option_bind]. eauto.
  - intros r.
    destruct (if Py.Qltb 0 (Models.unrealized_pnl_pct update) then _ else _)
      as [new_stop|]; cbn [mbind option_bind]; [|discriminate].
    intros [= <-].
    cbn [Models.updated_stops Models.updated_targets Models.exit_signal
         Models.exit_percentage Models.exit_reason Models.guarding_broken
         Models.guarding_active].
    split; [reflexivity|]. split; [reflexivity|].
    destruct (EngineNotions.stop_hit levels update) eqn:Hhit.
    + destruct (Hs1 eq_refl) as [s [Hp [= -> -> ->]]].
      split; [intros _; split; [reflexivity|]; split; [reflexivity|]; eauto|].
      split; [intros Hb; destruct (Hg1 Hb) as [Ha _]; auto|].
      split; [auto|discriminate].
    + specialize (Hs2 eq_refl). subst exit1. cbn [fst snd] in Hg1, Hg2.
      split; [discriminate|].
      destruct broken.
      * destruct (Hg1 eq_refl) as [Ha [Hsig Hpct]].
        split; [intros _; auto|]. split; [auto|].
        intros Hf. congruence.
      * specialize (Hg2 eq_refl).
        split; [discriminate|].
        rewrite <- Hg2 in Ht1, Ht2. cbn [fst snd] in Ht1, Ht2.
        split; [|exact Ht2].
        intros Hsig. right. right. unfold EngineNotions.target_reached.
        fold direction current. apply Ht1 in Hsig.
        destruct (EngineMain.first_target_hit direction current (Models.targets levels));
          congruence.
Qed.

(** X6.  With fewer than fourteen bars the ATR is 0, and
    [calculate_risk_levels] of core/engine.py then raises (the division by
    the stop distance in [_calculate_targets]) as soon as the market carries
    a pre-calculated level on the profit side of the entry: a resistance
    above it for a long, a support below it otherwise. *)
Theorem X6_short_history_raises :
  forall (config : Engine.RiskEngineConfig) (gconfig : EngineMain.GuardingConfig)
         (setup : Engine.TradeSetup) (market : Models.MarketContext)
         (given : list Q) (level : Q),
    (length (Models.highs market) < 14)%nat ->
    (if String.eqb (Engine.direction setup) "long"
     then Models.resistance_levels market = Some given /\ Engine.entry_price setup < level
     else Models.support_levels market = Some given /\ level < Engine.entry_price setup) ->
    In level given ->
    EngineMain.calculate_risk_levels config gconfig setup market = None.
Proof.
  intros config gconfig setup market given level Hlen Hside Hin.
  assert (Hsort : forall (key : Q * Q -> Q) (l : list (Q * Q)) x,
            In x l -> exists y t, firstn 3 (Py.sort_by key l) = y :: t).
  { intros key l x Hx.
    assert (Hne : Py.sort_by key l <> []).
    { destruct l as [|a l']; [destruct Hx|]. cbn [Py.sort_by fold_right].
      destruct (fold_right (Py.insert_by key) [] l') as [|b t]; cbn [Py.insert_by];
        [discriminate|]. destruct (Qle_bool _ _); discriminate. }
    destruct (Py.sort_by key l) as [|y t]; [congruence|].
    cbn [firstn]. eauto. }
  assert (Hzero : forall e long i lc rest,
            Engine.structural_targets config e (0.0 * Engine.atr_stop_multiplier config)
              long i (lc :: rest) = None).
  { intros e long i [p c] rest. cbn [Engine.structural_targets].
    unfold Py.div.
    assert (E : Qeq_bool (0.0 * Engine.atr_stop_multiplier config) 0 = true).
    { apply Qeq_bool_iff. ring. }
    rewrite E. reflexivity. }
  unfold EngineMain.calculate_risk_levels.
  assert (Hatr : Models.atr market = Some 0.0).
  { unfold Models.atr. apply Nat.ltb_lt in Hlen. rewrite Hlen. reflexivity. }
  rewrite Hatr. cbn [mbind option_bind].
  destruct (EngineMain._find_support_levels setup market) as [sup|] eqn:Hsup;
    cbn [mbind option_bind]; [|reflexivity].
  destruct (EngineMain._find_resistance_levels setup market) as [res|] eqn:Hres;
    cbn [mbind option_bind]; [|reflexivity].
  destruct (Engine._calculate_stops config setup sup res 0.0) as [stops|];
    cbn [mbind option_bind]; [|reflexivity].
  assert (Htargets : Engine._calculate_targets config setup sup res 0.0 = None).
  { unfold Engine._calculate_targets.
    destruct (String.eqb (Engine.direction setup) "long").
    - destruct Hside as [Hgiven Hlt].
      unfold EngineMain._find_resistance_levels in Hres. rewrite Hgiven in Hres.
      destruct given as [|g gs]; [destruct Hin|].
      cbn [EngineMain.find_levels] in Hres.
      assert (Hr : res = map (fun l => (l, 0.8)) (g :: gs)) by congruence. rewrite Hr.
      destruct (Hsort fst
                  (List.filter (fun rc => Py.Qltb (Engine.entry_price setup) (fst rc))
                     (map (fun l => (l, 0.8)) (g :: gs))) (level, 0.8))
        as [y [t ->]].
      { apply filter_In. split.
        - apply in_map_iff. exists level. split; [reflexivity|exact Hin].
        - apply PyFacts.Qltb_true. exact Hlt. }
      rewrite Hzero. reflexivity.
    - destruct Hside as [Hgiven Hlt].
      unfold EngineMain._find_support_levels in Hsup. rewrite Hgiven in Hsup.
      destruct given as [|g gs]; [destruct Hin|].
      cbn [EngineMain.find_levels] in Hsup.
      assert (Hr : sup = map (fun l => (l, 0.8)) (g :: gs)) by congruence. rewrite Hr.
      destruct (Hsort (fun sc => - fst sc)
                  (List.filter (fun sc => Py.Qltb (fst sc) (Engine.entry_price setup))
                     (map (fun l => (l, 0.8)) (g :: gs))) (level, 0.8))
        as [y [t ->]].
      { apply filter_In. split.
        - apply in_map_iff. exists level. split; [reflexivity|exact Hin].
        - apply PyFacts.Qltb_true. exact Hlt. }
      rewrite Hzero. reflexivity. }
  rewrite Htargets. reflexivity.
Qed.

(* ===================================================================== *)
(** * The guarding line over the life of a position *)
(* ===================================================================== *)

Module GuardingLevelFacts.
Import Py PyFacts.

Lemma inject_Z_sub_le (a b c : Z) :
  (a <= b)%Z -> inject_Z (a - c) <= inject_Z (b - c).
Proof. intros H. rewrite <- Zle_Qle. lia. Qed.

Lemma inject_Z_sub_lt (a b c : Z) :
  (a < b)%Z -> inject_Z (a - c) < inject_Z (b - c).
Proof. intros H. rewrite <- Zlt_Qlt. lia. Qed.

Lemma inject_Z_sub_nonneg (a c : Z) : (c <= a)%Z -> 0 <= inject_Z (a - c).
Proof. intros H. change 0 with (inject_Z 0). rewrite <- Zle_Qle. lia. Qed.

(** A line [intercept + slope * x] at two abscissas. *)
Lemma line_le (i s x y : Q) : 0 <= s -> x <= y -> i + s * x <= i + s * y.
Proof. intros Hs Hxy. nra. Qed.

Lemma line_lt (i s x y : Q) : 0 < s -> x < y -> i + s * x < i + s * y.
Proof. intros Hs Hxy. nra. Qed.

Lemma line_ge (i s x y : Q) : s <= 0 -> x <= y -> i + s * y <= i + s * x.
Proof. intros Hs Hxy. nra. Qed.

Lemma line_gt (i s x y : Q) : s < 0 -> x < y -> i + s * y < i + s * x.
Proof. intros Hs Hxy. nra. Qed.

(** The buffered extreme of a tightened line is beyond the level it
    replaces. *)
Lemma tightened_long (level low buffer : Q) :
  0 < low -> 0 <= buffer <= 0.99 -> level * 1.01 < low ->
  level <= low * (1 - buffer / 100).
Proof.
  intros Hlow [Hb0 Hb1] Hlt.
  assert (Hk1 : 0 <= buffer / 100) by (apply Qle_shift_div_l; lra).
  assert (Hk2 : buffer / 100 <= 0.0099) by (apply Qle_shift_div_r; lra).
  generalize dependent (buffer / 100). intros k Hk1 Hk2. nra.
Qed.

Lemma tightened_short (level high buffer : Q) :
  0 < high -> 0 <= buffer <= 0.99 -> high < level * 0.99 ->
  high * (1 + buffer / 100) <= level.
Proof.
  intros Hhigh [Hb0 Hb1] Hlt.
  assert (Hk1 : 0 <= buffer / 100) by (apply Qle_shift_div_l; lra).
  assert (Hk2 : buffer / 100 <= 0.0099) by (apply Qle_shift_div_r; lra).
  generalize dependent (buffer / 100). intros k Hk1 Hk2. nra.
Qed.

End GuardingLevelFacts.

(** X7.  The guarding line of [GuardingLineManager] never loosens as the
    bars go by.  For a line computed by [calculate_initial_line] from
    positive prices and a positive entry price, the level of a long line at
    a later bar is never below its level at an earlier bar, before or after
    activation, and it rises strictly from one bar to the next once the line
    is active; a short line mirrors this. *)
Theorem X7_guarding_level_monotone :
  forall (activation_bars : Z) (buffer_pct entry_price : Q) (direction : string)
         (price_data : list Q) (lookback : nat) (params : Py.LineParams)
         (b1 b2 : Z),
    0 < entry_price ->
    Forall (fun p => 0 < p) price_data ->
    -100 < buffer_pct < 100 ->
    let manager := RiskEngine.GuardingLineManager_init activation_bars buffer_pct in
    RiskEngine.calculate_initial_line manager entry_price direction price_data
      lookback = Some params ->
    (b1 <= b2)%Z ->
    let level := RiskEngine.get_current_level manager params in
    if String.eqb direction "long" then
      level b1 <= level b2 /\
      ((activation_bars <= b1)%Z -> (b1 < b2)%Z -> level b1 < level b2)
    else
      level b2 <= level b1 /\
      ((activation_bars <= b1)%Z -> (b1 < b2)%Z -> level b2 < level b1).
Proof.
  intros ab bp entry direction price_data lookback params b1 b2
         He Hpos Hbuf manager Hp Hb level.
  assert (Hmin : 0 < RiskEngine.min_slope_pct manager) by reflexivity.
  assert (Hle : RiskEngine.min_slope_pct manager <= RiskEngine.max_slope_pct manager)
    by discriminate.
  pose proof (GuardingFacts.calculate_initial_line_slope manager entry He Hmin Hle
                direction price_data lookback params Hp) as Hs.
  pose proof (GuardingFacts.calculate_initial_line_intercept manager entry He
                direction price_data lookback params Hpos Hbuf Hp) as Hi.
  pose proof (GuardingFacts.pct_pos entry _ He Hmin) as Hmn.
  assert (Hact : Py.activation_bar params = Some ab).
  { revert Hp. unfold RiskEngine.calculate_initial_line.
    destruct (length price_data <? 5)%nat; [intros [= <-]; reflexivity|].
    match goal with
    | |- context [mbind _ ?m] => destruct m as [[s src]|]
    end; cbn [mbind option_bind]; [|discriminate].
    intros [= <-]. reflexivity. }
  subst level. unfold RiskEngine.get_current_level. rewrite Hact.
  set (i := Py.intercept params) in *. set (s := Py.slope params) in *.
  destruct (String.eqb direction "long").
  - assert (Hq : Py.Qleb 0 s = true) by (apply PyFacts.Qleb_true; lra).
    rewrite Hq.
    destruct (Z.ltb_spec b1 ab) as [H1|H1]; destruct (Z.ltb_spec b2 ab) as [H2|H2];
      try lia.
    + split; [lra|lia].
    + pose proof (GuardingLevelFacts.inject_Z_sub_nonneg b2 ab H2) as Hx.
      split; [nra|lia].
    + split.
      * apply GuardingLevelFacts.line_le; [lra|].
        apply GuardingLevelFacts.inject_Z_sub_le. exact Hb.
      * intros _ Hlt. apply GuardingLevelFacts.line_lt; [lra|].
        apply GuardingLevelFacts.inject_Z_sub_lt. exact Hlt.
  - assert (Hq : Py.Qleb 0 s = false) by (apply PyFacts.Qleb_false; lra).
    rewrite Hq.
    destruct (Z.ltb_spec b1 ab) as [H1|H1]; destruct (Z.ltb_spec b2 ab) as [H2|H2];
      try lia.
    + split; [lra|lia].
    + pose proof (GuardingLevelFacts.inject_Z_sub_nonneg b2 ab H2) as Hx.
      split; [nra|lia].
    + split.
      * apply GuardingLevelFacts.line_ge; [lra|].
        apply GuardingLevelFacts.inject_Z_sub_le. exact Hb.
      * intros _ Hlt. apply GuardingLevelFacts.line_gt; [lra|].
        apply GuardingLevelFacts.inject_Z_sub_lt. exact Hlt.
Qed.

(** X8.  [GuardingLine.update_line] of core/guarding_line.py only tightens
    the line.  For positive recent prices and a buffer between 0% and 0.99%,
    the call returns, it leaves the parameters as they are before activation
    and with fewer than five recent prices, and at the bar of the update and
    at every later bar the level of the returned line is at or above the
    level of the old line for a long, at or below it for a short. *)
Theorem X8_update_line_tightens :
  forall (self : GuardingLine.GuardingLine) (params : Py.LineParams)
         (direction : string) (current_price : Q) (recent_prices : list Q)
         (bars : Z),
    Forall (fun p => 0 < p) recent_prices ->
    0 <= GuardingLine.buffer_pct self <= 0.99 ->
    exists params',
      GuardingLineStatus.update_line self params direction current_price
        recent_prices bars = Some params' /\
      ((bars < GuardingLineStatus.activation_of self params)%Z \/
       (length recent_prices < 5)%nat -> params' = params) /\
      forall b, (bars <= b)%Z ->
        if String.eqb direction "long" then
          GuardingLine.get_current_level self params b
            <= GuardingLine.get_current_level self params' b
        else
          GuardingLine.get_current_level self params' b
            <= GuardingLine.get_current_level self params b.
Proof.
  intros self params direction price recent_prices bars Hpos Hbuf.
  assert (Hsame : exists params',
            Some params = Some params' /\
            ((bars < GuardingLineStatus.activation_of self params)%Z \/
             (length recent_prices < 5)%nat -> params' = params) /\
            forall b, (bars <= b)%Z ->
              if String.eqb direction "long" then
                GuardingLine.get_current_level self params b
                  <= GuardingLine.get_current_level self params' b
              else
                GuardingLine.get_current_level self params' b
                  <= GuardingLine.get_current_level self params b).
  { exists params. split; [reflexivity|]. split; [reflexivity|].
    intros b _. destruct (String.eqb direction "long"); lra. }
  unfold GuardingLineStatus.update_line.
  destruct (Z.ltb_spec bars (GuardingLineStatus.activation_of self params)) as [Hb|Hb];
    [exact Hsame|].
  destruct (Nat.ltb_spec (length recent_prices) 5) as [Hn|Hn]; [exact Hsame|].
  assert (Hrec : Forall (fun p => 0 < p) (firstn 10 recent_prices))
    by (apply GuardingFacts.Forall_firstn; exact Hpos).
  assert (Hne : firstn 10 recent_prices <> []).
  { destruct recent_prices; [cbn in Hn; lia|discriminate]. }
  set (act := GuardingLineStatus.activation_of self params) in *.
  assert (Hlevel : forall p b, (act <= b)%Z -> Py.activation_bar p = Py.activation_bar params ->
            GuardingLine.get_current_level self p b
            = Py.intercept p + Py.slope p * inject_Z (b - act)).
  { intros p b Hge Hp. unfold GuardingLine.get_current_level. rewrite Hp.
    fold (GuardingLineStatus.activation_of self params). fold act.
    destruct (Z.ltb_spec b act); [lia|reflexivity]. }
  rewrite (Hlevel params bars Hb eq_refl).
  pose proof (GuardingLevelFacts.inject_Z_sub_nonneg bars act Hb) as Hx0.
  set (i := Py.intercept params) in *. set (s := Py.slope params) in *.
  set (x0 := inject_Z (bars - act)) in *.
  destruct (String.eqb direction "long").
  - destruct (Py.list_min (firstn 10 recent_prices)) as [low|] eqn:Hmin;
      [|destruct (firstn 10 recent_prices); [congruence|discriminate]].
    cbn [mbind option_bind].
    pose proof (GuardingFacts.list_min_pos _ _ Hrec Hmin) as Hlow.
    destruct (Py.Qltb ((i + s * x0) * 1.01) low) eqn:Hlt; [|exact Hsame].
    apply PyFacts.Qltb_true in Hlt.
    pose proof (GuardingLevelFacts.tightened_long _ _ _ Hlow Hbuf Hlt) as Hnew.
    eexists. split; [reflexivity|]. split; [intros [H|H]; lia|].
    intros b Hbb.
    rewrite (Hlevel params b) by (try reflexivity; lia).
    rewrite Hlevel by (try reflexivity; lia).
    fold i s. cbn [GuardingLineStatus.with_line Py.intercept Py.slope].
    pose proof (GuardingLevelFacts.inject_Z_sub_le bars b act Hbb) as Hx.
    fold x0 in Hx. revert Hx Hnew. generalize (inject_Z (b - act)).
    generalize (low * (1 - GuardingLine.buffer_pct self / 100)).
    intros ni x Hx Hnew. clearbody x0 i s.
    destruct (Q.max_spec 0 s) as [[Hs ->]|[Hs ->]]; nra.
  - destruct (Py.list_max (firstn 10 recent_prices)) as [high|] eqn:Hmax;
      [|destruct (firstn 10 recent_prices); [congruence|discriminate]].
    cbn [mbind option_bind].
    pose proof (GuardingFacts.list_max_pos _ _ Hrec Hmax) as Hhigh.
    destruct (Py.Qltb high ((i + s * x0) * 0.99)) eqn:Hlt; [|exact Hsame].
    apply PyFacts.Qltb_true in Hlt.
    pose proof (GuardingLevelFacts.tightened_short _ _ _ Hhigh Hbuf Hlt) as Hnew.
    eexists. split; [reflexivity|]. split; [intros [H|H]; lia|].
    intros b Hbb.
    rewrite (Hlevel params b) by (try reflexivity; lia).
    rewrite Hlevel by (try reflexivity; lia).
    fold i s. cbn [GuardingLineStatus.with_line Py.intercept Py.slope].
    pose proof (GuardingLevelFacts.inject_Z_sub_le bars b act Hbb) as Hx.
    fold x0 in Hx. revert Hx Hnew. generalize (inject_Z (b - act)).
    generalize (high * (1 + GuardingLine.buffer_pct self / 100)).
    intros ni x Hx Hnew. clearbody x0 i s.
    destruct (Q.min_spec 0 s) as [[Hs ->]|[Hs ->]]; nra.
Qed.

(** X9.  [GuardingLine.get_status] of core/guarding_line.py raises exactly
    when the current price is zero (the division of the percentage
    distance).  In a returned status the line is active exactly when no bar
    is left until activation, and it is reported broken exactly when the
    distance to the line is negative, whether or not it is active; the
    percentage distance is the distance relative to the price. *)
Theorem X9_get_status_consistent :
  forall (self : GuardingLine.GuardingLine) (params : Py.LineParams)
         (current_price : Q) (direction : string) (bars : Z),
    let status :=
      GuardingLineStatus.get_status self params current_price direction bars in
    (current_price == 0 -> status = None) /\
    (~ current_price == 0 -> exists st, status = Some st) /\
    (forall st, status = Some st ->
       (GuardingLineStatus.is_active st = true <->
          GuardingLineStatus.bars_until_activation st = 0%Z) /\
       (GuardingLineStatus.is_broken st = true <->
          GuardingLineStatus.distance st < 0) /\
       GuardingLineStatus.current_level st
         = GuardingLine.get_current_level self params bars /\
       GuardingLineStatus.distance_pct st
         == GuardingLineStatus.distance st / current_price * 100).
Proof.
  intros self params price direction bars status. subst status.
  unfold GuardingLineStatus.get_status.
  set (level := GuardingLine.get_current_level self params bars).
  set (act := GuardingLineStatus.activation_of self params).
  set (dist := if String.eqb direction "long" then price - level else level - price).
  assert (Hbroken : fst (GuardingLine.check_break price level direction) = true
                    <-> dist < 0).
  { unfold GuardingLine.check_break. subst dist.
    destruct (String.eqb direction "long").
    - destruct (Py.Qltb price level) eqn:E; cbn [fst];
        [apply PyFacts.Qltb_true in E|apply PyFacts.Qltb_false in E];
        split; intros H; try reflexivity; try discriminate; lra.
    - destruct (Py.Qltb level price) eqn:E; cbn [fst];
        [apply PyFacts.Qltb_true in E|apply PyFacts.Qltb_false in E];
        split; intros H; try reflexivity; try discriminate; lra. }
  destruct (GuardingLine.check_break price level direction) as [broken reason].
  cbn [fst] in Hbroken.
  unfold Py.div. destruct (Qeq_bool price 0) eqn:E; cbn [mbind option_bind].
  - apply Qeq_bool_iff in E. split; [reflexivity|]. split; [tauto|discriminate].
  - assert (Hne : ~ price == 0).
    { intros H. apply Qeq_bool_iff in H. congruence. }
    split; [tauto|]. split; [eauto|].
    intros st [= <-].
    cbn [GuardingLineStatus.is_active GuardingLineStatus.bars_until_activation
         GuardingLineStatus.is_broken GuardingLineStatus.distance
         GuardingLineStatus.current_level GuardingLineStatus.distance_pct].
    split; [|split; [exact Hbroken|split; reflexivity]].
    destruct (Z.leb_spec act bars); split; intros Hx; try reflexivity; try lia;
      discriminate.
Qed.

(** X10.  [GuardingLineManager.update_slope] of core/risk_engine.py only
    steepens the line in the direction of the trade: the slope of the
    returned line is at least the old slope for a long and at most the old
    slope for a short, the intercept and the activation bar are kept, and
    with fewer than two swing points, or for another direction, the line is
    returned as it is.  Hence, once active, the level of a long line is never
    lowered by the call and that of a short line never raised. *)
Theorem X10_update_slope_steepens :
  forall (self : RiskEngine.GuardingLineManager) (params params' : Py.LineParams)
         (swings : list (nat * Q)) (direction : string) (entry_price : Q),
    RiskEngineAux.update_slope self params swings direction entry_price
      = Some params' ->
    Py.intercept params' = Py.intercept params /\
    Py.activation_bar params' = Py.activation_bar params /\
    ((length swings < 2)%nat -> params' = params) /\
    (if String.eqb direction "long" then Py.slope params <= Py.slope params'
     else if String.eqb direction "short" then Py.slope params' <= Py.slope params
     else params' = params) /\
    (forall activation b,
       Py.activation_bar params = Some activation -> (activation <= b)%Z ->
       if String.eqb direction "long" then
         RiskEngine.get_current_level self params b
           <= RiskEngine.get_current_level self params' b
       else
         RiskEngine.get_current_level self params' b
           <= RiskEngine.get_current_level self params b).
Proof.
  intros self params params' swings direction entry.
  unfold RiskEngineAux.update_slope.
  assert (Hsame : Some params = Some params' ->
            Py.intercept params' = Py.intercept params /\
            Py.activation_bar params' = Py.activation_bar params /\
            ((length swings < 2)%nat -> params' = params) /\
            (if String.eqb direction "long" then Py.slope params <= Py.slope params'
             else if String.eqb direction "short" then Py.slope params' <= Py.slope params
             else params' = params) /\
            (forall activation b,
               Py.activation_bar params = Some activation -> (activation <= b)%Z ->
               if String.eqb direction "long" then
                 RiskEngine.get_current_level self params b
                   <= RiskEngine.get_current_level self params' b
               else
                 RiskEngine.get_current_level self params' b
                   <= RiskEngine.get_current_level self params b)).
  { intros [= <-]. split; [reflexivity|]. split; [reflexivity|].
    split; [reflexivity|]. split.
    - destruct (String.eqb direction "long"); [lra|].
      destruct (String.eqb direction "short"); [lra|reflexivity].
    - intros activation b _ _. destruct (String.eqb direction "long"); lra. }
  destruct (Nat.ltb_spec (length swings) 2) as [Hn|Hn]; [exact Hsame|].
  destruct (RiskEngine._calculate_dynamic_slope self swings direction entry)
    as [new_slope|]; cbn [mbind option_bind]; [|discriminate].
  assert (Hlevel : forall p activation b,
            Py.activation_bar p = Some activation -> (activation <= b)%Z ->
            RiskEngine.get_current_level self p b
            = Py.intercept p + Py.slope p * inject_Z (b - activation)).
  { intros p activation b Hp Hge. unfold RiskEngine.get_current_level. rewrite Hp.
    destruct (Z.ltb_spec b activation); [lia|reflexivity]. }
  destruct (String.eqb direction "long") eqn:Hd; cbn [andb].
  - destruct (Py.Qltb (Py.slope params) new_slope) eqn:Hlt.
    2:{ assert (Hns : String.eqb direction "short" = false).
        { apply String.eqb_eq in Hd. subst direction. reflexivity. }
        rewrite Hns. cbn [andb]. exact Hsame. }
    apply PyFacts.Qltb_true in Hlt. intros [= <-].
    cbn [RiskEngineAux.with_dynamic_slope Py.intercept Py.activation_bar Py.slope].
    split; [reflexivity|]. split; [reflexivity|]. split; [lia|]. split; [lra|].
    intros activation b Ha Hge.
    rewrite (Hlevel params activation b Ha Hge).
    rewrite (Hlevel _ activation b) by (try exact Hge; exact Ha).
    cbn [RiskEngineAux.with_dynamic_slope Py.intercept Py.slope].
    pose proof (GuardingLevelFacts.inject_Z_sub_nonneg b activation Hge) as Hx.
    nra.
  - destruct (String.eqb direction "short") eqn:Hs; cbn [andb]; [|exact Hsame].
    destruct (Py.Qltb new_slope (Py.slope params)) eqn:Hlt; [|exact Hsame].
    apply PyFacts.Qltb_true in Hlt. intros [= <-].
    cbn [RiskEngineAux.with_dynamic_slope Py.intercept Py.activation_bar Py.slope].
    split; [reflexivity|]. split; [reflexivity|]. split; [lia|]. split; [lra|].
    intros activation b Ha Hge.
    rewrite (Hlevel params activation b Ha Hge).
    rewrite (Hlevel _ activation b) by (try exact Hge; exact Ha).
    cbn [RiskEngineAux.with_dynamic_slope Py.intercept Py.slope].
    pose proof (GuardingLevelFacts.inject_Z_sub_nonneg b activation Hge) as Hx.
    nra.
Qed.

(* ===================================================================== *)
(** * The momentum trailing take-profit, continued *)
(* ===================================================================== *)

Module TrailFacts.
Import Py PyFacts RiskEngine Notions.

Lemma trail_buffer_ge_min self strength :
  min_buffer_pct self <= calculate_trail_buffer self strength.
Proof. unfold calculate_trail_buffer. apply Q.le_max_l. Qed.

Lemma pct_below (price pct : Q) : 0 < price -> 0 < pct -> price * (1 - pct / 100) < price.
Proof.
  intros Hp Hb. assert (0 < pct / 100) by (apply Qlt_shift_div_l; lra). nra.
Qed.

Lemma pct_above (price pct : Q) : 0 < price -> 0 < pct -> price < price * (1 + pct / 100).
Proof.
  intros Hp Hb. assert (0 < pct / 100) by (apply Qlt_shift_div_l; lra). nra.
Qed.

Lemma pct_mono (price a b : Q) :
  0 < price -> a <= b -> price * (1 - b / 100) <= price * (1 - a / 100).
Proof.
  intros Hp Hab.
  assert (E : price * (1 - a / 100) - price * (1 - b / 100) == price * ((b - a) / 100))
    by (field).
  assert (0 <= (b - a) / 100) by (apply Qle_shift_div_l; lra).
  nra.
Qed.

Lemma pct_mono_up (price a b : Q) :
  0 < price -> a <= b -> price * (1 + a / 100) <= price * (1 + b / 100).
Proof.
  intros Hp Hab.
  assert (E : price * (1 + b / 100) - price * (1 + a / 100) == price * ((b - a) / 100))
    by (field).
  assert (0 <= (b - a) / 100) by (apply Qle_shift_div_l; lra).
  nra.
Qed.

(** A freshly computed trail level is on the safe side of the price. *)
Lemma trail_level_long self price candles buffer :
  0 < price -> 0 < min_buffer_pct self -> min_buffer_pct self <= buffer ->
  calculate_trail_level self price "long" candles buffer < price.
Proof.
  intros Hp Hmin Hb. unfold calculate_trail_level.
  pose proof (pct_below price _ Hp Hmin) as Hmax.
  destruct candles as [|c cs].
  - cbn [String.eqb Ascii.eqb Bool.eqb].
    pose proof (pct_mono price _ _ Hp Hb). lra.
  - cbn [String.eqb Ascii.eqb Bool.eqb].
    match goal with
    | |- Qmin ?a ?b < _ => pose proof (Q.le_min_r a b)
    end. lra.
Qed.

Lemma trail_level_short self price direction candles buffer :
  String.eqb direction "long" = false ->
  0 < price -> 0 < min_buffer_pct self -> min_buffer_pct self <= buffer ->
  price < calculate_trail_level self price direction candles buffer.
Proof.
  intros Hd Hp Hmin Hb. unfold calculate_trail_level. rewrite Hd.
  pose proof (pct_above price _ Hp Hmin) as Hmax.
  destruct candles as [|c cs].
  - pose proof (pct_mono_up price _ _ Hp Hb). lra.
  - match goal with
    | |- _ < Qmax ?a ?b => pose proof (Q.le_max_r a b)
    end. lra.
Qed.

Lemma short_history_no_slope self closes direction :
  (length closes < 3)%nat -> calculate_slope self closes direction = (0.0, 0.0).
Proof.
  intros H. unfold calculate_slope.
  destruct (Nat.ltb_spec (length closes) 3); [reflexivity|lia].
Qed.

End TrailFacts.

(** X11.  [MomentumTrailingTP.calculate_trail_buffer]: when the minimum
    buffer does not exceed the maximum, the buffer always lies between them,
    a stronger slope never widens it, a strength of 0 or less gives the
    maximum buffer and a strength of 1 or more the minimum. *)
Theorem X11_trail_buffer_bounds :
  forall (self : RiskEngine.MomentumTrailingTP) (s s' : Q),
    RiskEngine.min_buffer_pct self <= RiskEngine.max_buffer_pct self ->
    let buffer := RiskEngine.calculate_trail_buffer self in
    RiskEngine.min_buffer_pct self <= buffer s <= RiskEngine.max_buffer_pct self /\
    (s <= s' -> buffer s' <= buffer s) /\
    (s <= 0 -> buffer s == RiskEngine.max_buffer_pct self) /\
    (1 <= s -> buffer s == RiskEngine.min_buffer_pct self).
Proof.
  intros self s s' Hle buffer. subst buffer. unfold RiskEngine.calculate_trail_buffer.
  set (mn := RiskEngine.min_buffer_pct self) in *.
  set (mx := RiskEngine.max_buffer_pct self) in *.
  clearbody mn mx.
  split; [|split; [|split]].
  - minmax_cases; lra.
  - intros Hs. assert (s * (mx - mn) <= s' * (mx - mn)) by nra.
    revert H. generalize (s * (mx - mn)) (s' * (mx - mn)). intros a b Hab.
    minmax_cases; lra.
  - intros Hs. assert (s * (mx - mn) <= 0) by nra.
    revert H. generalize (s * (mx - mn)). intros a Ha.
    minmax_cases; lra.
  - intros Hs. assert (mx - mn <= s * (mx - mn)) by nra.
    revert H. generalize (s * (mx - mn)). intros a Ha.
    minmax_cases; lra.
Qed.

(** X12.  [MomentumTrailingTP.calculate_slope]: the strength it returns
    always lies between 0 and 1, and with fewer than three closes both the
    slope and the strength are 0. *)
Theorem X12_slope_strength_bounds :
  forall (self : RiskEngine.MomentumTrailingTP) (closes : list Q) (direction : string),
    0 <= snd (RiskEngine.calculate_slope self closes direction) <= 1 /\
    ((length closes < 3)%nat ->
     RiskEngine.calculate_slope self closes direction = (0.0, 0.0)).
Proof.
  intros self closes direction. unfold RiskEngine.calculate_slope.
  destruct (Nat.ltb_spec (length closes) 3) as [H3|H3];
    [split; [cbn [snd]; lra|reflexivity]|].
  split; [|lia].
  match goal with
  | |- context [if (length ?x <? 2)%nat then _ else _] =>
      destruct (length x <? 2)%nat
  end; [cbn [snd]; lra|].
  destruct (Py.polyfit1 _ _) as [slope intercept].
  cbv zeta.
  match goal with
  | |- context [Qabs ?sp / 1.0] =>
      pose proof (Qabs_nonneg sp) as Hm; revert Hm; generalize (Qabs sp)
  end.
  intros m Hm.
  assert (Hdiv : 0 <= m / 1.0) by (apply Qle_shift_div_l; lra).
  revert Hdiv. generalize (m / 1.0). intros mag Hmag.
  match goal with
  | |- context [Qmax 0 (Qmin 1 ?r)] =>
      assert (Hr : 0 <= Qmax 0 (Qmin 1 r) <= 1)
        by (generalize r; intros r0; minmax_cases; lra);
      revert Hr; generalize (Qmax 0 (Qmin 1 r))
  end.
  intros r2 Hr2.
  assert (Hprod : 0 <= mag * r2) by nra.
  revert Hprod. generalize (mag * r2). intros p Hp.
  assert (Hs : 0 <= Qmin 1.0 p <= 1) by (minmax_cases; lra).
  revert Hs. generalize (Qmin 1.0 p). intros st Hst.
  repeat match goal with
  | |- context [if ?c then _ else _] => destruct c
  end; cbn [snd]; lra.
Qed.

(** X13.  On an active momentum state, for a positive price and a positive
    minimum buffer, the exit of [MomentumTrailingTP.update] is decided by
    the level the state already holds: a long exits exactly when the price
    is below the level stored before the call, a short exactly when it is
    above it, because the level computed in the call always lies on the safe
    side of the price.  On an exit the stored level is left as it was. *)
Theorem X13_momentum_exit_by_stored_level :
  forall (self : RiskEngine.MomentumTrailingTP) (state : RiskEngine.MomentumState)
         (price r : Q) (closes : list Q) (candles : list RiskEngine.Bar),
    RiskEngine.active state = true ->
    0 < price ->
    0 < RiskEngine.min_buffer_pct self ->
    let long := RiskEngine.update self state price r "long" closes candles in
    let short := RiskEngine.update self state price r "short" closes candles in
    (Notions.should_exit long = true <-> price < RiskEngine.trailing_level state) /\
    (Notions.should_exit long = true ->
       RiskEngine.trailing_level (Notions.updated_state long)
         = RiskEngine.trailing_level state) /\
    (Notions.should_exit short = true <-> RiskEngine.trailing_level state < price) /\
    (Notions.should_exit short = true ->
       RiskEngine.trailing_level (Notions.updated_state short)
         = RiskEngine.trailing_level state).
Proof.
  intros self state price r closes candles Ha Hp Hmin long short.
  subst long short. unfold RiskEngine.update. rewrite Ha.
  cbn [negb String.eqb Ascii.eqb Bool.eqb andb].
  assert (Hlong : forall strength,
            RiskEngine.calculate_trail_level self price "long" candles
              (RiskEngine.calculate_trail_buffer self strength) < price).
  { intros st. apply TrailFacts.trail_level_long;
      [assumption|assumption|apply TrailFacts.trail_buffer_ge_min]. }
  assert (Hshort : forall strength,
            price < RiskEngine.calculate_trail_level self price "short" candles
                      (RiskEngine.calculate_trail_buffer self strength)).
  { intros st. apply TrailFacts.trail_level_short;
      [reflexivity|assumption|assumption|apply TrailFacts.trail_buffer_ge_min]. }
  destruct (RiskEngine.calculate_slope self closes "long") as [sl strength].
  destruct (RiskEngine.calculate_slope self closes "short") as [sl' strength'].
  specialize (Hlong strength). specialize (Hshort strength').
  revert Hlong Hshort.
  generalize (RiskEngine.calculate_trail_level self price "long" candles
                (RiskEngine.calculate_trail_buffer self strength)).
  generalize (RiskEngine.calculate_trail_level self price "short" candles
                (RiskEngine.calculate_trail_buffer self strength')).
  intros ns nl Hnl Hns.
  destruct (List.last (map Some candles) None) as [last|];
    (destruct (Py.Qltb (RiskEngine.trailing_level state) nl) eqn:E1;
     [apply PyFacts.Qltb_true in E1 | apply PyFacts.Qltb_false in E1]);
    (destruct (Py.Qltb ns (RiskEngine.trailing_level state)) eqn:E2;
     [apply PyFacts.Qltb_true in E2 | apply PyFacts.Qltb_false in E2]);
    repeat match goal with
    | |- context [if Py.Qltb ?a ?b then _ else _] =>
        let E := fresh "E" in
        destruct (Py.Qltb a b) eqn:E;
        [apply PyFacts.Qltb_true in E | apply PyFacts.Qltb_false in E]
    end;
    cbv zeta; unfold Notions.updated_state, Notions.should_exit;
    cbn [fst snd RiskEngine.trailing_level];
    (split; [split; intros H; try discriminate; try reflexivity; lra|]);
    (split; [intros H; try discriminate; try reflexivity; lra|]);
    (split; [split; intros H; try discriminate; try reflexivity; lra|]);
    intros H; try discriminate; try reflexivity; lra.
Qed.

(** X14.  On an inactive momentum state [MomentumTrailingTP.update] never
    signals an exit.  It leaves the state as it is unless it activates the
    trailing, which needs an R-multiple of at least [min_r_to_activate], at
    least three recent closes, a slope of at least [min_slope_to_activate]
    in magnitude and a strength of at least 0.3; on activation it records
    the R-multiple and the price of the call and starts counting bars at
    0. *)
Theorem X14_momentum_activation :
  forall (self : RiskEngine.MomentumTrailingTP) (state : RiskEngine.MomentumState)
         (price r : Q) (direction : string) (closes : list Q)
         (candles : list RiskEngine.Bar),
    RiskEngine.active state = false ->
    let res := RiskEngine.update self state price r direction closes candles in
    let state' := Notions.updated_state res in
    Notions.should_exit res = false /\
    Notions.exit_reason_of res = None /\
    (RiskEngine.active state' = false -> state' = state) /\
    (RiskEngine.active state' = true ->
       RiskEngine.min_r_to_activate self <= r /\
       (3 <= length closes)%nat /\
       RiskEngine.min_slope_to_activate self <= Qabs (RiskEngine.ms_slope state') /\
       0.3 <= RiskEngine.slope_strength state' /\
       RiskEngine.activation_r state' = r /\
       RiskEngine.peak_price state' = price /\
       RiskEngine.bars_in_momentum state' = 0%Z).
Proof.
  intros self state price r direction closes candles Ha res state'.
  subst state' res. unfold RiskEngine.update. rewrite Ha. cbn [negb].
  unfold Notions.should_exit, Notions.exit_reason_of, Notions.updated_state.
  destruct (Py.Qleb (RiskEngine.min_r_to_activate self) r) eqn:Hr.
  2:{ cbn [fst snd]. split; [reflexivity|]. split; [reflexivity|].
      split; [reflexivity|]. intros H. congruence. }
  apply PyFacts.Qleb_true in Hr.
  pose proof (TrailFacts.short_history_no_slope self closes direction) as Hshort.
  destruct (RiskEngine.calculate_slope self closes direction) as [slope_pct strength].
  destruct (Py.Qleb (RiskEngine.min_slope_to_activate self) (Qabs slope_pct)) eqn:Hs;
    cbn [andb].
  2:{ cbn [fst snd]. split; [reflexivity|]. split; [reflexivity|].
      split; [reflexivity|]. intros H. congruence. }
  destruct (Py.Qleb 0.3 strength) eqn:Hst.
  2:{ cbn [fst snd]. split; [reflexivity|]. split; [reflexivity|].
      split; [reflexivity|]. intros H. congruence. }
  apply PyFacts.Qleb_true in Hs, Hst.
  cbn [fst snd RiskEngine.active RiskEngine.ms_slope RiskEngine.slope_strength
       RiskEngine.activation_r RiskEngine.peak_price RiskEngine.bars_in_momentum].
  split; [reflexivity|]. split; [reflexivity|]. split; [discriminate|].
  intros _. split; [exact Hr|]. split.
  - destruct (Nat.le_gt_cases 3 (length closes)) as [H|H]; [exact H|].
    specialize (Hshort H). injection Hshort as _ Hz. rewrite Hz in Hst. lra.
  - repeat split; assumption.
Qed.

(* ===================================================================== *)
(** * From the computed levels to the per-bar update *)
(* ===================================================================== *)

(** X15.  The move to breakeven never comes before the 1R price that
    [calculate_risk_levels] of core/risk_engine.py stores.  Take levels with
    a positive entry price whose first stop is no further from the entry
    than half the entry price, complete them with the risk metrics of steps
    9 and 10, and let the trigger be at least 1R.  Then every call of
    [update_position] on these levels that reports the move to breakeven
    reports an R-multiple of at least the trigger, hence of at least 1, and
    the price of the call is at or beyond the stored [one_r_price]: at or
    above it for a long, at or below it otherwise. *)
Theorem X15_breakeven_not_before_one_r :
  forall (config : RiskEngine.RiskEngineConfig)
         (states : gmap string RiskEngine.MomentumState)
         (levels0 : RiskEngine.RiskLevels) (s : RiskEngine.Stop)
         (rest : list RiskEngine.Stop) (update : RiskEngine.PositionUpdate)
         (ohlcv : option (list RiskEngine.Bar)) (session_id : option string)
         (r : RiskEngine.RiskUpdate),
    let long := String.eqb (RiskEngine.direction levels0) "long" in
    let levels := RiskEngineAux.risk_metrics config levels0 in
    RiskEngine.stops levels0 = s :: rest ->
    0 < RiskEngine.entry_price levels0 ->
    Qabs (RiskEngine.entry_price levels0 - RiskEngine.stop_price s)
      <= RiskEngine.entry_price levels0 / 2 ->
    1 <= RiskEngine.breakeven_trigger_r config ->
    let out := RiskEngine.update_position config states levels update ohlcv session_id in
    fst (fst out) = Some r ->
    RiskEngine.moved_to_breakeven r = true ->
    RiskEngine.breakeven_trigger_r config <= RiskEngine.current_r_multiple r /\
    1 <= RiskEngine.current_r_multiple r /\
    (if long then RiskEngine.one_r_price levels <= RiskEngine.pu_current_price update
     else RiskEngine.pu_current_price update <= RiskEngine.one_r_price levels).
Proof.
  intros config states levels0 s rest update ohlcv session_id r long levels
         Hst He Hhalf Htr out Hr Hmoved.
  subst out. unfold RiskEngine.update_position in *. cbn [fst snd] in *.
  set (st := RiskEngine.update_position_stages config states levels update ohlcv
               session_id) in *.
  assert (Hst' : RiskEngine.stops levels = s :: rest) by exact Hst.
  assert (Hentry : RiskEngine.entry_price levels = RiskEngine.entry_price levels0)
    by reflexivity.
  assert (Hdir : RiskEngine.direction levels = RiskEngine.direction levels0)
    by reflexivity.
  assert (Hone : RiskEngine.one_r_price levels
                 = RiskEngineAux._calculate_one_r_price (RiskEngine.entry_price levels0)
                     (RiskEngine.stop_price s) (RiskEngine.direction levels0)).
  { subst levels. cbn [RiskEngineAux.risk_metrics RiskEngine.one_r_price].
    unfold RiskEngineAux.breakeven_metrics. rewrite Hst. reflexivity. }
  set (entry := RiskEngine.entry_price levels0) in *.
  set (rd := Qabs (entry - RiskEngine.stop_price s)) in *.
  destruct (UpdateFacts.stages_unfold config states levels update ohlcv session_id)
    as [H1 [H2 _]]. fold st in H1, H2.
  pose proof (UpdateFacts.stages_breakeven_reported config states levels update ohlcv
                session_id r Hr) as [Hm Hc]. fold st in Hm, Hc.
  (* the breakeven block has fired in this call *)
  assert (Hfired : RiskEngine.breakeven_trigger_r config
                   <= RiskEngine.current_r_multiple (RiskEngine.after_breakeven st)).
  { destruct (UpdateFacts.stages_breakeven config states levels update ohlcv session_id)
      as [[Hno _]|[_ [_ [Hge _]]]]; fold st in Hno || fold st in Hge.
    - congruence.
    - exact Hge. }
  assert (Hcr : RiskEngine.current_r_multiple (RiskEngine.after_breakeven st)
                = RiskEngine.current_r_multiple (RiskEngine.after_r_multiple st)).
  { rewrite H2. apply UpdateFacts.breakeven_step_current_r. }
  split; [rewrite Hc; exact Hfired|].
  split; [rewrite Hc; lra|].
  (* the R-multiple that the call has computed *)
  rewrite Hcr, H1 in Hfired. unfold RiskEngine.r_multiple_step in Hfired.
  rewrite Hst', Hentry, Hdir in Hfired. fold entry rd long in Hfired.
  rewrite Hone. unfold RiskEngineAux._calculate_one_r_price. fold entry rd long.
  destruct (Py.Qltb 0 rd) eqn:Hrd.
  - apply PyFacts.Qltb_true in Hrd.
    cbn [RiskEngine.set_current_r_multiple RiskEngine.current_r_multiple] in Hfired.
    set (profit := if long then RiskEngine.pu_current_price update - entry
                   else entry - RiskEngine.pu_current_price update) in *.
    assert (Hq : profit / rd * rd == profit) by (field; lra).
    assert (Hge : rd <= profit).
    { set (q := profit / rd) in *. clearbody q. nra. }
    subst profit. destruct long; lra.
  - cbn in Hfired. lra.
Qed.

(* ===================================================================== *)
(** * The blocks of the per-bar update, continued *)
(* ===================================================================== *)

Module HealthFacts.
Import Py PyFacts RiskEngine.

Lemma last_slice_nonempty {A} k (l : list A) : l <> [] -> last_slice k l <> [].
Proof.
  intros Hl. unfold last_slice. destruct k as [|k]; [exact Hl|].
  intros H. apply (f_equal (@length A)) in H. rewrite length_skipn in H.
  destruct l; [congruence|]. cbn [length] in H. lia.
Qed.

Lemma list_max_nonempty l : l <> [] -> exists m, list_max l = Some m.
Proof. destruct l; [congruence|]. cbn. eauto. Qed.

Lemma list_min_nonempty l : l <> [] -> exists m, list_min l = Some m.
Proof. destruct l; [congruence|]. cbn. eauto. Qed.

Lemma first_target_hit_spec direction current targets :
  EngineNotions.first_such
    (fun t => EngineNotions.reached direction current (target_price t)) targets
    (first_target_hit direction current targets).
Proof.
  induction targets as [|t rest IH]; cbn [first_target_hit]; [constructor|].
  unfold EngineNotions.first_such in *.
  destruct (String.eqb direction "long" && Qleb (target_price t) current) eqn:E1.
  - exists [], rest. split; [reflexivity|]. split; [|constructor].
    unfold EngineNotions.reached. rewrite E1. reflexivity.
  - destruct (String.eqb direction "short" && Qleb current (target_price t)) eqn:E2.
    + exists [], rest. split; [reflexivity|]. split; [|constructor].
      unfold EngineNotions.reached. rewrite E1, E2. reflexivity.
    + assert (Ht : EngineNotions.reached direction current (target_price t) = false)
        by (unfold EngineNotions.reached; rewrite E1, E2; reflexivity).
      destruct (first_target_hit direction current rest) as [x|].
      * destruct IH as [pre [post [-> [Hx Hpre]]]].
        exists (t :: pre), post. split; [reflexivity|]. split; [exact Hx|].
        constructor; assumption.
      * constructor; assumption.
Qed.

Lemma engine_first_target_hit_spec direction current targets :
  EngineNotions.first_such
    (fun t => EngineNotions.reached direction current (Engine.tl_price t)) targets
    (EngineMain.first_target_hit direction current targets).
Proof.
  induction targets as [|t rest IH]; cbn [EngineMain.first_target_hit]; [constructor|].
  unfold EngineNotions.first_such in *.
  destruct (String.eqb direction "long" && Qleb (Engine.tl_price t) current) eqn:E1.
  - exists [], rest. split; [reflexivity|]. split; [|constructor].
    unfold EngineNotions.reached. rewrite E1. reflexivity.
  - destruct (String.eqb direction "short" && Qleb current (Engine.tl_price t)) eqn:E2.
    + exists [], rest. split; [reflexivity|]. split; [|constructor].
      unfold EngineNotions.reached. rewrite E1, E2. reflexivity.
    + assert (Ht : EngineNotions.reached direction current (Engine.tl_price t) = false)
        by (unfold EngineNotions.reached; rewrite E1, E2; reflexivity).
      destruct (EngineMain.first_target_hit direction current rest) as [x|].
      * destruct IH as [pre [post [-> [Hx Hpre]]]].
        exists (t :: pre), post. split; [reflexivity|]. split; [exact Hx|].
        constructor; assumption.
      * constructor; assumption.
Qed.

End HealthFacts.

(** X17.  [RiskEngine._check_structure_health]: with fewer than three
    recent lows or highs the structure is reported strong; three rising lows
    at the head of the list (three falling highs for a short) give
    "weakening" whatever the price does; "broken" is only reported when the
    price is more than 3% away from the extreme of the last ten highs (lows
    for a short), relative to the price; and the call raises only on a price
    of zero. *)
Theorem X17_structure_health :
  forall (direction : string) (current : Q) (lows highs : list Q),
    let health := RiskEngine._check_structure_health direction current lows highs in
    let long := String.eqb direction "long" in
    ((length lows < 3)%nat \/ (length highs < 3)%nat ->
     health = Some RiskEngine.STRONG) /\
    ((3 <= length lows)%nat -> (3 <= length highs)%nat ->
     (if long then nth 0 lows 0 < nth 1 lows 0 /\ nth 1 lows 0 < nth 2 lows 0
      else nth 1 highs 0 < nth 0 highs 0 /\ nth 2 highs 0 < nth 1 highs 0) ->
     health = Some RiskEngine.WEAKENING) /\
    (health = Some RiskEngine.BROKEN ->
     exists extreme,
       (if long then Py.list_max (Py.last_slice 10 highs)
        else Py.list_min (Py.last_slice 10 lows)) = Some extreme /\
       0.03 < (if long then extreme - current else current - extreme) / current) /\
    (health = None -> current == 0).
Proof.
  intros direction current lows highs health long. subst health long.
  unfold RiskEngine._check_structure_health.
  destruct (Nat.ltb_spec (length lows) 3) as [Hl|Hl]; cbn [orb].
  { split; [reflexivity|]. split; [lia|]. split; discriminate. }
  destruct (Nat.ltb_spec (length highs) 3) as [Hh|Hh].
  { split; [reflexivity|]. split; [lia|]. split; discriminate. }
  split; [lia|].
  assert (Hdiv : forall a, Py.div a current = None -> current == 0).
  { intros a. unfold Py.div. destruct (Qeq_bool current 0) eqn:E; [|discriminate].
    intros _. apply Qeq_bool_iff. exact E. }
  destruct (String.eqb direction "long").
  - destruct (Py.Qltb (nth 0 lows 0) (nth 1 lows 0)) eqn:E1;
      [apply PyFacts.Qltb_true in E1|apply PyFacts.Qltb_false in E1];
      [destruct (Py.Qltb (nth 1 lows 0) (nth 2 lows 0)) eqn:E2;
       [apply PyFacts.Qltb_true in E2|apply PyFacts.Qltb_false in E2]|];
      cbn [andb].
    + split; [reflexivity|]. split; discriminate.
    + destruct (HealthFacts.list_max_nonempty (Py.last_slice 10 highs)) as [m Hm].
      { apply HealthFacts.last_slice_nonempty. destruct highs; [cbn in Hh; lia|discriminate]. }
      rewrite Hm. cbn [mbind option_bind].
      destruct (Py.div (m - current) current) as [d|] eqn:Hd; cbn [mbind option_bind].
      * unfold Py.div in Hd. destruct (Qeq_bool current 0); [discriminate|].
        injection Hd as <-.
        destruct (Py.Qltb 0.03 ((m - current) / current)) eqn:E3.
        -- apply PyFacts.Qltb_true in E3. split; [intros; lra|].
           split; [intros _; eauto|discriminate].
        -- split; [intros; lra|]. split; discriminate.
      * split; [intros; lra|]. split; [discriminate|]. intros _. eapply Hdiv, Hd.
    + destruct (HealthFacts.list_max_nonempty (Py.last_slice 10 highs)) as [m Hm].
      { apply HealthFacts.last_slice_nonempty. destruct highs; [cbn in Hh; lia|discriminate]. }
      rewrite Hm. cbn [mbind option_bind].
      destruct (Py.div (m - current) current) as [d|] eqn:Hd; cbn [mbind option_bind].
      * unfold Py.div in Hd. destruct (Qeq_bool current 0); [discriminate|].
        injection Hd as <-.
        destruct (Py.Qltb 0.03 ((m - current) / current)) eqn:E3.
        -- apply PyFacts.Qltb_true in E3. split; [intros; lra|].
           split; [intros _; eauto|discriminate].
        -- split; [intros; lra|]. split; discriminate.
      * split; [intros; lra|]. split; [discriminate|]. intros _. eapply Hdiv, Hd.
  - destruct (Py.Qltb (nth 1 highs 0) (nth 0 highs 0)) eqn:E1;
      [apply PyFacts.Qltb_true in E1|apply PyFacts.Qltb_false in E1];
      [destruct (Py.Qltb (nth 2 highs 0) (nth 1 highs 0)) eqn:E2;
       [apply PyFacts.Qltb_true in E2|apply PyFacts.Qltb_false in E2]|];
      cbn [andb].
    + split; [reflexivity|]. split; discriminate.
    + destruct (HealthFacts.list_min_nonempty (Py.last_slice 10 lows)) as [m Hm].
      { apply HealthFacts.last_slice_nonempty. destruct lows; [cbn in Hl; lia|discriminate]. }
      rewrite Hm. cbn [mbind option_bind].
      destruct (Py.div (current - m) current) as [d|] eqn:Hd; cbn [mbind option_bind].
      * unfold Py.div in Hd. destruct (Qeq_bool current 0); [discriminate|].
        injection Hd as <-.
        destruct (Py.Qltb 0.03 ((current - m) / current)) eqn:E3.
        -- apply PyFacts.Qltb_true in E3. split; [intros; lra|].
           split; [intros _; eauto|discriminate].
        -- split; [intros; lra|]. split; discriminate.
      * split; [intros; lra|]. split; [discriminate|]. intros _. eapply Hdiv, Hd.
    + destruct (HealthFacts.list_min_nonempty (Py.last_slice 10 lows)) as [m Hm].
      { apply HealthFacts.last_slice_nonempty. destruct lows; [cbn in Hl; lia|discriminate]. }
      rewrite Hm. cbn [mbind option_bind].
      destruct (Py.div (current - m) current) as [d|] eqn:Hd; cbn [mbind option_bind].
      * unfold Py.div in Hd. destruct (Qeq_bool current 0); [discriminate|].
        injection Hd as <-.
        destruct (Py.Qltb 0.03 ((current - m) / current)) eqn:E3.
        -- apply PyFacts.Qltb_true in E3. split; [intros; lra|].
           split; [intros _; eauto|discriminate].
        -- split; [intros; lra|]. split; discriminate.
      * split; [intros; lra|]. split; [discriminate|]. intros _. eapply Hdiv, Hd.
Qed.

(** X18.  The loops over the targets in [update_position] of both engines
    stop at the first target of the ladder that the price has reached, in
    ladder order: every target before the one they pick has not been
    reached, and when they pick none, no target has been reached. *)
Theorem X18_first_target_in_ladder_order :
  forall (direction : string) (current : Q) (targets : list RiskEngine.Target)
         (etargets : list Engine.TargetLevel),
    EngineNotions.first_such
      (fun t => EngineNotions.reached direction current (RiskEngine.target_price t))
      targets (RiskEngine.first_target_hit direction current targets) /\
    EngineNotions.first_such
      (fun t => EngineNotions.reached direction current (Engine.tl_price t))
      etargets (EngineMain.first_target_hit direction current etargets).
Proof.
  intros direction current targets etargets. split.
  - apply HealthFacts.first_target_hit_spec.
  - apply HealthFacts.engine_first_target_hit_spec.
Qed.

Module ReportFacts.
Import Py PyFacts RiskEngine Notions UpdateFacts UpdateNotions.

Lemma same_guarding_refl r : same_guarding r r.
Proof. repeat split. Qed.

Lemma same_guarding_trans a b c :
  same_guarding a b -> same_guarding b c -> same_guarding a c.
Proof. intros [A1 [A2 A3]] [B1 [B2 B3]]. repeat split; congruence. Qed.

Lemma same_stop_report_refl r : same_stop_report r r.
Proof. repeat split. Qed.

Lemma same_stop_report_trans a b c :
  same_stop_report a b -> same_stop_report b c -> same_stop_report a c.
Proof. intros [A1 A2] [B1 B2]. split; congruence. Qed.

Section WithConfig.

Variable config : RiskEngineConfig.

Lemma r_multiple_step_report levels upd r :
  same_guarding r (r_multiple_step levels upd r) /\
  same_stop_report r (r_multiple_step levels upd r).
Proof. unfold r_multiple_step. block_cases; repeat split. Qed.

Lemma breakeven_step_guarding levels r :
  same_guarding r (fst (breakeven_step config levels r)).
Proof. unfold breakeven_step. block_cases; cbn [fst]; repeat split. Qed.

(** The stop move that the breakeven block reports. *)
Lemma breakeven_step_stop_report levels r :
  let out := fst (breakeven_step config levels r) in
  (moved_to_breakeven out = moved_to_breakeven r /\ same_stop_report r out) \/
  (moved_to_breakeven out = true /\ stop_moved out = true /\
   new_stop_price out = Some (breakeven_price_of config levels)).
Proof.
  unfold breakeven_step. fold (breakeven_price_of config levels).
  block_cases; cbn [fst]; try solve [left; repeat split].
  right. repeat split.
Qed.

Lemma momentum_step_report states levels upd ohlcv session_id r :
  let out := fst (momentum_step config states levels upd ohlcv session_id r) in
  same_guarding r out /\ same_stop_report r out.
Proof.
  unfold momentum_step.
  destruct ohlcv as [ohlcv|]; [|repeat split].
  destruct (enable_dynamic_targets config && (5 <=? length ohlcv)%nat);
    [|repeat split].
  destruct (update momentum_tp _ _ _ _ _ _) as [[st' ex] reason].
  destruct (active st'); destruct ex; destruct reason; cbn [fst]; repeat split.
Qed.

Lemma divergence_step_report states levels ohlcv session_id r r' :
  divergence_step config states levels ohlcv session_id r = Some r' ->
  same_guarding r r' /\ same_stop_report r r'.
Proof.
  unfold divergence_step.
  destruct ohlcv as [ohlcv|]; [|intros [= <-]; repeat split].
  destruct (enable_divergence_detection config); [|intros [= <-]; repeat split].
  destruct (_detect_divergence config ohlcv (direction levels)) as [[detected div_type]|];
    cbn [mbind option_bind]; [|discriminate].
  destruct detected; [|intros [= <-]; repeat split].
  destruct div_type as [div_type|]; [|intros [= <-]; repeat split].
  destruct (_ || _); [|intros [= <-]; repeat split].
  destruct (_ && _); intros [= <-]; repeat split.
Qed.

Lemma fixed_targets_step_report states levels upd session_id r :
  let out := fixed_targets_step states levels upd session_id r in
  same_guarding r out /\ same_stop_report r out.
Proof.
  unfold fixed_targets_step.
  destruct (negb _); [|repeat split].
  destruct (first_target_hit _ _ _); repeat split.
Qed.

(** What the guarding block reports. *)
Lemma guarding_step_report levels upd r :
  let out := guarding_step config levels upd r in
  same_stop_report r out /\
  match guarding_breach config levels upd with
  | Some (level, reason) =>
      guarding_broken out = true /\ guarding_active out = true /\
      guarding_level out = Some level /\
      exit_signal out = true /\ exit_reason out = Some reason /\
      exit_percentage out = 100.0
  | None =>
      guarding_broken out = guarding_broken r /\ same_exit r out
  end.
Proof.
  unfold guarding_step, guarding_breach.
  destruct (guarding_line levels) as [line|]; [|repeat split].
  destruct (_ <=? _)%Z; [|repeat split].
  destruct (check_break _ _ _) as [[|] reason]; repeat split.
Qed.

Lemma trail_step_guarding levels upd r r' :
  trail_step levels upd r = Some r' -> same_guarding r r'.
Proof.
  unfold trail_step.
  destruct (_ && _); [|intros [= <-]; repeat split].
  destruct (_trail_stop _ _ _ _) as [[new_stop|]|]; cbn [mbind option_bind];
    [|intros [= <-]; repeat split|discriminate].
  destruct (truthy new_stop); intros [= <-]; repeat split.
Qed.

(** The stop move that the trailing block reports. *)
Lemma trail_step_stop_report levels upd r r' :
  trail_step levels upd r = Some r' ->
  same_stop_report r r' \/
  (moved_to_breakeven r = false /\ stop_moved r' = true /\
   exists new_stop,
     new_stop_price r' = Some new_stop /\
     _trail_stop (direction levels) (entry_price levels) (pu_current_price upd)
                 (stops levels) = Some (Some new_stop)).
Proof.
  unfold trail_step.
  destruct (Qltb 0 (unrealized_pnl_pct upd)); cbn [andb];
    [|intros [= <-]; left; repeat split].
  destruct (moved_to_breakeven r) eqn:Hm; cbn [negb];
    [intros [= <-]; left; repeat split|].
  destruct (_trail_stop _ _ _ _) as [[new_stop|]|]; cbn [mbind option_bind];
    [|intros [= <-]; left; repeat split|discriminate].
  destruct (truthy new_stop); intros [= <-]; [|left; repeat split].
  right. split; [reflexivity|]. split; [reflexivity|]. eauto.
Qed.

Lemma structure_health_step_report levels upd r r' :
  structure_health_step levels upd r = Some r' ->
  same_guarding r r' /\ same_stop_report r r'.
Proof.
  unfold structure_health_step.
  destruct (recent_lows upd) as [[|l lows]|]; try (intros [= <-]; repeat split);
    destruct (recent_highs upd) as [[|h highs]|]; try (intros [= <-]; repeat split).
  destruct (_check_structure_health _ _ _ _) as [health|]; cbn [mbind option_bind];
    [|discriminate].
  destruct health; try (intros [= <-]; repeat split).
  destruct (negb _); intros [= <-]; repeat split.
Qed.

(** A trailed stop is better than the stop it replaces. *)
Lemma trail_stop_better direction entry current s rest new_stop :
  _trail_stop direction entry current (s :: rest) = Some (Some new_stop) ->
  _is_better_stop new_stop (stop_price s) direction = true.
Proof.
  unfold _trail_stop, _is_better_stop.
  destruct (String.eqb direction "long");
    (destruct (div _ entry); cbn [mbind option_bind]; [|discriminate]);
    (destruct (Qleb _ _); [|discriminate]).
  - destruct (Qltb (stop_price s) (entry * 1.001)) eqn:E; [|discriminate].
    intros [= <-]. exact E.
  - destruct (Qltb (entry * 0.999) (stop_price s)) eqn:E; [|discriminate].
    intros [= <-]. exact E.
Qed.

(** The stages of a call up to the guarding block report no guarding line
    and the stop move of the breakeven block. *)
Lemma stages_before_guarding states levels upd ohlcv session_id r5 :
  let s := update_position_stages config states levels upd ohlcv session_id in
  after_fixed_targets s = Some r5 ->
  guarding_broken r5 = false /\
  same_stop_report (after_breakeven s) r5 /\
  same_breakeven (after_breakeven s) r5.
Proof.
  intros s H5.
  destruct (stages_unfold config states levels upd ohlcv session_id)
    as [H1 [H2 [_ [H4 _]]]].
  destruct (stages_chain config states levels upd ohlcv session_id)
    as [Hc [_ [Hf _]]].
  fold s in H1, H2, H4, Hc, Hf.
  destruct (Hf r5 H5) as [r4 H4'].
  destruct (Hc r4 H4') as [E4 [E5 _]].
  rewrite H5 in E5. injection E5 as ->.
  destruct (r_multiple_step_report levels upd (init_result levels)) as [[_ [A _]] _].
  rewrite <- H1 in A.
  pose proof (breakeven_step_guarding levels (after_r_multiple s)) as [_ [B _]].
  rewrite <- H2 in B.
  destruct (momentum_step_report states (final_levels s) upd ohlcv session_id
              (after_breakeven s)) as [[_ [C _]] C'].
  rewrite <- H4 in C, C'.
  destruct (divergence_step_report _ _ _ _ _ _ E4) as [[_ [D _]] D'].
  destruct (fixed_targets_step_report (final_states s) (final_levels s) upd
              session_id r4) as [[_ [F _]] F'].
  destruct (momentum_step_frame config states (final_levels s) upd ohlcv session_id
              (after_breakeven s)) as [G _].
  rewrite <- H4 in G.
  destruct (divergence_step_frame _ _ _ _ _ _ _ E4) as [G' _].
  destruct (fixed_targets_step_frame (final_states s) (final_levels s) upd
              session_id r4) as [G'' _].
  split; [cbn in A; congruence|].
  split.
  - eapply same_stop_report_trans; [exact C'|].
    eapply same_stop_report_trans; [exact D'|exact F'].
  - destruct G, G', G''. split; congruence.
Qed.

End WithConfig.

End ReportFacts.

(** X19.  A breach of the guarding line is final in [update_position] of
    core/risk_engine.py.  Whenever the call returns, it reports a broken
    guarding line exactly when the line of the levels is past its activation
    bar and [check_break] finds the price beyond its level; the result then
    carries that level, an exit signal, the reason of the break and an exit
    of 100%, whatever the momentum, divergence, target, trailing and
    structure blocks have found. *)
Theorem X19_guarding_breach_is_final :
  forall (config : RiskEngine.RiskEngineConfig)
         (states : gmap string RiskEngine.MomentumState)
         (levels : RiskEngine.RiskLevels) (update : RiskEngine.PositionUpdate)
         (ohlcv : option (list RiskEngine.Bar)) (session_id : option string)
         (r : RiskEngine.RiskUpdate),
    fst (fst (RiskEngine.update_position config states levels update ohlcv session_id))
      = Some r ->
    match UpdateNotions.guarding_breach config levels update with
    | Some (level, reason) =>
        RiskEngine.guarding_broken r = true /\
        RiskEngine.guarding_active r = true /\
        RiskEngine.guarding_level r = Some level /\
        RiskEngine.exit_signal r = true /\
        RiskEngine.exit_reason r = Some reason /\
        RiskEngine.exit_percentage r = 100.0
    | None => RiskEngine.guarding_broken r = false
    end.
Proof.
  intros config states levels update ohlcv session_id r Hr.
  unfold RiskEngine.update_position in Hr. cbn [fst snd] in Hr.
  set (s := RiskEngine.update_position_stages config states levels update ohlcv
              session_id) in *.
  destruct (UpdateFacts.stages_chain config states levels update ohlcv session_id)
    as [Hc [Hs [_ [_ [Ht Hf]]]]].
  fold s in Hc, Hs, Ht, Hf.
  destruct (Hf r Hr) as [r7 H7]. destruct (Ht r7 H7) as [r4 H4].
  destruct (Hc r4 H4) as [_ [E5 [_ E7]]].
  rewrite H7 in E7. symmetry in E7. rewrite (Hs r7 H7) in Hr.
  set (r5 := RiskEngine.fixed_targets_step (RiskEngine.final_states s)
               (RiskEngine.final_levels s) update session_id r4) in *.
  destruct (ReportFacts.stages_before_guarding config states levels update ohlcv
              session_id r5 E5) as [Hnb _].
  assert (Hbreach : UpdateNotions.guarding_breach config (RiskEngine.final_levels s) update
                    = UpdateNotions.guarding_breach config levels update).
  { destruct (UpdateFacts.stages_breakeven config states levels update ohlcv session_id)
      as [[_ Hl]|[_ [_ [_ [s0 [rest [_ [_ Hl]]]]]]]]; fold s in Hl; rewrite Hl;
      reflexivity. }
  pose proof (ReportFacts.guarding_step_report config (RiskEngine.final_levels s)
                update r5) as [_ Hg].
  rewrite Hbreach in Hg.
  destruct (UpdateFacts.trail_step_exit _ _ _ _ E7) as [[T1 [T2 T3]] _].
  pose proof (ReportFacts.trail_step_guarding _ _ _ _ E7) as [G1 [G2 G3]].
  destruct (ReportFacts.structure_health_step_report _ _ _ _ Hr) as [[S1 [S2 S3]] _].
  destruct (UpdateFacts.structure_health_step_frame _ _ _ _ Hr) as [_ [_ Hk]].
  destruct (UpdateNotions.guarding_breach config levels update) as [[level reason]|].
  - destruct Hg as [B1 [B2 [B3 [B4 [B5 B6]]]]].
    assert (Hex : RiskEngine.exit_signal r7 = true) by congruence.
    destruct (Hk Hex) as [K1 [K2 K3]].
    repeat split; congruence.
  - destruct Hg as [B1 _]. congruence.
Qed.

(** X20.  A stop move that [update_position] of core/risk_engine.py reports
    never loosens the stop.  Whenever a returned result has [stop_moved]
    set, it carries a new stop price that is strictly better than the first
    stop the levels had before the call (higher for a long, lower
    otherwise); the price is the breakeven price when the move is the move
    to breakeven, and otherwise the trailed stop just beyond the entry
    (0.1% above it for a long, 0.1% below it otherwise). *)
Theorem X20_reported_stop_is_better :
  forall (config : RiskEngine.RiskEngineConfig)
         (states : gmap string RiskEngine.MomentumState)
         (levels : RiskEngine.RiskLevels) (update : RiskEngine.PositionUpdate)
         (ohlcv : option (list RiskEngine.Bar)) (session_id : option string)
         (r : RiskEngine.RiskUpdate),
    fst (fst (RiskEngine.update_position config states levels update ohlcv session_id))
      = Some r ->
    RiskEngine.stop_moved r = true ->
    exists s rest new_stop,
      RiskEngine.stops levels = s :: rest /\
      RiskEngine.new_stop_price r = Some new_stop /\
      RiskEngine._is_better_stop new_stop (RiskEngine.stop_price s)
        (RiskEngine.direction levels) = true /\
      new_stop =
        if RiskEngine.moved_to_breakeven r then Notions.breakeven_price_of config levels
        else if String.eqb (RiskEngine.direction levels) "long"
             then RiskEngine.entry_price levels * 1.001
             else RiskEngine.entry_price levels * 0.999.
Proof.
  intros config states levels update ohlcv session_id r Hr Hmoved.
  unfold RiskEngine.update_position in Hr. cbn [fst snd] in Hr.
  set (s := RiskEngine.update_position_stages config states levels update ohlcv
              session_id) in *.
  destruct (UpdateFacts.stages_unfold config states levels update ohlcv session_id)
    as [H1 [H2 _]].
  destruct (UpdateFacts.stages_chain config states levels update ohlcv session_id)
    as [Hc [Hs [_ [_ [Ht Hf]]]]].
  fold s in H1, H2, Hc, Hs, Ht, Hf.
  destruct (Hf r Hr) as [r7 H7]. destruct (Ht r7 H7) as [r4 H4].
  destruct (Hc r4 H4) as [_ [E5 [_ E7]]].
  rewrite H7 in E7. symmetry in E7. rewrite (Hs r7 H7) in Hr.
  set (r5 := RiskEngine.fixed_targets_step (RiskEngine.final_states s)
               (RiskEngine.final_levels s) update session_id r4) in *.
  set (r6 := RiskEngine.guarding_step config (RiskEngine.final_levels s) update r5) in *.
  destruct (ReportFacts.stages_before_guarding config states levels update ohlcv
              session_id r5 E5) as [_ [[P1 P2] [Q1 Q2]]].
  fold s in P1, P2, Q1, Q2.
  pose proof (ReportFacts.guarding_step_report config (RiskEngine.final_levels s)
                update r5) as [[R1 R2] _]. fold r6 in R1, R2.
  destruct (UpdateFacts.guarding_step_frame config (RiskEngine.final_levels s) update r5)
    as [[M1 _] _]. fold r6 in M1.
  destruct (ReportFacts.structure_health_step_report _ _ _ _ Hr) as [_ [S1 S2]].
  destruct (UpdateFacts.structure_health_step_frame _ _ _ _ Hr) as [[B1 _] _].
  destruct (UpdateFacts.trail_step_exit _ _ _ _ E7) as [_ [B2 _]].
  destruct (ReportFacts.r_multiple_step_report levels update (RiskEngine.init_result levels))
    as [_ [I1 I2]].
  rewrite <- H1 in I1, I2. cbn [RiskEngine.init_result RiskEngine.stop_moved] in I1.
  pose proof (ReportFacts.breakeven_step_stop_report config levels
                (RiskEngine.after_r_multiple s)) as Hbe.
  cbv zeta in Hbe. rewrite <- H2 in Hbe.
  assert (Hm0 : RiskEngine.moved_to_breakeven (RiskEngine.after_r_multiple s) = false).
  { rewrite H1, UpdateFacts.r_multiple_step_moved. reflexivity. }
  destruct (UpdateFacts.stages_breakeven config states levels update ohlcv session_id)
    as [[Hno Hl]|[Hyes [_ [_ [s0 [rest [Hst [Hbetter _]]]]]]]];
    fold s in Hno || fold s in Hyes.
  - (* the stop was not moved to breakeven: the move is a trailed stop *)
    fold s in Hl.
    destruct Hbe as [[_ [C1 C2]]|[Hcontra _]]; [|congruence].
    assert (Hm7 : RiskEngine.moved_to_breakeven r = false) by congruence.
    destruct (ReportFacts.trail_step_stop_report _ _ _ _ E7)
      as [[T1 T2]|[_ [_ [new_stop [Hnew Htrail]]]]].
    + assert (RiskEngine.stop_moved r = false) by congruence. congruence.
    + rewrite Hl in Htrail.
      destruct (RiskEngine.stops levels) as [|s0 rest] eqn:Hst;
        [cbn in Htrail; discriminate|].
      exists s0, rest, new_stop.
      split; [reflexivity|]. split; [congruence|].
      split; [eapply ReportFacts.trail_stop_better; exact Htrail|].
      rewrite Hm7. revert Htrail. unfold RiskEngine._trail_stop.
      destruct (String.eqb (RiskEngine.direction levels) "long");
        (destruct (Py.div _ _); cbn [mbind option_bind]; [|discriminate]);
        (destruct (Py.Qleb _ _); [|discriminate]);
        (destruct (Py.Qltb _ _); [|discriminate]);
        intros [= <-]; reflexivity.
  - (* the move to breakeven *)
    destruct Hbe as [[Hcontra _]|[_ [C1 C2]]]; [congruence|].
    assert (Hm7 : RiskEngine.moved_to_breakeven r = true) by congruence.
    assert (Hm6 : RiskEngine.moved_to_breakeven r6 = true) by congruence.
    destruct (ReportFacts.trail_step_stop_report _ _ _ _ E7)
      as [[T1 T2]|[Hcontra _]]; [|congruence].
    exists s0, rest, (Notions.breakeven_price_of config levels).
    split; [exact Hst|]. split; [congruence|]. split; [exact Hbetter|].
    rewrite Hm7. reflexivity.
Qed.

(** X21.  [update_position] of core/risk_engine.py keeps the momentum
    states of other sessions apart: a call only touches the state stored
    under its own key (the session id, or the symbol without one).  It
    changes no state at all when no candles are given, when there are fewer
    than five, or when dynamic targets are disabled; otherwise a state is
    stored under its key after the call. *)
Theorem X21_momentum_state_isolation :
  forall (config : RiskEngine.RiskEngineConfig)
         (states : gmap string RiskEngine.MomentumState)
         (levels : RiskEngine.RiskLevels) (update : RiskEngine.PositionUpdate)
         (ohlcv : option (list RiskEngine.Bar)) (session_id : option string)
         (key : string),
    let states' :=
      snd (RiskEngine.update_position config states levels update ohlcv session_id) in
    let own := RiskEngine.momentum_key levels session_id in
    (key <> own -> states' !! key = states !! key) /\
    (UpdateNotions.momentum_runs config ohlcv = false -> states' = states) /\
    (UpdateNotions.momentum_runs config ohlcv = true -> is_Some (states' !! own)).
Proof.
  intros config states levels update ohlcv session_id key states' own.
  subst states'. unfold RiskEngine.update_position. cbn [snd].
  set (s := RiskEngine.update_position_stages config states levels update ohlcv
              session_id).
  destruct (UpdateFacts.stages_unfold config states levels update ohlcv session_id)
    as [_ [_ [_ [_ [H5 _]]]]].
  destruct (UpdateFacts.stages_momentum_key config states levels update ohlcv session_id)
    as [Hkey _].
  fold s in H5, Hkey. rewrite H5.
  unfold RiskEngine.momentum_step, UpdateNotions.momentum_runs. rewrite Hkey. fold own.
  destruct ohlcv as [bars|]; [|split; [reflexivity|split; [reflexivity|discriminate]]].
  destruct (RiskEngine.enable_dynamic_targets config && (5 <=? length bars)%nat);
    [|split; [reflexivity|split; [reflexivity|discriminate]]].
  destruct (RiskEngine.update RiskEngine.momentum_tp _ _ _ _ _ _) as [[st' ex] reason].
  cbn [snd]. split; [|split; [discriminate|]].
  - intros Hne. apply lookup_insert_ne. congruence.
  - intros _. rewrite lookup_insert_eq. eauto.
Qed.

Module DivergenceFacts.
Import Py PyFacts RiskEngine UpdateNotions.

Lemma Forall_last_slice {A} (P : A -> Prop) k (l : list A) :
  Forall P l -> Forall P (last_slice k l).
Proof.
  intros H. unfold last_slice. destruct k; [exact H|].
  apply List.Forall_forall. intros x Hx.
  rewrite List.Forall_forall in H. apply H.
  rewrite <- (firstn_skipn (length l - S k) l). apply in_or_app. right. exact Hx.
Qed.

Lemma mean_gains_nonneg k (deltas : list Q) :
  0 <= mean (last_slice k (map (fun d => if Qltb 0 d then d else 0) deltas)).
Proof.
  apply MarketFacts.mean_nonneg, Forall_last_slice.
  apply List.Forall_forall. intros x Hx. apply in_map_iff in Hx as [d [<- _]].
  destruct (Qltb 0 d) eqn:E; [apply Qltb_true in E; lra|lra].
Qed.

Lemma mean_losses_nonneg k (deltas : list Q) :
  0 <= mean (last_slice k (map (fun d => if Qltb d 0 then - d else 0) deltas)).
Proof.
  apply MarketFacts.mean_nonneg, Forall_last_slice.
  apply List.Forall_forall. intros x Hx. apply in_map_iff in Hx as [d [<- _]].
  destruct (Qltb d 0) eqn:E; [apply Qltb_true in E; lra|lra].
Qed.

(** An RSI below 50 means that the losses outweigh the gains, an RSI above
    50 that the gains outweigh the losses or that there is no loss. *)
Lemma rsi_below_50 (g l : Q) :
  0 <= g -> 0 <= l ->
  (if Qeq_bool l 0 then 100 else 100 - 100 / (1 + g / l)) < 50 -> g < l.
Proof.
  intros Hg Hl. destruct (Qeq_bool l 0) eqn:E; [intros H; lra|].
  assert (Hne : ~ l == 0) by (intros H; apply Qeq_bool_iff in H; congruence).
  intros H. destruct (Qlt_le_dec g l) as [|Hge]; [assumption|exfalso].
  assert (H1 : 1 <= g / l) by (apply Qle_shift_div_l; lra).
  assert (H2 : 100 / (1 + g / l) <= 50) by (apply Qle_shift_div_r; lra).
  lra.
Qed.

Lemma rsi_above_50 (g l : Q) :
  0 <= g -> 0 <= l ->
  50 < (if Qeq_bool l 0 then 100 else 100 - 100 / (1 + g / l)) -> l == 0 \/ l < g.
Proof.
  intros Hg Hl. destruct (Qeq_bool l 0) eqn:E;
    [intros _; left; apply Qeq_bool_iff; exact E|].
  assert (Hne : ~ l == 0) by (intros H; apply Qeq_bool_iff in H; congruence).
  intros H. right. destruct (Qlt_le_dec l g) as [|Hge]; [assumption|exfalso].
  assert (H0 : 0 <= g / l) by (apply Qle_shift_div_l; lra).
  assert (H1 : g / l <= 1) by (apply Qle_shift_div_r; lra).
  assert (H2 : 50 <= 100 / (1 + g / l)) by (apply Qle_shift_div_l; lra).
  lra.
Qed.

End DivergenceFacts.

(** X22.  [RiskEngine._detect_divergence] reports a type exactly when it
    detects a divergence, and the type always opposes the position: for a
    long only "bearish", and only when the newer half of the kept closes
    made a higher high while the average loss of the last [rsi_period]
    changes exceeds the average gain (RSI below 50); for any other direction
    only "bullish", and only when the newer half made a lower low while the
    average gain exceeds the average loss or there is no loss at all (RSI
    above 50).  Nothing is detected when detection is disabled or fewer bars
    than [divergence_lookback] are given. *)
Theorem X22_divergence_opposes_position :
  forall (config : RiskEngine.RiskEngineConfig) (ohlcv : list RiskEngine.Bar)
         (direction : string) (detected : bool) (div_type : option string),
    RiskEngine._detect_divergence config ohlcv direction = Some (detected, div_type) ->
    (detected = false -> div_type = None) /\
    (detected = true ->
       RiskEngine.enable_divergence_detection config = true /\
       (RiskEngine.divergence_lookback config <= length ohlcv)%nat /\
       if String.eqb direction "long" then
         div_type = Some "bearish"%string /\
         UpdateNotions.avg_gain config ohlcv < UpdateNotions.avg_loss config ohlcv /\
         exists older newer,
           Py.list_max (UpdateNotions.first_half config ohlcv) = Some older /\
           Py.list_max (UpdateNotions.second_half config ohlcv) = Some newer /\
           older < newer
       else
         div_type = Some "bullish"%string /\
         (UpdateNotions.avg_loss config ohlcv == 0 \/
          UpdateNotions.avg_loss config ohlcv < UpdateNotions.avg_gain config ohlcv) /\
         exists older newer,
           Py.list_min (UpdateNotions.first_half config ohlcv) = Some older /\
           Py.list_min (UpdateNotions.second_half config ohlcv) = Some newer /\
           newer < older).
Proof.
  intros config ohlcv direction detected div_type.
  unfold RiskEngine._detect_divergence.
  destruct (RiskEngine.enable_divergence_detection config); cbn [negb];
    [|intros [= <- <-]; split; [reflexivity|discriminate]].
  destruct (Nat.ltb_spec (length ohlcv) (RiskEngine.divergence_lookback config))
    as [Hlen|Hlen]; [intros [= <- <-]; split; [reflexivity|discriminate]|].
  cbv zeta.
  fold (UpdateNotions.kept_closes config ohlcv).
  fold (UpdateNotions.changes (UpdateNotions.kept_closes config ohlcv)).
  fold (UpdateNotions.avg_gain config ohlcv).
  fold (UpdateNotions.avg_loss config ohlcv).
  fold (UpdateNotions.first_half config ohlcv).
  fold (UpdateNotions.second_half config ohlcv).
  pose proof (DivergenceFacts.mean_gains_nonneg (RiskEngine.rsi_period config)
                (UpdateNotions.changes (UpdateNotions.kept_closes config ohlcv))) as Hg.
  pose proof (DivergenceFacts.mean_losses_nonneg (RiskEngine.rsi_period config)
                (UpdateNotions.changes (UpdateNotions.kept_closes config ohlcv))) as Hl.
  fold (UpdateNotions.avg_gain config ohlcv) in Hg.
  fold (UpdateNotions.avg_loss config ohlcv) in Hl.
  set (g := UpdateNotions.avg_gain config ohlcv) in *.
  set (l := UpdateNotions.avg_loss config ohlcv) in *.
  destruct (Py.list_max (UpdateNotions.first_half config ohlcv)) as [h1|];
    cbn [mbind option_bind]; [|discriminate].
  destruct (Py.list_max (UpdateNotions.second_half config ohlcv)) as [h2|];
    cbn [mbind option_bind]; [|discriminate].
  destruct (Py.list_min (UpdateNotions.first_half config ohlcv)) as [l1|];
    cbn [mbind option_bind]; [|discriminate].
  destruct (Py.list_min (UpdateNotions.second_half config ohlcv)) as [l2|];
    cbn [mbind option_bind]; [|discriminate].
  destruct (String.eqb direction "long").
  - destruct (Py.Qltb h1 h2) eqn:E1; cbn [andb];
      [|intros [= <- <-]; split; [reflexivity|discriminate]].
    destruct (Py.Qltb _ 50) eqn:E2;
      intros [= <- <-]; split; try reflexivity; try discriminate.
    intros _. split; [reflexivity|]. split; [exact Hlen|]. split; [reflexivity|].
    apply PyFacts.Qltb_true in E1, E2.
    split; [apply DivergenceFacts.rsi_below_50; assumption|].
    exists h1, h2. repeat split. exact E1.
  - destruct (Py.Qltb l2 l1) eqn:E1; cbn [andb];
      [|intros [= <- <-]; split; [reflexivity|discriminate]].
    destruct (Py.Qltb 50 _) eqn:E2;
      intros [= <- <-]; split; try reflexivity; try discriminate.
    intros _. split; [reflexivity|]. split; [exact Hlen|]. split; [reflexivity|].
    apply PyFacts.Qltb_true in E1, E2.
    split; [apply DivergenceFacts.rsi_above_50; assumption|].
    exists l1, l2. repeat split. exact E1.
Qed.

(* ===================================================================== *)
(** * Scores, sizes and defaults *)
(* ===================================================================== *)

(** X23.  [RiskEngine._apply_staleness_penalty]: the adjusted score always
    lies between 0 and 10.  For a base score in that range, a non-negative
    maximum penalty and a non-negative freshness bonus, the score is lowered
    by at most [staleness_max_penalty] and raised by at most
    [freshness_bonus]; without trendlines it is the base score. *)
Theorem X23_staleness_penalty_bounds :
  forall (sconfig : RiskEngineAux.StalenessConfig) (base : Q) (touches : list Z),
    let score := RiskEngineAux._apply_staleness_penalty sconfig base touches in
    0 <= score <= 10 /\
    (0 <= base <= 10 ->
     0 <= RiskEngineAux.staleness_max_penalty sconfig ->
     0 <= RiskEngineAux.freshness_bonus sconfig ->
     base - RiskEngineAux.staleness_max_penalty sconfig <= score
       <= base + RiskEngineAux.freshness_bonus sconfig) /\
    (0 <= base <= 10 -> touches = [] -> score == base).
Proof.
  intros sconfig base touches score. subst score.
  unfold RiskEngineAux._apply_staleness_penalty.
  set (mp := RiskEngineAux.staleness_max_penalty sconfig).
  set (fb := RiskEngineAux.freshness_bonus sconfig).
  split; [|split].
  - match goal with |- _ <= Qmax 0.0 (Qmin 10.0 ?x) <= _ => generalize x end.
    intros x. minmax_cases; lra.
  - intros Hb Hmp Hfb.
    destruct touches as [|t ts]; [minmax_cases; lra|].
    set (avg := Py.mean (map inject_Z (t :: ts))).
    set (thr := inject_Z (RiskEngineAux.staleness_threshold_bars sconfig)).
    destruct (Py.Qltb thr avg) eqn:E1.
    + apply PyFacts.Qltb_true in E1.
      assert (Hp : 0 <= (avg - thr) / 50) by (apply Qle_shift_div_l; lra).
      revert Hp. generalize ((avg - thr) / 50). intros p Hp.
      minmax_cases; lra.
    + destruct (Py.Qltb avg _); minmax_cases; lra.
  - intros Hb ->. minmax_cases; lra.
Qed.

Module SessionFacts.
Import SessionCreate.

Lemma truthy_nonzero x : Py.truthy x = true -> ~ x == 0.
Proof.
  unfold Py.truthy. destruct (Qeq_bool x 0) eqn:E; [discriminate|].
  intros _ H. apply Qeq_bool_iff in H. congruence.
Qed.

End SessionFacts.

(** X24.  The route [create_session] of api/session_routes.py answers 400
    when neither [structural_support] nor [structural_level] is given, and
    otherwise hands a non-zero structural level to the session manager.
    Targets of the request are passed on as they are.  Without targets and
    with a positive entry price the route supplies three default targets
    whose exit percentages add up to 100 and whose prices lie on the profit
    side of the entry, the nearest first: above it and rising for a long,
    below it and falling otherwise. *)
Theorem X24_create_session_targets :
  forall (request : SessionCreate.CreateSessionRequest),
    let long := String.eqb (SessionCreate.csr_direction request) "long" in
    (SessionCreate.float_truthy (SessionCreate.csr_structural_support request) = false ->
     SessionCreate.float_truthy (SessionCreate.csr_structural_level request) = false ->
     SessionCreate.create_session_arguments request = None) /\
    (forall structural targets,
       SessionCreate.create_session_arguments request = Some (structural, targets) ->
       ~ structural == 0 /\
       (SessionCreate.csr_targets request <> [] ->
        targets = SessionCreate.csr_targets request) /\
       (forall entry,
          SessionCreate.csr_targets request = [] ->
          SessionCreate.csr_entry_price request = Some entry ->
          0 < entry ->
          exists t1 t2 t3,
            targets = [t1; t2; t3] /\
            SessionCreate.ts_exit_percentage t1 + SessionCreate.ts_exit_percentage t2
              + SessionCreate.ts_exit_percentage t3 == 100 /\
            if long then
              entry < SessionCreate.ts_price t1 /\
              SessionCreate.ts_price t1 < SessionCreate.ts_price t2 /\
              SessionCreate.ts_price t2 < SessionCreate.ts_price t3
            else
              SessionCreate.ts_price t3 < SessionCreate.ts_price t2 /\
              SessionCreate.ts_price t2 < SessionCreate.ts_price t1 /\
              SessionCreate.ts_price t1 < entry)).
Proof.
  intros request long. unfold SessionCreate.create_session_arguments.
  split.
  - unfold SessionCreate.float_truthy, SessionCreate.float_or.
    destruct (SessionCreate.csr_structural_support request) as [a|];
      destruct (SessionCreate.csr_structural_level request) as [b|];
      intros Ha Hb; try rewrite Ha; try rewrite Hb; reflexivity.
  - intros structural targets.
    destruct (SessionCreate.float_or _ _) as [st|]; [|discriminate].
    destruct (Py.truthy st) eqn:Hst; [|discriminate].
    intros [= <- <-].
    split; [apply SessionFacts.truthy_nonzero; exact Hst|].
    split.
    + intros Hne. destruct (SessionCreate.csr_targets request); [congruence|reflexivity].
    + intros entry -> -> He.
      assert (Ht : Py.truthy entry = true).
      { unfold Py.truthy. destruct (Qeq_bool entry 0) eqn:E; [|reflexivity].
        apply Qeq_bool_iff in E. lra. }
      rewrite Ht. unfold SessionCreate.default_targets. subst long.
      destruct (String.eqb (SessionCreate.csr_direction request) "long");
        eexists _, _, _; (split; [reflexivity|]);
        cbn [SessionCreate.ts_exit_percentage SessionCreate.ts_price];
        (split; [reflexivity|]); (split; [|split]); lra.
Qed.

Module LadderFacts.
Import Py PyFacts RiskEngine Notions UpdateFacts.

(** The ladder of [_calculate_stops]: no stop after the first is of the
    primary or structural type. *)
Lemma calculate_stops_ladder config entry direction sa atr stops :
  _calculate_stops config entry direction sa atr = Some stops ->
  exists s rest, stops = s :: rest /\
                 Forall (fun x => RiskEngineAux.is_primary x = false) rest.
Proof.
  unfold _calculate_stops.
  destruct (structural_stop config entry atr (String.eqb direction "long") _)
    as [st|] eqn:Hst; cbn [mbind option_bind]; [|discriminate].
  assert (Hshape : st = [] \/ exists s0, st = [s0]).
  { unfold structural_stop in Hst.
    destruct (sa ≫= _) as [level|]; [|left; congruence].
    destruct (if String.eqb direction "long" then _ else _); [|left; congruence].
    destruct (div _ entry); cbn [mbind option_bind] in Hst; [|discriminate].
    destruct (Qleb _ _); [right; eexists; symmetry; injection Hst as Hst; exact Hst
                         |left; congruence]. }
  destruct Hshape as [-> | [s0 ->]];
    repeat (match goal with
            | |- context [div ?a ?b] => destruct (div a b)
            end; cbn [mbind option_bind]);
    destruct (enable_multi_tier_stops config); try discriminate;
    intros [= <-]; eexists _, _; (split; [reflexivity|repeat constructor]).
Qed.

Lemma get_primary_stop_first levels s rest :
  stops levels = s :: rest ->
  Forall (fun x => RiskEngineAux.is_primary x = false) rest ->
  RiskEngineAux.get_primary_stop levels = Some s.
Proof.
  intros Hs Hrest. unfold RiskEngineAux.get_primary_stop. rewrite Hs.
  cbn [List.find head]. destruct (RiskEngineAux.is_primary s); [reflexivity|].
  assert (Hnone : List.find RiskEngineAux.is_primary rest = None).
  { clear Hs. induction Hrest as [|x l Hx _ IH]; [reflexivity|].
    cbn [List.find]. rewrite Hx. exact IH. }
  rewrite Hnone. reflexivity.
Qed.

End LadderFacts.

(** X25.  [RiskLevels.get_primary_stop] of core/risk_engine.py returns the
    first stop of every ladder that [_calculate_stops] builds, and it still
    returns the first stop of the levels after any call of
    [update_position], also once that stop has been moved to breakeven. *)
Theorem X25_primary_stop_is_first :
  forall (config : RiskEngine.RiskEngineConfig) (entry : Q) (direction : string)
         (structure_analysis : option RiskEngine.StructureAnalysis) (atr : Q)
         (levels : RiskEngine.RiskLevels)
         (states : gmap string RiskEngine.MomentumState)
         (update : RiskEngine.PositionUpdate)
         (ohlcv : option (list RiskEngine.Bar)) (session_id : option string),
    RiskEngine._calculate_stops config entry direction structure_analysis atr
      = Some (RiskEngine.stops levels) ->
    let levels' :=
      snd (fst (RiskEngine.update_position config states levels update ohlcv
                  session_id)) in
    RiskEngine.stops levels <> [] /\
    RiskEngineAux.get_primary_stop levels = head (RiskEngine.stops levels) /\
    RiskEngineAux.get_primary_stop levels' = head (RiskEngine.stops levels').
Proof.
  intros config entry direction sa atr levels states update ohlcv session_id Hst levels'.
  destruct (LadderFacts.calculate_stops_ladder _ _ _ _ _ _ Hst) as [s [rest [Hs Hrest]]].
  split; [rewrite Hs; discriminate|].
  split.
  - rewrite (LadderFacts.get_primary_stop_first levels s rest Hs Hrest), Hs. reflexivity.
  - subst levels'. unfold RiskEngine.update_position. cbn [fst snd].
    destruct (UpdateFacts.stages_breakeven config states levels update ohlcv session_id)
      as [[_ Hl]|[_ [_ [_ [s0 [rest0 [Hs0 [_ Hl]]]]]]]]; rewrite Hl.
    + rewrite (LadderFacts.get_primary_stop_first levels s rest Hs Hrest), Hs.
      reflexivity.
    + rewrite Hs in Hs0. injection Hs0 as <- <-.
      erewrite LadderFacts.get_primary_stop_first; [| reflexivity | exact Hrest].
      reflexivity.
Qed.

(** X26.  Position sizing ties the size to the stop: whenever
    [position_sizing] of core/risk_engine.py (step 8 of
    [calculate_risk_levels]) or [_calculate_position_size] of
    core/engine.py returns, the position size times the risk distance is the
    risk amount as soon as the distance is positive, so that a loss at the
    first stop costs the risk amount; with a distance of zero the size is
    zero; and the call raises exactly on an account balance of zero. *)
Theorem X26_position_size_identity :
  forall (rcfg : RiskEngine.RiskEngineConfig) (ecfg : Engine.RiskEngineConfig)
         (levels : RiskEngine.RiskLevels) (setup : Engine.TradeSetup)
         (account_balance risk_per_trade_pct atr risk_distance atr_pct : Q),
    let first_stop :=
      match RiskEngine.stops levels with
      | s :: _ => RiskEngine.stop_price s
      | [] => RiskEngine.entry_price levels - atr * 2
      end in
    let distance := Qabs (RiskEngine.entry_price levels - first_stop) in
    (account_balance == 0 <->
     RiskEngine.position_sizing rcfg levels account_balance risk_per_trade_pct atr
       = None) /\
    (forall size pct amount,
       RiskEngine.position_sizing rcfg levels account_balance risk_per_trade_pct atr
         = Some (size, pct, amount) ->
       (0 < distance -> size * distance == amount) /\
       (distance == 0 -> size == 0) /\
       pct == size * RiskEngine.entry_price levels / account_balance * 100) /\
    (forall size pct amount,
       Engine._calculate_position_size ecfg setup risk_distance atr_pct
         = Some (size, pct, amount) ->
       (0 < risk_distance -> size * risk_distance == amount) /\
       (risk_distance <= 0 -> size == 0) /\
       pct == size * Engine.entry_price setup / Engine.account_balance setup * 100).
Proof.
  intros rcfg ecfg levels setup balance risk atr rd atr_pct first_stop distance.
  unfold RiskEngine.position_sizing, RiskEngine._calculate_position_size,
         Engine._calculate_position_size.
  fold first_stop. fold distance.
  split; [|split].
  - unfold Py.div. destruct (Qeq_bool balance 0) eqn:E; cbn [mbind option_bind].
    + apply Qeq_bool_iff in E. tauto.
    + split; [|discriminate]. intros H. apply Qeq_bool_iff in H. congruence.
  - intros size pct amount.
    unfold Py.div. destruct (Qeq_bool balance 0) eqn:E; cbn [mbind option_bind];
      [discriminate|].
    destruct (Py.Qltb 0 distance) eqn:Hd;
      [apply PyFacts.Qltb_true in Hd|apply PyFacts.Qltb_false in Hd];
      intros [= <- <- <-].
    + split; [intros _; field; lra|]. split; [intros; lra|reflexivity].
    + split; [intros; lra|]. split; [reflexivity|reflexivity].
  - intros size pct amount.
    unfold Py.div. destruct (Qeq_bool (Engine.account_balance setup) 0) eqn:E;
      cbn [mbind option_bind]; [discriminate|].
    destruct (Py.Qltb 0 rd) eqn:Hd;
      [apply PyFacts.Qltb_true in Hd|apply PyFacts.Qltb_false in Hd];
      intros [= <- <- <-].
    + split; [intros _; field; lra|]. split; [intros; lra|reflexivity].
    + split; [intros; lra|]. split; [reflexivity|reflexivity].
Qed.

(* ===================================================================== *)
(** * When the per-bar update raises *)
(* ===================================================================== *)

Module TotalityFacts.
Import Py PyFacts RiskEngine Notions UpdateFacts.

Lemma last_slice_length {A} k (l : list A) :
  (0 < k <= length l)%nat -> length (last_slice k l) = k.
Proof.
  intros H. unfold last_slice. destruct k; [lia|]. rewrite length_skipn. lia.
Qed.

Lemma detect_divergence_returns config ohlcv direction :
  (2 <= divergence_lookback config)%nat ->
  exists d, _detect_divergence config ohlcv direction = Some d.
Proof.
  intros Hlb. unfold _detect_divergence.
  destruct (negb _); [eauto|].
  destruct (Nat.ltb_spec (length ohlcv) (divergence_lookback config)) as [|Hlen];
    [eauto|].
  cbv zeta.
  set (close := last_slice (divergence_lookback config) (map bar_close ohlcv)).
  assert (Hclose : length close = divergence_lookback config).
  { subst close. apply last_slice_length. rewrite length_map. lia. }
  assert (Hmid : (1 <= length close / 2 < length close)%nat).
  { rewrite Hclose. split.
    - apply Nat.div_le_lower_bound; lia.
    - apply Nat.div_lt; lia. }
  assert (H1 : firstn (length close / 2) close <> []).
  { intros E. apply (f_equal (@length Q)) in E. rewrite length_firstn in E.
    cbn [length] in E. lia. }
  assert (H2 : skipn (length close / 2) close <> []).
  { intros E. apply (f_equal (@length Q)) in E. rewrite length_skipn in E.
    cbn [length] in E. lia. }
  destruct (HealthFacts.list_max_nonempty _ H1) as [a ->].
  destruct (HealthFacts.list_max_nonempty _ H2) as [b ->].
  destruct (HealthFacts.list_min_nonempty _ H1) as [c ->].
  destruct (HealthFacts.list_min_nonempty _ H2) as [d ->].
  cbn [mbind option_bind].
  destruct (String.eqb direction "long"); destruct (_ && _); eauto.
Qed.

Lemma divergence_step_returns config states levels ohlcv session_id r :
  (2 <= divergence_lookback config)%nat ->
  exists r', divergence_step config states levels ohlcv session_id r = Some r'.
Proof.
  intros Hlb. unfold divergence_step.
  destruct ohlcv as [ohlcv|]; [|eauto].
  destruct (enable_divergence_detection config); [|eauto].
  destruct (detect_divergence_returns config ohlcv (direction levels) Hlb)
    as [[detected div_type] ->].
  cbn [mbind option_bind].
  destruct detected; [|eauto].
  destruct div_type as [div_type|]; [|eauto].
  destruct (_ || _); [|eauto].
  destruct (_ && _); eauto.
Qed.

Lemma trail_step_returns levels upd r :
  ~ entry_price levels == 0 ->
  exists r', trail_step levels upd r = Some r'.
Proof.
  intros He. unfold trail_step.
  destruct (_ && _); [|eauto].
  unfold _trail_stop.
  destruct (stops levels) as [|primary rest]; cbn [mbind option_bind]; [eauto|].
  destruct (String.eqb (direction levels) "long");
    rewrite (EngineFacts.div_ok _ (entry_price levels)) by exact He;
    cbn [mbind option_bind];
    repeat match goal with
    | |- context [if ?c then _ else _] => destruct c; cbn [mbind option_bind]
    end; eauto.
Qed.

Lemma check_structure_health_returns direction current lows highs :
  ~ current == 0 ->
  exists health, _check_structure_health direction current lows highs = Some health.
Proof.
  intros Hc. unfold _check_structure_health.
  destruct (Nat.ltb_spec (length lows) 3) as [|Hl]; cbn [orb]; [eauto|].
  destruct (Nat.ltb_spec (length highs) 3) as [|Hh]; [eauto|].
  destruct (String.eqb direction "long").
  - destruct (_ && _); [eauto|].
    destruct (HealthFacts.list_max_nonempty (last_slice 10 highs)) as [m ->].
    { apply HealthFacts.last_slice_nonempty. destruct highs; [cbn in Hh; lia|discriminate]. }
    cbn [mbind option_bind]. rewrite (EngineFacts.div_ok _ current) by exact Hc.
    cbn [mbind option_bind]. destruct (Qltb _ _); eauto.
  - destruct (_ && _); [eauto|].
    destruct (HealthFacts.list_min_nonempty (last_slice 10 lows)) as [m ->].
    { apply HealthFacts.last_slice_nonempty. destruct lows; [cbn in Hl; lia|discriminate]. }
    cbn [mbind option_bind]. rewrite (EngineFacts.div_ok _ current) by exact Hc.
    cbn [mbind option_bind]. destruct (Qltb _ _); eauto.
Qed.

Lemma structure_health_step_returns levels upd r :
  ~ pu_current_price upd == 0 ->
  exists r', structure_health_step levels upd r = Some r'.
Proof.
  intros Hc. unfold structure_health_step.
  destruct (recent_lows upd) as [[|l lows]|]; eauto;
    destruct (recent_highs upd) as [[|h highs]|]; eauto.
  destruct (check_structure_health_returns (direction levels) (pu_current_price upd)
              (l :: lows) (h :: highs) Hc) as [health ->].
  cbn [mbind option_bind].
  destruct health; eauto. destruct (negb _); eauto.
Qed.

End TotalityFacts.

(** X27.  [update_position] of core/risk_engine.py returns a result (it does
    not raise) whenever the entry price and the current price are non-zero
    and the configured divergence look-back is at least two bars, whatever
    the levels, the candles and the stored momentum states. *)
Theorem X27_update_position_returns :
  forall (config : RiskEngine.RiskEngineConfig)
         (states : gmap string RiskEngine.MomentumState)
         (levels : RiskEngine.RiskLevels) (update : RiskEngine.PositionUpdate)
         (ohlcv : option (list RiskEngine.Bar)) (session_id : option string),
    ~ RiskEngine.entry_price levels == 0 ->
    ~ RiskEngine.pu_current_price update == 0 ->
    (2 <= RiskEngine.divergence_lookback config)%nat ->
    exists r,
      fst (fst (RiskEngine.update_position config states levels update ohlcv session_id))
        = Some r.
Proof.
  intros config states levels update ohlcv session_id He Hp Hlb.
  unfold RiskEngine.update_position. cbn [fst snd].
  set (s := RiskEngine.update_position_stages config states levels update ohlcv
              session_id).
  destruct (UpdateFacts.stages_unfold config states levels update ohlcv session_id)
    as [_ [_ [_ [_ [_ [H6 [H7 [H8 [H9 H10]]]]]]]]].
  fold s in H6, H7, H8, H9, H10.
  assert (Hentry : RiskEngine.entry_price (RiskEngine.final_levels s)
                   = RiskEngine.entry_price levels).
  { destruct (UpdateFacts.stages_breakeven config states levels update ohlcv session_id)
      as [[_ Hl]|[_ [_ [_ [s0 [rest [_ [_ Hl]]]]]]]]; fold s in Hl; rewrite Hl;
      reflexivity. }
  destruct (TotalityFacts.divergence_step_returns config (RiskEngine.final_states s)
              (RiskEngine.final_levels s) ohlcv session_id
              (RiskEngine.after_momentum s) Hlb) as [r4 E4].
  rewrite E4 in H6. rewrite H6 in H7. cbn [fmap option_fmap option_map] in H7.
  rewrite H7 in H8. cbn [fmap option_fmap option_map] in H8.
  rewrite H8 in H9. cbn [mbind option_bind] in H9.
  destruct (TotalityFacts.trail_step_returns (RiskEngine.final_levels s) update
              (RiskEngine.guarding_step config (RiskEngine.final_levels s) update
                 (RiskEngine.fixed_targets_step (RiskEngine.final_states s)
                    (RiskEngine.final_levels s) update session_id r4)))
    as [r7 E7]; [rewrite Hentry; exact He|].
  rewrite E7 in H9. rewrite H9 in H10. cbn [mbind option_bind] in H10.
  destruct (TotalityFacts.structure_health_step_returns (RiskEngine.final_levels s)
              update r7 Hp) as [r E].
  rewrite E in H10. exists r. exact H10.
Qed.

(* ===================================================================== *)
(** * The momentum trailing inside update_position *)
(* ===================================================================== *)

Module MomentumStoreFacts.
Import Py PyFacts RiskEngine Notions UpdateFacts UpdateNotions.

(** On an active state [update] keeps the state active and moves the level
    only in the direction of the trade; every direction other than "long" is
    trailed downwards. *)
Lemma update_active_level self state price r direction closes candles :
  active state = true ->
  let st' := updated_state (update self state price r direction closes candles) in
  active st' = true /\
  if String.eqb direction "long" then trailing_level state <= trailing_level st'
  else trailing_level st' <= trailing_level state.
Proof.
  intros Ha st'. split; [apply MomentumFacts.update_keeps_active; exact Ha|].
  subst st'. unfold update. rewrite Ha. cbn [negb].
  destruct (calculate_slope self closes direction) as [slope_pct strength].
  set (new_trail := calculate_trail_level _ _ _ _ _).
  destruct (String.eqb direction "long"); cbn [andb].
  - destruct (Qltb (trailing_level state) new_trail) eqn:E1;
      [apply Qltb_true in E1 | apply Qltb_false in E1];
      destruct (List.last (map Some candles) None) as [last|];
      repeat match goal with
      | |- context [if ?c then _ else _] => destruct c
      end;
      unfold updated_state; cbn [fst snd trailing_level]; lra.
  - destruct (Qltb new_trail (trailing_level state)) eqn:E1;
      [apply Qltb_true in E1 | apply Qltb_false in E1];
      destruct (List.last (map Some candles) None) as [last|];
      repeat match goal with
      | |- context [if ?c then _ else _] => destruct c
      end;
      unfold updated_state; cbn [fst snd trailing_level]; lra.
Qed.

Section WithConfig.

Variable config : RiskEngineConfig.

(** The momentum block reports an exit only as a full exit, and it reports
    an active trailing only for a state that it has stored as active. *)
Lemma momentum_step_full_exit states levels upd ohlcv session_id r :
  let out := momentum_step config states levels upd ohlcv session_id r in
  ((exit_signal r = true -> exit_percentage r = 100.0) ->
   exit_signal (fst out) = true -> exit_percentage (fst out) = 100.0) /\
  (momentum_trailing_active (fst out) = true ->
   momentum_trailing_active r = true \/
   momentum_active (snd out) (momentum_key levels session_id) = true).
Proof.
  unfold momentum_step.
  destruct ohlcv as [ohlcv|]; [|cbn [fst snd]; split; [auto|intros H; left; exact H]].
  destruct (enable_dynamic_targets config && (5 <=? length ohlcv)%nat);
    [|cbn [fst snd]; split; [auto|intros H; left; exact H]].
  destruct (update momentum_tp _ _ _ _ _ _) as [[st' ex] reason].
  destruct (active st') eqn:Ha; destruct ex; destruct reason; cbn [fst snd];
    unfold momentum_active; rewrite lookup_insert_eq, Ha;
    (split; [intros Hp; try (intros _; reflexivity); exact Hp
            |intros H; first [right; reflexivity | left; exact H]]).
Qed.

Lemma r_multiple_step_momentum levels upd r :
  momentum_trailing_active (r_multiple_step levels upd r) = momentum_trailing_active r.
Proof. unfold r_multiple_step. block_cases; reflexivity. Qed.

Lemma breakeven_step_momentum levels r :
  momentum_trailing_active (fst (breakeven_step config levels r))
  = momentum_trailing_active r.
Proof. unfold breakeven_step. block_cases; reflexivity. Qed.

Lemma divergence_step_momentum states levels ohlcv session_id r r' :
  divergence_step config states levels ohlcv session_id r = Some r' ->
  momentum_trailing_active r' = momentum_trailing_active r.
Proof.
  unfold divergence_step.
  destruct ohlcv as [ohlcv|]; [|intros [= <-]; reflexivity].
  destruct (enable_divergence_detection config); [|intros [= <-]; reflexivity].
  destruct (_detect_divergence config ohlcv (direction levels)) as [[detected div_type]|];
    cbn [mbind option_bind]; [|discriminate].
  destruct detected; [|intros [= <-]; reflexivity].
  destruct div_type as [div_type|]; [|intros [= <-]; reflexivity].
  destruct (_ || _); [|intros [= <-]; reflexivity].
  destruct (_ && _); intros [= <-]; reflexivity.
Qed.

Lemma guarding_step_momentum levels upd r :
  momentum_trailing_active (guarding_step config levels upd r)
  = momentum_trailing_active r.
Proof.
  unfold guarding_step.
  destruct (guarding_line levels) as [line|]; [|reflexivity].
  destruct (_ <=? _)%Z; [|reflexivity].
  destruct (check_break _ _ _) as [[|] reason]; reflexivity.
Qed.

Lemma trail_step_momentum levels upd r r' :
  trail_step levels upd r = Some r' ->
  momentum_trailing_active r' = momentum_trailing_active r.
Proof.
  unfold trail_step.
  destruct (_ && _); [|intros [= <-]; reflexivity].
  destruct (_trail_stop _ _ _ _) as [[new_stop|]|]; cbn [mbind option_bind];
    [|intros [= <-]; reflexivity|discriminate].
  destruct (truthy new_stop); intros [= <-]; reflexivity.
Qed.

(** The structure block sets an exit only as a full exit. *)
Lemma structure_health_step_full_exit levels upd r r' :
  structure_health_step levels upd r = Some r' ->
  momentum_trailing_active r' = momentum_trailing_active r /\
  ((exit_signal r = true -> exit_percentage r = 100.0) ->
   exit_signal r' = true -> exit_percentage r' = 100.0).
Proof.
  unfold structure_health_step.
  destruct (recent_lows upd) as [[|l lows]|]; try (intros [= <-]; split; [reflexivity|auto]);
    destruct (recent_highs upd) as [[|h highs]|];
    try (intros [= <-]; split; [reflexivity|auto]).
  destruct (_check_structure_health _ _ _ _) as [health|]; cbn [mbind option_bind];
    [|discriminate].
  destruct health; try (intros [= <-]; split; [reflexivity|auto]).
  destruct (negb _) eqn:E; intros [= <-]; (split; [reflexivity|]).
  - intros _ _. reflexivity.
  - auto.
Qed.

(** What a returned result says about the momentum trailing and its exit. *)
Lemma stages_momentum_exit states levels upd ohlcv session_id r :
  let s := update_position_stages config states levels upd ohlcv session_id in
  let key := momentum_key levels session_id in
  after_structure_health s = Some r ->
  (momentum_trailing_active r = true -> momentum_active (final_states s) key = true) /\
  (momentum_active (final_states s) key = true ->
   exit_signal r = true -> exit_percentage r = 100.0).
Proof.
  intros s key Hr.
  destruct (stages_unfold config states levels upd ohlcv session_id)
    as [H1 [H2 [_ [H4 [H5 _]]]]].
  destruct (stages_chain config states levels upd ohlcv session_id)
    as [Hc [Hs [_ [_ [Ht Hh]]]]].
  destruct (stages_momentum_key config states levels upd ohlcv session_id) as [Hk _].
  destruct (PrecedenceFacts.after_breakeven_clean config states levels upd ohlcv
              session_id) as [Hclean _].
  fold s in H1, H2, H4, H5, Hc, Hs, Ht, Hh, Hk, Hclean.
  destruct (Hh r Hr) as [r7 E7].
  destruct (Ht r7 E7) as [r4 E4].
  destruct (Hc r4 E4) as [D4 [_ [_ D7]]].
  rewrite E7 in D7. symmetry in D7.
  specialize (Hs r7 E7). rewrite Hr in Hs. symmetry in Hs.
  set (r5 := fixed_targets_step (final_states s) (final_levels s) upd session_id r4)
    in D7.
  set (r6 := guarding_step config (final_levels s) upd r5) in D7.
  destruct (momentum_step_full_exit states (final_levels s) upd ohlcv session_id
              (after_breakeven s)) as [M1 M2].
  rewrite <- H4 in M1, M2. rewrite <- H5, Hk in M2. fold key in M2.
  destruct (structure_health_step_full_exit _ _ _ _ Hs) as [S1 S2].
  pose proof (trail_step_momentum _ _ _ _ D7) as T1.
  destruct (trail_step_exit _ _ _ _ D7) as [[T2 [_ T3]] _].
  pose proof (guarding_step_momentum (final_levels s) upd r5) as G1. fold r6 in G1.
  pose proof (divergence_step_momentum _ _ _ _ _ _ D4) as V1.
  split.
  - (* the report *)
    intros Hrep.
    assert (F1 : momentum_trailing_active r5 = momentum_trailing_active r4).
    { subst r5. unfold fixed_targets_step.
      destruct (negb _); [|reflexivity].
      destruct (first_target_hit _ _ _); reflexivity. }
    assert (H3 : momentum_trailing_active (after_momentum s) = true) by congruence.
    destruct (M2 H3) as [Hb|Hact]; [|exact Hact].
    rewrite H2, breakeven_step_momentum, H1, r_multiple_step_momentum in Hb.
    cbn in Hb. discriminate.
  - (* the exit *)
    intros Hact.
    assert (P3 : exit_signal (after_momentum s) = true ->
                 exit_percentage (after_momentum s) = 100.0).
    { apply M1. rewrite Hclean. discriminate. }
    assert (P4 : exit_signal r4 = true -> exit_percentage r4 = 100.0).
    { destruct (divergence_step_frame config _ _ _ _ _ _ D4)
        as [_ [_ [[A1 [_ A3]]|[Hcontra _]]]].
      - rewrite A1, A3. exact P3.
      - rewrite Hk in Hcontra. fold key in Hcontra. congruence. }
    assert (F5 : r5 = r4).
    { subst r5. apply fixed_targets_step_suppressed. rewrite Hk. exact Hact. }
    assert (P6 : exit_signal r6 = true -> exit_percentage r6 = 100.0).
    { pose proof (guarding_step_frame config (final_levels s) upd r5) as Hg.
      cbv zeta in Hg. fold r6 in Hg.
      destruct Hg as [_ [_ [[A1 [_ A3]]|[_ [_ A3]]]]].
      - rewrite A1, A3, F5. exact P4.
      - intros _. exact A3. }
    apply S2. rewrite T2, T3. exact P6.
Qed.

(** A call leaves an active state of any key active, and moves the level of
    the state of its own key only in the direction of its levels. *)
Lemma update_position_stored_level states levels upd ohlcv session_id key st :
  states !! key = Some st ->
  active st = true ->
  let s := update_position_stages config states levels upd ohlcv session_id in
  exists st',
    final_states s !! key = Some st' /\ active st' = true /\
    (momentum_key levels session_id <> key -> st' = st) /\
    (momentum_key levels session_id = key ->
     if String.eqb (direction levels) "long"
     then trailing_level st <= trailing_level st'
     else trailing_level st' <= trailing_level st).
Proof.
  intros Hst Ha s.
  destruct (stages_unfold config states levels upd ohlcv session_id)
    as [_ [_ [_ [_ [H5 _]]]]].
  destruct (stages_momentum_key config states levels upd ohlcv session_id) as [Hk _].
  assert (Hd : direction (final_levels s) = direction levels).
  { destruct (stages_breakeven config states levels upd ohlcv session_id)
      as [[_ Hl]|[_ [_ [_ [s0 [rest [_ [_ Hl]]]]]]]]; fold s in Hl; rewrite Hl;
      reflexivity. }
  fold s in H5, Hk. rewrite H5. unfold momentum_step. rewrite Hk, Hd.
  assert (Hsame : exists st',
            states !! key = Some st' /\ active st' = true /\
            (momentum_key levels session_id <> key -> st' = st) /\
            (momentum_key levels session_id = key ->
             if String.eqb (direction levels) "long"
             then trailing_level st <= trailing_level st'
             else trailing_level st' <= trailing_level st)).
  { exists st. split; [exact Hst|]. split; [exact Ha|]. split; [reflexivity|].
    intros _. destruct (String.eqb _ _); apply Qle_refl. }
  destruct ohlcv as [bars|]; [|exact Hsame].
  destruct (enable_dynamic_targets config && (5 <=? length bars)%nat); [|exact Hsame].
  clear Hsame.
  destruct (decide (momentum_key levels session_id = key)) as [Heq|Hne].
  - rewrite Heq, Hst.
    pose proof (update_active_level momentum_tp st (pu_current_price upd)
                  (current_r_multiple (after_breakeven s)) (direction levels)
                  (last_slice 10 (map bar_close bars)) (last_slice 5 bars) Ha) as Hu.
    cbv zeta in Hu. unfold updated_state in Hu.
    destruct (update momentum_tp st _ _ _ _ _) as [[st' ex] reason].
    cbn [fst snd] in Hu |- *. destruct Hu as [Hu1 Hu2].
    exists st'. rewrite lookup_insert_eq.
    split; [reflexivity|]. split; [exact Hu1|]. split; [congruence|].
    intros _. exact Hu2.
  - destruct (update momentum_tp _ _ _ _ _ _) as [[st' ex] reason].
    cbn [snd]. exists st. rewrite lookup_insert_ne; [|exact Hne].
    split; [exact Hst|]. split; [exact Ha|]. split; [reflexivity|].
    intros Heq. contradiction.
Qed.

Lemma engine_calls_stored_level calls : forall states key st,
  states !! key = Some st ->
  active st = true ->
  exists st',
    snd (engine_calls config states calls) !! key = Some st' /\ active st' = true /\
    (calls_of_key true key calls -> trailing_level st <= trailing_level st') /\
    (calls_of_key false key calls -> trailing_level st' <= trailing_level st).
Proof.
  induction calls as [|[[[levels upd] ohlcv] session_id] calls IH];
    intros states key st Hst Ha.
  - cbn. exists st. split; [exact Hst|]. split; [exact Ha|].
    split; intros _; apply Qle_refl.
  - cbn [engine_calls].
    destruct (update_position_stored_level states levels upd ohlcv session_id key st
                Hst Ha) as [st1 [Hst1 [Ha1 [Hother Hown]]]].
    destruct (IH _ key st1 Hst1 Ha1) as [st' [Hst' [Ha' [Hup Hdown]]]].
    destruct (engine_calls config _ calls) as [more states2].
    cbn [snd] in Hst' |- *.
    exists st'. split; [exact Hst'|]. split; [exact Ha'|].
    split; intros Hall; apply List.Forall_cons_iff in Hall; destruct Hall as [Hcall Hrest].
    + eapply Qle_trans; [|apply Hup; exact Hrest].
      destruct (decide (momentum_key levels session_id = key)) as [Heq|Hne].
      * specialize (Hown Heq). rewrite (Hcall Heq) in Hown. exact Hown.
      * rewrite (Hother Hne). apply Qle_refl.
    + eapply Qle_trans; [apply Hdown; exact Hrest|].
      destruct (decide (momentum_key levels session_id = key)) as [Heq|Hne].
      * specialize (Hown Heq). rewrite (Hcall Heq) in Hown. exact Hown.
      * rewrite (Hother Hne). apply Qle_refl.
Qed.

End WithConfig.

End MomentumStoreFacts.

(** X28.  While the momentum trailing of a position is active,
    [update_position] of core/risk_engine.py never signals a partial exit.
    Whenever the call returns, a result that reports the trailing as active
    belongs to a state stored as active under the key of the call; and when
    that state is active after the call, every exit the result signals is an
    exit of 100%: the divergence block (33%) and the fixed targets (their
    own percentages) are skipped. *)
Theorem X28_no_partial_exit_under_momentum :
  forall (config : RiskEngine.RiskEngineConfig)
         (states : gmap string RiskEngine.MomentumState)
         (levels : RiskEngine.RiskLevels) (update : RiskEngine.PositionUpdate)
         (ohlcv : option (list RiskEngine.Bar)) (session_id : option string)
         (r : RiskEngine.RiskUpdate),
    let out := RiskEngine.update_position config states levels update ohlcv session_id in
    let key := RiskEngine.momentum_key levels session_id in
    fst (fst out) = Some r ->
    (RiskEngine.momentum_trailing_active r = true ->
     RiskEngine.momentum_active (snd out) key = true) /\
    (RiskEngine.momentum_active (snd out) key = true ->
     RiskEngine.exit_signal r = true ->
     RiskEngine.exit_percentage r = 100.0).
Proof.
  intros config states levels update ohlcv session_id r out key Hr.
  subst out. unfold RiskEngine.update_position in *. cbn [fst snd] in *.
  exact (MomentumStoreFacts.stages_momentum_exit config states levels update ohlcv
           session_id r Hr).
Qed.

(** X29.  The trailing level that the engine stores for a session only
    ratchets.  Once the state stored under a key is active, after any
    sequence of calls of [update_position] on the engine the key still holds
    an active state; its trailing level is not below the level before the
    sequence when every call that uses the key is for a long position, and
    not above it when none of them is.  Calls for other keys leave it
    alone. *)
Theorem X29_stored_trailing_level_ratchets :
  forall (config : RiskEngine.RiskEngineConfig)
         (states : gmap string RiskEngine.MomentumState) (key : string)
         (st : RiskEngine.MomentumState)
         (calls : list (RiskEngine.RiskLevels * RiskEngine.PositionUpdate
                        * option (list RiskEngine.Bar) * option string)),
    states !! key = Some st ->
    RiskEngine.active st = true ->
    exists st',
      snd (Notions.engine_calls config states calls) !! key = Some st' /\
      RiskEngine.active st' = true /\
      (UpdateNotions.calls_of_key true key calls ->
       RiskEngine.trailing_level st <= RiskEngine.trailing_level st') /\
      (UpdateNotions.calls_of_key false key calls ->
       RiskEngine.trailing_level st' <= RiskEngine.trailing_level st).
Proof.
  intros config states key st calls Hst Ha.
  exact (MomentumStoreFacts.engine_calls_stored_level config calls states key st Hst Ha).
Qed.

(* ===================================================================== *)
(** * The further properties on concrete inputs *)
(* ===================================================================== *)

(** X1 on the flat market: a long at 100 on a four-hour chart. *)
Lemma X1_calculate_risk_levels_sound_witness :
  exists levels,
    EngineMain.calculate_risk_levels Engine.default_config
      EngineMain.default_guarding_config EngineNotions.example_setup
      EngineNotions.flat_market = Some levels /\
    Models.targets levels <> [] /\
    0 < Models.position_size levels.
Proof.
  edestruct (X1_calculate_risk_levels_sound Engine.default_config
               EngineMain.default_guarding_config EngineNotions.example_setup
               EngineNotions.flat_market)
    as [levels [primary [rest [H [_ [_ [Ht [_ [_ [_ [Hp _]]]]]]]]]]].
  - reflexivity.
  - reflexivity.
  - reflexivity.
  - reflexivity.
  - reflexivity.
  - discriminate.
  - vm_compute. reflexivity.
  - reflexivity.
  - repeat constructor.
  - repeat constructor.
  - exists levels. split; [exact H|]. split; assumption.
Defined.

(** X2 on the flat market, whose ATR is computed and not negative. *)
Lemma X2_market_atr_witness :
  exists a, Models.atr EngineNotions.flat_market = Some a /\ 0 <= a.
Proof.
  destruct (X2_market_atr EngineNotions.flat_market) as [_ [Hpos Hret]].
  destruct Hret as [a Ha]; [cbn; lia|cbn; lia|cbn; lia|].
  exists a. split; [exact Ha|apply Hpos; exact Ha].
Defined.

(** X3 on the market with one swing low at 95. *)
Lemma X3_find_levels_computed_witness :
  EngineNotions.computed_levels EngineMain.swing_low 100
    (Models.lows EngineNotions.swing_market) [(95, 1 # 5)].
Proof.
  destruct (X3_find_levels_computed EngineNotions.example_setup
              EngineNotions.swing_market [(95, 1 # 5)]) as [H _].
  apply H.
  - left. reflexivity.
  - vm_compute. reflexivity.
Defined.

(** X4 for a long in an up-trend: a ratio of 3 gives no higher estimate
    than a ratio of 2. *)
Lemma X4_win_probability_bounds_witness :
  EngineMain._estimate_win_probability EngineNotions.example_setup
    EngineNotions.flat_market 3
  <= EngineMain._estimate_win_probability EngineNotions.example_setup
       EngineNotions.flat_market 2.
Proof.
  apply (X4_win_probability_bounds EngineNotions.example_setup
           EngineNotions.flat_market 2 3).
  discriminate.
Defined.

(** X5 on the example levels with the price at 95, below the stop at 96: a
    full exit by the stop. *)
Lemma X5_engine_update_position_witness :
  exists r,
    EngineMain.update_position EngineMain.default_guarding_config
      (EngineNotions.example_update 95) EngineNotions.example_levels = Some r /\
    Models.exit_signal r = true /\ Models.exit_percentage r = 100.0.
Proof.
  destruct (X5_engine_update_position EngineMain.default_guarding_config
              (EngineNotions.example_update 95) EngineNotions.example_levels)
    as [Hret Hall].
  destruct Hret as [r Hr]; [intros H; discriminate H|].
  exists r. split; [exact Hr|].
  destruct (Hall r Hr) as [_ [_ [Hstop _]]].
  destruct (Hstop eq_refl) as [Hs [Hp _]]. split; assumption.
Defined.

(** X6 on the market of five bars with a resistance at 105 above a long
    entry at 100. *)
Lemma X6_short_history_raises_witness :
  EngineMain.calculate_risk_levels Engine.default_config
    EngineMain.default_guarding_config EngineNotions.example_setup
    EngineNotions.short_market = None.
Proof.
  apply (X6_short_history_raises Engine.default_config
           EngineMain.default_guarding_config EngineNotions.example_setup
           EngineNotions.short_market [105] 105).
  - cbn. lia.
  - split; reflexivity.
  - left. reflexivity.
Defined.

(** X7 on a long line computed from the lows 100..104: its level at bar 15
    is above its level at bar 12. *)
Lemma X7_guarding_level_monotone_witness :
  exists params,
    RiskEngine.calculate_initial_line (RiskEngine.GuardingLineManager_init 10 0.3)
      105 "long" [100; 101; 102; 103; 104] 20 = Some params /\
    RiskEngine.get_current_level (RiskEngine.GuardingLineManager_init 10 0.3) params 12
    < RiskEngine.get_current_level (RiskEngine.GuardingLineManager_init 10 0.3) params 15.
Proof.
  eexists. split; [vm_compute; reflexivity|].
  match goal with
  | |- RiskEngine.get_current_level _ ?p _ < _ =>
      pose proof (X7_guarding_level_monotone 10 0.3 105 "long"
                    [100; 101; 102; 103; 104] 20 p 12 15) as H
  end.
  cbn [String.eqb Ascii.eqb Bool.eqb] in H.
  apply H.
  - reflexivity.
  - repeat constructor.
  - split; reflexivity.
  - vm_compute. reflexivity.
  - lia.
  - lia.
  - lia.
Defined.

(** X8 on the example line at bar 12, where its level is 102, with recent
    lows from 110 up: the line is raised. *)
Lemma X8_update_line_tightens_witness :
  exists params',
    GuardingLineStatus.update_line (GuardingLine.init 10 0.3) EngineNotions.example_line
      "long" 115 [110; 111; 112; 113; 114] 12 = Some params' /\
    GuardingLine.get_current_level (GuardingLine.init 10 0.3)
      EngineNotions.example_line 20
    <= GuardingLine.get_current_level (GuardingLine.init 10 0.3) params' 20.
Proof.
  destruct (X8_update_line_tightens (GuardingLine.init 10 0.3)
              EngineNotions.example_line "long" 115 [110; 111; 112; 113; 114] 12)
    as [params' [Hp [_ Hlevel]]].
  - repeat constructor.
  - split; discriminate.
  - exists params'. split; [exact Hp|].
    specialize (Hlevel 20%Z). cbn [String.eqb Ascii.eqb Bool.eqb] in Hlevel.
    apply Hlevel. lia.
Defined.

(** X9 on the example line at bar 12 with the price at 101, below the level
    of 102: the status reports the break. *)
Lemma X9_get_status_consistent_witness :
  exists st,
    GuardingLineStatus.get_status (GuardingLine.init 10 0.3)
      EngineNotions.example_line 101 "long" 12 = Some st /\
    GuardingLineStatus.distance st < 0.
Proof.
  destruct (X9_get_status_consistent (GuardingLine.init 10 0.3)
              EngineNotions.example_line 101 "long" 12) as [_ [Hret Hall]].
  destruct Hret as [st Hst]; [intros H; discriminate H|].
  exists st. split; [exact Hst|].
  destruct (Hall st Hst) as [_ [Hbroken _]].
  apply Hbroken. revert Hst. vm_compute. intros [= <-]. reflexivity.
Defined.

(** X10 on the example line with two swing points one bar apart and three
    apart in price: the slope is raised from 1 to 3. *)
Lemma X10_update_slope_steepens_witness :
  exists params',
    RiskEngineAux.update_slope (RiskEngine.GuardingLineManager_init 10 0.3)
      EngineNotions.example_line [(0%nat, 100); (1%nat, 103)] "long" 100 = Some params' /\
    Py.slope EngineNotions.example_line <= Py.slope params'.
Proof.
  eexists. split; [vm_compute; reflexivity|].
  match goal with
  | |- _ <= Py.slope ?p =>
      destruct (X10_update_slope_steepens (RiskEngine.GuardingLineManager_init 10 0.3)
                  EngineNotions.example_line p [(0%nat, 100); (1%nat, 103)] "long" 100)
        as [_ [_ [_ [H _]]]]
  end.
  - vm_compute. reflexivity.
  - exact H.
Defined.

(** X11 for the engine's momentum trailing: at a strength of 0.5 the buffer
    lies between 0.15% and 1.5%. *)
Lemma X11_trail_buffer_bounds_witness :
  0.15 <= RiskEngine.calculate_trail_buffer RiskEngine.momentum_tp 0.5 <= 1.5.
Proof.
  apply (X11_trail_buffer_bounds RiskEngine.momentum_tp 0.5 0.5).
  discriminate.
Defined.

(** X12 on two closes. *)
Lemma X12_slope_strength_bounds_witness :
  RiskEngine.calculate_slope RiskEngine.momentum_tp [100; 101] "long" = (0.0, 0.0).
Proof.
  apply (X12_slope_strength_bounds RiskEngine.momentum_tp [100; 101] "long").
  cbn. lia.
Defined.

(** X13 on an active long state trailing at 95, with the price back at
    94. *)
Lemma X13_momentum_exit_by_stored_level_witness :
  let state :=
    {| RiskEngine.active := true; RiskEngine.trailing_level := 95;
       RiskEngine.ms_slope := 1; RiskEngine.slope_strength := 0.8;
       RiskEngine.bars_in_momentum := 2; RiskEngine.peak_price := 101;
       RiskEngine.trail_buffer_pct := 0.42;
       RiskEngine.last_candle_body_high := 101;
       RiskEngine.last_candle_body_low := 99;
       RiskEngine.activation_r := 1.2 |} in
  Notions.should_exit
    (RiskEngine.update RiskEngine.momentum_tp state 94 0.33 "long"
       [98; 97; 96; 96; 96] (map Notions.flat_bar [97; 96; 96])) = true.
Proof.
  intros state.
  destruct (X13_momentum_exit_by_stored_level RiskEngine.momentum_tp state 94 0.33
              [98; 97; 96; 96; 96] (map Notions.flat_bar [97; 96; 96]))
    as [Hexit _].
  - reflexivity.
  - reflexivity.
  - reflexivity.
  - apply Hexit. reflexivity.
Defined.

(** X14 on a fresh state at +0.5R, below the activation threshold of 1R:
    the state is left as it is. *)
Lemma X14_momentum_activation_witness :
  Notions.updated_state
    (RiskEngine.update RiskEngine.momentum_tp RiskEngine.MomentumState_init 95 0.5
       "long" [93; 94; 95] (map Notions.flat_bar [93; 94; 95]))
  = RiskEngine.MomentumState_init.
Proof.
  destruct (X14_momentum_activation RiskEngine.momentum_tp
              RiskEngine.MomentumState_init 95 0.5 "long" [93; 94; 95]
              (map Notions.flat_bar [93; 94; 95])) as [_ [_ [Hsame _]]].
  - reflexivity.
  - apply Hsame. vm_compute. reflexivity.
Defined.

(** X15 on the example position, whose 1R price is 98: at 98.5 the call
    reports the move to breakeven, and 98.5 is beyond 98. *)
Lemma X15_breakeven_not_before_one_r_witness :
  exists r,
    fst (fst (RiskEngine.update_position RiskEngine.default_config ∅
                (RiskEngineAux.risk_metrics RiskEngine.default_config
                   Notions.example_levels)
                (Notions.example_update 98.5) None None)) = Some r /\
    RiskEngine.moved_to_breakeven r = true /\
    RiskEngine.one_r_price
      (RiskEngineAux.risk_metrics RiskEngine.default_config Notions.example_levels)
    <= 98.5.
Proof.
  eexists.
  match goal with
  | |- ?f = Some ?r /\ _ =>
      assert (Hr : f = Some r) by (vm_compute; reflexivity)
  end.
  split; [exact Hr|].
  match goal with
  | |- ?e = true /\ _ => assert (Hm : e = true) by (vm_compute; reflexivity)
  end.
  split; [exact Hm|].
  match type of Hm with
  | RiskEngine.moved_to_breakeven ?r = true =>
      pose proof (X15_breakeven_not_before_one_r RiskEngine.default_config ∅
                    Notions.example_levels
                    (RiskEngine.mkStop 86 (Some "atr"%string)
                       (Some (Py.Txt "{}x ATR stop" [Py.Num 2.0])) (Some 0.6)
                       (Some 6.5))
                    [] (Notions.example_update 98.5) None None r
                    eq_refl eq_refl) as HX
  end.
  destruct HX as [_ [_ H]].
  - vm_compute. discriminate.
  - vm_compute. discriminate.
  - exact Hr.
  - exact Hm.
  - exact H.
Defined.

(** X17 on three rising lows with the price far below them. *)
Lemma X17_structure_health_witness :
  RiskEngine._check_structure_health "long" 50 [101; 102; 103] [110; 109; 108]
  = Some RiskEngine.WEAKENING.
Proof.
  destruct (X17_structure_health "long" 50 [101; 102; 103] [110; 109; 108])
    as [_ [H _]].
  apply H.
  - cbn. lia.
  - cbn. lia.
  - split; reflexivity.
Defined.

(** X19 on the guarded position at bar 12, where the line is at 92, with
    the price at 91. *)
Lemma X19_guarding_breach_is_final_witness :
  exists r,
    fst (fst (RiskEngine.update_position RiskEngine.default_config ∅
                UpdateNotions.guarded_levels (UpdateNotions.late_update 91)
                None None)) = Some r /\
    RiskEngine.guarding_broken r = true /\
    RiskEngine.exit_percentage r = 100.0.
Proof.
  eexists. split; [vm_compute; reflexivity|].
  match goal with
  | |- RiskEngine.guarding_broken ?r = true /\ _ =>
      pose proof (X19_guarding_breach_is_final RiskEngine.default_config ∅
                    UpdateNotions.guarded_levels (UpdateNotions.late_update 91)
                    None None r) as H
  end.
  assert (Hb : exists level reason,
            UpdateNotions.guarding_breach RiskEngine.default_config
              UpdateNotions.guarded_levels (UpdateNotions.late_update 91)
            = Some (level, reason)) by (vm_compute; eauto).
  destruct Hb as [level [reason Hb]]. rewrite Hb in H.
  destruct H as [H1 [_ [_ [_ [_ H6]]]]]; [vm_compute; reflexivity|].
  split; assumption.
Defined.

(** X20 on the example position at 98.5 (+1.08R): the reported stop is the
    breakeven price, above the old stop at 86. *)
Lemma X20_reported_stop_is_better_witness :
  exists r new_stop,
    fst (fst (RiskEngine.update_position RiskEngine.default_config ∅
                Notions.example_levels (Notions.example_update 98.5) None None))
      = Some r /\
    RiskEngine.new_stop_price r = Some new_stop /\
    RiskEngine._is_better_stop new_stop 86 "long" = true.
Proof.
  eexists. 
  match goal with
  | |- exists new_stop, ?f = Some ?r /\ _ =>
      assert (Hr : f = Some r) by (vm_compute; reflexivity)
  end.
  destruct (X20_reported_stop_is_better RiskEngine.default_config ∅
              Notions.example_levels (Notions.example_update 98.5) None None _ Hr)
    as [s [rest [new_stop [Hs [Hn [Hb _]]]]]]; [reflexivity|].
  exists new_stop. split; [exact Hr|]. split; [exact Hn|].
  injection Hs as <- _. exact Hb.
Defined.

(** X21 on the example position called for "session-1": the state of
    another session is left alone. *)
Lemma X21_momentum_state_isolation_witness :
  snd (RiskEngine.update_position RiskEngine.default_config
         {[ "session-2"%string := RiskEngine.MomentumState_init ]}
         Notions.example_levels (Notions.example_update 96)
         (Some Notions.example_ohlcv) (Some "session-1"%string))
    !! "session-2"%string
  = Some RiskEngine.MomentumState_init.
Proof.
  destruct (X21_momentum_state_isolation RiskEngine.default_config
              {[ "session-2"%string := RiskEngine.MomentumState_init ]}
              Notions.example_levels (Notions.example_update 96)
              (Some Notions.example_ohlcv) (Some "session-1"%string)
              "session-2"%string) as [H _].
  rewrite H; [apply lookup_singleton_eq|].
  intros E. discriminate E.
Defined.

(** X22 on the example candles, where a long sees a bearish divergence: the
    average loss exceeds the average gain. *)
Lemma X22_divergence_opposes_position_witness :
  UpdateNotions.avg_gain RiskEngine.default_config Notions.example_ohlcv
  < UpdateNotions.avg_loss RiskEngine.default_config Notions.example_ohlcv.
Proof.
  destruct (X22_divergence_opposes_position RiskEngine.default_config
              Notions.example_ohlcv "long" true (Some "bearish"%string)) as [_ H].
  - vm_compute. reflexivity.
  - destruct (H eq_refl) as [_ [_ Hlong]].
    cbn [String.eqb Ascii.eqb Bool.eqb] in Hlong.
    destruct Hlong as [_ [Hlt _]]. exact Hlt.
Defined.

(** X23 for a base score of 7 and trendlines last touched 100 and 120 bars
    ago. *)
Lemma X23_staleness_penalty_bounds_witness :
  7 - 2.0 <= RiskEngineAux._apply_staleness_penalty
               RiskEngineAux.default_staleness_config 7 [100%Z; 120%Z]
    <= 7 + 1.5.
Proof.
  apply (X23_staleness_penalty_bounds RiskEngineAux.default_staleness_config 7
           [100%Z; 120%Z]).
  - split; discriminate.
  - discriminate.
  - discriminate.
Defined.

(** X24 on a long request with a support at 93200, an entry at 95000 and
    no targets. *)
Lemma X24_create_session_targets_witness :
  let request :=
    {| SessionCreate.csr_direction := "long";
       SessionCreate.csr_structural_support := Some 93200;
       SessionCreate.csr_structural_level := None;
       SessionCreate.csr_entry_price := Some 95000;
       SessionCreate.csr_targets := [] |} in
  exists structural t1 t2 t3,
    SessionCreate.create_session_arguments request = Some (structural, [t1; t2; t3]) /\
    95000 < SessionCreate.ts_price t1.
Proof.
  intros request.
  destruct (X24_create_session_targets request) as [_ H].
  destruct (SessionCreate.create_session_arguments request) as [[structural targets]|] eqn:E;
    [|vm_compute in E; discriminate].
  destruct (H structural targets eq_refl) as [_ [_ Hdef]].
  destruct (Hdef 95000 eq_refl eq_refl) as [t1 [t2 [t3 [-> [_ Hside]]]]]; [reflexivity|].
  exists structural, t1, t2, t3. split; [reflexivity|].
  cbn [String.eqb Ascii.eqb Bool.eqb SessionCreate.csr_direction request] in Hside.
  destruct Hside as [H1 _]. exact H1.
Defined.

(** X25 on the ladder computed from an ATR of 2, after a call at a price of
    105 that moves the stop to breakeven. *)
Lemma X25_primary_stop_is_first_witness :
  let levels' :=
    snd (fst (RiskEngine.update_position RiskEngine.default_config ∅
                UpdateNotions.atr_only_levels (Notions.example_update 105)
                None None)) in
  RiskEngineAux.get_primary_stop levels' = head (RiskEngine.stops levels').
Proof.
  intros levels'.
  apply (X25_primary_stop_is_first RiskEngine.default_config 100 "long" None 2
           UpdateNotions.atr_only_levels ∅ (Notions.example_update 105) None None).
  vm_compute. reflexivity.
Defined.

(** X26 on the example position, whose stop is 6 away from the entry. *)
Lemma X26_position_size_identity_witness :
  exists size pct amount,
    RiskEngine.position_sizing RiskEngine.default_config Notions.example_levels
      100000 1.0 3 = Some (size, pct, amount) /\
    size * Qabs (92 - 86) == amount.
Proof.
  destruct (X26_position_size_identity RiskEngine.default_config
              Engine.default_config Notions.example_levels
              EngineNotions.example_setup 100000 1.0 3 4 4) as [_ [H _]].
  destruct (RiskEngine.position_sizing RiskEngine.default_config Notions.example_levels
              100000 1.0 3) as [[[size pct] amount]|] eqn:E;
    [|vm_compute in E; discriminate].
  exists size, pct, amount. split; [reflexivity|].
  destruct (H size pct amount eq_refl) as [Hid _].
  apply Hid. reflexivity.
Defined.

(** X27 on the example position at 96 with the example candles. *)
Lemma X27_update_position_returns_witness :
  exists r,
    fst (fst (RiskEngine.update_position RiskEngine.default_config ∅
                Notions.example_levels (Notions.example_update 96)
                (Some Notions.example_ohlcv) (Some "session-1"%string))) = Some r.
Proof.
  apply (X27_update_position_returns RiskEngine.default_config ∅
           Notions.example_levels (Notions.example_update 96)
           (Some Notions.example_ohlcv) (Some "session-1"%string)).
  - intros H. discriminate H.
  - intros H. discriminate H.
  - cbn. lia.
Defined.

(** X28 on the example position while its state trails at 95: at 94 the
    momentum exit fires, and the exit is a full one. *)
Lemma X28_no_partial_exit_under_momentum_witness :
  exists r,
    fst (fst (RiskEngine.update_position RiskEngine.default_config
                {[ "session-1"%string := UpdateNotions.trailing_state ]}
                Notions.example_levels (Notions.example_update 94)
                (Some Notions.example_ohlcv) (Some "session-1"%string))) = Some r /\
    RiskEngine.exit_signal r = true /\
    RiskEngine.exit_percentage r = 100.0.
Proof.
  eexists.
  match goal with
  | |- ?f = Some ?r /\ _ =>
      assert (Hr : f = Some r) by (vm_compute; reflexivity)
  end.
  destruct (X28_no_partial_exit_under_momentum RiskEngine.default_config
              {[ "session-1"%string := UpdateNotions.trailing_state ]}
              Notions.example_levels (Notions.example_update 94)
              (Some Notions.example_ohlcv) (Some "session-1"%string) _ Hr) as [_ H].
  split; [exact Hr|].
  match goal with
  | |- ?e = true /\ _ => assert (He : e = true) by (vm_compute; reflexivity)
  end.
  split; [exact He|].
  apply H; [vm_compute; reflexivity|exact He].
Defined.

(** X29 on two calls for the example long, one for the session whose state
    trails at 95 and one for another session: the stored level is still at
    least 95. *)
Lemma X29_stored_trailing_level_ratchets_witness :
  exists st',
    snd (Notions.engine_calls RiskEngine.default_config
           {[ "session-1"%string := UpdateNotions.trailing_state ]}
           [ (Notions.example_levels, Notions.example_update 96,
              Some Notions.example_ohlcv, Some "session-1"%string);
             (Notions.example_levels, Notions.example_update 98,
              Some Notions.example_ohlcv, Some "session-2"%string) ])
      !! "session-1"%string = Some st' /\
    RiskEngine.trailing_level UpdateNotions.trailing_state
      <= RiskEngine.trailing_level st'.
Proof.
  destruct (X29_stored_trailing_level_ratchets RiskEngine.default_config
              {[ "session-1"%string := UpdateNotions.trailing_state ]}
              "session-1"%string UpdateNotions.trailing_state
              [ (Notions.example_levels, Notions.example_update 96,
                 Some Notions.example_ohlcv, Some "session-1"%string);
                (Notions.example_levels, Notions.example_update 98,
                 Some Notions.example_ohlcv, Some "session-2"%string) ])
    as [st' [Hst' [_ [Hup _]]]].
  - apply lookup_singleton_eq.
  - reflexivity.
  - exists st'. split; [exact Hst'|]. apply Hup.
    repeat constructor; intros _; reflexivity.
Defined.
